(** * SparkyFitnessGarmin: a shallow embedding of [main.py]

  The development follows the service module top-down in the order of the
  source file: the MFA challenge cache, the date range helper, the
  recursive cleaner, the unit conversions, the stress-to-mood table, the
  health-and-wellness orchestrator, the activity assembler and the two
  authentication endpoints.

  Conventions.
  - Provider payloads are JSON values ([json]).  Python's [None] is
    [JNull]; integers and floats are both rationals ([JNum]), so float
    rounding, NaN and the infinities are outside the model.  An [int]
    that is too large for a [float] is told by its magnitude
    ([Py.overflows]): where the code converts it, in a division by a
    float constant or against a float, the model raises as the code does.
  - The recursion limit of the interpreter is outside the model: payloads
    are taken to nest less deeply than it allows.
  - A Python [dict] is an association list in insertion order;
    [d[k] = v] is [dict_set] (overwrite in place, else append).
  - An exception is [None] in [option]; inside the per-metric [try]
    blocks, where appends done before the exception persist, the
    computation lives in the writer monad [W].
  - Library routines ([json.loads], [json.dumps], [datetime], [str],
    [max], [min]) are the fields of [PyLib] and the provider's client
    those of [GarminClient]; the clock and [uuid4] are arguments of the
    login endpoint.  [Ref] gives one executable instance of the library
    routines, used to run the examples. *)

From Stdlib Require Import ZArith QArith Qround List String Ascii Bool Lia Lqa.
From stdpp Require Import gmap strings pretty.
Import ListNotations.

Open Scope string_scope.
Open Scope Z_scope.
Open Scope nat_scope.
Open Scope list_scope.
Open Scope stdpp_scope.


(* ================================================================== *)
(** * Provider payloads *)
(* ================================================================== *)

Unset Elimination Schemes.

Inductive json : Type :=
| JNull
| JBool (b : bool)
| JNum (q : Q)
| JStr (s : string)
| JList (l : list json)
| JDict (d : list (string * json)).

Set Elimination Schemes.

Abbreviation pydict := (list (string * json)).

(** Size of a payload; strings count their characters because the cleaner
    may decode them. *)
Fixpoint jsize (x : json) : nat :=
  match x with
  | JStr s => S (String.length s)
  | JList l => S (list_sum (List.map jsize l))
  | JDict d => S (list_sum (List.map (fun kv => jsize (snd kv)) d))
  | _ => 1
  end.

Module Py.

(** [x is None] *)
Definition is_none (x : json) : bool :=
  match x with JNull => true | _ => false end.

(** [bool(x)] *)
Definition truthy (x : json) : bool :=
  match x with
  | JNull => false
  | JBool b => b
  | JNum q => negb (Qeq_bool q 0)
  | JStr s => negb (String.eqb s "")
  | JList l => match l with [] => false | _ => true end
  | JDict d => match d with [] => false | _ => true end
  end.

(** [a or b] *)
Definition or_ (a b : json) : json := if truthy a then a else b.

(** Lookup of a key in a dictionary, first binding. *)
Fixpoint dict_find (k : string) (d : pydict) : option json :=
  match d with
  | [] => None
  | (k', v) :: rest => if String.eqb k k' then Some v else dict_find k rest
  end.

(** [d[k] = v] *)
Fixpoint dict_set (k : string) (v : json) (d : pydict) : pydict :=
  match d with
  | [] => [(k, v)]
  | (k', v') :: rest =>
      if String.eqb k k' then (k', v) :: rest else (k', v') :: dict_set k v rest
  end.

(** [d.get(k)] on a dictionary: [None] for a missing key. *)
Definition dict_get (k : string) (d : pydict) : json :=
  match dict_find k d with Some v => v | None => JNull end.

(** [k in d] *)
Definition dict_has (k : string) (d : pydict) : bool :=
  match dict_find k d with Some _ => true | None => false end.

(** [x.get(k)]: raises [AttributeError] unless [x] is a dictionary. *)
Definition get (x : json) (k : string) : option json :=
  match x with JDict d => Some (dict_get k d) | _ => None end.

(** [x.get(k, dflt)] *)
Definition get_default (x : json) (k : string) (dflt : json) : option json :=
  match x with
  | JDict d => Some (match dict_find k d with Some v => v | None => dflt end)
  | _ => None
  end.

(** [x[k]] with a string key: [KeyError] on a missing key, [TypeError]
    on anything that is not a dictionary. *)
Definition item (x : json) (k : string) : option json :=
  match x with JDict d => dict_find k d | _ => None end.

(** Numeric view used by arithmetic: [bool] is a subclass of [int]. *)
Definition as_num (x : json) : option Q :=
  match x with
  | JNum q => Some q
  | JBool b => Some (if b then 1%Q else 0%Q)
  | _ => None
  end.

(** [x == s] for a string constant [s] *)
Definition eq_str (x : json) (s : string) : bool :=
  match x with JStr t => String.eqb t s | _ => false end.

(** [x == 0] *)
Definition eq_zero (x : json) : bool :=
  match as_num x with Some q => Qeq_bool q 0 | None => false end.

(** [s in xs] for a list of strings *)
Definition str_in (s : string) (xs : list string) : bool :=
  existsb (String.eqb s) xs.

(** [needle in s] for strings *)
Fixpoint contains (needle s : string) : bool :=
  String.prefix needle s
  || match s with
     | EmptyString => false
     | String _ rest => contains needle rest
     end.

(** [x + y]: numbers add, two strings or two lists concatenate, anything
    else is a [TypeError]. *)
Definition add (x y : json) : option json :=
  match x, y with
  | JStr a, JStr b => Some (JStr (a +:+ b))
  | JList a, JList b => Some (JList (a ++ b))
  | _, _ =>
      match as_num x, as_num y with
      | Some a, Some b => Some (JNum (a + b))
      | _, _ => None
      end
  end.

(** [2**1024 - 2**970], half a unit in the last place above the largest
    [float]: an [int] of this magnitude or more does not convert to a
    [float] ([OverflowError]).  No [float] reaches it, so a number that
    does is an [int]. *)
Definition FLOAT_OVERFLOW : Q := inject_Z (2 ^ 1024 - 2 ^ 970).

(** [float(n)] raises [OverflowError]. *)
Definition overflows (q : Q) : bool :=
  Qle_bool FLOAT_OVERFLOW q || Qle_bool q (- FLOAT_OVERFLOW).

Arguments overflows : simpl never.

(** The number is no integer, so it is a [float]. *)
Definition fractional (q : Q) : bool := negb (Qeq_bool (inject_Z (Qfloor q)) q).

(** [x - y] for two numbers of a payload: [TypeError] unless both are
    numbers.  Two [int]s subtract exactly; an [int] too large for a
    [float] against a [float] raises [OverflowError].  A number with an
    integer value is read as an [int] here, since [5.0] and [5] are the
    same rational. *)
Definition sub (x y : json) : option json :=
  match as_num x, as_num y with
  | Some a, Some b =>
      if (overflows a && fractional b) || (overflows b && fractional a) then None
      else Some (JNum (a - b))
  | _, _ => None
  end.

(** [x - y] where one side is a [float] for certain, such as the literal
    [0.0]: the other side converts to a [float]. *)
Definition sub_float (x y : json) : option json :=
  match as_num x, as_num y with
  | Some a, Some b =>
      if overflows a || overflows b then None else Some (JNum (a - b))
  | _, _ => None
  end.

(** [sum(xs)]: the fold of [+] from the integer [0]. *)
Definition sum (xs : list json) : option json :=
  fold_left (fun acc x => match acc with Some a => add a x | None => None end)
            xs (Some (JNum 0)).

(** The characters of a string, each as a one-character string. *)
Fixpoint chars (s : string) : list json :=
  match s with
  | EmptyString => []
  | String c rest => JStr (String c EmptyString) :: chars rest
  end.

(** [iter(x)]: the elements of a list, the keys of a dictionary, the
    characters of a string; [TypeError] otherwise. *)
Definition iter (x : json) : option (list json) :=
  match x with
  | JList l => Some l
  | JDict d => Some (List.map (fun kv => JStr (fst kv)) d)
  | JStr s => Some (chars s)
  | _ => None
  end.

(** [len(x)] *)
Definition len (x : json) : option nat :=
  match x with
  | JList l => Some (List.length l)
  | JDict d => Some (List.length d)
  | JStr s => Some (String.length s)
  | _ => None
  end.

(** [x[i]] for a literal index [i >= 0]: [IndexError] past the end of a
    list or string, [KeyError] on a dictionary (its keys are strings),
    [TypeError] otherwise. *)
Definition index (x : json) (i : nat) : option json :=
  match x with
  | JList l => nth_error l i
  | JStr s => nth_error (chars s) i
  | _ => None
  end.

(** [x[-1]] *)
Definition last (x : json) : option json :=
  match x with
  | JList l => List.last (List.map Some l) None
  | JStr s => List.last (List.map Some (chars s)) None
  | _ => None
  end.

(** [x.keys()] and [x.values()]: only a dictionary has them. *)
Definition keys (x : json) : option (list string) :=
  match x with JDict d => Some (List.map fst d) | _ => None end.

Definition values (x : json) : option (list json) :=
  match x with JDict d => Some (List.map snd d) | _ => None end.

(** [isinstance(x, list)], [isinstance(x, dict)] *)
Definition is_list (x : json) : bool :=
  match x with JList _ => true | _ => false end.

Definition is_dict (x : json) : bool :=
  match x with JDict _ => true | _ => false end.

End Py.

(* ================================================================== *)
(** * The recursive cleaner ([clean_garmin_data]) *)
(* ================================================================== *)

Definition dquote : ascii := "034"%char.

(** [data.replace(dq dq, dq)]: every non-overlapping pair of double quotes,
    scanning from the left, becomes a single one. *)
Fixpoint undouble (s : string) : string :=
  match s with
  | EmptyString => EmptyString
  | String a tl =>
      match tl with
      | EmptyString => s
      | String b rest =>
          if Ascii.eqb a dquote && Ascii.eqb b dquote
          then String dquote (undouble rest)
          else String a (undouble tl)
      end
  end.

(** The keys the cleaner removes: five internal identifiers and every key
    that mentions [endConditionCompare]. *)
Definition internal_ids : list string :=
  ["ownerId"; "userProfilePk"; "permissionId"; "userRoles"; "equipmentTypeId"].

Definition excluded_key (k : string) : bool :=
  Py.str_in k internal_ids || Py.contains "endConditionCompare" k.

Section Cleaner.

(** [json.loads]; [None] is [JSONDecodeError]. *)
Variable json_loads : string -> option json.

(** One pass of the loop over [data.items()]. *)
Definition clean_item (clean : json -> json) (cleaned_dict : pydict)
           (kv : string * json) : pydict :=
  let (k, v) := kv in
  if negb (Py.is_none v) && negb (excluded_key k) then
    let cleaned_value := clean v in
    if Py.is_none cleaned_value then cleaned_dict
    else Py.dict_set k cleaned_value cleaned_dict
  else cleaned_dict.

(** The body of [clean_garmin_data], with the recursive calls taken from
    [clean]. *)
Definition clean_body (clean : json -> json) (data : json) : json :=
  match data with
  | JDict items =>
      let cleaned_dict := fold_left (clean_item clean) items [] in
      if Py.truthy (JDict cleaned_dict) then JDict cleaned_dict else JNull
  | JList l =>
      let cleaned_list := List.map clean l in
      JList (List.filter (fun item => negb (Py.is_none item)) cleaned_list)
  | JStr s =>
      match json_loads (undouble s) with
      | Some parsed_json => clean parsed_json
      | None => data
      end
  | _ => data
  end.

(** The recursion is on the call depth. *)
Fixpoint clean_fuel (fuel : nat) (data : json) : json :=
  match fuel with
  | O => data
  | S n => clean_body (clean_fuel n) data
  end.

(** A decoded string is never larger than its text, so the size of the
    argument bounds the call depth.  This is the value the cleaner
    returns, when it returns. *)
Definition clean_garmin_data (data : json) : json :=
  clean_fuel (S (jsize data)) data.

(** [json.loads] raises something that [except json.JSONDecodeError] does
    not catch: [ValueError] for an integer of more than 4300 digits,
    [RecursionError] for a text nested beyond the limit. *)
Variable json_loads_raises : string -> bool.

(** The call of the cleaner raises: on the way it decodes a string for
    which [json.loads] raises such an exception.  The values of [None]
    and of the excluded keys are not visited. *)
Definition raises_body (raises : json -> bool) (data : json) : bool :=
  match data with
  | JDict items =>
      existsb (fun kv => negb (Py.is_none (snd kv)) && negb (excluded_key (fst kv))
                         && raises (snd kv))
              items
  | JList l => existsb raises l
  | JStr s =>
      json_loads_raises (undouble s)
      || match json_loads (undouble s) with
         | Some parsed_json => raises parsed_json
         | None => false
         end
  | _ => false
  end.

Fixpoint raises_fuel (fuel : nat) (data : json) : bool :=
  match fuel with
  | O => false
  | S n => raises_body (raises_fuel n) data
  end.

Definition clean_garmin_data_raises (data : json) : bool :=
  raises_fuel (S (jsize data)) data.

(** [clean_garmin_data(data)] where the call stands: [None] when it
    raises. *)
Definition cleaned (data : json) : option json :=
  if clean_garmin_data_raises data then None else Some (clean_garmin_data data).

End Cleaner.

(* ================================================================== *)
(** * The MFA challenge cache *)
(* ================================================================== *)

(** One entry of [MFA_STATE_STORE]: the provider's challenge state and the
    clock reading at which it was stored. *)
Record mfa_item := MfaItem { mfa_state : json; mfa_ts : Q }.

Definition MFA_TTL_SECONDS : Q := 5 * 60.

(** [now - v["ts"] > MFA_TTL_SECONDS] *)
Definition mfa_expired (now : Q) (v : mfa_item) : bool :=
  negb (Qle_bool (now - mfa_ts v) MFA_TTL_SECONDS).

(** [_cleanup_mfa_cache]: the expired tokens are collected, then popped. *)
Definition _cleanup_mfa_cache (now : Q) (store : gmap string mfa_item)
  : gmap string mfa_item :=
  filter (fun kv => mfa_expired now (snd kv) = false) store.

(* ================================================================== *)
(** * Dates of a range ([get_dates_in_range]) *)
(* ================================================================== *)

(** [date.max.toordinal()], the ordinal of 9999-12-31. *)
Definition DATE_MAX_ORDINAL : Z := 3652059.

(** The ordinals [lo, lo+1, ..., hi]. *)
Definition ordinals (lo hi : Z) : list Z :=
  List.map (fun i => (lo + Z.of_nat i)%Z) (seq 0 (Z.to_nat (hi - lo + 1))).

Section Dates.

(** [date.fromisoformat] ([None] is [ValueError]) and [date.isoformat]. *)
Variable date_fromisoformat : string -> option Z.
Variable date_isoformat : Z -> string.

(** The [while] loop appends [current_date] and then adds one day, which
    overflows once [date.max] has been appended. *)
Definition get_dates_in_range (start_date_str end_date_str : string)
  : option (list string) :=
  start_date ← date_fromisoformat start_date_str;
  end_date ← date_fromisoformat end_date_str;
  if (end_date <? start_date)%Z then Some []
  else if (end_date =? DATE_MAX_ORDINAL)%Z then None
  else Some (List.map date_isoformat (ordinals start_date end_date)).

End Dates.

(* ================================================================== *)
(** * Unit conversions *)
(* ================================================================== *)

(** [x / d] for a float constant [d]: [TypeError] unless [x] is a number,
    [OverflowError] for an [int] too large for a [float]. *)
Definition truediv (x : json) (d : Q) : option json :=
  q ← Py.as_num x;
  if Py.overflows q then None else Some (JNum (q / d)).

(** [safe_convert(value, conversion_func)] *)
Definition safe_convert (value : json) (conversion_func : json -> option json)
  : option json :=
  if negb (Py.is_none value) then conversion_func value else Some JNull.

Definition grams_to_kg (g : json) : option json := truediv g 1000.

Definition meters_to_km (m : json) : option json := truediv m 1000.

Definition seconds_to_minutes (s : json) : option json := truediv s 60.

(** One iteration of the loop of [convert_activities_units]; an element
    that is not a dictionary has no [get]. *)
Definition convert_activity_units (activity : json) : option json :=
  match activity with
  | JDict a0 =>
      distance ← safe_convert (Py.dict_get "distance" a0) meters_to_km;
      let a1 := Py.dict_set "distance" distance a0 in
      duration ← safe_convert (Py.dict_get "duration" a1) seconds_to_minutes;
      let a2 := Py.dict_set "duration" duration a1 in
      elapsed ← safe_convert (Py.dict_get "elapsedDuration" a2) seconds_to_minutes;
      let a3 := Py.dict_set "elapsedDuration" elapsed a2 in
      moving ← safe_convert (Py.dict_get "movingDuration" a3) seconds_to_minutes;
      Some (JDict (Py.dict_set "movingDuration" moving a3))
  | _ => None
  end.

(** [convert_activities_units(activities)] *)
Fixpoint convert_activities_units (activities : list json) : option (list json) :=
  match activities with
  | [] => Some []
  | activity :: rest =>
      activity' ← convert_activity_units activity;
      rest' ← convert_activities_units rest;
      Some (activity' :: rest')
  end.


(** The fields [convert_activities_units] rewrites, with their divisors. *)
Definition activity_unit_fields : list (string * Q) :=
  [("distance", 1000%Q); ("duration", 60%Q);
   ("elapsedDuration", 60%Q); ("movingDuration", 60%Q)].

(* ================================================================== *)
(** * Stress to mood ([map_garmin_stress_to_mood]) *)
(* ================================================================== *)

(** [lo <= x <= hi] *)
Definition between (lo hi x : Q) : bool := Qle_bool lo x && Qle_bool x hi.

(** [x < 0] *)
Definition negative (x : Q) : bool := negb (Qle_bool 0 x).

(** The chain of comparisons on a number. *)
Definition mood_of_stress (x : Q) : json * json :=
  if negative x then (JNull, JNull)
  else if between 0 10 x then (JNum 95, JStr "Excited")
  else if between 11 25 x then (JNum 85, JStr "Happy")
  else if between 26 35 x then (JNum 75, JStr "Confident")
  else if between 36 50 x then (JNum 65, JStr "Calm")
  else if between 51 60 x then (JNum 55, JStr "Thoughtful")
  else if between 61 75 x then (JNum 45, JStr "Neutral")
  else if between 76 85 x then (JNum 35, JStr "Worried")
  else if between 86 95 x then (JNum 25, JStr "Angry")
  else if between 96 100 x then (JNum 15, JStr "Sad/Tired")
  else (JNum 50, JStr "Neutral").

(** [map_garmin_stress_to_mood(stress_level)]: [None] short-circuits, a
    value that cannot be compared with [0] raises [TypeError]. *)
Definition map_garmin_stress_to_mood (stress_level : json) : option (json * json) :=
  if Py.is_none stress_level then Some (JNull, JNull)
  else x ← Py.as_num stress_level; Some (mood_of_stress x).

(* ================================================================== *)
(** * Library routines and the Garmin client *)
(* ================================================================== *)

(** The routines of the Python runtime the service calls.  Datetimes are
    microseconds since the epoch; [None] is the exception the routine
    raises. *)
Record PyLib := {
  (** [json.loads] ([None] is [JSONDecodeError]), whether it raises another
      exception ([ValueError], [RecursionError]), [json.dumps], and whether
      that raises ([ValueError] for an int of more than 4300 digits) *)
  loads : string -> option json;
  loads_raises : string -> bool;
  dumps : json -> string;
  dumps_raises : json -> bool;
  (** [datetime.fromtimestamp(seconds, tz=timezone.utc)] *)
  fromtimestamp : Q -> option Z;
  (** [datetime.strptime(s, '%Y-%m-%dT%H:%M:%S.%f')] *)
  strptime : string -> option Z;
  (** [dt.isoformat()] of a UTC datetime *)
  isoformat : Z -> string;
  (** [str(x)] as used by f-strings, and the [:.0f] format *)
  str : json -> string;
  format_0f : Q -> string;
  (** [max(xs)] and [min(xs)] of a non-empty list *)
  max_ : list json -> option json;
  min_ : list json -> option json;
  (** [s.title()] *)
  title : string -> string;
  (** [date.fromisoformat] and [date.isoformat], dates as ordinals *)
  date_fromisoformat : string -> option Z;
  date_isoformat : Z -> string
}.

(** The methods of [garminconnect.Garmin] the service calls, after a
    successful token login.  [None] is an exception raised by the call. *)
Record GarminClient := {
  get_lactate_threshold : option json;
  get_race_predictions : option json;
  get_pregnancy_summary : option json;
  get_user_summary : string -> option json;
  get_hydration_data : string -> option json;
  get_floors : string -> option json;
  get_fitnessage_data : string -> option json;
  get_heart_rates : string -> option json;
  get_sleep_data : string -> option json;
  get_stress_data : string -> option json;
  get_respiration_data : string -> option json;
  get_spo2_data : string -> option json;
  get_intensity_minutes_data : string -> option json;
  get_training_readiness : string -> option json;
  get_training_status : string -> option json;
  get_max_metrics : string -> option json;
  query_garmin_graphql : json -> option json;
  get_hrv_data : string -> option json;
  get_endurance_score : string -> string -> option json;
  get_hill_score : string -> string -> option json;
  get_blood_pressure : string -> string -> option json;
  get_body_battery : string -> string -> option json;
  get_menstrual_data_for_date : string -> option json;
  get_menstrual_calendar_data : string -> string -> option json;
  get_body_composition : string -> string -> option json;
  (** activities and workouts *)
  get_activities_by_date : string -> string -> json -> option (list json);
  get_activity_details : json -> option json;
  get_activity_splits : json -> option json;
  get_activity_weather : json -> option json;
  get_activity_hr_in_timezones : json -> option json;
  get_activity_exercise_sets : json -> option json;
  get_activity_gear : json -> option json;
  get_workouts : option (list json);
  get_workout_by_id : json -> option json
}.

(* ================================================================== *)
(** * Appending to [health_data] inside a [try] block *)
(* ================================================================== *)

Definition ALL_HEALTH_METRICS : list string :=
  [ "steps"; "total_distance"; "highly_active_seconds"; "active_seconds";
    "sedentary_seconds";
    "heart_rates"; "sleep"; "stress"; "respiration"; "spo2";
    "intensity_minutes"; "training_readiness"; "training_status";
    "max_metrics";
    "hrv"; "lactate_threshold"; "endurance_score"; "hill_score";
    "race_predictions";
    "blood_pressure"; "body_battery"; "menstrual_data"; "floors";
    "fitness_age"; "body_composition"; "hydration";
    "recovery_time"; "training_load"; "acute_load" ].

(** [health_data]: every key of [ALL_HEALTH_METRICS] with its list. *)
Abbreviation health := (list (string * list json)).

Definition health_init : health :=
  List.map (fun metric => (metric, [])) ALL_HEALTH_METRICS.

(** [health_data.get(metric)] for a key that is present, [[]] otherwise. *)
Fixpoint health_get (metric : string) (hd : health) : list json :=
  match hd with
  | [] => []
  | (m, l) :: rest => if String.eqb metric m then l else health_get metric rest
  end.

(** [health_data[metric].append(e)] *)
Fixpoint health_append (metric : string) (e : json) (hd : health) : health :=
  match hd with
  | [] => []
  | (m, l) :: rest =>
      if String.eqb metric m then (m, l ++ [e]) :: rest
      else (m, l) :: health_append metric e rest
  end.

(** A computation inside a [try] block: the entries appended so far, and
    the value it returned unless it raised. *)
Record W (A : Type) := MkW { appended : list (string * json); outcome : option A }.
Arguments MkW {A} _ _.
Arguments appended {A} _.
Arguments outcome {A} _.

Definition W_ret {A} (a : A) : W A := MkW [] (Some a).

Definition W_bind {A B} (f : A -> W B) (m : W A) : W B :=
  match outcome m with
  | Some a => MkW (appended m ++ appended (f a)) (outcome (f a))
  | None => MkW (appended m) None
  end.

#[global] Instance W_mret : MRet W := @W_ret.
#[global] Instance W_mbind : MBind W := @W_bind.

(** An expression that may raise. *)
Definition lift {A} (o : option A) : W A := MkW [] o.

(** [health_data[metric].append(e)]; [KeyError] for an unknown metric. *)
Definition emit (metric : string) (e : json) : W unit :=
  if Py.str_in metric ALL_HEALTH_METRICS then MkW [(metric, e)] (Some tt)
  else MkW [] None.

(** [if b: ...] around statements *)
Definition when (b : bool) (w : W unit) : W unit := if b then w else mret tt.

(** [for x in xs: ...] *)
Fixpoint for_ {A} (xs : list A) (body : A -> W unit) : W unit :=
  match xs with
  | [] => mret tt
  | x :: rest => _ ← body x; for_ rest body
  end.

(** [try: ... except Exception: logger.warning(...)]: what was appended
    stays, the exception is dropped. *)
Definition try_ (w : W unit) : list (string * json) := appended w.

(** The appends of a block applied to [health_data]. *)
Definition commit (entries : list (string * json)) (hd : health) : health :=
  fold_left (fun acc me => health_append (fst me) (snd me) acc) entries hd.

(** Short-circuit [a or b] where evaluating [b] may raise. *)
Definition or_else (a : json) (b : option json) : option json :=
  if Py.truthy a then Some a else b.

(** [a and b] as a condition, where evaluating [b] may raise. *)
Definition and_then (a : bool) (b : option bool) : option bool :=
  if a then b else Some false.

(** [x >= 0] and [x > 0] *)
Definition ge_zero (x : json) : option bool :=
  q ← Py.as_num x; Some (Qle_bool 0 q).

Definition gt_zero (x : json) : option bool :=
  q ← Py.as_num x; Some (negb (Qle_bool q 0)).

(** [[row[i] for row in rows]] *)
Definition column (i : nat) (rows : json) : option (list json) :=
  entries ← Py.iter rows;
  mapM (fun row => Py.index row i) entries.

(** [row[i] for row in rows if len(row) > i and row[i] is not None] *)
Fixpoint present_cells (i : nat) (rows : list json) : option (list json) :=
  match rows with
  | [] => Some []
  | row :: rest =>
      n ← Py.len row;
      if (i <? n)%nat then
        cell ← Py.index row i;
        cells ← present_cells i rest;
        Some (if Py.is_none cell then cells else cell :: cells)
      else present_cells i rest
  end.

(** [int(seconds)] of a [timedelta] given in microseconds: truncation
    towards zero. *)
Definition whole_seconds (micros : Z) : json :=
  JNum (inject_Z (Z.quot micros 1000000)).

(** [sum(xs) / len(xs)]: a number by a length. *)
Definition mean (xs : list json) : option json :=
  s ← Py.sum xs;
  if (List.length xs =? 0)%nat then None
  else q ← Py.as_num s; Some (JNum (q / inject_Z (Z.of_nat (List.length xs)))).

(* ================================================================== *)
(** * The per-metric blocks of [get_health_and_wellness] *)
(* ================================================================== *)

Section Blocks.

Variable L : PyLib.
Variable garmin : GarminClient.
Variable metric_types_to_fetch : list string.
Variable start_date : string.
Variable current_date : string.

(** ["m" in metric_types_to_fetch] *)
Definition want (metric : string) : bool := Py.str_in metric metric_types_to_fetch.

(** [datetime.fromtimestamp(x / 1000, tz=timezone.utc)] *)
Definition utc_of_millis (x : json) : option Z :=
  q ← Py.as_num x; fromtimestamp L (q / 1000).

(** [datetime.strptime(x, fmt).replace(tzinfo=timezone.utc)] *)
Definition utc_of_gmt (x : json) : option Z :=
  match x with JStr s => strptime L s | _ => None end.

Definition iso (t : Z) : json := JStr (isoformat L t).

(** [{x}] inside an f-string: a string is inserted as it is. *)
Definition fstr (x : json) : string :=
  match x with JStr s => s | _ => str L x end.

(** *** Metrics fetched once per request *)

Definition fetch_lactate_threshold : W unit :=
  lactate_threshold_data ← lift (get_lactate_threshold garmin);
  when (Py.truthy lactate_threshold_data) (
    hr ← lift (shr ← Py.get_default lactate_threshold_data "speed_and_heart_rate" (JDict []);
               Py.get shr "heartRate");
    emit "lactate_threshold"
         (JDict [("date", JStr start_date); ("lactate_threshold_hr", hr)])).

Definition race_type_map : list (string * string) :=
  [("FIVE_K", "race_prediction_5k"); ("TEN_K", "race_prediction_10k");
   ("HALF_MARATHON", "race_prediction_half_marathon");
   ("MARATHON", "race_prediction_marathon")].

(** [race_type_map[race_type]] when [race_type in race_type_map]; a list or
    a dictionary cannot be hashed. *)
Definition race_field (race_type : json) : option (option string) :=
  match race_type with
  | JStr s => Some (snd <$> List.find (fun kv => String.eqb s (fst kv)) race_type_map)
  | JList _ | JDict _ => None
  | _ => Some None
  end.

(** The loop over [racePredictionList]. *)
Fixpoint race_entry_of (predictions : list json) (race_entry : pydict)
  : option pydict :=
  match predictions with
  | [] => Some race_entry
  | prediction :: rest =>
      race_type ← Py.get prediction "raceType";
      field ← race_field race_type;
      match field with
      | Some name =>
          predicted ← Py.get prediction "predictedTime";
          race_entry_of rest (Py.dict_set name predicted race_entry)
      | None => race_entry_of rest race_entry
      end
  end.

Definition fetch_race_predictions : W unit :=
  race_predictions_data ← lift (get_race_predictions garmin);
  when (Py.truthy race_predictions_data) (
    race_entry ← lift (plist ← Py.get_default race_predictions_data "racePredictionList" (JList []);
                       predictions ← Py.iter plist;
                       race_entry_of predictions [("date", JStr start_date)]);
    when (1 <? List.length race_entry)%nat
         (emit "race_predictions" (JDict race_entry))).

Definition fetch_pregnancy_summary : W unit :=
  pregnancy_summary_data ← lift (get_pregnancy_summary garmin);
  when (Py.truthy pregnancy_summary_data)
       (emit "pregnancy_summary"
             (JDict [("date", JStr start_date); ("data", pregnancy_summary_data)])).

(** *** Daily summary *)

Definition summary_metrics : list string :=
  ["steps"; "total_distance"; "highly_active_seconds"; "active_seconds";
   "sedentary_seconds"; "body_battery"].

Definition dated_value (v : json) : json :=
  JDict [("date", JStr current_date); ("value", v)].

Definition fetch_daily_summary : W unit :=
  summary_data ← lift (get_user_summary garmin current_date);
  (* the log line lists [summary_data.keys()] *)
  _ ← lift (if Py.truthy summary_data then Py.keys summary_data else Some []);
  match summary_data with
  | JDict ((_ :: _) as summary) =>
      let field k := Py.dict_get k summary in
      _ ← when (want "steps") (emit "steps" (dated_value (field "totalSteps")));
      _ ← when (want "total_distance") (
            let distance := Py.or_ (field "totalDistance")
                              (Py.or_ (field "totalDistanceMeters") (field "distance")) in
            v ← lift (safe_convert distance meters_to_km);
            emit "total_distance" (dated_value v));
      _ ← when (want "highly_active_seconds") (
            v ← lift (safe_convert (field "highlyActiveSeconds") seconds_to_minutes);
            emit "highly_active_seconds" (dated_value v));
      _ ← when (want "active_seconds") (
            v ← lift (safe_convert (field "activeSeconds") seconds_to_minutes);
            emit "active_seconds" (dated_value v));
      _ ← when (want "sedentary_seconds") (
            v ← lift (safe_convert (field "sedentarySeconds") seconds_to_minutes);
            emit "sedentary_seconds" (dated_value v));
      when (want "body_battery") (
        let bb_highest := field "bodyBatteryHighestValue" in
        let bb_lowest := field "bodyBatteryLowestValue" in
        let bb_at_wake := field "bodyBatteryAtWakeTime" in
        let bb_charged := field "bodyBatteryChargedValue" in
        let bb_drained := field "bodyBatteryDrainedValue" in
        let bb_current := field "bodyBatteryMostRecentValue" in
        when (existsb Py.truthy [bb_highest; bb_lowest; bb_at_wake; bb_charged; bb_drained])
             (emit "body_battery"
                   (JDict [("date", JStr current_date);
                           ("body_battery_highest", bb_highest);
                           ("body_battery_lowest", bb_lowest);
                           ("body_battery_at_wake", bb_at_wake);
                           ("body_battery_charged", bb_charged);
                           ("body_battery_drained", bb_drained);
                           ("body_battery_current", bb_current)])))
  | _ => mret tt
  end.

(** *** Hydration, floors, fitness age, heart rates *)

Definition fetch_hydration : W unit :=
  hydration_data ← lift (get_hydration_data garmin current_date);
  present ← lift (and_then (Py.truthy hydration_data)
                           (v ← Py.get hydration_data "valueInML";
                            Some (negb (Py.is_none v))));
  when present (
    v ← lift (Py.item hydration_data "valueInML");
    emit "hydration" (JDict [("date", JStr current_date); ("hydration", v)])).

Definition fetch_floors : W unit :=
  floors_data ← lift (get_floors garmin current_date);
  when (Py.truthy floors_data) (
    ad ← lift (
      a1 ← Py.get floors_data "totalFloorsAscended";
      a2 ← Py.get floors_data "floorsAscended";
      d1 ← Py.get floors_data "totalFloorsDescended";
      d2 ← Py.get floors_data "floorsDescended";
      let ascended := Py.or_ a1 a2 in
      let descended := Py.or_ d1 d2 in
      fva ← Py.get floors_data "floorValuesArray";
      if Py.is_none ascended && Py.truthy fva then
        floor_values ← Py.get_default floors_data "floorValuesArray" (JList []);
        rows ← Py.iter floor_values;
        up ← present_cells 2 rows;
        ascended' ← Py.sum up;
        down ← present_cells 3 rows;
        descended' ← Py.sum down;
        Some (ascended', descended')
      else Some (ascended, descended));
    when (negb (Py.is_none (fst ad)) || negb (Py.is_none (snd ad)))
         (emit "floors" (JDict [("date", JStr current_date);
                                ("floors_ascended", fst ad);
                                ("floors_descended", snd ad)]))).

Definition fetch_fitness_age : W unit :=
  fitness_age_data ← lift (get_fitnessage_data garmin current_date);
  when (Py.truthy fitness_age_data) (
    e ← lift (
      fa ← Py.get fitness_age_data "fitnessAge";
      ca ← Py.get fitness_age_data "chronologicalAge";
      aa ← Py.get fitness_age_data "achievableFitnessAge";
      Some (JDict [("date", JStr current_date); ("fitness_age", fa);
                   ("chronological_age", ca); ("achievable_fitness_age", aa)]));
    emit "fitness_age" e).

(** The loop over [hr_list]. *)
Fixpoint heart_rate_samples (hr_list : list json) : option (list json) :=
  match hr_list with
  | [] => Some []
  | entry :: rest =>
      v ← Py.index entry 1;
      if Py.truthy v then
        t0 ← Py.index entry 0;
        t ← utc_of_millis t0;
        samples ← heart_rate_samples rest;
        Some (JDict [("time", iso t); ("data", v)] :: samples)
      else heart_rate_samples rest
  end.

Definition fetch_heart_rates : W unit :=
  data ← lift (
    response ← get_heart_rates garmin current_date;
    values ← Py.get response "heartRateValues";
    hr_list ← Py.iter (Py.or_ values (JList []));
    samples ← heart_rate_samples hr_list;
    Some (JDict [("date", JStr current_date); ("HeartRate", JList samples)]));
  emit "heart_rates" data.

(** *** Sleep *)

(** [stage_type_map]: the table from Garmin's [activityLevel]. *)
Definition stage_type_map : list (Q * string) :=
  [(0%Q, "deep"); (1%Q, "light"); (2%Q, "rem"); (3%Q, "awake")].

(** [stage_type_map.get(level, 'unknown')]: numbers are looked up by value
    ([True] is [1]), a list or a dictionary cannot be hashed. *)
Definition stage_type_of (level : json) : option string :=
  match level with
  | JList _ | JDict _ => None
  | _ =>
      match Py.as_num level with
      | Some q =>
          match List.find (fun kv => Qeq_bool q (fst kv)) stage_type_map with
          | Some kv => Some (snd kv)
          | None => Some "unknown"
          end
      | None => Some "unknown"
      end
  end.

(** The fields of [sleep_entry_data] the loop over [sleepLevels] updates. *)
Record stage_totals := StageTotals {
  deep_sleep_seconds : json;
  light_sleep_seconds : json;
  rem_sleep_seconds : json;
  awake_sleep_seconds : json;
  stage_events : list json
}.

(** One iteration of the loop over [sleep_levels_intraday]. *)
Definition add_stage (needs_stage_sum : bool) (acc : stage_totals) (entry : json)
  : option stage_totals :=
  level ← Py.get entry "activityLevel";
  if Py.is_none level then Some acc
  else
    start_raw ← Py.item entry "startGMT";
    start_time_dt ← utc_of_gmt start_raw;
    end_raw ← Py.item entry "endGMT";
    end_time_dt ← utc_of_gmt end_raw;
    let duration_in_seconds_stage := whole_seconds (end_time_dt - start_time_dt) in
    stage_type ← stage_type_of level;
    let event := JDict [("stage_type", JStr stage_type);
                        ("start_time", iso start_time_dt);
                        ("end_time", iso end_time_dt);
                        ("duration_in_seconds", duration_in_seconds_stage)] in
    let events := stage_events acc ++ [event] in
    let deep := deep_sleep_seconds acc in
    let light := light_sleep_seconds acc in
    let rem := rem_sleep_seconds acc in
    let awake := awake_sleep_seconds acc in
    if needs_stage_sum then
      if String.eqb stage_type "deep" then
        v ← Py.add deep duration_in_seconds_stage;
        Some (StageTotals v light rem awake events)
      else if String.eqb stage_type "light" then
        v ← Py.add light duration_in_seconds_stage;
        Some (StageTotals deep v rem awake events)
      else if String.eqb stage_type "rem" then
        v ← Py.add rem duration_in_seconds_stage;
        Some (StageTotals deep light v awake events)
      else if String.eqb stage_type "awake" then
        v ← Py.add awake duration_in_seconds_stage;
        Some (StageTotals deep light rem v events)
      else Some (StageTotals deep light rem awake events)
    else Some (StageTotals deep light rem awake events).

Fixpoint add_stages (needs_stage_sum : bool) (acc : stage_totals)
         (entries : list json) : option stage_totals :=
  match entries with
  | [] => Some acc
  | entry :: rest =>
      acc' ← add_stage needs_stage_sum acc entry;
      add_stages needs_stage_sum acc' rest
  end.

(** [sorted(xs, key=...)]: a stable sort on the keys. *)
Fixpoint insert_by_key (x : Z * json) (l : list (Z * json)) : list (Z * json) :=
  match l with
  | [] => [x]
  | y :: rest =>
      if (fst x <? fst y)%Z then x :: y :: rest else y :: insert_by_key x rest
  end.

Definition sort_by_key (l : list (Z * json)) : list (Z * json) :=
  fold_left (fun acc x => insert_by_key x acc) l [].

(** [bedtime_dt] and [wake_time_dt]: from the summary when it has both
    timestamps, else from the first and the last stage in start order. *)
Definition sleep_window (sleep_data_raw sleep_summary : json) : option (option (Z * Z)) :=
  s ← Py.get sleep_summary "sleepStartTimestampGMT";
  e ← Py.get sleep_summary "sleepEndTimestampGMT";
  if Py.truthy s && Py.truthy e then
    bedtime_dt ← utc_of_millis s;
    wake_time_dt ← utc_of_millis e;
    Some (Some (bedtime_dt, wake_time_dt))
  else
    stage_events_raw ← Py.get_default sleep_data_raw "sleepLevels" (JList []);
    if Py.truthy stage_events_raw then
      stages ← Py.iter stage_events_raw;
      keyed ← mapM (fun x => g ← Py.item x "startGMT";
                             t ← utc_of_gmt g;
                             Some (t, x)) stages;
      let sorted_stages := List.map snd (sort_by_key keyed) in
      match sorted_stages with
      | [] => Some None
      | first :: _ =>
          g0 ← Py.item first "startGMT";
          bedtime_dt ← utc_of_gmt g0;
          g1 ← Py.item (List.last sorted_stages first) "endGMT";
          wake_time_dt ← utc_of_gmt g1;
          Some (Some (bedtime_dt, wake_time_dt))
      end
    else Some None.

(** The sleep record of one date: [None] when the block raises,
    [Some None] when the entry is skipped. *)
Definition sleep_entry (sleep_data_raw : json) : option (option json) :=
  (* the log line lists the keys of [dailySleepDTO] *)
  _ ← (if Py.truthy sleep_data_raw then
         dto ← Py.get_default sleep_data_raw "dailySleepDTO" (JDict []);
         Py.keys dto
       else Some []);
  if negb (Py.truthy sleep_data_raw) then Some None
  else
    sleep_summary ← Py.get_default sleep_data_raw "dailySleepDTO" (JDict []);
    window ← sleep_window sleep_data_raw sleep_summary;
    match window with
    | None => Some None
    | Some (bedtime_dt, wake_time_dt) =>
        let field k := Py.get sleep_summary k in
        sts ← field "sleepTimeSeconds";
        let duration_in_seconds :=
          if Py.is_none sts then whole_seconds (wake_time_dt - bedtime_dt) else sts in
        deep0 ← field "deepSleepSeconds";
        light0 ← field "lightSleepSeconds";
        rem0 ← field "remSleepSeconds";
        awake0 ← field "awakeSleepSeconds";
        awake1 ← field "awakeDuringSleepSeconds";
        let deep_sleep := Py.or_ deep0 (JNum 0) in
        let light_sleep := Py.or_ light0 (JNum 0) in
        let rem_sleep := Py.or_ rem0 (JNum 0) in
        let awake_sleep := Py.or_ awake0 (Py.or_ awake1 (JNum 0)) in
        scores ← field "sleepScores";
        overall ← Py.get (Py.or_ scores (JDict [])) "overall";
        sleep_score ← Py.get (Py.or_ overall (JDict [])) "value";
        average_spo2 ← field "averageSpO2Value";
        lowest_spo2 ← field "lowestSpO2Value";
        highest_spo2 ← field "highestSpO2Value";
        average_resp ← field "averageRespirationValue";
        lowest_resp ← field "lowestRespirationValue";
        highest_resp ← field "highestRespirationValue";
        awake_count ← field "awakeCount";
        avg_sleep_stress ← field "avgSleepStress";
        restless ← Py.get sleep_data_raw "restlessMomentsCount";
        overnight_hrv ← Py.get sleep_data_raw "avgOvernightHrv";
        bb_change ← Py.get sleep_data_raw "bodyBatteryChange";
        resting_hr ← Py.get sleep_data_raw "restingHeartRate";
        sleep_levels_intraday ← Py.get sleep_data_raw "sleepLevels";
        let needs_stage_sum :=
          Py.eq_zero deep_sleep && Py.eq_zero light_sleep && Py.eq_zero rem_sleep in
        let totals0 := StageTotals deep_sleep light_sleep rem_sleep awake_sleep [] in
        totals ← (if Py.truthy sleep_levels_intraday then
                    entries ← Py.iter sleep_levels_intraday;
                    add_stages needs_stage_sum totals0 entries
                  else Some totals0);
        dl ← Py.add (deep_sleep_seconds totals) (light_sleep_seconds totals);
        time_asleep ← Py.add dl (rem_sleep_seconds totals);
        let sleep_entry_data :=
          JDict [("entry_date", JStr current_date);
                 ("bedtime", iso bedtime_dt);
                 ("wake_time", iso wake_time_dt);
                 ("duration_in_seconds", duration_in_seconds);
                 ("time_asleep_in_seconds", time_asleep);
                 ("source", JStr "garmin");
                 ("sleep_score", sleep_score);
                 ("deep_sleep_seconds", deep_sleep_seconds totals);
                 ("light_sleep_seconds", light_sleep_seconds totals);
                 ("rem_sleep_seconds", rem_sleep_seconds totals);
                 ("awake_sleep_seconds", awake_sleep_seconds totals);
                 ("average_spo2_value", average_spo2);
                 ("lowest_spo2_value", lowest_spo2);
                 ("highest_spo2_value", highest_spo2);
                 ("average_respiration_value", average_resp);
                 ("lowest_respiration_value", lowest_resp);
                 ("highest_respiration_value", highest_resp);
                 ("awake_count", awake_count);
                 ("avg_sleep_stress", avg_sleep_stress);
                 ("restless_moments_count", restless);
                 ("avg_overnight_hrv", overnight_hrv);
                 ("body_battery_change", bb_change);
                 ("resting_heart_rate", resting_hr);
                 ("stage_events", JList (stage_events totals))] in
        valid ← and_then (negb (Py.is_none duration_in_seconds))
                         (gt_zero duration_in_seconds);
        Some (if (valid : bool) then Some sleep_entry_data else None)
    end.

Definition fetch_sleep : W unit :=
  e ← lift (sleep_data_raw ← get_sleep_data garmin current_date;
            sleep_entry sleep_data_raw);
  match e with
  | Some sleep_entry_data => emit "sleep" sleep_entry_data
  | None => mret tt
  end.

(** *** Stress *)

(** The loop over [stress_list]: the samples and [valid_stress_values]. *)
Fixpoint stress_samples (i : nat) (rows : list json) : option (list json * list json) :=
  match rows with
  | [] => Some ([], [])
  | entry :: rest =>
      v ← Py.index entry i;
      ok ← and_then (negb (Py.is_none v)) (ge_zero v);
      if (ok : bool) then
        t0 ← Py.index entry 0;
        t ← utc_of_millis t0;
        more ← stress_samples i rest;
        Some (JDict [("time", iso t); ("stress_level", v)] :: fst more, v :: snd more)
      else stress_samples i rest
  end.

Definition stress_entry (stress_response : json) : option (option json) :=
  sva ← Py.get stress_response "stressValuesArray";
  bba ← Py.get stress_response "bodyBatteryValuesArray";
  stress_list ← Py.iter (Py.or_ sva (JList []));
  bb_list ← Py.iter (Py.or_ bba (JList []));
  stress ← stress_samples 1 stress_list;
  bb ← stress_samples 2 bb_list;
  let stress_level := fst stress in
  let valid_stress_values := snd stress in
  mood ← (match valid_stress_values with
          | [] => Some (JNull, JNull)
          | _ =>
              average_stress ← mean valid_stress_values;
              m ← map_garmin_stress_to_mood average_stress;
              if negb (Py.is_none (fst m)) then
                avg ← Py.as_num average_stress;
                Some (fst m,
                      JStr ("Derived from Garmin Stress: Average " +:+ format_0f L avg
                            +:+ " (" +:+ fstr (snd m) +:+ ")"))
              else Some (fst m, JNull)
          end);
  let stress_data_entry :=
    JDict [("date", JStr current_date);
           ("stressLevel", JList stress_level);
           ("BodyBatteryLevel", JList (fst bb));
           ("raw_stress_data", JList stress_level);
           ("derived_mood_value", fst mood);
           ("derived_mood_notes", snd mood)] in
  Some (if Py.truthy (JList stress_level) || negb (Py.is_none (fst mood))
        then Some stress_data_entry else None).

Definition fetch_stress : W unit :=
  e ← lift (stress_response ← get_stress_data garmin current_date;
            stress_entry stress_response);
  match e with
  | Some stress_data_entry => emit "stress" stress_data_entry
  | None => mret tt
  end.

(** *** Respiration, SpO2, intensity minutes *)

Definition fetch_respiration : W unit :=
  respiration_data ← lift (get_respiration_data garmin current_date);
  when (Py.truthy respiration_data) (
    r ← lift (
      sleep_resp ← Py.get respiration_data "avgSleepRespirationValue";
      awake_resp ← Py.get respiration_data "avgWakingRespirationValue";
      avg_resp ← Py.get respiration_data "avgRespiration";
      Some (sleep_resp, awake_resp, avg_resp));
    let '(sleep_resp, awake_resp, avg_resp) := r in
    when (Py.truthy sleep_resp || Py.truthy awake_resp || Py.truthy avg_resp)
         (emit "respiration"
               (JDict [("date", JStr current_date);
                       ("sleep_respiration_avg", sleep_resp);
                       ("awake_respiration_avg", awake_resp);
                       ("average_respiration_rate",
                        Py.or_ avg_resp (Py.or_ sleep_resp awake_resp))]))).

(** [[v.get("spO2") or v.get("value") for v in daily_values
      if v.get("spO2") or v.get("value")]] *)
Fixpoint spo2_readings (daily_values : list json) : option (list json) :=
  match daily_values with
  | [] => Some []
  | v :: rest =>
      a ← Py.get v "spO2";
      b ← Py.get v "value";
      readings ← spo2_readings rest;
      Some (if Py.truthy (Py.or_ a b) then Py.or_ a b :: readings else readings)
  end.

(** The average taken from the response of [get_spo2_data]. *)
Definition spo2_of_response (spo2_data : json) : option json :=
  if negb (Py.truthy spo2_data) then Some JNull
  else
    a ← Py.get spo2_data "avgSpO2";
    b ← Py.get spo2_data "averageSpO2";
    c ← Py.get spo2_data "average";
    d ← Py.get spo2_data "latestSpO2Value";
    let avg0 := Py.or_ a (Py.or_ b (Py.or_ c d)) in
    dsv ← Py.get spo2_data "dailySpO2Values";
    avg1 ← (if negb (Py.truthy avg0) && Py.truthy dsv then
              daily_values ← Py.iter dsv;
              readings ← spo2_readings daily_values;
              match readings with
              | [] => Some avg0
              | _ => mean readings
              end
            else Some avg0);
    ads ← Py.get spo2_data "allDaySpO2";
    if negb (Py.truthy avg1) && Py.truthy ads then
      x ← Py.get ads "averageValue";
      y ← Py.get ads "avg";
      z ← Py.get ads "avgSpO2";
      Some (Py.or_ x (Py.or_ y z))
    else Some avg1.

(** The fallback loop over the sleep entries collected so far: the value
    of the first entry of this date that has one. *)
Fixpoint spo2_of_sleep (sleep_entries : list json) : option (option json) :=
  match sleep_entries with
  | [] => Some None
  | sleep_entry :: rest =>
      entry_date ← Py.get sleep_entry "entry_date";
      hit ← and_then (Py.eq_str entry_date current_date)
                     (v ← Py.get sleep_entry "average_spo2_value"; Some (Py.truthy v));
      if (hit : bool) then v ← Py.get sleep_entry "average_spo2_value"; Some (Some v)
      else spo2_of_sleep rest
  end.

Definition fetch_spo2 (sleep_so_far : list json) : W unit :=
  spo2_data ← lift (get_spo2_data garmin current_date);
  avg0 ← lift (spo2_of_response spo2_data);
  avg_spo2 ← lift (if negb (Py.truthy avg0) && Py.truthy (JList sleep_so_far) then
                     found ← spo2_of_sleep sleep_so_far;
                     Some (match found with Some v => v | None => avg0 end)
                   else Some avg0);
  when (Py.truthy avg_spo2)
       (emit "spo2" (JDict [("date", JStr current_date); ("average_spo2", avg_spo2)])).

Definition fetch_intensity_minutes : W unit :=
  intensity_minutes_data ← lift (get_intensity_minutes_data garmin current_date);
  when (Py.truthy intensity_minutes_data) (
    total ← lift (Py.get intensity_minutes_data "total");
    emit "intensity_minutes"
         (JDict [("date", JStr current_date); ("total_intensity_minutes", total)])).

(** *** Training readiness and status *)

(** The score of a readiness response, [None] when there is none. *)
Definition readiness_score (training_readiness_data : json) : option json :=
  match training_readiness_data with
  | JList (first_item :: _) =>
      a ← Py.get first_item "score";
      b ← Py.get first_item "trainingReadinessScore";
      c ← Py.get first_item "value";
      Some (Py.or_ a (Py.or_ b c))
  | JDict ((_ :: _) as d) =>
      Some (Py.or_ (Py.dict_get "score" d) (Py.dict_get "trainingReadinessScore" d))
  | _ => Some JNull
  end.

Definition fetch_training_readiness : W unit :=
  training_readiness_data ← lift (get_training_readiness garmin current_date);
  score ← lift (readiness_score training_readiness_data);
  when (Py.truthy score)
       (emit "training_readiness"
             (JDict [("date", JStr current_date); ("training_readiness_score", score)])).

Definition fetch_training_status : W unit :=
  training_status_data ← lift (get_training_status garmin current_date);
  when (Py.truthy training_status_data) (
    status ← lift (Py.get training_status_data "status");
    emit "training_status"
         (JDict [("date", JStr current_date); ("training_status", status)])).

(** *** Max metrics (VO2 max) *)

(** [x.get("vo2Max") or x.get("vo2MaxValue")
     or x.get("generic", {}).get("vo2MaxPreciseValue")] *)
Definition vo2_of_item (x : json) : option json :=
  a ← Py.get x "vo2Max";
  b ← Py.get x "vo2MaxValue";
  or_else a (or_else b (g ← Py.get_default x "generic" (JDict []);
                        Py.get g "vo2MaxPreciseValue")).

Definition vo2_of_rest (max_metrics_data : json) : option json :=
  match max_metrics_data with
  | JList (first_item :: _) => vo2_of_item first_item
  | JDict (_ :: _) => vo2_of_item max_metrics_data
  | _ => Some JNull
  end.

(** The query text sent to the GraphQL endpoint. *)
Definition vo2_graphql_query : string :=
  let q := String dquote EmptyString in
  "query{vo2MaxScalar(startDate:" +:+ q +:+ current_date +:+ q
  +:+ ", endDate:" +:+ q +:+ current_date +:+ q +:+ ")}".

(** The inner [try] around the GraphQL query; [None] when it raises. *)
Definition vo2_of_graphql (vo2_max_value : json) : option json :=
  graphql_result ← query_garmin_graphql garmin (JDict [("query", JStr vo2_graphql_query)]);
  if Py.truthy graphql_result && Py.is_dict graphql_result then
    data ← Py.get_default graphql_result "data" (JDict []);
    vo2_data ← Py.get_default data "vo2MaxScalar" (JList []);
    nonempty ← and_then (Py.truthy vo2_data) (n ← Py.len vo2_data; Some (0 <? n)%nat);
    if (nonempty : bool) then
      first ← Py.index vo2_data 0;
      a ← Py.get first "vo2Max";
      b ← Py.get first "value";
      Some (Py.or_ a b)
    else Some vo2_max_value
  else Some vo2_max_value.

Definition fetch_max_metrics : W unit :=
  max_metrics_data ← lift (get_max_metrics garmin current_date);
  vo2_rest ← lift (vo2_of_rest max_metrics_data);
  let vo2_max_value :=
    if negb (Py.truthy vo2_rest) then
      match vo2_of_graphql vo2_rest with Some v => v | None => vo2_rest end
    else vo2_rest in
  when (Py.truthy vo2_max_value)
       (emit "max_metrics" (JDict [("date", JStr current_date); ("vo2_max", vo2_max_value)])).

(** *** HRV *)

(** The loop over [hrv_list]: the readings and [hrv_values]. *)
Fixpoint hrv_readings (hrv_list : list json) : option (list json * list json) :=
  match hrv_list with
  | [] => Some ([], [])
  | entry :: rest =>
      v ← Py.get entry "hrvValue";
      if Py.truthy v then
        g ← Py.item entry "readingTimeGMT";
        t ← utc_of_gmt g;
        more ← hrv_readings rest;
        Some (JDict [("time", iso t); ("data", v)] :: fst more, v :: snd more)
      else hrv_readings rest
  end.

Definition hrv_entry (response : json) : option json :=
  let hrv_raw := Py.or_ response (JDict []) in
  (* the log line lists [hrv_raw.keys()] *)
  _ ← (if Py.truthy hrv_raw then Py.keys hrv_raw else Some []);
  let field k := Py.get hrv_raw k in
  readings ← field "hrvReadings";
  hrv_list ← Py.iter (Py.or_ readings (JList []));
  r ← hrv_readings hrv_list;
  let data0 := [("date", JStr current_date); ("hrvValue", JList (fst r))] in
  data1 ← (match snd r with
           | [] => Some data0
           | hrv_values => avg ← mean hrv_values;
                           Some (Py.dict_set "average_overnight_hrv" avg data0)
           end);
  s1 ← field "hrvStatus"; s2 ← field "status";
  w1 ← field "weeklyAvg"; w2 ← field "sevenDayAvg";
  l1 ← field "baselineLowUpper"; l2 ← field "baselineLow";
  h1 ← field "baselineBalancedLow"; h2 ← field "baselineHigh";
  let data2 := Py.dict_set "baseline_high" (Py.or_ h1 h2)
                 (Py.dict_set "baseline_low" (Py.or_ l1 l2)
                    (Py.dict_set "weekly_avg" (Py.or_ w1 w2)
                       (Py.dict_set "hrv_status" (Py.or_ s1 s2) data1))) in
  summary ← field "hrvSummary";
  let hrv_summary := Py.or_ summary (JDict []) in
  if Py.truthy hrv_summary then
    n1 ← Py.get hrv_summary "lastNightAvg";
    n2 ← Py.get hrv_summary "lastNight";
    n5 ← Py.get hrv_summary "lastNight5MinHigh";
    bl ← Py.get hrv_summary "baselineBalancedLow";
    bu ← Py.get hrv_summary "baselineBalancedUpper";
    st ← Py.get hrv_summary "status";
    Some (JDict (Py.dict_set "status" st
                   (Py.dict_set "baseline_balanced_upper" bu
                      (Py.dict_set "baseline_balanced_low" bl
                         (Py.dict_set "last_night_5min_high" n5
                            (Py.dict_set "last_night_avg" (Py.or_ n1 n2) data2))))))
  else Some (JDict data2).

Definition fetch_hrv : W unit :=
  data ← lift (response ← get_hrv_data garmin current_date; hrv_entry response);
  emit "hrv" data.

(** *** Endurance score, hill score *)

Definition fetch_endurance_score : W unit :=
  endurance_score_data ← lift (get_endurance_score garmin current_date current_date);
  when (Py.truthy endurance_score_data) (
    score ← lift (Py.get endurance_score_data "score");
    emit "endurance_score"
         (JDict [("date", JStr current_date); ("endurance_score", score)])).

Definition fetch_hill_score : W unit :=
  hill_score_data ← lift (get_hill_score garmin current_date current_date);
  when (Py.truthy hill_score_data) (
    overall ← lift (Py.get hill_score_data "overall");
    emit "hill_score" (JDict [("date", JStr current_date); ("hill_score", overall)])).

(** *** Blood pressure *)

Definition blood_pressure_value (bp_entry : json) : option (option json) :=
  systolic ← Py.get bp_entry "systolic";
  diastolic ← Py.get bp_entry "diastolic";
  pulse ← Py.get bp_entry "pulse";
  if negb (Py.is_none systolic) && negb (Py.is_none diastolic) then
    let bp_value := fstr systolic +:+ "/" +:+ fstr diastolic in
    let bp_value' := if negb (Py.is_none pulse)
                     then bp_value +:+ ", " +:+ fstr pulse +:+ " bpm"
                     else bp_value in
    Some (Some (JStr bp_value'))
  else Some None.

Definition fetch_blood_pressure : W unit :=
  blood_pressure_data ← lift (get_blood_pressure garmin current_date current_date);
  summaries ← lift (if Py.truthy blood_pressure_data then
                      ms ← Py.get blood_pressure_data "measurementSummaries";
                      if Py.truthy ms then
                        ms' ← Py.item blood_pressure_data "measurementSummaries";
                        Py.iter ms'
                      else Some []
                    else Some []);
  for_ summaries (fun summary =>
    measurements ← lift (m ← Py.get summary "measurements";
                         if Py.truthy m then
                           m' ← Py.item summary "measurements"; Py.iter m'
                         else Some []);
    for_ measurements (fun bp_entry =>
      v ← lift (blood_pressure_value bp_entry);
      match v with
      | Some bp_value =>
          emit "blood_pressure" (JDict [("date", JStr current_date); ("value", bp_value)])
      | None => mret tt
      end)).

(** *** Body battery, from its own endpoint when the summary gave none *)

(** [any(bb.get("date") == current_date for bb in health_data.get("body_battery", []))];
    this test stands outside the [try]. *)
Fixpoint has_bb_for_date (body_battery_so_far : list json) : option bool :=
  match body_battery_so_far with
  | [] => Some false
  | bb :: rest =>
      date ← Py.get bb "date";
      if Py.eq_str date current_date then Some true else has_bb_for_date rest
  end.

Definition body_battery_of (bb_entry : json) : option json :=
  bb_values ← Py.get_default bb_entry "bodyBatteryValuesArray" (JList []);
  levels ← (if Py.truthy bb_values then
              col ← column 1 bb_values;
              hi ← (match col with [] => Some JNull | _ => max_ L col end);
              lo ← (match col with [] => Some JNull | _ => min_ L col end);
              last_row ← Py.last bb_values;
              cur ← Py.index last_row 1;
              Some (hi, lo, cur)
            else Some (JNull, JNull, JNull));
  let '(bb_highest, bb_lowest, bb_current) := levels in
  charged ← Py.get bb_entry "charged";
  drained ← Py.get bb_entry "drained";
  Some (JDict [("date", JStr current_date);
               ("body_battery_highest", bb_highest);
               ("body_battery_lowest", bb_lowest);
               ("body_battery_at_wake", JNull);
               ("body_battery_charged", charged);
               ("body_battery_drained", drained);
               ("body_battery_current", bb_current)]).

Definition fetch_body_battery : W unit :=
  body_battery_data ← lift (get_body_battery garmin current_date current_date);
  match body_battery_data with
  | JList ((_ :: _) as entries) =>
      for_ entries (fun bb_entry =>
        e ← lift (body_battery_of bb_entry);
        emit "body_battery" e)
  | _ => mret tt
  end.

(** *** Menstrual data, body composition *)

Definition fetch_menstrual_data : W unit :=
  menstrual_data ← lift (get_menstrual_data_for_date garmin current_date);
  when (Py.truthy menstrual_data)
       (emit "menstrual_data"
             (JDict [("date", JStr current_date); ("data", menstrual_data)])).

Definition fetch_menstrual_calendar_data : W unit :=
  menstrual_calendar_data ← lift (get_menstrual_calendar_data garmin current_date current_date);
  when (Py.truthy menstrual_calendar_data)
       (emit "menstrual_calendar_data"
             (JDict [("date", JStr current_date); ("data", menstrual_calendar_data)])).

Definition body_composition_of (entry : json) : option json :=
  (* the log line lists [entry.keys()] *)
  _ ← Py.keys entry;
  let field k := Py.get entry k in
  date ← field "date";
  w ← field "weight";
  weight ← safe_convert w grams_to_kg;
  body_fat ← field "bodyFat";
  bmi ← field "bmi";
  body_water ← field "bodyWater";
  bm ← field "boneMass";
  bone_mass ← safe_convert bm grams_to_kg;
  mm ← field "muscleMass";
  muscle_mass ← safe_convert mm grams_to_kg;
  Some (JDict [("date", date);
               ("weight", weight);
               ("body_fat_percentage", body_fat);
               ("bmi", bmi);
               ("body_water_percentage", body_water);
               ("bone_mass", bone_mass);
               ("muscle_mass", muscle_mass)]).

Definition fetch_body_composition : W unit :=
  body_composition_data ← lift (get_body_composition garmin current_date current_date);
  (* the log line lists [body_composition_data.keys()] *)
  _ ← lift (if Py.truthy body_composition_data then Py.keys body_composition_data
            else Some []);
  entries ← lift (if Py.truthy body_composition_data then
                    dwl ← Py.get body_composition_data "dateWeightList";
                    if Py.truthy dwl then
                      dwl' ← Py.item body_composition_data "dateWeightList";
                      Py.iter dwl'
                    else Some []
                  else Some []);
  for_ entries (fun entry =>
    e ← lift (body_composition_of entry);
    emit "body_composition" e).

(** *** Recovery time, training load, acute load *)

(** [data[0].get(field)] when [data and len(data) > 0], else nothing. *)
Definition first_item_field (data : json) (field : string) : option json :=
  nonempty ← and_then (Py.truthy data) (n ← Py.len data; Some (0 <? n)%nat);
  if (nonempty : bool) then
    first ← Py.index data 0;
    Py.get first field
  else Some JNull.

Definition fetch_recovery_time : W unit :=
  training_readiness_data ← lift (get_training_readiness garmin current_date);
  recovery_time_value ← lift (first_item_field training_readiness_data "recoveryTime");
  when (negb (Py.is_none recovery_time_value))
       (emit "recovery_time" (dated_value recovery_time_value)).

(** [next(iter(....values()), None)] of the latest training status. *)
Definition latest_training_status (training_status_data : json) : option json :=
  if negb (Py.truthy training_status_data) then Some JNull
  else
    mrts ← Py.get training_status_data "mostRecentTrainingStatus";
    if negb (Py.truthy mrts) then Some JNull
    else
      mrts' ← Py.item training_status_data "mostRecentTrainingStatus";
      latest ← Py.get_default mrts' "latestTrainingStatusData" (JDict []);
      vs ← Py.values latest;
      Some (match vs with v :: _ => v | [] => JNull end).

Definition fetch_training_load : W unit :=
  training_status_data ← lift (get_training_status garmin current_date);
  ts_dict ← lift (latest_training_status training_status_data);
  when (Py.truthy ts_dict) (
    _ ← when (want "training_load") (
          r ← lift (
            weekly_load ← Py.get ts_dict "weeklyTrainingLoad";
            dto ← Py.get ts_dict "acuteTrainingLoadDTO";
            daily_acute ← Py.get (Py.or_ dto (JDict [])) "dailyTrainingLoadAcute";
            daily_chronic ← Py.get (Py.or_ dto (JDict [])) "dailyTrainingLoadChronic";
            Some (weekly_load, daily_acute, daily_chronic));
          let '(weekly_load, daily_acute, daily_chronic) := r in
          when (negb (Py.is_none weekly_load) || negb (Py.is_none daily_acute)
                || negb (Py.is_none daily_chronic))
               (emit "training_load"
                     (JDict [("date", JStr current_date);
                             ("weekly_training_load", weekly_load);
                             ("daily_acute_training_load", daily_acute);
                             ("daily_chronic_training_load", daily_chronic)])));
    when (want "acute_load") (
      training_readiness_data ← lift (get_training_readiness garmin current_date);
      acute_load_value ← lift (first_item_field training_readiness_data "acuteLoad");
      when (negb (Py.is_none acute_load_value))
           (emit "acute_load" (dated_value acute_load_value)))).

(** *** One date of the loop *)

(** [if guard: try: ... except Exception: ...] applied to [health_data]. *)
Definition block (guard : bool) (w : W unit) (hd : health) : health :=
  if guard then commit (try_ w) hd else hd.

(** A statement of the loop body: [None] is an exception that leaves the
    loop. *)
Definition step : Type := health -> option health.

Definition try_block (guard : bool) (w : W unit) : step :=
  fun hd => Some (block guard w hd).

(** The SpO2 block reads the sleep entries collected so far. *)
Definition spo2_step : step :=
  fun hd => Some (block (want "spo2") (fetch_spo2 (health_get "sleep" hd)) hd).

(** The body-battery test on [health_data] stands outside its [try]. *)
Definition body_battery_step : step :=
  fun hd =>
    if want "body_battery" then
      seen ← has_bb_for_date (health_get "body_battery" hd);
      Some (block (negb seen) fetch_body_battery hd)
    else Some hd.

(** The body of [for current_date in dates_to_fetch], in source order. *)
Definition date_steps : list step :=
  [ try_block (existsb want summary_metrics) fetch_daily_summary;
    try_block (want "hydration") fetch_hydration;
    try_block (want "floors") fetch_floors;
    try_block (want "fitness_age") fetch_fitness_age;
    try_block (want "heart_rates") fetch_heart_rates;
    try_block (want "sleep") fetch_sleep;
    try_block (want "stress") fetch_stress;
    try_block (want "respiration") fetch_respiration;
    spo2_step;
    try_block (want "intensity_minutes") fetch_intensity_minutes;
    try_block (want "training_readiness") fetch_training_readiness;
    try_block (want "training_status") fetch_training_status;
    try_block (want "max_metrics") fetch_max_metrics;
    try_block (want "hrv") fetch_hrv;
    try_block (want "endurance_score") fetch_endurance_score;
    try_block (want "hill_score") fetch_hill_score;
    try_block (want "blood_pressure") fetch_blood_pressure;
    body_battery_step;
    try_block (want "menstrual_data") fetch_menstrual_data;
    try_block (want "menstrual_calendar_data") fetch_menstrual_calendar_data;
    try_block (want "body_composition") fetch_body_composition;
    try_block (want "recovery_time") fetch_recovery_time;
    try_block (want "training_load" || want "acute_load") fetch_training_load ].

(** The metrics fetched once, before the loop. *)
Definition once_steps : list step :=
  [ try_block (want "lactate_threshold") fetch_lactate_threshold;
    try_block (want "race_predictions") fetch_race_predictions;
    try_block (want "pregnancy_summary") fetch_pregnancy_summary ].

End Blocks.

(* ================================================================== *)
(** * [get_health_and_wellness] *)
(* ================================================================== *)

Section HealthAndWellness.

Variable L : PyLib.

(** The request, after validation by its pydantic model. *)
Record HealthAndWellnessRequest := {
  hw_user_id : string;
  hw_tokens : string;
  hw_start_date : string;
  hw_end_date : string;
  hw_metric_types : list string
}.

(** Statements in sequence. *)
Definition run_steps (steps : list step) (hd : health) : option health :=
  fold_left (fun acc s => acc ≫= s) steps (Some hd).

Definition fetch_date (garmin : GarminClient) (metric_types_to_fetch : list string)
           (current_date : string) (hd : health) : option health :=
  run_steps (date_steps L garmin metric_types_to_fetch current_date) hd.

(** The loop over [dates_to_fetch]. *)
Fixpoint fetch_dates (garmin : GarminClient) (metric_types_to_fetch : list string)
         (dates_to_fetch : list string) (hd : health) : option health :=
  match dates_to_fetch with
  | [] => Some hd
  | current_date :: rest =>
      hd' ← fetch_date garmin metric_types_to_fetch current_date hd;
      fetch_dates garmin metric_types_to_fetch rest hd'
  end.

Definition fetch_once (garmin : GarminClient) (metric_types_to_fetch : list string)
           (start_date : string) (hd : health) : option health :=
  run_steps (once_steps garmin metric_types_to_fetch start_date) hd.

(** [health_data] as the dictionary handed to the cleaner. *)
Definition health_json (hd : health) : json :=
  JDict (List.map (fun ml => (fst ml, JList (snd ml))) hd).

(** [{k: v for k, v in cleaned_health_data.items() if v}]; [items] raises
    on anything but a dictionary. *)
Definition final_health_data (cleaned_health_data : json) : option pydict :=
  match cleaned_health_data with
  | JDict d => Some (List.filter (fun kv => Py.truthy (snd kv)) d)
  | _ => None
  end.

(** From the collected [health_data] to the [data] field of the response;
    an exception of the cleaner reaches the outer [try]. *)
Definition finish (hd : health) : option pydict :=
  cleaned_health_data ← cleaned (loads L) (loads_raises L) (health_json hd);
  final_health_data cleaned_health_data.

(** The aggregation over a list of dates: the metrics fetched once, the
    loop, the cleaning. *)
Definition aggregate (garmin : GarminClient) (metric_types_to_fetch : list string)
           (start_date : string) (dates_to_fetch : list string) : option pydict :=
  hd0 ← fetch_once garmin metric_types_to_fetch start_date health_init;
  hd ← fetch_dates garmin metric_types_to_fetch dates_to_fetch hd0;
  finish hd.

(** The outcome of an endpoint: a JSON body, or an [HTTPException]. *)
Inductive response :=
| Ok (body : pydict)
| HttpError (status_code : Z).

(** [get_health_and_wellness(request_data)] in the [garmin] data-source
    mode; [login] is the outcome of [garmin.login(tokenstore=tokens)], the
    client when it succeeds.  Every exception below the outer [try]
    becomes a 500, and so does the 400 raised inside it. *)
Definition get_health_and_wellness (login : string -> option GarminClient)
           (request_data : HealthAndWellnessRequest) : response :=
  let user_id := hw_user_id request_data in
  let start_date := hw_start_date request_data in
  let end_date := hw_end_date request_data in
  let tokens_b64 := hw_tokens request_data in
  let metric_types_to_fetch :=
    match hw_metric_types request_data with
    | [] => ALL_HEALTH_METRICS
    | metric_types => metric_types
    end in
  if String.eqb user_id "" || String.eqb tokens_b64 ""
     || String.eqb start_date "" || String.eqb end_date ""
  then HttpError 500
  else
    match login tokens_b64 with
    | None => HttpError 500
    | Some garmin =>
        match get_dates_in_range (date_fromisoformat L) (date_isoformat L)
                                 start_date end_date with
        | None => HttpError 500
        | Some dates_to_fetch =>
            match aggregate garmin metric_types_to_fetch start_date dates_to_fetch with
            | None => HttpError 500
            | Some final =>
                Ok [("user_id", JStr user_id); ("start_date", JStr start_date);
                    ("end_date", JStr end_date); ("data", JDict final)]
            end
        end
    end.

End HealthAndWellness.

(* ================================================================== *)
(** * [get_activities_and_workouts] *)
(* ================================================================== *)

(** [s.replace('_', ' ')] *)
Fixpoint underscores_to_spaces (s : string) : string :=
  match s with
  | EmptyString => EmptyString
  | String c rest =>
      String (if Ascii.eqb c "_"%char then " "%char else c) (underscores_to_spaces rest)
  end.

Section Activities.

Variable L : PyLib.
Variable garmin : GarminClient.

Abbreviation clean := (clean_garmin_data (loads L)).

(** [activityName] is taken from the type key when it is missing. *)
Definition backfill_name (activity : json) : option json :=
  name ← Py.get activity "activityName";
  has_key ← and_then (negb (Py.truthy name))
                     (ty ← Py.get_default activity "activityType" (JDict []);
                      key ← Py.get ty "typeKey";
                      Some (Py.truthy key));
  if (has_key : bool) then
    ty ← Py.item activity "activityType";
    key ← Py.item ty "typeKey";
    match key, activity with
    | JStr s, JDict a =>
        Some (JDict (Py.dict_set "activityName"
                                 (JStr (title L (underscores_to_spaces s))) a))
    | _, _ => None
    end
  else Some activity.

(** [max(0.0, cal - bmr)], where a falsy [calories] or [bmrCalories] is
    replaced by the float [0.0]. *)
Definition active_calories_of (activity : json) : option json :=
  c ← Py.get activity "calories";
  b ← Py.get activity "bmrCalories";
  let cal := Py.or_ c (JNum 0) in
  let bmr := Py.or_ b (JNum 0) in
  d ← (if Py.truthy c && Py.truthy b then Py.sub cal bmr else Py.sub_float cal bmr);
  q ← Py.as_num d;
  Some (if Qle_bool q 0 then JNum 0 else d).

(** The loop over [activity_details["metrics"]]. *)
Fixpoint scan_metrics (metrics : list json) (cadence power : json)
  : option (json * json) :=
  match metrics with
  | [] => Some (cadence, power)
  | metric :: rest =>
      name ← Py.get metric "metricName";
      value ← Py.get metric "value";
      scan_metrics rest
                   (if Py.eq_str name "cadence" then value else cadence)
                   (if Py.eq_str name "power" then value else power)
  end.

(** Cadence and power taken from [activity_details]. *)
Definition cadence_and_power (activity_details : json) : option (json * json) :=
  if Py.truthy activity_details && Py.is_dict activity_details then
    ms ← Py.get activity_details "metrics";
    found ← (if Py.truthy ms then
               ms' ← Py.item activity_details "metrics";
               metrics ← Py.iter ms';
               scan_metrics metrics JNull JNull
             else Some (JNull, JNull));
    ac ← Py.get activity_details "avgCadence";
    ac' ← Py.get activity_details "averageCadence";
    ap ← Py.get activity_details "avgPower";
    ap' ← Py.get activity_details "averagePower";
    Some (Py.or_ (fst found) (Py.or_ ac ac'), Py.or_ (snd found) (Py.or_ ap ap'))
  else Some (JNull, JNull).

(** [json.dumps(clean_garmin_data(x)) if x else None], when it is made,
    and whether the cleaner or [json.dumps] raises. *)
Definition blob (x : json) : json :=
  if Py.truthy x then JStr (dumps L (clean x)) else JNull.

Definition blob_raises (x : json) : bool :=
  Py.truthy x
  && (clean_garmin_data_raises (loads L) (loads_raises L) x
      || dumps_raises L (clean x)).

(** The body of the [try]: the six calls, then the record. *)
Definition enriched (activity : pydict) (activity_id active_calories : json)
  : option json :=
  activity_details ← get_activity_details garmin activity_id;
  activity_splits ← get_activity_splits garmin activity_id;
  activity_weather ← get_activity_weather garmin activity_id;
  activity_hr_in_timezones ← get_activity_hr_in_timezones garmin activity_id;
  activity_exercise_sets ← get_activity_exercise_sets garmin activity_id;
  activity_gear ← get_activity_gear garmin activity_id;
  cp ← cadence_and_power activity_details;
  if existsb blob_raises
             [activity_details; activity_splits; activity_weather;
              activity_hr_in_timezones; activity_exercise_sets; activity_gear]
  then None
  else
  Some (JDict [("activity",
                JDict (Py.dict_set "active_calories" active_calories
                         (Py.dict_set "power" (snd cp)
                            (Py.dict_set "cadence" (fst cp) activity))));
               ("details", blob activity_details);
               ("splits", blob activity_splits);
               ("weather", blob activity_weather);
               ("hr_in_timezones", blob activity_hr_in_timezones);
               ("exercise_sets", blob activity_exercise_sets);
               ("gear", blob activity_gear)]).

(** One iteration of the loop over [converted_activities]; [None] is an
    exception raised before the [try]. *)
Definition detailed_activity (activity : json) : option json :=
  activity_id ← Py.item activity "activityId";
  active_calories ← active_calories_of activity;
  match activity with
  | JDict a =>
      Some (match enriched a activity_id active_calories with
            | Some record => record
            | None => JDict [("activity", activity)]
            end)
  | _ => None
  end.

(** One iteration of the loop over [workouts]. *)
Definition detailed_workout (workout : json) : option json :=
  workout_id ← Py.item workout "workoutId";
  Some (match get_workout_by_id garmin workout_id with
        | Some workout_details => workout_details
        | None => workout
        end).

(** The request, after validation by its pydantic model. *)
Record ActivitiesAndWorkoutsRequest := {
  aw_user_id : string;
  aw_tokens : string;
  aw_start_date : string;
  aw_end_date : string;
  aw_activity_type : json
}.

(** [detailed_activities] for the listed activities. *)
Definition detail_activities (activities : list json) : option (list json) :=
  named ← mapM backfill_name activities;
  converted_activities ← convert_activities_units named;
  mapM detailed_activity converted_activities.

End Activities.

(** [get_activities_and_workouts(request_data)] in the [garmin] data-source
    mode; writing the local copy is taken to succeed. *)
Definition get_activities_and_workouts (L : PyLib)
           (login : string -> option GarminClient)
           (request_data : ActivitiesAndWorkoutsRequest) : response :=
  let user_id := aw_user_id request_data in
  let start_date := aw_start_date request_data in
  let end_date := aw_end_date request_data in
  if String.eqb user_id "" || String.eqb (aw_tokens request_data) ""
     || String.eqb start_date "" || String.eqb end_date ""
  then HttpError 500
  else
    let result :=
      garmin ← login (aw_tokens request_data);
      activities ← get_activities_by_date garmin start_date end_date
                                          (aw_activity_type request_data);
      detailed_activities ← detail_activities L garmin activities;
      workouts ← get_workouts garmin;
      detailed_workouts ← mapM (detailed_workout garmin) workouts;
      cleaned_activities ← cleaned (loads L) (loads_raises L) (JList detailed_activities);
      cleaned_workouts ← cleaned (loads L) (loads_raises L) (JList detailed_workouts);
      Some [("user_id", JStr user_id); ("start_date", JStr start_date);
            ("end_date", JStr end_date);
            ("activities", cleaned_activities);
            ("workouts", cleaned_workouts)] in
    match result with
    | Some body => Ok body
    | None => HttpError 500
    end.

(* ================================================================== *)
(** * The authentication endpoints *)
(* ================================================================== *)

(** What the provider's client raises, with [str(e)]. *)
Inductive exn :=
| GarthHTTPError (msg : string)
| GarthException (msg : string)
| OtherException (msg : string).

(** [garmin.login()] with [return_on_mfa=True], followed by
    [garmin.garth.dumps()] on success. *)
Inductive login_outcome :=
| LoginRaises (e : exn)
| LoginNeedsMfa (client_state : json)
| LoginTokens (tokens : string).

(** [garmin.resume_login(client_state, mfa_code)], followed by
    [garmin.garth.dumps()]. *)
Inductive resume_outcome :=
| ResumeRaises (e : exn)
| ResumeTokens (tokens : string).

Inductive auth_response :=
| AuthSuccess (tokens : string)
| AuthNeedsMfa (client_state : string)
| AuthError (status_code : Z) (detail : string).

(** The three [except] clauses of an endpoint. *)
Definition handle (http_prefix garth_prefix : string) (e : exn) : auth_response :=
  match e with
  | GarthHTTPError msg => AuthError 500 (http_prefix +:+ msg)
  | GarthException msg => AuthError 500 (garth_prefix +:+ msg)
  | OtherException msg => AuthError 500 ("An unexpected error occurred: " +:+ msg)
  end.

(** [str(HTTPException(status_code=400, detail=d))] *)
Definition http_400 (detail : string) : exn := OtherException ("400: " +:+ detail).

(** [garmin_login]: [outcome] is what the provider answered, [mfa_id] the
    value of [uuid.uuid4().hex], [stored_at] and [swept_at] the two clock
    readings, the first for the entry and the second inside
    [_cleanup_mfa_cache]. *)
Definition garmin_login (outcome : login_outcome) (mfa_id : string)
           (stored_at swept_at : Q) (store : gmap string mfa_item)
  : auth_response * gmap string mfa_item :=
  match outcome with
  | LoginNeedsMfa result2 =>
      let store1 := <[mfa_id := MfaItem result2 stored_at]> store in
      (AuthNeedsMfa mfa_id, _cleanup_mfa_cache swept_at store1)
  | LoginTokens tokens => (AuthSuccess tokens, store)
  | LoginRaises e =>
      (handle "Garmin login error: " "Failed to login to Garmin: " e, store)
  end.

(** [MFA_STATE_STORE.pop(client_state, None)]: a list or a dictionary
    cannot be hashed, any other value that is not a stored string is
    absent. *)
Definition mfa_pop (client_state : json) (store : gmap string mfa_item)
  : exn + (option mfa_item * gmap string mfa_item) :=
  match client_state with
  | JStr token => inr (store !! token, delete token store)
  | JList _ => inl (OtherException "unhashable type: 'list'")
  | JDict _ => inl (OtherException "unhashable type: 'dict'")
  | _ => inr (None, store)
  end.

(** [garmin_resume_login]: [data] is the JSON object of the request body,
    [resume_login] the provider's exchange. *)
Definition garmin_resume_login (resume_login : json -> json -> resume_outcome)
           (data : pydict) (store : gmap string mfa_item)
  : auth_response * gmap string mfa_item :=
  let on_error := handle "Garmin MFA error: " "Failed to complete Garmin MFA: " in
  let client_state := Py.dict_get "client_state" data in
  let mfa_code := Py.dict_get "mfa_code" data in
  let user_id := Py.dict_get "user_id" data in
  if negb (Py.truthy client_state) || negb (Py.truthy mfa_code)
     || negb (Py.truthy user_id)
  then (on_error (http_400 "Missing client_state, mfa_code, or user_id."), store)
  else
    match mfa_pop client_state store with
    | inl e => (on_error e, store)
    | inr (None, store') =>
        (on_error (http_400 "Invalid or expired mfa_token"), store')
    | inr (Some item, store') =>
        match resume_login (mfa_state item) mfa_code with
        | ResumeTokens tokens => (AuthSuccess tokens, store')
        | ResumeRaises e => (on_error e, store')
        end
    end.

(** What a failed lookup of the handle answers. *)
Definition invalid_or_expired : auth_response :=
  AuthError 500 "An unexpected error occurred: 400: Invalid or expired mfa_token".

(** A request to one of the two endpoints, with the wall-clock time at
    which it arrives.  [garmin_resume_login] never reads the clock. *)
Inductive auth_request :=
| LoginRequest (outcome : login_outcome) (mfa_id : string) (stored_at swept_at : Q)
| ResumeRequest (arrives_at : Q) (data : pydict).

Definition serve (resume_login : json -> json -> resume_outcome)
           (store : gmap string mfa_item) (r : auth_request)
  : auth_response * gmap string mfa_item :=
  match r with
  | LoginRequest outcome mfa_id stored_at swept_at =>
      garmin_login outcome mfa_id stored_at swept_at store
  | ResumeRequest _ data => garmin_resume_login resume_login data store
  end.

(** The responses to a sequence of requests, and the cache they leave. *)
Fixpoint serve_all (resume_login : json -> json -> resume_outcome)
         (store : gmap string mfa_item) (rs : list auth_request)
  : list auth_response * gmap string mfa_item :=
  match rs with
  | [] => ([], store)
  | r :: rest =>
      let '(a, store1) := serve resume_login store r in
      let '(answers, store2) := serve_all resume_login store1 rest in
      (a :: answers, store2)
  end.

(* ================================================================== *)
(** * A reference instance of the library routines *)
(* ================================================================== *)

(** The instance reads and prints the fragments of the formats that the
    examples use: decimal integers, the scalar literals of JSON, calendar
    dates and UTC timestamps. *)
Module Ref.

Definition digit_of (c : ascii) : option Z :=
  let n := Z.of_nat (nat_of_ascii c) in
  if (48 <=? n)%Z && (n <=? 57)%Z then Some (n - 48)%Z else None.

(** The value of a non-empty string of decimal digits. *)
Fixpoint digits_from (acc : Z) (s : string) : option Z :=
  match s with
  | EmptyString => Some acc
  | String c rest => d ← digit_of c; digits_from (10 * acc + d)%Z rest
  end.

Definition natural (s : string) : option Z :=
  match s with EmptyString => None | _ => digits_from 0 s end.

(** [n] printed with at least [width] digits. *)
Definition padded (width : nat) (n : Z) : string :=
  let s := pretty (Z.to_N n) in
  List.fold_right (fun _ acc => "0" +:+ acc) s (seq 0 (width - String.length s)).

(** Days between 1970-01-01 and a civil date. *)
Definition days_from_civil (y m d : Z) : Z :=
  let y' := (if m <=? 2 then y - 1 else y)%Z in
  let era := (y' / 400)%Z in
  let yoe := (y' - era * 400)%Z in
  let mp := (if 2 <? m then m - 3 else m + 9)%Z in
  let doy := ((153 * mp + 2) / 5 + d - 1)%Z in
  let doe := (yoe * 365 + yoe / 4 - yoe / 100 + doy)%Z in
  (era * 146097 + doe - 719468)%Z.

Definition civil_from_days (z : Z) : Z * Z * Z :=
  let z' := (z + 719468)%Z in
  let era := (z' / 146097)%Z in
  let doe := (z' - era * 146097)%Z in
  let yoe := ((doe - doe / 1460 + doe / 36524 - doe / 146096) / 365)%Z in
  let doy := (doe - (365 * yoe + yoe / 4 - yoe / 100))%Z in
  let mp := ((5 * doy + 2) / 153)%Z in
  let d := (doy - (153 * mp + 2) / 5 + 1)%Z in
  let m := (if mp <? 10 then mp + 3 else mp - 9)%Z in
  let y := (yoe + era * 400 + (if m <=? 2 then 1 else 0))%Z in
  (y, m, d).

(** The ordinal of 1970-01-01. *)
Definition EPOCH_ORDINAL : Z := 719163.

Definition civil_text (ymd : Z * Z * Z) : string :=
  let '(y, m, d) := ymd in
  padded 4 y +:+ "-" +:+ padded 2 m +:+ "-" +:+ padded 2 d.

(** What [date.fromisoformat] reads: a calendar date, [YYYY-MM-DD] or
    [YYYYMMDD], or a week date, [YYYY-Www], [YYYY-Www-D], [YYYYWww] or
    [YYYYWwwD]. *)
Inductive iso_date :=
| Calendar (y m d : Z)
| Week (y w d : Z).

Definition iso_of_text (s : string) : option iso_date :=
  let at_ i c := String.eqb (substring i 1 s) c in
  match String.length s with
  | 10 =>
      if at_ 4 "-" && at_ 5 "W" && at_ 8 "-" then
        y ← natural (substring 0 4 s);
        w ← natural (substring 6 2 s);
        d ← natural (substring 9 1 s);
        Some (Week y w d)
      else if at_ 4 "-" && at_ 7 "-" then
        y ← natural (substring 0 4 s);
        m ← natural (substring 5 2 s);
        d ← natural (substring 8 2 s);
        Some (Calendar y m d)
      else None
  | 8 =>
      if at_ 4 "-" && at_ 5 "W" then
        y ← natural (substring 0 4 s);
        w ← natural (substring 6 2 s);
        Some (Week y w 1)
      else if at_ 4 "W" then
        y ← natural (substring 0 4 s);
        w ← natural (substring 5 2 s);
        d ← natural (substring 7 1 s);
        Some (Week y w d)
      else
        y ← natural (substring 0 4 s);
        m ← natural (substring 4 2 s);
        d ← natural (substring 6 2 s);
        Some (Calendar y m d)
  | 7 =>
      if at_ 4 "W" then
        y ← natural (substring 0 4 s);
        w ← natural (substring 5 2 s);
        Some (Week y w 1)
      else None
  | _ => None
  end.

Definition is_leap (y : Z) : bool :=
  (y mod 4 =? 0)%Z && (negb (y mod 100 =? 0)%Z || (y mod 400 =? 0)%Z).

(** The ordinal of the first of January, and its day of the week, Monday
    being 0. *)
Definition new_year (y : Z) : Z := (days_from_civil y 1 1 + EPOCH_ORDINAL)%Z.

Definition new_year_weekday (y : Z) : Z := ((new_year y + 6) mod 7)%Z.

(** The Monday of the week that holds the first Thursday of the year. *)
Definition isoweek1monday (y : Z) : Z :=
  let week1monday := (new_year y - new_year_weekday y)%Z in
  if (3 <? new_year_weekday y)%Z then (week1monday + 7)%Z else week1monday.

(** A year has a week 53 when it starts on a Thursday, or on a Wednesday
    and is a leap year. *)
Definition has_week (y w : Z) : bool :=
  ((0 <? w)%Z && (w <? 53)%Z)
  || ((w =? 53)%Z
      && ((new_year_weekday y =? 3)%Z
          || ((new_year_weekday y =? 2)%Z && is_leap y))).

Definition date_fromisoformat (s : string) : option Z :=
  date_string ← iso_of_text s;
  match date_string with
  | Calendar y m d =>
      (* the day must exist in its month *)
      let n := days_from_civil y m d in
      if (1 <=? y)%Z && (1 <=? m)%Z && (m <=? 12)%Z && (1 <=? d)%Z
         && String.eqb (civil_text (civil_from_days n)) (civil_text (y, m, d))
      then Some (n + EPOCH_ORDINAL)%Z else None
  | Week y w d =>
      let ordinal := (isoweek1monday y + (w - 1) * 7 + (d - 1))%Z in
      if (1 <=? y)%Z && has_week y w && (0 <? d)%Z && (d <? 8)%Z
         && (ordinal <=? DATE_MAX_ORDINAL)%Z
      then Some ordinal else None
  end.

Definition date_isoformat (ordinal : Z) : string :=
  civil_text (civil_from_days (ordinal - EPOCH_ORDINAL)).

Definition MICROS_PER_DAY : Z := 86400000000.

(** [YYYY-MM-DDTHH:MM:SS.f] with up to six digits of fraction. *)
Definition strptime (s : string) : option Z :=
  let n := String.length s in
  if (21 <=? n)%nat && (n <=? 26)%nat
     && String.eqb (substring 10 1 s) "T" && String.eqb (substring 13 1 s) ":"
     && String.eqb (substring 16 1 s) ":" && String.eqb (substring 19 1 s) "."
  then
    day ← date_fromisoformat (substring 0 10 s);
    hh ← natural (substring 11 2 s);
    mm ← natural (substring 14 2 s);
    ss ← natural (substring 17 2 s);
    let frac := substring 20 (n - 20) s in
    f ← natural frac;
    if (hh <? 24)%Z && (mm <? 60)%Z && (ss <? 60)%Z then
      Some ((day - EPOCH_ORDINAL) * MICROS_PER_DAY
            + ((hh * 60 + mm) * 60 + ss) * 1000000
            + f * 10 ^ Z.of_nat (6 - String.length frac))%Z
    else None
  else None.

(** [YYYY-MM-DDTHH:MM:SS[.ffffff]+00:00] *)
Definition isoformat (t : Z) : string :=
  let day := (t / MICROS_PER_DAY)%Z in
  let rest := (t mod MICROS_PER_DAY)%Z in
  let secs := (rest / 1000000)%Z in
  let micros := (rest mod 1000000)%Z in
  civil_text (civil_from_days day) +:+ "T"
  +:+ padded 2 (secs / 3600) +:+ ":" +:+ padded 2 ((secs / 60) mod 60) +:+ ":"
  +:+ padded 2 (secs mod 60)
  +:+ (if (micros =? 0)%Z then "" else "." +:+ padded 6 micros)
  +:+ "+00:00".

(** Timestamps within the years 1 to 9999, rounded down to a microsecond. *)
Definition fromtimestamp (seconds : Q) : option Z :=
  let t := Qfloor (seconds * 1000000) in
  if (-62135596800000000 <=? t)%Z && (t <? 253402300800000000)%Z
  then Some t else None.

(** An integer in decimal, any other rational as a fraction. *)
Definition number_text (q : Q) : string :=
  let r := Qred q in
  let n := Qnum r in
  let sign := if (n <? 0)%Z then "-" else "" in
  let body := sign +:+ pretty (Z.abs_N n) in
  if (Qden r =? 1)%positive then body else body +:+ "/" +:+ pretty (Npos (Qden r)).

(** [round(q)] printed, for the [:.0f] format: half rounds to even. *)
Definition format_0f (q : Q) : string :=
  let fl := Qfloor q in
  let frac := (q - inject_Z fl)%Q in
  let up := if Qle_bool frac (1 # 2)
            then (if Qeq_bool frac (1 # 2) then Z.odd fl else false)
            else true in
  number_text (inject_Z (if up then fl + 1 else fl)%Z).

Definition has_quote_or_backslash (s : string) : bool :=
  Py.contains (String dquote EmptyString) s || Py.contains "\" s.

(** A control character, which a JSON string may not hold unescaped. *)
Definition has_control_character (s : string) : bool :=
  existsb (fun c => (nat_of_ascii c <? 32)%nat) (list_ascii_of_string s).

(** An integer literal of JSON: an optional minus sign, then [0] or
    digits that do not start with [0].  The result tells the sign and
    the digits. *)
Definition integer_literal (s : string) : option (bool * string) :=
  let signed := match s with
                | String "-" rest => (true, rest)
                | _ => (false, s)
                end in
  match natural (snd signed) with
  | Some _ =>
      if String.eqb (snd signed) "0" || negb (String.prefix "0" (snd signed))
      then Some signed else None
  | None => None
  end.

Definition integer_value (s : string) : option Z :=
  match integer_literal s with
  | Some (negative, digits) =>
      match natural digits with
      | Some n => Some (if negative then (- n)%Z else n)
      | None => None
      end
  | None => None
  end.

(** The scalar literals of JSON: [null], [true], [false], a decimal
    integer, a quoted string without escapes, with no white space around
    them.  Every other text is reported as undecodable. *)
Definition loads (s : string) : option json :=
  if String.eqb s "null" then Some JNull
  else if String.eqb s "true" then Some (JBool true)
  else if String.eqb s "false" then Some (JBool false)
  else match integer_value s with
       | Some n => Some (JNum (inject_Z n))
       | None =>
           let n := String.length s in
           let inner := substring 1 (n - 2) s in
           if (2 <=? n)%nat
              && String.eqb (substring 0 1 s) (String dquote EmptyString)
              && String.eqb (substring (n - 1) 1 s) (String dquote EmptyString)
              && negb (has_quote_or_backslash inner)
              && negb (has_control_character inner)
           then Some (JStr inner) else None
       end.

(** An integer literal of more than 4300 digits is refused with a
    [ValueError]. *)
Definition loads_raises (s : string) : bool :=
  match integer_literal s with
  | Some signed => (4300 <? String.length (snd signed))%nat
  | None => false
  end.

(** An int of more than 4300 digits cannot be written. *)
Fixpoint dumps_raises (x : json) : bool :=
  match x with
  | JNum q =>
      negb (Py.fractional q)
      && (Qle_bool (inject_Z (10 ^ 4300)) q || Qle_bool q (- inject_Z (10 ^ 4300)))
  | JList l => existsb dumps_raises l
  | JDict d => existsb (fun kv => dumps_raises (snd kv)) d
  | _ => false
  end.

(** A compact rendering of a payload. *)
Fixpoint dumps (x : json) : string :=
  let q := String dquote EmptyString in
  match x with
  | JNull => "null"
  | JBool true => "true"
  | JBool false => "false"
  | JNum n => number_text n
  | JStr s => q +:+ s +:+ q
  | JList l =>
      "[" +:+ List.fold_right (fun e acc => dumps e +:+ (if String.eqb acc "]" then "" else ", ") +:+ acc)
                              "]" l
  | JDict d =>
      "{" +:+ List.fold_right
                (fun kv acc => q +:+ fst kv +:+ q +:+ ": " +:+ dumps (snd kv)
                               +:+ (if String.eqb acc "}" then "" else ", ") +:+ acc)
                "}" d
  end.

(** [str(x)]: a string is itself, anything else as [dumps] prints it. *)
Definition str (x : json) : string :=
  match x with JStr s => s | _ => dumps x end.

(** [max] and [min] of numbers. *)
Definition extremum (pick_left : Q -> Q -> bool) (xs : list json) : option json :=
  match xs with
  | [] => None
  | [x] => Some x
  | x :: rest =>
      _ ← Py.as_num x;
      List.fold_left (fun acc y =>
                        a ← acc; qa ← Py.as_num a; qy ← Py.as_num y;
                        Some (if pick_left qa qy then a else y))
                     rest (Some x)
  end.

Definition max_ : list json -> option json := extremum (fun a b => Qle_bool b a).

Definition min_ : list json -> option json := extremum (fun a b => Qle_bool a b).

Definition is_lower (c : ascii) : bool :=
  let n := nat_of_ascii c in (97 <=? n)%nat && (n <=? 122)%nat.

Definition is_upper (c : ascii) : bool :=
  let n := nat_of_ascii c in (65 <=? n)%nat && (n <=? 90)%nat.

(** [s.title()] on ASCII text. *)
Fixpoint title_from (in_word : bool) (s : string) : string :=
  match s with
  | EmptyString => EmptyString
  | String c rest =>
      let n := nat_of_ascii c in
      let c' := if in_word
                then (if is_upper c then ascii_of_nat (n + 32) else c)
                else (if is_lower c then ascii_of_nat (n - 32) else c) in
      String c' (title_from (is_lower c || is_upper c) rest)
  end.

Definition title (s : string) : string := title_from false s.

Definition lib : PyLib :=
  Build_PyLib loads loads_raises dumps dumps_raises fromtimestamp strptime isoformat str format_0f
              max_ min_ title date_fromisoformat date_isoformat.

End Ref.

(* ================================================================== *)
(** * Predicates used by the statements *)
(* ================================================================== *)

(** [zero_at z path x]: the value [z] sits in [x] under the dictionary keys
    of [path], none of them excluded, through any list elements on the
    way.  Dictionaries on the way have distinct keys, as every Python
    dictionary has. *)
Inductive zero_at (z : json) : list string -> json -> Prop :=
| zero_here : zero_at z [] z
| zero_in_list l x path :
    In x l -> zero_at z path x -> zero_at z path (JList l)
| zero_in_dict d k x path :
    List.NoDup (List.map fst d) -> In (k, x) d -> excluded_key k = false ->
    zero_at z path x -> zero_at z (k :: path) (JDict d).



(** A value a conversion accepts: [None], or a number that converts to a
    [float]. *)
Definition convertible (x : json) : Prop :=
  x = JNull \/ exists q, Py.as_num x = Some q /\ Py.overflows q = false.

(** The lookup table of the stress bands: bounds, mood score, label. *)
Definition mood_bands : list (Q * Q * Q * string) :=
  [ (0, 10, 95, "Excited"); (11, 25, 85, "Happy"); (26, 35, 75, "Confident");
    (36, 50, 65, "Calm"); (51, 60, 55, "Thoughtful"); (61, 75, 45, "Neutral");
    (76, 85, 35, "Worried"); (86, 95, 25, "Angry"); (96, 100, 15, "Sad/Tired") ]%Q.

(** The open intervals between two adjacent bands. *)
Definition mood_gaps : list (Q * Q) :=
  [ (10, 11); (25, 26); (35, 36); (50, 51); (60, 61); (75, 76); (85, 86);
    (95, 96) ]%Q.

(** The body of a resume request. *)
Definition resume_body (client_state : string) (mfa_code user_id : json) : pydict :=
  [("client_state", JStr client_state); ("mfa_code", mfa_code); ("user_id", user_id)].

(** A provider that accepts the code [123456] for the challenge [ch]. *)
Definition sample_resume_login (state code : json) : resume_outcome :=
  if Py.eq_str state "ch" && Py.eq_str code "123456"
  then ResumeTokens "tokens" else ResumeRaises (GarthException "bad code").

(** A payload with a zero, an internal identifier, a null and a string
    that decodes to a number. *)
Definition sample_payload : json :=
  JDict [("steps", JList [JDict [("value", JNum 0); ("ownerId", JNum 7);
                                 ("note", JNull); ("count", JStr "12")]]);
         ("empty", JDict [])].


(** One entry of [sleepLevels]. *)
Definition sleep_level (start_gmt end_gmt : string) (level : Q) : json :=
  JDict [("startGMT", JStr start_gmt); ("endGMT", JStr end_gmt);
         ("activityLevel", JNum level)].

(** A night from 22:00 to 23:52 in four stages: 1800 s deep, 3600 s light,
    900 s REM, 300 s awake, and a last stage of 120 s at level 4. *)
Definition sample_sleep_levels : json :=
  JList [ sleep_level "2024-01-01T22:00:00.0" "2024-01-01T22:30:00.0" 0;
          sleep_level "2024-01-01T22:30:00.0" "2024-01-01T23:30:00.0" 1;
          sleep_level "2024-01-01T23:30:00.0" "2024-01-01T23:45:00.0" 2;
          sleep_level "2024-01-01T23:45:00.0" "2024-01-01T23:50:00.0" 3;
          sleep_level "2024-01-01T23:50:00.0" "2024-01-01T23:52:00.0" 4 ].

(** The response of [get_sleep_data] for that night; the daily summary
    reports the three stages as [0] and [awake] seconds awake. *)
Definition sample_sleep (awake : Q) : json :=
  JDict [("dailySleepDTO",
          JDict [("sleepStartTimestampGMT", JNum 1704146400000);
                 ("sleepEndTimestampGMT", JNum 1704153120000);
                 ("sleepTimeSeconds", JNum 6300);
                 ("deepSleepSeconds", JNum 0);
                 ("lightSleepSeconds", JNum 0);
                 ("remSleepSeconds", JNum 0);
                 ("awakeSleepSeconds", JNum awake)]);
         ("sleepLevels", sample_sleep_levels)].

(** The fields of a sleep record the reconciliation decides. *)
Definition stage_fields (entry : option (option json)) : list json :=
  match entry with
  | Some (Some (JDict d)) =>
      List.map (fun k => Py.dict_get k d)
               ["deep_sleep_seconds"; "light_sleep_seconds"; "rem_sleep_seconds";
                "awake_sleep_seconds"; "time_asleep_in_seconds"]
  | _ => []
  end.

(** The stage types of the events of a sleep record. *)
Definition stage_types (entry : option (option json)) : list json :=
  match entry with
  | Some (Some (JDict d)) =>
      match Py.dict_get "stage_events" d with
      | JList events =>
          List.map (fun e => match e with
                             | JDict f => Py.dict_get "stage_type" f
                             | _ => JNull
                             end) events
      | _ => []
      end
  | _ => []
  end.

(** The entries a block appended under one metric. *)
Definition entries_for (metric : string) (entries : list (string * json)) : list json :=
  List.map snd (List.filter (fun me => String.eqb metric (fst me)) entries).

(** Every entry a computation appended satisfies [P]. *)
Definition entries_sat {A} (P : string -> json -> Prop) (w : W A) : Prop :=
  forall k e, In (k, e) (appended w) -> P k e.

(** [e] is a dictionary whose field [field] is the string [d]. *)
Definition dated (field d : string) (e : json) : Prop :=
  exists f, e = JDict f /\ Py.dict_get field f = JStr d.

(** What the blocks of one date may append: entries of requested metrics
    among [keys]; a sleep entry carries the date as [entry_date] and a
    body-battery entry carries it as [date]. *)
Definition day_entry (metric_types : list string) (keys : list string) (d : string)
           (k : string) (e : json) : Prop :=
  want metric_types k = true
  /\ In k keys
  /\ (k = "sleep" -> dated "entry_date" d e)
  /\ (k = "body_battery" -> dated "date" d e).

(** A statement of the loop that, when it does not raise, appends entries
    that satisfy [P] and does nothing else. *)
Definition step_sat (P : string -> json -> Prop) (s : step) : Prop :=
  forall hd hd', s hd = Some hd' ->
                 exists entries, hd' = commit entries hd
                                 /\ forall k e, In (k, e) entries -> P k e.

(** The metrics each statement of the loop body may append to, in the
    order of [date_steps]. *)
Definition date_step_keys : list (list string) :=
  [ summary_metrics; ["hydration"]; ["floors"]; ["fitness_age"]; ["heart_rates"];
    ["sleep"]; ["stress"]; ["respiration"]; ["spo2"]; ["intensity_minutes"];
    ["training_readiness"]; ["training_status"]; ["max_metrics"]; ["hrv"];
    ["endurance_score"]; ["hill_score"]; ["blood_pressure"]; ["body_battery"];
    ["menstrual_data"]; ["menstrual_calendar_data"]; ["body_composition"];
    ["recovery_time"]; ["training_load"; "acute_load"] ].

Definition once_step_keys : list (list string) :=
  [ ["lactate_threshold"]; ["race_predictions"]; ["pregnancy_summary"] ].

(** The body-battery entries of [health_data] are dictionaries, so the
    test that stands outside the [try] cannot raise. *)
Definition bb_dicts (hd : health) : Prop :=
  Forall (fun e => Py.is_dict e = true) (health_get "body_battery" hd).

(** A statement that does not raise on such a [health_data]. *)
Definition step_total (s : step) : Prop :=
  forall hd, bb_dicts hd -> exists hd', s hd = Some hd'.

(** The entry of a category in the response: its cleaned series, unless
    that is empty. *)
Definition published (L : PyLib) (entries : list json) : option json :=
  let v := clean_garmin_data (loads L) (JList entries) in
  if Py.truthy v then Some v else None.

(** The shape of the [data] field of a response: known categories, each
    once, each with a non-empty list. *)
Definition nonempty_series (final : pydict) : Prop :=
  List.NoDup (List.map fst final)
  /\ forall k v, In (k, v) final ->
                 In k ALL_HEALTH_METRICS /\ exists e es, v = JList (e :: es).

(** At most one category, [steps], with at most [n] entries: no key at
    all, or [steps] alone with a non-empty list. *)
Definition steps_only (n : nat) (final : pydict) : Prop :=
  final = []
  \/ exists e es, final = [("steps", JList (e :: es))] /\ (List.length (e :: es) <= n)%nat.

(** The number of category keys in the [data] field of a response. *)
Definition category_count (r : response) : option nat :=
  match r with
  | Ok body =>
      match Py.dict_get "data" body with
      | JDict data => Some (List.length data)
      | _ => None
      end
  | HttpError _ => None
  end.

(** A client whose calls are answered by [answer], from the name of the
    method and its first argument. *)
Definition client_of (answer : string -> string -> option json) : GarminClient :=
  let listed name arg :=
    match answer name arg with Some (JList l) => Some l | _ => None end in
  {| get_lactate_threshold := answer "get_lactate_threshold" "";
     get_race_predictions := answer "get_race_predictions" "";
     get_pregnancy_summary := answer "get_pregnancy_summary" "";
     get_user_summary := answer "get_user_summary";
     get_hydration_data := answer "get_hydration_data";
     get_floors := answer "get_floors";
     get_fitnessage_data := answer "get_fitnessage_data";
     get_heart_rates := answer "get_heart_rates";
     get_sleep_data := answer "get_sleep_data";
     get_stress_data := answer "get_stress_data";
     get_respiration_data := answer "get_respiration_data";
     get_spo2_data := answer "get_spo2_data";
     get_intensity_minutes_data := answer "get_intensity_minutes_data";
     get_training_readiness := answer "get_training_readiness";
     get_training_status := answer "get_training_status";
     get_max_metrics := answer "get_max_metrics";
     query_garmin_graphql := fun _ => answer "query_garmin_graphql" "";
     get_hrv_data := answer "get_hrv_data";
     get_endurance_score := fun a _ => answer "get_endurance_score" a;
     get_hill_score := fun a _ => answer "get_hill_score" a;
     get_blood_pressure := fun a _ => answer "get_blood_pressure" a;
     get_body_battery := fun a _ => answer "get_body_battery" a;
     get_menstrual_data_for_date := answer "get_menstrual_data_for_date";
     get_menstrual_calendar_data := fun a _ => answer "get_menstrual_calendar_data" a;
     get_body_composition := fun a _ => answer "get_body_composition" a;
     get_activities_by_date := fun a _ _ => listed "get_activities_by_date" a;
     get_activity_details := fun id => answer "get_activity_details" (Ref.str id);
     get_activity_splits := fun id => answer "get_activity_splits" (Ref.str id);
     get_activity_weather := fun id => answer "get_activity_weather" (Ref.str id);
     get_activity_hr_in_timezones :=
       fun id => answer "get_activity_hr_in_timezones" (Ref.str id);
     get_activity_exercise_sets :=
       fun id => answer "get_activity_exercise_sets" (Ref.str id);
     get_activity_gear := fun id => answer "get_activity_gear" (Ref.str id);
     get_workouts := listed "get_workouts" "";
     get_workout_by_id := fun id => answer "get_workout_by_id" (Ref.str id) |}.

(** A provider every call to which raises. *)
Definition offline : GarminClient := client_of (fun _ _ => None).

(** A provider that has a daily summary for the first two days of 2024
    and raises on every other call. *)
Definition two_days_of_steps : GarminClient :=
  client_of (fun name arg =>
               if String.eqb name "get_user_summary" then
                 if String.eqb arg "2024-01-01" then Some (JDict [("totalSteps", JNum 0)])
                 else if String.eqb arg "2024-01-02"
                      then Some (JDict [("totalSteps", JNum 9000)])
                      else None
               else None).

(** The response of [get_sleep_data] for a night with a blood-oxygen
    average. *)
Definition night_with_spo2 : json :=
  JDict [("dailySleepDTO",
          JDict [("sleepStartTimestampGMT", JNum 1704146400000);
                 ("sleepEndTimestampGMT", JNum 1704153120000);
                 ("sleepTimeSeconds", JNum 6720);
                 ("averageSpO2Value", JNum 95)])].

(** A provider whose SpO2 endpoint answers with an empty document and
    whose sleep endpoint answers with that night when [sleep_up], and
    raises otherwise; every other call raises. *)
Definition spo2_in_sleep (sleep_up : bool) : GarminClient :=
  client_of (fun name arg =>
               if String.eqb name "get_spo2_data" then Some (JDict [])
               else if String.eqb name "get_sleep_data" then
                      if sleep_up then Some night_with_spo2 else None
                    else None).






(** A request for the activities of the first day of 2024. *)
Definition activities_request : ActivitiesAndWorkoutsRequest :=
  {| aw_user_id := "u"; aw_tokens := "t";
     aw_start_date := "2024-01-01"; aw_end_date := "2024-01-01";
     aw_activity_type := JNull |}.

(** The response of [get_stress_data] for a day with two samples, of
    stress [10] and [11]. *)
Definition two_stress_samples : json :=
  JDict [("stressValuesArray",
          JList [JList [JNum 1704146400000; JNum 10];
                 JList [JNum 1704146460000; JNum 11]])].

(** The mood derived in a stress entry. *)
Definition derived_mood (entry : option (option json)) : json :=
  match entry with
  | Some (Some (JDict d)) => Py.dict_get "derived_mood_value" d
  | _ => JNull
  end.

(** A request for the steps of the first three days of 2024. *)
Definition steps_request : HealthAndWellnessRequest :=
  {| hw_user_id := "u"; hw_tokens := "t";
     hw_start_date := "2024-01-01"; hw_end_date := "2024-01-03";
     hw_metric_types := ["steps"] |}.

(** What one date adds to a category when its loop body runs on its own,
    and what the metrics fetched once add. *)
Definition day_fetch (L : PyLib) (garmin : GarminClient) (metric_types : list string)
           (d c : string) : list json :=
  match fetch_date L garmin metric_types d health_init with
  | Some hd => health_get c hd
  | None => []
  end.

Definition once_fetch (garmin : GarminClient) (metric_types : list string)
           (start_date c : string) : list json :=
  match fetch_once garmin metric_types start_date health_init with
  | Some hd => health_get c hd
  | None => []
  end.

(** The series of a category before cleaning: what was fetched once, then
    what each date added, in the order of the dates. *)
Definition collected (L : PyLib) (garmin : GarminClient) (metric_types : list string)
           (start_date : string) (dates : list string) (c : string) : list json :=
  once_fetch garmin metric_types start_date c
  ++ concat (List.map (fun d => day_fetch L garmin metric_types d c) dates).

(** [health_data] at the end of the loop, before the cleaning. *)
Definition gathered (L : PyLib) (garmin : GarminClient) (metric_types : list string)
           (start_date : string) (dates : list string) : option health :=
  hd0 ← fetch_once garmin metric_types start_date health_init;
  fetch_dates L garmin metric_types dates hd0.

(** [health_data] at the end of the loop: every category with its series. *)
Definition collected_data (L : PyLib) (garmin : GarminClient) (metric_types : list string)
           (start_date : string) (dates : list string) : json :=
  JDict (List.map (fun c => (c, JList (collected L garmin metric_types start_date dates c)))
                  ALL_HEALTH_METRICS).

(** [e] is a dictionary whose field [field] is a date other than [d]. *)
Definition other_date (field d : string) (e : json) : Prop :=
  exists f d', e = JDict f /\ Py.dict_get field f = JStr d' /\ d' <> d.

(** The sleep and body-battery entries of [hd] belong to other dates than
    [d]. *)
Definition past_of (d : string) (hd : health) : Prop :=
  Forall (other_date "entry_date" d) (health_get "sleep" hd)
  /\ Forall (other_date "date" d) (health_get "body_battery" hd).

(** [hdA] is [old] followed, metric by metric, by [hdB]. *)
Definition extends (old hdA hdB : health) : Prop :=
  List.map fst hdA = ALL_HEALTH_METRICS
  /\ List.map fst hdB = ALL_HEALTH_METRICS
  /\ bb_dicts hdB
  /\ forall k, health_get k hdA = health_get k old ++ health_get k hdB.

(** Two statements that keep the relation [R] between their states, and
    do not raise. *)
Definition step_sim (R : health -> health -> Prop) (sA sB : step) : Prop :=
  forall hdA hdB, R hdA hdB ->
                  exists hdA' hdB', sA hdA = Some hdA' /\ sB hdB = Some hdB'
                                    /\ R hdA' hdB'.

(** A call to the provider for one date. *)
Definition call : Type := GarminClient -> string -> option json.

(** The calls a category's entries of a date are computed from.  SpO2
    falls back on the sleep entry of the date, so the sleep call feeds it
    too. *)
Definition fetch_table : list (call * list string) :=
  [ (get_user_summary, summary_metrics);
    (get_hydration_data, ["hydration"]);
    (get_floors, ["floors"]);
    (get_fitnessage_data, ["fitness_age"]);
    (get_heart_rates, ["heart_rates"]);
    (get_sleep_data, ["sleep"; "spo2"]);
    (get_stress_data, ["stress"]);
    (get_respiration_data, ["respiration"]);
    (get_spo2_data, ["spo2"]);
    (get_intensity_minutes_data, ["intensity_minutes"]);
    (get_training_readiness, ["training_readiness"; "recovery_time"; "acute_load"]);
    (get_training_status, ["training_status"; "training_load"; "acute_load"]);
    (get_max_metrics, ["max_metrics"]);
    ((fun g d => query_garmin_graphql g (JDict [("query", JStr (vo2_graphql_query d))])),
     ["max_metrics"]);
    (get_hrv_data, ["hrv"]);
    ((fun g d => get_endurance_score g d d), ["endurance_score"]);
    ((fun g d => get_hill_score g d d), ["hill_score"]);
    ((fun g d => get_blood_pressure g d d), ["blood_pressure"]);
    ((fun g d => get_body_battery g d d), ["body_battery"]);
    (get_menstrual_data_for_date, ["menstrual_data"]);
    ((fun g d => get_menstrual_calendar_data g d d), ["menstrual_calendar_data"]);
    ((fun g d => get_body_composition g d d), ["body_composition"]) ].

(** Two providers answer alike every call that feeds category [c] on date
    [d]. *)
Definition same_fetches (c d : string) (g g' : GarminClient) : Prop :=
  forall (f : call) cats, In (f, cats) fetch_table -> In c cats -> f g d = f g' d.

(** The first call of the block of each category, for the categories with
    one block. *)
Definition first_fetch : list (string * call) :=
  [ ("steps", get_user_summary); ("total_distance", get_user_summary);
    ("highly_active_seconds", get_user_summary);
    ("active_seconds", get_user_summary);
    ("sedentary_seconds", get_user_summary);
    ("hydration", get_hydration_data); ("floors", get_floors);
    ("fitness_age", get_fitnessage_data); ("heart_rates", get_heart_rates);
    ("sleep", get_sleep_data); ("stress", get_stress_data);
    ("respiration", get_respiration_data); ("spo2", get_spo2_data);
    ("intensity_minutes", get_intensity_minutes_data);
    ("training_readiness", get_training_readiness);
    ("training_status", get_training_status);
    ("max_metrics", get_max_metrics); ("hrv", get_hrv_data);
    ("endurance_score", fun g d => get_endurance_score g d d);
    ("hill_score", fun g d => get_hill_score g d d);
    ("blood_pressure", fun g d => get_blood_pressure g d d);
    ("menstrual_data", get_menstrual_data_for_date);
    ("menstrual_calendar_data", fun g d => get_menstrual_calendar_data g d d);
    ("body_composition", fun g d => get_body_composition g d d);
    ("recovery_time", get_training_readiness);
    ("training_load", get_training_status) ].

(** The fetch of category [c] for date [d] raises.  Body battery has two
    sources, the daily summary and its own endpoint, and is lost when both
    raise; acute load needs two calls and is lost when either raises. *)
Definition fetch_raises (g : GarminClient) (c d : string) : Prop :=
  if String.eqb c "body_battery" then
    get_user_summary g d = None /\ get_body_battery g d d = None
  else if String.eqb c "acute_load" then
    get_training_status g d = None \/ get_training_readiness g d = None
  else exists f : call, In (c, f) first_fetch /\ f g d = None.

(** The lists of [health_data] a category's entries are read from. *)
Definition watched (c : string) : list string :=
  if String.eqb c "spo2" then ["spo2"; "sleep"] else [c].

(** Two states of [health_data] with the same lists for category [c]. *)
Definition alike (c : string) (hdA hdB : health) : Prop :=
  List.map fst hdA = ALL_HEALTH_METRICS
  /\ List.map fst hdB = ALL_HEALTH_METRICS
  /\ bb_dicts hdA /\ bb_dicts hdB
  /\ forall k, In k (watched c) -> health_get k hdA = health_get k hdB.

(** The values the body of the cleaner recurses on. *)
Definition child_of (json_loads : string -> option json) (y x : json) : Prop :=
  match x with
  | JList l => In y l
  | JDict d => exists k, In (k, y) d
  | JStr s => json_loads (undouble s) = Some y
  | _ => False
  end.

(** Entries the loop keeps. *)
Definition kept (f : json -> json) (kv : string * json) : Prop :=
  excluded_key (fst kv) = false /\ snd kv <> JNull /\ f (snd kv) <> JNull.


(* ================================================================== *)
(** * Further definitions: the loop of [get_dates_in_range] *)
(* ================================================================== *)

Section DatesLoop.

Variable date_fromisoformat : string -> option Z.
Variable date_isoformat : Z -> string.

(** The [while] loop of [get_dates_in_range], one unit of fuel for each
    evaluation of its test: [None] when the fuel runs out, [Some None] for
    the [OverflowError] of [current_date += delta] at [date.max]. *)
Fixpoint dates_loop (fuel : nat) (current_date end_date : Z) (dates : list string)
  : option (option (list string)) :=
  match fuel with
  | O => None
  | S fuel' =>
      if (current_date <=? end_date)%Z then
        let dates' := dates ++ [date_isoformat current_date] in
        if (current_date =? DATE_MAX_ORDINAL)%Z then Some None
        else dates_loop fuel' (current_date + 1) end_date dates'
      else Some (Some dates)
  end.

(** [get_dates_in_range], statement by statement. *)
Definition get_dates_in_range_loop (fuel : nat) (start_date_str end_date_str : string)
  : option (option (list string)) :=
  match date_fromisoformat start_date_str with
  | None => Some None
  | Some start_date =>
      match date_fromisoformat end_date_str with
      | None => Some None
      | Some end_date => dates_loop fuel start_date end_date []
      end
  end.

End DatesLoop.

(* ================================================================== *)
(** * Further definitions: redeeming handles *)
(* ================================================================== *)

(** The request is a resume that names the handle [h]. *)
Definition names_handle (h : string) (r : auth_request) : bool :=
  match r with
  | ResumeRequest _ data => Py.eq_str (Py.dict_get "client_state" data) h
  | LoginRequest _ _ _ _ => false
  end.

(** The request is a login that stores a challenge under the handle [h]. *)
Definition issues_handle (h : string) (r : auth_request) : bool :=
  match r with
  | LoginRequest (LoginNeedsMfa _) mfa_id _ _ => String.eqb mfa_id h
  | _ => false
  end.

Definition is_success (a : auth_response) : bool :=
  match a with AuthSuccess _ => true | _ => false end.

(** How many resumes that name [h] were answered with tokens. *)
Fixpoint redeemed (h : string) (rs : list auth_request) (answers : list auth_response)
  : nat :=
  match rs, answers with
  | r :: rs', a :: answers' =>
      (if names_handle h r && is_success a then 1 else 0) + redeemed h rs' answers'
  | _, _ => 0
  end.

(** How many logins stored a challenge under [h]. *)
Definition issued (h : string) (rs : list auth_request) : nat :=
  List.length (List.filter (issues_handle h) rs).

(** [1] when the store holds the handle, else [0]. *)
Definition pending (h : string) (store : gmap string mfa_item) : nat :=
  match store !! h with Some _ => 1 | None => 0 end.

(** The status code of an answer, [200] for the two regular ones. *)
Definition status_of (a : auth_response) : Z :=
  match a with
  | AuthError status_code _ => status_code
  | _ => 200
  end.

(* ================================================================== *)
(** * Further definitions: the shape of cleaned payloads *)
(* ================================================================== *)

Section CleanForm.

Variable json_loads : string -> option json.

(** A payload the cleaner has nothing to do on: no [None] inside, no
    excluded key, no empty dictionary, no string that decodes. *)
Fixpoint clean_form (x : json) : Prop :=
  match x with
  | JNull => False
  | JBool _ | JNum _ => True
  | JStr s => json_loads (undouble s) = None
  | JList l => fold_right (fun y rest => clean_form y /\ rest) True l
  | JDict d =>
      d <> [] /\ List.NoDup (List.map fst d)
      /\ fold_right (fun kv rest =>
                       (excluded_key (fst kv) = false /\ clean_form (snd kv)) /\ rest)
                    True d
  end.

End CleanForm.

(* ================================================================== *)
(** * Further definitions: conversions and mood on whole numbers *)
(* ================================================================== *)

(** An activity [convert_activities_units] accepts: a dictionary whose four
    named fields are missing, [None] or numbers. *)
Definition convertible_activity (activity : json) : Prop :=
  exists d, activity = JDict d
            /\ forall k, In k (List.map fst activity_unit_fields) ->
                         convertible (Py.dict_get k d).

(** The band of a whole-number stress level from [0] to [100]. *)
Definition whole_stress_mood (z : Z) : Q * string :=
  if (z <=? 10)%Z then (95%Q, "Excited")
  else if (z <=? 25)%Z then (85%Q, "Happy")
  else if (z <=? 35)%Z then (75%Q, "Confident")
  else if (z <=? 50)%Z then (65%Q, "Calm")
  else if (z <=? 60)%Z then (55%Q, "Thoughtful")
  else if (z <=? 75)%Z then (45%Q, "Neutral")
  else if (z <=? 85)%Z then (35%Q, "Worried")
  else if (z <=? 95)%Z then (25%Q, "Angry")
  else (15%Q, "Sad/Tired").

(* ================================================================== *)
(** * Further definitions: rows of readings *)
(* ================================================================== *)

(** A row [[timestamp, value]] of [heartRateValues] or
    [stressValuesArray]. *)
Definition reading_row (r : Q * json) : json := JList [JNum (fst r); snd r].

(** The time of a row as the blocks print it. *)
Definition reading_time (L : PyLib) (r : Q * json) : json :=
  JStr (match fromtimestamp L (fst r / 1000) with
        | Some t => isoformat L t
        | None => ""
        end).

(** The sample the heart-rate block makes of a row. *)
Definition heart_rate_sample (L : PyLib) (r : Q * json) : json :=
  JDict [("time", reading_time L r); ("data", snd r)].

(** A stress value the block counts: a number that is not negative. *)
Definition valid_stress (v : json) : Prop :=
  exists q, Py.as_num v = Some q /\ (0 <= q)%Q.

(** The five stage types of a sleep event. *)
Definition stage_type_names : list string :=
  ["deep"; "light"; "rem"; "awake"; "unknown"].

(** The field [k] of an entry. *)
Definition field_of (e : json) (k : string) : json :=
  match e with JDict f => Py.dict_get k f | _ => JNull end.

(** A sleep event whose stage type is one of the five. *)
Definition typed_event (event : json) : Prop :=
  exists ty, field_of event "stage_type" = JStr ty /\ In ty stage_type_names.

(* ================================================================== *)
(** * Further definitions: activities and workouts *)
(* ================================================================== *)

(** The values of the metrics named [name], in the order of the list. *)
Definition metric_values (name : string) (metrics : list pydict) : list json :=
  List.map (Py.dict_get "value")
           (List.filter (fun m => Py.eq_str (Py.dict_get "metricName" m) name) metrics).

(** What the loop over the workouts makes of a listed workout. *)
Definition workout_record (garmin : GarminClient) (workout record : json) : Prop :=
  exists workout_id,
    Py.item workout "workoutId" = Some workout_id
    /\ record = match get_workout_by_id garmin workout_id with
                | Some workout_details => workout_details
                | None => workout
                end.

(* ================================================================== *)
(** * The local copies of the answers ([mock_data]) *)
(* ================================================================== *)

Definition MOCK_DATA_DIR : string := "mock_data".

(** The files of the service, by path.  A file is identified with the
    document [json.load] reads from it; for a file written by [json.dump]
    that is the document written. *)
Abbreviation files := (gmap string json).

(** [os.path.join(MOCK_DATA_DIR, filename)] *)
Definition local_path (filename : string) : string :=
  MOCK_DATA_DIR +:+ "/" +:+ filename.

(** [_save_to_local_file(filename, data)] *)
Definition _save_to_local_file (filename : string) (data : json) (fs : files) : files :=
  <[local_path filename := data]> fs.

(** [_load_from_local_file(filename)]: [None] when the file is not there. *)
Definition _load_from_local_file (filename : string) (fs : files) : json :=
  match fs !! local_path filename with
  | Some data => data
  | None => JNull
  end.

(** What a route answers: a document, or an [HTTPException]. *)
Inductive served :=
| Served (document : json)
| Refused (status_code : Z).

(** The frame the two data routes share: in the [local] mode the copy is
    returned, or a 404 raised before the [try]; in the other modes the
    answer fetched from the provider is saved, then returned.
    [GARMIN_DATA_SOURCE] is the lowercased setting. *)
Definition with_local_copy (GARMIN_DATA_SOURCE filename : string) (fetched : response)
           (fs : files) : served * files :=
  if String.eqb GARMIN_DATA_SOURCE "local" then
    let local_data := _load_from_local_file filename fs in
    if Py.truthy local_data then (Served local_data, fs) else (Refused 404, fs)
  else
    match fetched with
    | Ok body => (Served (JDict body), _save_to_local_file filename (JDict body) fs)
    | HttpError status_code => (Refused status_code, fs)
    end.

Definition health_filename : string := "health_and_wellness_data.json".

Definition activities_filename : string := "activities_and_workouts_data.json".

(** The route [/data/health_and_wellness] in either mode. *)
Definition health_and_wellness_route (GARMIN_DATA_SOURCE : string) (L : PyLib)
           (login : string -> option GarminClient)
           (request_data : HealthAndWellnessRequest) : files -> served * files :=
  with_local_copy GARMIN_DATA_SOURCE health_filename
                  (get_health_and_wellness L login request_data).

(** The route [/data/activities_and_workouts] in either mode. *)
Definition activities_and_workouts_route (GARMIN_DATA_SOURCE : string) (L : PyLib)
           (login : string -> option GarminClient)
           (request_data : ActivitiesAndWorkoutsRequest) : files -> served * files :=
  with_local_copy GARMIN_DATA_SOURCE activities_filename
                  (get_activities_and_workouts L login request_data).

(* ================================================================== *)
(** * The steps series of a request for [steps] alone *)
(* ================================================================== *)

(** What the daily summary of a date adds to [steps] when [steps] is
    requested: one entry with the date and [totalSteps] when the summary
    is a non-empty dict, nothing otherwise (the call raised, or the
    summary is empty). *)
Definition steps_entry (garmin : GarminClient) (d : string) : list json :=
  match get_user_summary garmin d with
  | Some (JDict ((_ :: _) as summary)) =>
      [JDict [("date", JStr d); ("value", Py.dict_get "totalSteps" summary)]]
  | _ => []
  end.

(** The entries of the dates, in the order of the dates. *)
Definition steps_entries (garmin : GarminClient) (dates : list string) : list json :=
  concat (List.map (steps_entry garmin) dates).

(** A steps entry after the cleaning: the date, and the value unless it
    is cleaned away. *)
Definition cleaned_steps_entry (L : PyLib) (d : string) (value : json) : json :=
  let cleaned_value := clean_garmin_data (loads L) value in
  JDict (("date", JStr d)
         :: if Py.is_none cleaned_value then [] else [("value", cleaned_value)]).

(** An integer literal of 4301 digits, one more than [json.loads] reads. *)
Definition long_integer_text : string :=
  string_of_list_ascii (repeat "1"%char 4301).

(** A provider whose daily summary gives the steps of every date as that
    text, and that raises on every other call. *)
Definition unreadable_steps : GarminClient :=
  client_of (fun name _ =>
               if String.eqb name "get_user_summary"
               then Some (JDict [("totalSteps", JStr long_integer_text)])
               else None).
(* ================================================================== *)
(** * Facts about dictionaries *)
(* ================================================================== *)

Lemma dict_find_set_same k v d : Py.dict_find k (Py.dict_set k v d) = Some v.
Proof.
  induction d as [|[k' v'] d IH]; simpl.
  - now rewrite String.eqb_refl.
  - destruct (String.eqb k k') eqn:E; simpl; rewrite E; auto.
Qed.

Lemma dict_find_set_other k k' v d :
  k <> k' -> Py.dict_find k (Py.dict_set k' v d) = Py.dict_find k d.
Proof.
  intros Hne. induction d as [|[k0 v0] d IH]; simpl.
  - destruct (String.eqb k k') eqn:E; auto. apply String.eqb_eq in E. congruence.
  - destruct (String.eqb k' k0) eqn:E1; simpl.
    + apply String.eqb_eq in E1. subst k0.
      destruct (String.eqb k k') eqn:E2; auto.
      apply String.eqb_eq in E2. congruence.
    + destruct (String.eqb k k0); auto.
Qed.

Lemma dict_find_none_keys k d :
  Py.dict_find k d = None <-> ~ In k (List.map fst d).
Proof.
  induction d as [|[k' v'] d IH]; simpl.
  - tauto.
  - destruct (String.eqb k k') eqn:E.
    + apply String.eqb_eq in E. subst. split; [discriminate | tauto].
    + apply String.eqb_neq in E. rewrite IH. split; intros H.
      * intros [H1 | H1]; [congruence | tauto].
      * tauto.
Qed.

Lemma dict_find_in k v d : Py.dict_find k d = Some v -> In (k, v) d.
Proof.
  induction d as [|[k' v'] d IH]; simpl; [discriminate|].
  destruct (String.eqb k k') eqn:E.
  - apply String.eqb_eq in E. intros [= ->]. subst. now left.
  - intros H. right. auto.
Qed.

Lemma dict_find_nodup k v d :
  List.NoDup (List.map fst d) -> In (k, v) d -> Py.dict_find k d = Some v.
Proof.
  induction d as [|[k' v'] d IH]; simpl; [tauto|].
  intros Hnd [H | H].
  - injection H as -> ->. now rewrite String.eqb_refl.
  - inversion Hnd as [|? ? Hnotin Hnd']; subst.
    destruct (String.eqb k k') eqn:E.
    + apply String.eqb_eq in E. subst k'. exfalso. apply Hnotin.
      change k with (fst (k, v)). now apply in_map.
    + auto.
Qed.

Lemma dict_set_fresh k v d :
  ~ In k (List.map fst d) -> Py.dict_set k v d = d ++ [(k, v)].
Proof.
  induction d as [|[k' v'] d IH]; simpl; intros H; [reflexivity|].
  destruct (String.eqb k k') eqn:E.
  - apply String.eqb_eq in E. subst. tauto.
  - f_equal. apply IH. tauto.
Qed.

Lemma dict_set_keys k v d :
  List.map fst (Py.dict_set k v d)
  = if Py.dict_has k d then List.map fst d else List.map fst d ++ [k].
Proof.
  unfold Py.dict_has.
  induction d as [|[k' v'] d IH]; simpl; [reflexivity|].
  destruct (String.eqb k k') eqn:E; simpl; [reflexivity|].
  rewrite IH. now destruct (Py.dict_find k d).
Qed.

Lemma dict_set_nodup k v d :
  List.NoDup (List.map fst d) -> List.NoDup (List.map fst (Py.dict_set k v d)).
Proof.
  intros Hnd. rewrite dict_set_keys. unfold Py.dict_has.
  destruct (Py.dict_find k d) eqn:E; [assumption|].
  apply dict_find_none_keys in E.
  apply List.NoDup_app; [assumption | repeat constructor; simpl; tauto |].
  intros x Hx [<- | []]. tauto.
Qed.

Lemma dict_set_in k v d k' v' :
  In (k', v') (Py.dict_set k v d) -> (k', v') = (k, v) \/ In (k', v') d.
Proof.
  induction d as [|[k0 v0] d IH]; simpl.
  - intros [H | []]. now left.
  - destruct (String.eqb k k0) eqn:E; simpl.
    + apply String.eqb_eq in E. subst k0. intros [H | H]; [now left | tauto].
    + intros [H | H]; [tauto|]. destruct (IH H); tauto.
Qed.

(* ================================================================== *)
(** * Facts about the cleaner *)
(* ================================================================== *)

Lemma list_sum_in {A} (f : A -> nat) x l : In x l -> f x <= list_sum (List.map f l).
Proof.
  induction l as [|y l IH]; simpl; [tauto|].
  intros [-> | H]; [lia|]. specialize (IH H). lia.
Qed.

Lemma undouble_length_aux n :
  forall s, String.length s <= n -> String.length (undouble s) <= String.length s.
Proof.
  induction n as [|n IH]; intros s Hs.
  - destruct s; simpl in *; [lia | lia].
  - destruct s as [|a [|b rest]]; simpl in *; try lia.
    destruct (Ascii.eqb a dquote && Ascii.eqb b dquote); simpl.
    + assert (String.length (undouble rest) <= String.length rest) by (apply IH; lia).
      lia.
    + assert (String.length (undouble (String b rest)) <= String.length (String b rest))
        by (apply IH; simpl; lia).
      simpl in *. lia.
Qed.

Lemma undouble_length s : String.length (undouble s) <= String.length s.
Proof. now apply (undouble_length_aux (String.length s)). Qed.

Lemma fold_left_ext_in {A B} (f g : A -> B -> A) l :
  (forall a x, In x l -> f a x = g a x) ->
  forall a, fold_left f l a = fold_left g l a.
Proof.
  induction l as [|x l IH]; simpl; intros H a; [reflexivity|].
  rewrite H by now left. apply IH. intros; apply H; now right.
Qed.

Arguments clean_item : simpl never.

Section CleanerFacts.

Variable json_loads : string -> option json.

(** What [json.loads] decodes is no larger than its text. *)
Hypothesis loads_size :
  forall t v, json_loads t = Some v -> jsize v <= String.length t.

Abbreviation clean := (clean_garmin_data json_loads).

Abbreviation child := (child_of json_loads).

Lemma child_size y x : child y x -> jsize y < jsize x.
Proof.
  destruct x; simpl; try tauto.
  - intros H. apply loads_size in H. pose proof (undouble_length s). lia.
  - intros H. apply (list_sum_in jsize) in H. lia.
  - intros [k H]. apply (list_sum_in (fun kv => jsize (snd kv))) in H. simpl in H. lia.
Qed.

Lemma clean_body_ext f g x :
  (forall y, child y x -> f y = g y) ->
  clean_body json_loads f x = clean_body json_loads g x.
Proof.
  intros H. destruct x; simpl; try reflexivity.
  - destruct (json_loads (undouble s)) eqn:E; [|reflexivity]. now apply H.
  - f_equal. f_equal. apply map_ext_in. intros; now apply H.
  - assert (Hf : fold_left (clean_item f) d [] = fold_left (clean_item g) d []).
    { apply fold_left_ext_in. intros a [k v] Hin. unfold clean_item.
      rewrite (H v) by (simpl; eauto). reflexivity. }
    now rewrite Hf.
Qed.

Lemma clean_fuel_stable n :
  forall m x, jsize x < n -> jsize x < m ->
              clean_fuel json_loads n x = clean_fuel json_loads m x.
Proof.
  induction n as [|n IH]; intros m x Hn Hm; [lia|].
  destruct m as [|m]; [lia|]. simpl.
  apply clean_body_ext. intros y Hy. apply child_size in Hy.
  apply IH; lia.
Qed.

(** The defining equation of the cleaner. *)
Lemma clean_unfold x : clean x = clean_body json_loads clean x.
Proof.
  unfold clean_garmin_data at 1. simpl.
  apply clean_body_ext. intros y Hy. apply child_size in Hy.
  unfold clean_garmin_data. apply clean_fuel_stable; lia.
Qed.

Lemma clean_scalar x :
  match x with JNull | JBool _ | JNum _ => True | _ => False end -> clean x = x.
Proof. rewrite clean_unfold. destruct x; simpl; tauto. Qed.

Lemma clean_list l :
  clean (JList l)
  = JList (List.filter (fun item => negb (Py.is_none item)) (List.map clean l)).
Proof. now rewrite clean_unfold. Qed.

Lemma clean_dict d :
  clean (JDict d)
  = let cleaned_dict := fold_left (clean_item clean) d [] in
    match cleaned_dict with [] => JNull | _ => JDict cleaned_dict end.
Proof. rewrite clean_unfold. simpl. now destruct (fold_left _ d []). Qed.

Lemma clean_str s :
  clean (JStr s)
  = match json_loads (undouble s) with Some p => clean p | None => JStr s end.
Proof. now rewrite clean_unfold. Qed.

(** ** The dictionary loop *)

Lemma is_none_false x : Py.is_none x = false <-> x <> JNull.
Proof. destruct x; simpl; split; congruence. Qed.

Lemma clean_item_kept f acc k v :
  kept f (k, v) -> clean_item f acc (k, v) = Py.dict_set k (f v) acc.
Proof.
  intros (Hk & Hv & Hf). simpl in *. unfold clean_item.
  apply is_none_false in Hv, Hf. now rewrite Hv, Hk, Hf.
Qed.

Lemma clean_item_cases f acc k v :
  (kept f (k, v) /\ clean_item f acc (k, v) = Py.dict_set k (f v) acc)
  \/ (~ kept f (k, v) /\ clean_item f acc (k, v) = acc).
Proof.
  unfold clean_item, kept. simpl.
  destruct (Py.is_none v) eqn:Ev; simpl.
  { right. split; [|reflexivity]. destruct v; try discriminate. tauto. }
  destruct (excluded_key k) eqn:Ek; simpl.
  { right. split; [|reflexivity]. intros (? & _). discriminate. }
  destruct (Py.is_none (f v)) eqn:Ef.
  { right. split; [|reflexivity]. destruct (f v); try discriminate. tauto. }
  left. apply is_none_false in Ev, Ef. tauto.
Qed.

(** Every entry of the result is the image of a kept entry, or was there
    before; the keys stay distinct. *)
Lemma clean_loop_entries f items :
  forall acc k v,
    In (k, v) (fold_left (clean_item f) items acc) ->
    In (k, v) acc \/ exists v0, In (k, v0) items /\ kept f (k, v0) /\ v = f v0.
Proof.
  induction items as [|[k0 v0] items IH]; simpl; intros acc k v H; [tauto|].
  apply IH in H. destruct H as [H | (v1 & H1 & H2 & H3)].
  - destruct (clean_item_cases f acc k0 v0) as [[Hk E] | [_ E]]; rewrite E in H.
    + apply dict_set_in in H. destruct H as [H | H]; [|tauto].
      injection H as -> ->. right. exists v0. tauto.
    + tauto.
  - right. exists v1. tauto.
Qed.

Lemma clean_loop_nodup f items :
  forall acc, List.NoDup (List.map fst acc) ->
              List.NoDup (List.map fst (fold_left (clean_item f) items acc)).
Proof.
  induction items as [|[k0 v0] items IH]; simpl; intros acc H; [assumption|].
  apply IH.
  destruct (clean_item_cases f acc k0 v0) as [[_ E] | [_ E]]; rewrite E; auto.
  now apply dict_set_nodup.
Qed.

(** The loop leaves the binding of a key it does not meet. *)
Lemma clean_loop_other f k items :
  ~ In k (List.map fst items) ->
  forall acc, Py.dict_find k (fold_left (clean_item f) items acc) = Py.dict_find k acc.
Proof.
  induction items as [|[k0 v0] items IH]; simpl; intros Hk acc; [reflexivity|].
  rewrite IH by tauto.
  destruct (clean_item_cases f acc k0 v0) as [[_ E] | [_ E]]; rewrite E; auto.
  apply dict_find_set_other. intros ->. tauto.
Qed.

(** A kept entry of a dictionary is bound to its image. *)
Lemma clean_loop_find f k x items :
  List.NoDup (List.map fst items) -> In (k, x) items -> kept f (k, x) ->
  forall acc, Py.dict_find k (fold_left (clean_item f) items acc) = Some (f x).
Proof.
  induction items as [|[k0 v0] items IH]; simpl; intros Hnd Hin Hk acc; [tauto|].
  inversion Hnd as [|? ? Hnotin Hnd']; subst.
  destruct Hin as [Hin | Hin].
  - injection Hin as -> ->.
    rewrite clean_loop_other by assumption.
    rewrite clean_item_kept by assumption. apply dict_find_set_same.
  - now apply IH.
Qed.

(** On a dictionary whose entries are all kept and fixed, the loop
    rebuilds the dictionary. *)
Lemma clean_loop_rebuild f items :
  forall acc,
    List.NoDup (List.map fst (acc ++ items)) ->
    (forall k v, In (k, v) items -> kept f (k, v) /\ f v = v) ->
    fold_left (clean_item f) items acc = acc ++ items.
Proof.
  induction items as [|[k0 v0] items IH]; simpl; intros acc Hnd Hall.
  - now rewrite app_nil_r.
  - destruct (Hall k0 v0) as [Hk Hfix]; [now left|].
    rewrite clean_item_kept by assumption. rewrite Hfix.
    rewrite dict_set_fresh.
    + rewrite IH.
      * now rewrite <- app_assoc.
      * now rewrite <- app_assoc.
      * intros; apply Hall; now right.
    + rewrite map_app in Hnd. simpl in Hnd.
      apply List.NoDup_remove_2 in Hnd. intros Hin. apply Hnd.
      apply in_or_app. now left.
Qed.

(** ** Idempotence *)

Lemma clean_idempotent_below n :
  forall x, jsize x < n -> clean (clean x) = clean x.
Proof.
  induction n as [|n IH]; intros x Hx; [lia|].
  destruct x.
  - reflexivity.
  - reflexivity.
  - reflexivity.
  - (* a string: either decoded and cleaned, or returned as it is *)
    rewrite (clean_str s). destruct (json_loads (undouble s)) eqn:E.
    + apply IH. assert (child j (JStr s)) by exact E.
      apply child_size in H. lia.
    + rewrite (clean_str s), E. reflexivity.
  - (* a list *)
    rewrite (clean_list l), clean_list. f_equal.
    set (keep := fun item => negb (Py.is_none item)).
    assert (Hmap : List.map clean (List.filter keep (List.map clean l))
                   = List.filter keep (List.map clean l)).
    { rewrite <- (map_id (List.filter keep (List.map clean l))) at 2.
      apply map_ext_in. intros y Hy. apply filter_In in Hy. destruct Hy as [Hy _].
      apply in_map_iff in Hy. destruct Hy as (x0 & <- & Hx0).
      apply IH. apply (list_sum_in jsize) in Hx0. simpl in Hx. lia. }
    rewrite Hmap. clear Hmap.
    induction (List.map clean l) as [|y ys IHys]; simpl; [reflexivity|].
    destruct (keep y) eqn:Ey; simpl; [rewrite Ey; f_equal|]; exact IHys.
  - (* a dictionary *)
    rewrite (clean_dict d). cbv zeta.
    destruct (fold_left (clean_item clean) d []) as [|e es] eqn:E; [reflexivity|].
    rewrite clean_dict. cbv zeta.
    rewrite (clean_loop_rebuild clean (e :: es) []).
    + reflexivity.
    + change ([] ++ e :: es) with (e :: es). rewrite <- E.
      apply clean_loop_nodup. constructor.
    + intros k v Hin. rewrite <- E in Hin.
      apply clean_loop_entries in Hin. destruct Hin as [[] | (v0 & Hv0 & Hk & ->)].
      assert (Hfix : clean (clean v0) = clean v0).
      { apply IH. apply (list_sum_in (fun kv => jsize (snd kv))) in Hv0.
        simpl in *. lia. }
      destruct Hk as (Hk1 & Hk2 & Hk3). simpl in *.
      split; [|exact Hfix]. unfold kept. simpl. rewrite Hfix. tauto.
Qed.

(** ** Zero *)

Lemma eq_zero_scalar z :
  Py.eq_zero z = true ->
  match z with JNull | JBool _ | JNum _ => True | _ => False end.
Proof. destruct z; simpl; try discriminate; tauto. Qed.

Lemma zero_at_not_null z path x :
  Py.eq_zero z = true -> zero_at z path x -> x <> JNull.
Proof. intros Hz H. destruct H; try discriminate. intros ->. discriminate. Qed.

Lemma clean_zero_at z path x :
  Py.eq_zero z = true -> zero_at z path x -> zero_at z path (clean x).
Proof.
  intros Hz H. induction H as [| l x path Hin H IH | d k x path Hnd Hin Hk H IH].
  - rewrite clean_scalar by now apply eq_zero_scalar. constructor.
  - rewrite clean_list. apply zero_in_list with (x := clean x); [|exact IH].
    apply filter_In. split; [now apply in_map|].
    apply negb_true_iff, is_none_false. now apply zero_at_not_null in IH.
  - assert (Hkept : kept clean (k, x)).
    { repeat split; simpl; auto.
      - eapply zero_at_not_null; eauto.
      - eapply zero_at_not_null; eauto. }
    pose proof (clean_loop_find clean k x d Hnd Hin Hkept []) as Hfind.
    rewrite clean_dict. cbv zeta.
    destruct (fold_left (clean_item clean) d []) as [|e es] eqn:E; [discriminate|].
    apply zero_in_dict with (x := clean x); auto.
    + rewrite <- E. apply clean_loop_nodup. constructor.
    + now apply dict_find_in.
Qed.

(** ** What is dropped *)

(** An entry of a dictionary is dropped only when its key is excluded, its
    value is [None], or its value cleans to [None]. *)
Lemma clean_dict_keeps d k v :
  List.NoDup (List.map fst d) -> In (k, v) d ->
  excluded_key k = false -> v <> JNull -> clean v <> JNull ->
  exists d', clean (JDict d) = JDict d' /\ Py.dict_find k d' = Some (clean v).
Proof.
  intros Hnd Hin Hk Hv Hc.
  assert (Hfind : Py.dict_find k (fold_left (clean_item clean) d []) = Some (clean v)).
  { apply clean_loop_find; [assumption | assumption |]. repeat split; assumption. }
  rewrite clean_dict. cbv zeta.
  destruct (fold_left (clean_item clean) d []) as [|e es]; [discriminate Hfind|].
  exists (e :: es). split; [reflexivity | exact Hfind].
Qed.

(** An element of a list is dropped only when it cleans to [None]. *)
Lemma clean_list_keeps l x :
  In x l -> clean x <> JNull ->
  exists l', clean (JList l) = JList l' /\ In (clean x) l'.
Proof.
  intros Hin Hc. rewrite clean_list. eexists. split; [reflexivity|].
  apply filter_In. split; [now apply in_map|].
  now apply negb_true_iff, is_none_false.
Qed.

(** ** When the cleaner raises *)

Variable json_loads_raises : string -> bool.

Abbreviation raises := (clean_garmin_data_raises json_loads json_loads_raises).

Lemma raises_body_ext f g x :
  (forall y, child y x -> f y = g y) ->
  raises_body json_loads json_loads_raises f x
  = raises_body json_loads json_loads_raises g x.
Proof.
  intros H. destruct x; simpl; try reflexivity.
  - destruct (json_loads (undouble s)) eqn:E; [|reflexivity].
    now rewrite (H j) by exact E.
  - induction l as [|y l IH]; simpl; [reflexivity|].
    rewrite (H y) by (simpl; now left). f_equal.
    apply IH. intros z Hz. apply H. simpl. now right.
  - induction d as [|[k v] d IH]; simpl; [reflexivity|].
    rewrite (H v) by (simpl; exists k; now left). f_equal.
    apply IH. intros z [k' Hz]. apply H. simpl. exists k'. now right.
Qed.

Lemma raises_fuel_stable n :
  forall m x, jsize x < n -> jsize x < m ->
              raises_fuel json_loads json_loads_raises n x
              = raises_fuel json_loads json_loads_raises m x.
Proof.
  induction n as [|n IH]; intros m x Hn Hm; [lia|].
  destruct m as [|m]; [lia|]. simpl.
  apply raises_body_ext. intros y Hy. apply child_size in Hy.
  apply IH; lia.
Qed.

(** The defining equation of the test. *)
Lemma raises_unfold x : raises x = raises_body json_loads json_loads_raises raises x.
Proof.
  unfold clean_garmin_data_raises at 1. simpl.
  apply raises_body_ext. intros y Hy. apply child_size in Hy.
  unfold clean_garmin_data_raises. apply raises_fuel_stable; lia.
Qed.

Lemma raises_scalar x :
  match x with JNull | JBool _ | JNum _ => True | _ => False end -> raises x = false.
Proof. rewrite raises_unfold. destruct x; simpl; tauto. Qed.

Lemma raises_list l : raises (JList l) = existsb raises l.
Proof. now rewrite raises_unfold. Qed.

Lemma raises_dict d :
  raises (JDict d)
  = existsb (fun kv => negb (Py.is_none (snd kv)) && negb (excluded_key (fst kv))
                       && raises (snd kv)) d.
Proof. now rewrite raises_unfold. Qed.

Lemma raises_str s :
  raises (JStr s)
  = json_loads_raises (undouble s)
    || match json_loads (undouble s) with Some p => raises p | None => false end.
Proof. now rewrite raises_unfold. Qed.

End CleanerFacts.

(** The reference reader decodes nothing larger than its text. *)
Lemma substring_length a b s : String.length (substring a b s) <= b.
Proof.
  revert a b. induction s as [|c s IH]; intros a b.
  - destruct a, b; simpl; lia.
  - destruct a as [|a]; destruct b as [|b]; simpl; try lia.
    + specialize (IH 0 b). lia.
    + apply IH.
    + apply IH.
Qed.

Lemma ref_loads_size t v : Ref.loads t = Some v -> jsize v <= String.length t.
Proof.
  unfold Ref.loads.
  destruct (String.eqb t "null") eqn:E1.
  { apply String.eqb_eq in E1. subst. intros [= <-]. simpl. lia. }
  destruct (String.eqb t "true") eqn:E2.
  { apply String.eqb_eq in E2. subst. intros [= <-]. simpl. lia. }
  destruct (String.eqb t "false") eqn:E3.
  { apply String.eqb_eq in E3. subst. intros [= <-]. simpl. lia. }
  destruct (Ref.integer_value t) eqn:E4.
  { intros [= <-]. destruct t; [discriminate | simpl; lia]. }
  destruct (2 <=? String.length t)%nat eqn:E5; simpl; [|discriminate].
  match goal with |- (if ?c then _ else _) = _ -> _ => destruct c end; [|discriminate].
  intros [= <-]. simpl. apply Nat.leb_le in E5.
  pose proof (substring_length 1 (String.length t - 2) t). lia.
Qed.

(** C7.  The cleaner is idempotent: cleaning a cleaned value changes
    nothing, [clean(clean(x)) == clean(x)] for every payload [x]. *)
Theorem clean_idempotent (json_loads : string -> option json) :
  (forall t v, json_loads t = Some v -> jsize v <= String.length t) ->
  forall x,
    clean_garmin_data json_loads (clean_garmin_data json_loads x)
    = clean_garmin_data json_loads x.
Proof.
  intros Hsize x.
  (* by induction on a bound of the size of [x] *)
  apply (clean_idempotent_below json_loads Hsize (S (jsize x))). lia.
Qed.

(** C9.  The cleaner never drops a zero: a value equal to [0] cleans to
    itself, and wherever it sits in a payload, under keys that are not
    excluded, it sits under the same keys in the cleaned payload.  What
    is dropped is what is absent: an entry of a dictionary goes only when
    its key is excluded, its value is [None] or its value cleans to
    nothing, and an element of a list only when it cleans to nothing. *)
Theorem clean_keeps_zero (json_loads : string -> option json) :
  (forall t v, json_loads t = Some v -> jsize v <= String.length t) ->
  (forall z path x,
      Py.eq_zero z = true ->
      zero_at z path x ->
      clean_garmin_data json_loads z = z
      /\ zero_at z path (clean_garmin_data json_loads x))
  /\ (forall d k v,
         List.NoDup (List.map fst d) -> In (k, v) d ->
         excluded_key k = false -> v <> JNull ->
         clean_garmin_data json_loads v <> JNull ->
         exists d', clean_garmin_data json_loads (JDict d) = JDict d'
                    /\ Py.dict_find k d' = Some (clean_garmin_data json_loads v))
  /\ (forall l x,
         In x l -> clean_garmin_data json_loads x <> JNull ->
         exists l', clean_garmin_data json_loads (JList l) = JList l'
                    /\ In (clean_garmin_data json_loads x) l').
Proof.
  intros H. split; [|split].
  - intros z path x Hz Hx. split.
    + apply clean_scalar; [assumption | now apply eq_zero_scalar].
    + now apply clean_zero_at.
  - intros d k v. now apply clean_dict_keeps.
  - intros l x. now apply clean_list_keeps.
Qed.

(* ================================================================== *)
(** * Unit conversions *)
(* ================================================================== *)


Lemma dict_get_set_other k k' v d :
  k <> k' -> Py.dict_get k (Py.dict_set k' v d) = Py.dict_get k d.
Proof. intros H. unfold Py.dict_get. now rewrite dict_find_set_other. Qed.


Lemma safe_convert_total v divisor :
  convertible v -> exists r, safe_convert v (fun x => truediv x divisor) = Some r.
Proof.
  unfold safe_convert, truediv. intros [-> | (q & Hq & Hrange)]; simpl; [eauto|].
  destruct (Py.is_none v); simpl; [eauto|]. rewrite Hq. simpl. rewrite Hrange. eauto.
Qed.


Lemma convert_activity_units_total d :
  (forall k, In k (List.map fst activity_unit_fields) -> convertible (Py.dict_get k d)) ->
  exists a', convert_activity_units (JDict d) = Some a'.
Proof.
  intros H. unfold convert_activity_units, meters_to_km, seconds_to_minutes.
  destruct (safe_convert_total (Py.dict_get "distance" d) 1000) as [v1 E1];
    [apply H; simpl; tauto|].
  rewrite E1. simpl.
  rewrite dict_get_set_other by discriminate.
  destruct (safe_convert_total (Py.dict_get "duration" d) 60) as [v2 E2];
    [apply H; simpl; tauto|].
  rewrite E2. simpl.
  rewrite !dict_get_set_other by discriminate.
  destruct (safe_convert_total (Py.dict_get "elapsedDuration" d) 60) as [v3 E3];
    [apply H; simpl; tauto|].
  rewrite E3. simpl.
  rewrite !dict_get_set_other by discriminate.
  destruct (safe_convert_total (Py.dict_get "movingDuration" d) 60) as [v4 E4];
    [apply H; simpl; tauto|].
  rewrite E4. simpl. eauto.
Qed.




(* ================================================================== *)
(** * Stress to mood *)
(* ================================================================== *)

Lemma between_true lo hi x : (lo <= x)%Q -> (x <= hi)%Q -> between lo hi x = true.
Proof.
  intros H1 H2. unfold between.
  apply andb_true_iff. split; now apply Qle_bool_iff.
Qed.

Lemma between_false lo hi x : (x < lo)%Q \/ (hi < x)%Q -> between lo hi x = false.
Proof.
  intros H. unfold between. apply andb_false_iff.
  destruct H as [H | H]; [left | right];
    apply not_true_iff_false; rewrite Qle_bool_iff; lra.
Qed.

Lemma negative_true x : (x < 0)%Q -> negative x = true.
Proof.
  intros H. unfold negative. apply negb_true_iff.
  apply not_true_iff_false. rewrite Qle_bool_iff. lra.
Qed.

Lemma negative_false x : (0 <= x)%Q -> negative x = false.
Proof. intros H. unfold negative. apply negb_false_iff. now apply Qle_bool_iff. Qed.

(** Walks the chain of comparisons with the bounds at hand. *)
Ltac walk_bands :=
  unfold mood_of_stress;
  repeat first [ rewrite negative_true by lra
               | rewrite negative_false by lra
               | rewrite between_true by lra
               | rewrite between_false by lra ];
  try reflexivity.

Lemma mood_in_band x lo hi score label :
  In (lo, hi, score, label) mood_bands ->
  (lo <= x)%Q -> (x <= hi)%Q ->
  mood_of_stress x = (JNum score, JStr label).
Proof.
  intros Hin Hlo Hhi. simpl in Hin.
  repeat (destruct Hin as [Hin | Hin];
          [injection Hin as <- <- <- <-; walk_bands|]).
  destruct Hin.
Qed.

Lemma mood_outside_bands x :
  (0 <= x)%Q ->
  (forall lo hi score label,
      In (lo, hi, score, label) mood_bands -> ~ ((lo <= x)%Q /\ (x <= hi)%Q)) ->
  mood_of_stress x = (JNum 50, JStr "Neutral").
Proof.
  intros H0 Hout.
  assert (Hb : forall lo hi score label,
             In (lo, hi, score, label) mood_bands -> between lo hi x = false).
  { intros lo hi score label Hin. apply (Hout _ _ _ _) in Hin.
    destruct (between lo hi x) eqn:E; [|reflexivity].
    unfold between in E. apply andb_true_iff in E. destruct E as [E1 E2].
    apply Qle_bool_iff in E1, E2. tauto. }
  unfold mood_of_stress. rewrite negative_false by assumption.
  rewrite (Hb 0 10 95 "Excited")%Q by (simpl; tauto).
  rewrite (Hb 11 25 85 "Happy")%Q by (simpl; tauto).
  rewrite (Hb 26 35 75 "Confident")%Q by (simpl; tauto).
  rewrite (Hb 36 50 65 "Calm")%Q by (simpl; tauto).
  rewrite (Hb 51 60 55 "Thoughtful")%Q by (simpl; tauto).
  rewrite (Hb 61 75 45 "Neutral")%Q by (simpl; tauto).
  rewrite (Hb 76 85 35 "Worried")%Q by (simpl; tauto).
  rewrite (Hb 86 95 25 "Angry")%Q by (simpl; tauto).
  rewrite (Hb 96 100 15 "Sad/Tired")%Q by (simpl; tauto).
  reflexivity.
Qed.

(** C6.  Stress to mood: no value and values below [0] give no mood; a
    value inside one of the nine bands gives that band's score and label;
    any other value from [0] up gives the default [50], [Neutral]; and the
    three sample inputs [5], [100] and [-1] map as listed. *)
Theorem stress_to_mood_table :
  map_garmin_stress_to_mood JNull = Some (JNull, JNull)
  /\ (forall x, (x < 0)%Q ->
                map_garmin_stress_to_mood (JNum x) = Some (JNull, JNull))
  /\ (forall x lo hi score label,
         In (lo, hi, score, label) mood_bands ->
         (lo <= x)%Q -> (x <= hi)%Q ->
         map_garmin_stress_to_mood (JNum x) = Some (JNum score, JStr label))
  /\ (forall x,
         (0 <= x)%Q ->
         (forall lo hi score label,
             In (lo, hi, score, label) mood_bands ->
             ~ ((lo <= x)%Q /\ (x <= hi)%Q)) ->
         map_garmin_stress_to_mood (JNum x) = Some (JNum 50, JStr "Neutral"))
  /\ map_garmin_stress_to_mood (JNum 5) = Some (JNum 95, JStr "Excited")
  /\ map_garmin_stress_to_mood (JNum 100) = Some (JNum 15, JStr "Sad/Tired")
  /\ map_garmin_stress_to_mood (JNum (-1)) = Some (JNull, JNull).
Proof.
  repeat split.
  - intros x Hx. unfold map_garmin_stress_to_mood. simpl.
    unfold mood_of_stress. now rewrite negative_true.
  - intros x lo hi score label Hin Hlo Hhi.
    unfold map_garmin_stress_to_mood. simpl. f_equal.
    now apply mood_in_band with (lo := lo) (hi := hi).
  - intros x H0 Hout. unfold map_garmin_stress_to_mood. simpl. f_equal.
    now apply mood_outside_bands.
Qed.

(** C10.  An average that falls strictly between two adjacent bands, such
    as [10.5], is inside [0, 100] and yet gets the default [50],
    [Neutral], not the value of either neighbouring band; the stress block
    passes the mean of the samples, so two samples of [10] and [11] give
    the average [10.5] and the derived mood [50]. *)
Theorem stress_gap_gets_default :
  (forall x lo hi,
      In (lo, hi) mood_gaps -> (lo < x)%Q -> (x < hi)%Q ->
      map_garmin_stress_to_mood (JNum x) = Some (JNum 50, JStr "Neutral"))
  /\ mean [JNum 10; JNum 11] = Some (JNum (21 # 2))
  /\ derived_mood (stress_entry Ref.lib "2024-01-01" two_stress_samples) = JNum 50.
Proof.
  split; [|split; vm_compute; reflexivity].
  intros x lo hi Hin Hlo Hhi.
  unfold map_garmin_stress_to_mood. simpl. f_equal. simpl in Hin.
  repeat (destruct Hin as [Hin | Hin];
          [injection Hin as <- <-; walk_bands|]).
  destruct Hin.
Qed.

(* ================================================================== *)
(** * The MFA challenge cache and the two endpoints *)
(* ================================================================== *)

Lemma mfa_expired_false now item :
  (now - mfa_ts item <= MFA_TTL_SECONDS)%Q -> mfa_expired now item = false.
Proof. intros H. unfold mfa_expired. apply negb_false_iff. now apply Qle_bool_iff. Qed.

Lemma mfa_expired_true now item :
  (MFA_TTL_SECONDS < now - mfa_ts item)%Q -> mfa_expired now item = true.
Proof.
  intros H. unfold mfa_expired. apply negb_true_iff.
  apply not_true_iff_false. rewrite Qle_bool_iff. lra.
Qed.

(** The sweep keeps exactly the entries that are not older than the TTL. *)
Lemma cleanup_lookup now (store : gmap string mfa_item) token :
  _cleanup_mfa_cache now store !! token
  = match store !! token with
    | Some item => if mfa_expired now item then None else Some item
    | None => None
    end.
Proof.
  unfold _cleanup_mfa_cache. rewrite map_lookup_filter.
  destruct (store !! token) as [item|]; simpl; [|reflexivity].
  destruct (mfa_expired now item) eqn:E.
  - rewrite option_guard_False; [reflexivity | simpl; congruence].
  - rewrite option_guard_True; reflexivity.
Qed.

Section Auth.

Variable resume_login : json -> json -> resume_outcome.

(** A login that needs MFA answers with the handle and stores the state
    under it, provided its own sweep does not purge it. *)
Lemma login_stores state mfa_id stored_at swept_at (store : gmap string mfa_item) :
  (swept_at - stored_at <= MFA_TTL_SECONDS)%Q ->
  fst (garmin_login (LoginNeedsMfa state) mfa_id stored_at swept_at store)
  = AuthNeedsMfa mfa_id
  /\ snd (garmin_login (LoginNeedsMfa state) mfa_id stored_at swept_at store) !! mfa_id
     = Some (MfaItem state stored_at).
Proof.
  intros H. simpl. split; [reflexivity|].
  rewrite cleanup_lookup, lookup_insert_eq.
  now rewrite mfa_expired_false.
Qed.

Lemma truthy_handle mfa_id : mfa_id <> "" -> Py.truthy (JStr mfa_id) = true.
Proof.
  intros H. simpl. apply negb_true_iff. now apply String.eqb_neq.
Qed.

(** A resume that finds its handle hands the stored state to the provider
    and removes the entry, whatever the time. *)
Lemma resume_consumes (store : gmap string mfa_item) mfa_id item code user_id tokens t :
  mfa_id <> "" -> Py.truthy code = true -> Py.truthy user_id = true ->
  store !! mfa_id = Some item ->
  resume_login (mfa_state item) code = ResumeTokens tokens ->
  serve resume_login store (ResumeRequest t (resume_body mfa_id code user_id))
  = (AuthSuccess tokens, delete mfa_id store).
Proof.
  intros Hid Hc Hu Hs Hr. simpl. unfold garmin_resume_login.
  change (Py.dict_get "client_state" (resume_body mfa_id code user_id))
    with (JStr mfa_id).
  change (Py.dict_get "mfa_code" (resume_body mfa_id code user_id)) with code.
  change (Py.dict_get "user_id" (resume_body mfa_id code user_id)) with user_id.
  rewrite truthy_handle, Hc, Hu by assumption. simpl.
  rewrite Hs, Hr. reflexivity.
Qed.

(** A resume whose handle is absent fails, and the cache stays as it is. *)
Lemma resume_absent_fails (store : gmap string mfa_item) mfa_id code user_id t :
  mfa_id <> "" -> Py.truthy code = true -> Py.truthy user_id = true ->
  store !! mfa_id = None ->
  serve resume_login store (ResumeRequest t (resume_body mfa_id code user_id))
  = (invalid_or_expired, store).
Proof.
  intros Hid Hc Hu Hs. simpl. unfold garmin_resume_login.
  change (Py.dict_get "client_state" (resume_body mfa_id code user_id))
    with (JStr mfa_id).
  change (Py.dict_get "mfa_code" (resume_body mfa_id code user_id)) with code.
  change (Py.dict_get "user_id" (resume_body mfa_id code user_id)) with user_id.
  rewrite truthy_handle, Hc, Hu by assumption. simpl.
  rewrite Hs, delete_id by assumption. reflexivity.
Qed.

(** The sweep of a later MFA login purges an entry older than the TTL. *)
Lemma later_login_purges (store : gmap string mfa_item) mfa_id item
      state' mfa_id' stored_at' swept_at' :
  mfa_id' <> mfa_id ->
  store !! mfa_id = Some item ->
  (MFA_TTL_SECONDS < swept_at' - mfa_ts item)%Q ->
  snd (garmin_login (LoginNeedsMfa state') mfa_id' stored_at' swept_at' store) !! mfa_id
  = None.
Proof.
  intros Hne Hs Hold. simpl.
  rewrite cleanup_lookup, lookup_insert_ne, Hs by assumption.
  now rewrite mfa_expired_true.
Qed.

End Auth.

(** C2, as the code has it.  A login that needs MFA stores the challenge
    under the handle and answers with the handle; a resume with that handle
    and the right code succeeds and removes the entry, at whatever time it
    arrives; a second resume with the handle fails with the
    invalid-or-expired answer; and once a later MFA login has swept the
    cache more than five minutes after the entry was stored, a resume with
    the never-used handle fails with the same answer. *)
Theorem mfa_handle_lifecycle
        (resume_login : json -> json -> resume_outcome)
        (store : gmap string mfa_item) (state : json) (mfa_id : string)
        (stored_at swept_at : Q) (code user_id : json) (tokens : string) :
  mfa_id <> "" -> Py.truthy code = true -> Py.truthy user_id = true ->
  (swept_at - stored_at <= MFA_TTL_SECONDS)%Q ->
  resume_login state code = ResumeTokens tokens ->
  let logged := garmin_login (LoginNeedsMfa state) mfa_id stored_at swept_at store in
  let body := resume_body mfa_id code user_id in
  fst logged = AuthNeedsMfa mfa_id
  /\ snd logged !! mfa_id = Some (MfaItem state stored_at)
  /\ (forall t1,
         let resumed := serve resume_login (snd logged) (ResumeRequest t1 body) in
         resumed = (AuthSuccess tokens, delete mfa_id (snd logged))
         /\ forall t2,
             serve resume_login (snd resumed) (ResumeRequest t2 body)
             = (invalid_or_expired, snd resumed))
  /\ (forall state' mfa_id' stored_at' swept_at' t,
         mfa_id' <> mfa_id ->
         (MFA_TTL_SECONDS < swept_at' - stored_at)%Q ->
         let swept := snd (garmin_login (LoginNeedsMfa state') mfa_id'
                                        stored_at' swept_at' (snd logged)) in
         serve resume_login swept (ResumeRequest t body)
         = (invalid_or_expired, swept)).
Proof.
  intros Hid Hc Hu Hfresh Hr logged body.
  destruct (login_stores state mfa_id stored_at swept_at store Hfresh) as [H1 H2].
  fold logged in H1, H2.
  split; [exact H1|]. split; [exact H2|]. split.
  - intros t1 resumed.
    assert (Hres : resumed = (AuthSuccess tokens, delete mfa_id (snd logged))).
    { unfold resumed, body. now apply resume_consumes with (item := MfaItem state stored_at). }
    split; [exact Hres|]. intros t2. rewrite Hres. simpl snd.
    apply resume_absent_fails; auto. apply lookup_delete_eq.
  - intros state' mfa_id' stored_at' swept_at' t Hne Hold swept.
    apply resume_absent_fails; auto.
    unfold swept. eapply later_login_purges; eauto.
Qed.

Lemma mfa_handle_lifecycle_witness :
  let logged := garmin_login (LoginNeedsMfa (JStr "ch")) "h1" 0 0 ∅ in
  let body := resume_body "h1" (JStr "123456") (JStr "u") in
  fst logged = AuthNeedsMfa "h1"
  /\ snd logged !! "h1" = Some (MfaItem (JStr "ch") 0)
  /\ (forall t1,
         let resumed := serve sample_resume_login (snd logged) (ResumeRequest t1 body) in
         resumed = (AuthSuccess "tokens", delete "h1" (snd logged))
         /\ forall t2,
             serve sample_resume_login (snd resumed) (ResumeRequest t2 body)
             = (invalid_or_expired, snd resumed))
  /\ (forall state' mfa_id' stored_at' swept_at' t,
         mfa_id' <> "h1" ->
         (MFA_TTL_SECONDS < swept_at' - 0)%Q ->
         let swept := snd (garmin_login (LoginNeedsMfa state') mfa_id'
                                        stored_at' swept_at' (snd logged)) in
         serve sample_resume_login swept (ResumeRequest t body)
         = (invalid_or_expired, swept)).
Proof.
  apply (mfa_handle_lifecycle sample_resume_login ∅ (JStr "ch") "h1" 0 0
                              (JStr "123456") (JStr "u") "tokens").
  - discriminate.
  - reflexivity.
  - reflexivity.
  - unfold MFA_TTL_SECONDS. lra.
  - reflexivity.
Defined.

(** C2, as stated, fails: the handle is stored at time [0], no other login
    follows, and the resume arrives at [301], after the five minutes; it
    is answered with the tokens, not with the invalid-or-expired answer. *)
Lemma resume_after_ttl_is_accepted :
  let requests :=
    [ LoginRequest (LoginNeedsMfa (JStr "ch")) "h1" 0 0;
      ResumeRequest 301 (resume_body "h1" (JStr "123456") (JStr "u")) ] in
  (MFA_TTL_SECONDS < 301 - 0)%Q
  /\ fst (serve_all sample_resume_login ∅ requests)
     = [AuthNeedsMfa "h1"; AuthSuccess "tokens"]
  /\ AuthSuccess "tokens" <> invalid_or_expired.
Proof.
  split; [unfold MFA_TTL_SECONDS; lra|]. split; [|discriminate].
  vm_compute. reflexivity.
Qed.

(* ================================================================== *)
(** * The statements at sample inputs *)
(* ================================================================== *)

Lemma clean_idempotent_witness :
  (forall t v, Ref.loads t = Some v -> jsize v <= String.length t)
  /\ clean_garmin_data Ref.loads (clean_garmin_data Ref.loads sample_payload)
     = clean_garmin_data Ref.loads sample_payload.
Proof.
  split; [exact ref_loads_size|].
  apply (clean_idempotent Ref.loads ref_loads_size sample_payload).
Defined.

Lemma clean_keeps_zero_witness :
  Py.eq_zero (JNum 0) = true
  /\ zero_at (JNum 0) ["steps"; "value"] sample_payload
  /\ clean_garmin_data Ref.loads (JNum 0) = JNum 0
  /\ zero_at (JNum 0) ["steps"; "value"] (clean_garmin_data Ref.loads sample_payload).
Proof.
  assert (Hz : zero_at (JNum 0) ["steps"; "value"] sample_payload).
  { unfold sample_payload.
    eapply zero_in_dict; [| left; reflexivity | reflexivity |].
    { repeat constructor; simpl; intuition discriminate. }
    eapply zero_in_list; [left; reflexivity|].
    eapply zero_in_dict; [| left; reflexivity | reflexivity | constructor].
    repeat constructor; simpl; intuition discriminate. }
  split; [reflexivity|]. split; [exact Hz|].
  exact (proj1 (clean_keeps_zero Ref.loads ref_loads_size)
               (JNum 0) ["steps"; "value"] sample_payload eq_refl Hz).
Defined.


Lemma stress_to_mood_table_witness :
  In (11, 25, 85, "Happy")%Q mood_bands
  /\ (11 <= 17)%Q /\ (17 <= 25)%Q
  /\ map_garmin_stress_to_mood (JNum 17) = Some (JNum 85, JStr "Happy").
Proof.
  assert (Hin : In (11, 25, 85, "Happy")%Q mood_bands) by (simpl; tauto).
  assert (Hlo : (11 <= 17)%Q) by (unfold Qle; simpl; lia).
  assert (Hhi : (17 <= 25)%Q) by (unfold Qle; simpl; lia).
  split; [exact Hin|]. split; [exact Hlo|]. split; [exact Hhi|].
  exact (proj1 (proj2 (proj2 stress_to_mood_table)) 17%Q 11%Q 25%Q 85%Q "Happy" Hin Hlo Hhi).
Defined.

Lemma stress_gap_gets_default_witness :
  In (10, 11)%Q mood_gaps
  /\ (10 < 21 # 2)%Q /\ (21 # 2 < 11)%Q
  /\ map_garmin_stress_to_mood (JNum (21 # 2)) = Some (JNum 50, JStr "Neutral").
Proof.
  assert (Hin : In (10, 11)%Q mood_gaps) by (simpl; tauto).
  assert (Hlo : (10 < 21 # 2)%Q) by (unfold Qlt; simpl; lia).
  assert (Hhi : (21 # 2 < 11)%Q) by (unfold Qlt; simpl; lia).
  split; [exact Hin|]. split; [exact Hlo|]. split; [exact Hhi|].
  exact (proj1 stress_gap_gets_default (21 # 2)%Q 10%Q 11%Q Hin Hlo Hhi).
Defined.

(* ================================================================== *)
(** * [health_data] and the blocks that append to it *)
(* ================================================================== *)

Lemma health_append_keys k e hd :
  List.map fst (health_append k e hd) = List.map fst hd.
Proof.
  induction hd as [|[m l] hd IH]; simpl; [reflexivity|].
  destruct (String.eqb k m); simpl; [reflexivity | now rewrite IH].
Qed.

Lemma health_get_append_other c k e hd :
  c <> k -> health_get c (health_append k e hd) = health_get c hd.
Proof.
  intros Hne. induction hd as [|[m l] hd IH]; simpl; [reflexivity|].
  destruct (String.eqb k m) eqn:Ekm; simpl.
  - apply String.eqb_eq in Ekm. subst m.
    destruct (String.eqb c k) eqn:Eck; [|reflexivity].
    apply String.eqb_eq in Eck. congruence.
  - destruct (String.eqb c m); [reflexivity | exact IH].
Qed.

Lemma health_get_append_same k e hd :
  In k (List.map fst hd) ->
  health_get k (health_append k e hd) = health_get k hd ++ [e].
Proof.
  induction hd as [|[m l] hd IH]; simpl; [tauto|].
  intros Hin. destruct (String.eqb k m) eqn:Ekm; simpl; rewrite Ekm; [reflexivity|].
  apply IH. destruct Hin as [-> | Hin]; [|assumption].
  now rewrite String.eqb_refl in Ekm.
Qed.

Lemma health_get_missing c hd : ~ In c (List.map fst hd) -> health_get c hd = [].
Proof.
  induction hd as [|[m l] hd IH]; simpl; [reflexivity|].
  intros H. destruct (String.eqb c m) eqn:E.
  - apply String.eqb_eq in E. subst. tauto.
  - apply IH. tauto.
Qed.

Lemma commit_keys entries :
  forall hd, List.map fst (commit entries hd) = List.map fst hd.
Proof.
  unfold commit. induction entries as [|[k e] es IH]; simpl; intros hd; [reflexivity|].
  rewrite IH. apply health_append_keys.
Qed.

Lemma commit_get c entries :
  forall hd, In c (List.map fst hd) ->
             health_get c (commit entries hd) = health_get c hd ++ entries_for c entries.
Proof.
  unfold commit, entries_for.
  induction entries as [|[k e] es IH]; simpl; intros hd Hc.
  - now rewrite app_nil_r.
  - rewrite IH by now rewrite health_append_keys.
    destruct (String.eqb c k) eqn:E; simpl.
    + apply String.eqb_eq in E. subst k.
      rewrite health_get_append_same by assumption. now rewrite <- app_assoc.
    + apply String.eqb_neq in E. now rewrite health_get_append_other.
Qed.

Lemma commit_app es1 es2 hd : commit (es1 ++ es2) hd = commit es2 (commit es1 hd).
Proof. unfold commit. apply fold_left_app. Qed.

Lemma entries_for_app c es1 es2 :
  entries_for c (es1 ++ es2) = entries_for c es1 ++ entries_for c es2.
Proof. unfold entries_for. now rewrite List.filter_app, List.map_app. Qed.

Lemma entries_for_in c entries e : In e (entries_for c entries) <-> In (c, e) entries.
Proof.
  unfold entries_for. rewrite in_map_iff. split.
  - intros ([k e'] & <- & H). apply filter_In in H. destruct H as [H1 H2].
    simpl in *. apply String.eqb_eq in H2. now subst.
  - intros H. exists (c, e). split; [reflexivity|].
    apply filter_In. split; [assumption|]. simpl. apply String.eqb_refl.
Qed.

Lemma entries_for_none c entries :
  (forall e, ~ In (c, e) entries) -> entries_for c entries = [].
Proof.
  intros H. destruct (entries_for c entries) as [|e es] eqn:E; [reflexivity|].
  exfalso. apply (H e). apply entries_for_in. rewrite E. now left.
Qed.

(** ** The writer monad *)

Lemma sat_ret {A} P (a : A) : entries_sat P (mret a : W A).
Proof. intros k e []. Qed.

Lemma sat_lift {A} P (o : option A) : entries_sat P (lift o).
Proof. intros k e []. Qed.

Lemma sat_bind {A B} P (m : W A) (f : A -> W B) :
  entries_sat P m ->
  (forall a, outcome m = Some a -> entries_sat P (f a)) ->
  entries_sat P (m ≫= f).
Proof.
  intros Hm Hf k e. unfold mbind, W_mbind, W_bind.
  destruct (outcome m) as [a|] eqn:E; simpl.
  - intros H. apply in_app_or in H. destruct H as [H | H]; [now apply Hm|].
    now apply (Hf a).
  - apply Hm.
Qed.

Lemma sat_emit P k e :
  P k e -> entries_sat P (emit k e).
Proof.
  intros H k' e'. unfold emit.
  destruct (Py.str_in k ALL_HEALTH_METRICS); simpl; [|tauto].
  intros [[= <- <-] | []]. exact H.
Qed.

Lemma sat_when P b w : (b = true -> entries_sat P w) -> entries_sat P (when b w).
Proof. intros H. destruct b; simpl; [now apply H | apply sat_ret]. Qed.

Lemma sat_for {A} P (xs : list A) body :
  (forall x, In x xs -> entries_sat P (body x)) -> entries_sat P (for_ xs body).
Proof.
  induction xs as [|x xs IH]; simpl; intros H; [apply sat_ret|].
  apply sat_bind; [apply H; now left|]. intros _ _. apply IH.
  intros; apply H; now right.
Qed.

Lemma sat_weaken {A} (P Q : string -> json -> Prop) (w : W A) :
  (forall k e, P k e -> Q k e) -> entries_sat P w -> entries_sat Q w.
Proof. intros H Hw k e Hin. apply H. now apply Hw. Qed.

(** A block that starts with a call that raises appends nothing. *)
Lemma raised_first {A B} (f : A -> W B) : appended (lift None ≫= f) = [].
Proof. reflexivity. Qed.

(** Breaks a block into its statements. *)
Ltac sat_step :=
  first
    [ apply sat_ret
    | apply sat_lift
    | apply sat_bind; [|intros ? ?]
    | apply sat_when; intros ?
    | apply sat_for; intros ? ?
    | match goal with
      | |- entries_sat _ (match ?x with _ => _ end) => destruct x
      | |- entries_sat _ (let (_, _) := ?x in _) => destruct x
      end ].

Ltac sat_blocks := repeat sat_step.

(* ================================================================== *)
(** * What each block appends *)
(* ================================================================== *)

(** Peels the binds of a computation in [option] that returned. *)
Ltac opt_inv H :=
  repeat
    (simpl in H;
     match type of H with
     | mbind _ ?m = Some _ =>
         let E := fresh "E" in destruct m eqn:E; simpl in H; [|discriminate H]
     | (match ?x with _ => _ end) = Some _ =>
         let E := fresh "E" in destruct x eqn:E; try discriminate H
     | (if ?b then _ else _) = Some _ =>
         let E := fresh "E" in destruct b eqn:E; try discriminate H
     | (let (_, _) := ?x in _) = Some _ => destruct x
     end).

Section BlockFacts.

Variable L : PyLib.
Variable garmin : GarminClient.
Variable mt : list string.
Variable start_date : string.
Variable d : string.

Abbreviation P := (day_entry mt).

(** Closes the side condition of an [emit]. *)
Ltac entry_ok :=
  apply sat_emit; unfold day_entry;
  split; [assumption|];
  split; [simpl; tauto|];
  split; intros Hk; try discriminate Hk;
  try (eexists; split; reflexivity).

Lemma sleep_entry_dated raw e :
  sleep_entry L d raw = Some (Some e) -> dated "entry_date" d e.
Proof.
  unfold sleep_entry. intros H. opt_inv H.
  injection H as H.
  match type of H with (if ?b then _ else _) = _ => destruct b; [|discriminate H] end.
  injection H as <-. eexists. split; reflexivity.
Qed.

Lemma body_battery_of_dated bb_entry e :
  body_battery_of L d bb_entry = Some e -> dated "date" d e.
Proof.
  unfold body_battery_of. intros H. opt_inv H.
  injection H as <-. eexists. split; reflexivity.
Qed.

Lemma fetch_daily_summary_sat :
  entries_sat (P summary_metrics d) (fetch_daily_summary garmin mt d).
Proof. unfold fetch_daily_summary, dated_value. sat_blocks; entry_ok. Qed.

Lemma fetch_hydration_sat :
  want mt "hydration" = true ->
  entries_sat (P ["hydration"] d) (fetch_hydration garmin d).
Proof. intros Hw. unfold fetch_hydration. sat_blocks; entry_ok. Qed.

Lemma fetch_floors_sat :
  want mt "floors" = true -> entries_sat (P ["floors"] d) (fetch_floors garmin d).
Proof. intros Hw. unfold fetch_floors. sat_blocks; entry_ok. Qed.

Lemma fetch_fitness_age_sat :
  want mt "fitness_age" = true ->
  entries_sat (P ["fitness_age"] d) (fetch_fitness_age garmin d).
Proof. intros Hw. unfold fetch_fitness_age. sat_blocks; entry_ok. Qed.

Lemma fetch_heart_rates_sat :
  want mt "heart_rates" = true ->
  entries_sat (P ["heart_rates"] d) (fetch_heart_rates L garmin d).
Proof. intros Hw. unfold fetch_heart_rates. sat_blocks; entry_ok. Qed.

Lemma fetch_sleep_sat :
  want mt "sleep" = true -> entries_sat (P ["sleep"] d) (fetch_sleep L garmin d).
Proof.
  intros Hw. unfold fetch_sleep. apply sat_bind; [apply sat_lift|].
  intros [e|] He; [|apply sat_ret].
  apply sat_emit. unfold day_entry.
  split; [assumption|]. split; [simpl; tauto|]. split; [|discriminate].
  intros _. simpl in He.
  destruct (get_sleep_data garmin d) as [raw|]; simpl in He; [|discriminate].
  now apply sleep_entry_dated with (raw := raw).
Qed.

Lemma fetch_stress_sat :
  want mt "stress" = true -> entries_sat (P ["stress"] d) (fetch_stress L garmin d).
Proof. intros Hw. unfold fetch_stress. sat_blocks; entry_ok. Qed.

Lemma fetch_respiration_sat :
  want mt "respiration" = true ->
  entries_sat (P ["respiration"] d) (fetch_respiration garmin d).
Proof. intros Hw. unfold fetch_respiration. sat_blocks; entry_ok. Qed.

Lemma fetch_spo2_sat sleep_so_far :
  want mt "spo2" = true ->
  entries_sat (P ["spo2"] d) (fetch_spo2 garmin d sleep_so_far).
Proof. intros Hw. unfold fetch_spo2. sat_blocks; entry_ok. Qed.

Lemma fetch_intensity_minutes_sat :
  want mt "intensity_minutes" = true ->
  entries_sat (P ["intensity_minutes"] d) (fetch_intensity_minutes garmin d).
Proof. intros Hw. unfold fetch_intensity_minutes. sat_blocks; entry_ok. Qed.

Lemma fetch_training_readiness_sat :
  want mt "training_readiness" = true ->
  entries_sat (P ["training_readiness"] d) (fetch_training_readiness garmin d).
Proof. intros Hw. unfold fetch_training_readiness. sat_blocks; entry_ok. Qed.

Lemma fetch_training_status_sat :
  want mt "training_status" = true ->
  entries_sat (P ["training_status"] d) (fetch_training_status garmin d).
Proof. intros Hw. unfold fetch_training_status. sat_blocks; entry_ok. Qed.

Lemma fetch_max_metrics_sat :
  want mt "max_metrics" = true ->
  entries_sat (P ["max_metrics"] d) (fetch_max_metrics garmin d).
Proof. intros Hw. unfold fetch_max_metrics. sat_blocks; entry_ok. Qed.

Lemma fetch_hrv_sat :
  want mt "hrv" = true -> entries_sat (P ["hrv"] d) (fetch_hrv L garmin d).
Proof. intros Hw. unfold fetch_hrv. sat_blocks; entry_ok. Qed.

Lemma fetch_endurance_score_sat :
  want mt "endurance_score" = true ->
  entries_sat (P ["endurance_score"] d) (fetch_endurance_score garmin d).
Proof. intros Hw. unfold fetch_endurance_score. sat_blocks; entry_ok. Qed.

Lemma fetch_hill_score_sat :
  want mt "hill_score" = true ->
  entries_sat (P ["hill_score"] d) (fetch_hill_score garmin d).
Proof. intros Hw. unfold fetch_hill_score. sat_blocks; entry_ok. Qed.

Lemma fetch_blood_pressure_sat :
  want mt "blood_pressure" = true ->
  entries_sat (P ["blood_pressure"] d) (fetch_blood_pressure L garmin d).
Proof. intros Hw. unfold fetch_blood_pressure. sat_blocks; entry_ok. Qed.

Lemma fetch_body_battery_sat :
  want mt "body_battery" = true ->
  entries_sat (P ["body_battery"] d) (fetch_body_battery L garmin d).
Proof.
  intros Hw. unfold fetch_body_battery. sat_blocks.
  all: apply sat_emit; unfold day_entry.
  all: split; [assumption|]; split; [simpl; tauto|]; split; [discriminate|].
  all: intros _; match goal with H : outcome (lift _) = Some _ |- _ => simpl in H end.
  all: eapply body_battery_of_dated; eassumption.
Qed.

Lemma fetch_menstrual_data_sat :
  want mt "menstrual_data" = true ->
  entries_sat (P ["menstrual_data"] d) (fetch_menstrual_data garmin d).
Proof. intros Hw. unfold fetch_menstrual_data. sat_blocks; entry_ok. Qed.

Lemma fetch_menstrual_calendar_data_sat :
  want mt "menstrual_calendar_data" = true ->
  entries_sat (P ["menstrual_calendar_data"] d) (fetch_menstrual_calendar_data garmin d).
Proof. intros Hw. unfold fetch_menstrual_calendar_data. sat_blocks; entry_ok. Qed.

Lemma fetch_body_composition_sat :
  want mt "body_composition" = true ->
  entries_sat (P ["body_composition"] d) (fetch_body_composition garmin d).
Proof. intros Hw. unfold fetch_body_composition. sat_blocks; entry_ok. Qed.

Lemma fetch_recovery_time_sat :
  want mt "recovery_time" = true ->
  entries_sat (P ["recovery_time"] d) (fetch_recovery_time garmin d).
Proof. intros Hw. unfold fetch_recovery_time, dated_value. sat_blocks; entry_ok. Qed.

Lemma fetch_training_load_sat :
  entries_sat (P ["training_load"; "acute_load"] d) (fetch_training_load garmin mt d).
Proof. unfold fetch_training_load, dated_value. sat_blocks; entry_ok. Qed.

Lemma fetch_lactate_threshold_sat :
  want mt "lactate_threshold" = true ->
  entries_sat (P ["lactate_threshold"] d) (fetch_lactate_threshold garmin start_date).
Proof. intros Hw. unfold fetch_lactate_threshold. sat_blocks; entry_ok. Qed.

Lemma fetch_race_predictions_sat :
  want mt "race_predictions" = true ->
  entries_sat (P ["race_predictions"] d) (fetch_race_predictions garmin start_date).
Proof. intros Hw. unfold fetch_race_predictions. sat_blocks; entry_ok. Qed.

Lemma fetch_pregnancy_summary_sat :
  want mt "pregnancy_summary" = true ->
  entries_sat (P ["pregnancy_summary"] d) (fetch_pregnancy_summary garmin start_date).
Proof. intros Hw. unfold fetch_pregnancy_summary. sat_blocks; entry_ok. Qed.

End BlockFacts.

(* ================================================================== *)
(** * The statements of the loop body *)
(* ================================================================== *)

Lemma appended_bind {A B} (m : W A) (f : A -> W B) :
  appended (m ≫= f)
  = appended m ++ match outcome m with Some a => appended (f a) | None => [] end.
Proof.
  unfold mbind, W_mbind, W_bind. destruct (outcome m); simpl; [reflexivity|].
  now rewrite app_nil_r.
Qed.

Lemma step_sat_weaken (P Q : string -> json -> Prop) s :
  (forall k e, P k e -> Q k e) -> step_sat P s -> step_sat Q s.
Proof.
  intros HPQ Hs hd hd' H. destruct (Hs hd hd' H) as (es & -> & Hes).
  exists es. split; [reflexivity|]. intros k e Hin. apply HPQ. now apply Hes.
Qed.

Lemma try_block_sat P guard w :
  (guard = true -> entries_sat P w) -> step_sat P (try_block guard w).
Proof.
  intros H hd hd' [= <-]. unfold block. destruct guard.
  - exists (try_ w). split; [reflexivity|]. now apply H.
  - exists []. split; [reflexivity|]. intros k e [].
Qed.

Lemma try_block_total guard w : step_total (try_block guard w).
Proof. intros hd _. eexists. reflexivity. Qed.

Lemma has_bb_for_date_total d l :
  Forall (fun e => Py.is_dict e = true) l -> exists b, has_bb_for_date d l = Some b.
Proof.
  induction 1 as [|e l He Hl IH]; simpl; [eauto|].
  destruct e; try discriminate. simpl.
  destruct (Py.eq_str (Py.dict_get "date" d0) d); eauto.
Qed.

Lemma forall_commit (Q : json -> Prop) c entries hd :
  Forall Q (health_get c hd) ->
  (forall e, In (c, e) entries -> Q e) ->
  Forall Q (health_get c (commit entries hd)).
Proof.
  intros Hhd Hes.
  destruct (in_dec string_dec c (List.map fst hd)) as [Hin | Hout].
  - rewrite commit_get by assumption. apply List.Forall_app. split; [assumption|].
    apply List.Forall_forall. intros e He. apply Hes. now apply entries_for_in.
  - rewrite health_get_missing; [constructor|]. now rewrite commit_keys.
Qed.

Lemma dated_is_dict field d e : dated field d e -> Py.is_dict e = true.
Proof. intros (f & -> & _). reflexivity. Qed.

Section StepFacts.

Variable L : PyLib.
Variable garmin : GarminClient.
Variable mt : list string.
Variable start_date : string.
Variable d : string.

Lemma spo2_step_sat : step_sat (day_entry mt ["spo2"] d) (spo2_step garmin mt d).
Proof.
  intros hd hd' [= <-]. unfold block. destruct (want mt "spo2") eqn:Hw.
  - eexists. split; [reflexivity|]. now apply fetch_spo2_sat.
  - exists []. split; [reflexivity|]. intros k e [].
Qed.

Lemma spo2_step_total : step_total (spo2_step garmin mt d).
Proof. intros hd _. eexists. reflexivity. Qed.

Lemma body_battery_step_sat :
  step_sat (day_entry mt ["body_battery"] d) (body_battery_step L garmin mt d).
Proof.
  intros hd hd'. unfold body_battery_step.
  destruct (want mt "body_battery") eqn:Hw.
  - destruct (has_bb_for_date d _) as [seen|]; simpl; [|discriminate].
    intros [= <-]. unfold block. destruct (negb seen).
    + eexists. split; [reflexivity|]. now apply fetch_body_battery_sat.
    + exists []. split; [reflexivity|]. intros k e [].
  - intros [= <-]. exists []. split; [reflexivity|]. intros k e [].
Qed.

Lemma body_battery_step_total : step_total (body_battery_step L garmin mt d).
Proof.
  intros hd Hhd. unfold body_battery_step.
  destruct (want mt "body_battery"); [|eauto].
  destruct (has_bb_for_date_total d _ Hhd) as [b ->]. simpl. eauto.
Qed.

(** Each statement of the loop body appends only to its own metrics, and
    only when they were requested. *)
Lemma date_steps_sat :
  Forall2 (fun keys s => step_sat (day_entry mt keys d) s /\ step_total s)
          date_step_keys (date_steps L garmin mt d).
Proof.
  unfold date_step_keys, date_steps.
  repeat (constructor;
          [ split;
            [ first [ apply spo2_step_sat
                    | apply body_battery_step_sat
                    | apply try_block_sat; intros Hw ]
            | first [ apply try_block_total | apply spo2_step_total
                    | apply body_battery_step_total ] ]
          | ]);
    try solve [constructor].
  - apply fetch_daily_summary_sat.
  - now apply fetch_hydration_sat.
  - now apply fetch_floors_sat.
  - now apply fetch_fitness_age_sat.
  - now apply fetch_heart_rates_sat.
  - now apply fetch_sleep_sat.
  - now apply fetch_stress_sat.
  - now apply fetch_respiration_sat.
  - now apply fetch_intensity_minutes_sat.
  - now apply fetch_training_readiness_sat.
  - now apply fetch_training_status_sat.
  - now apply fetch_max_metrics_sat.
  - now apply fetch_hrv_sat.
  - now apply fetch_endurance_score_sat.
  - now apply fetch_hill_score_sat.
  - now apply fetch_blood_pressure_sat.
  - now apply fetch_menstrual_data_sat.
  - now apply fetch_menstrual_calendar_data_sat.
  - now apply fetch_body_composition_sat.
  - now apply fetch_recovery_time_sat.
  - apply fetch_training_load_sat.
Qed.

Lemma once_steps_sat :
  Forall2 (fun keys s => step_sat (day_entry mt keys d) s /\ step_total s)
          once_step_keys (once_steps garmin mt start_date).
Proof.
  unfold once_step_keys, once_steps.
  repeat (constructor;
          [ split; [apply try_block_sat; intros Hw | apply try_block_total] | ]);
    try solve [constructor].
  - now apply fetch_lactate_threshold_sat.
  - now apply fetch_race_predictions_sat.
  - now apply fetch_pregnancy_summary_sat.
Qed.

End StepFacts.

(** ** Statements in sequence *)

Lemma run_steps_cons s steps hd :
  run_steps (s :: steps) hd = s hd ≫= run_steps steps.
Proof.
  unfold run_steps. simpl. destruct (s hd) as [hd1|]; simpl; [reflexivity|].
  induction steps as [|s' steps IH]; simpl; [reflexivity | exact IH].
Qed.

Lemma bb_dicts_commit mt keys d entries hd :
  bb_dicts hd ->
  (forall k e, In (k, e) entries -> day_entry mt keys d k e) ->
  bb_dicts (commit entries hd).
Proof.
  intros Hhd Hes. apply forall_commit; [exact Hhd|].
  intros e He. apply Hes in He. destruct He as (_ & _ & _ & Hbb).
  eapply dated_is_dict. now apply Hbb.
Qed.

(** A sequence of statements, each appending to its own metrics, appends
    entries of those metrics and does not raise. *)
Lemma run_steps_sat mt d keys steps :
  Forall2 (fun ks s => step_sat (day_entry mt ks d) s /\ step_total s) keys steps ->
  forall hd, bb_dicts hd ->
             exists entries,
               run_steps steps hd = Some (commit entries hd)
               /\ forall k e, In (k, e) entries ->
                              exists ks, In ks keys /\ day_entry mt ks d k e.
Proof.
  induction 1 as [|ks s keys steps [Hsat Htot] Hrest IH]; intros hd Hhd.
  - exists []. split; [reflexivity|]. intros k e [].
  - rewrite run_steps_cons.
    destruct (Htot hd Hhd) as [hd1 H1]. rewrite H1. simpl.
    destruct (Hsat hd hd1 H1) as (es1 & -> & Hes1).
    destruct (IH (commit es1 hd)) as (es2 & H2 & Hes2).
    { eapply bb_dicts_commit; eauto. }
    exists (es1 ++ es2). rewrite commit_app. split; [exact H2|].
    intros k e Hin. apply in_app_or in Hin. destruct Hin as [Hin | Hin].
    + exists ks. split; [now left | now apply Hes1].
    + destruct (Hes2 k e Hin) as (ks' & Hks' & Hd). exists ks'. split; [now right | exact Hd].
Qed.

(* ================================================================== *)
(** * From [health_data] to the response *)
(* ================================================================== *)

Lemma all_metrics_nodup : List.NoDup ALL_HEALTH_METRICS.
Proof.
  unfold ALL_HEALTH_METRICS.
  repeat (constructor; [simpl; intuition discriminate|]). constructor.
Qed.

Lemma all_metrics_kept k : In k ALL_HEALTH_METRICS -> excluded_key k = false.
Proof.
  unfold ALL_HEALTH_METRICS. simpl.
  intros H. repeat (destruct H as [<- | H]; [reflexivity|]). destruct H.
Qed.

Lemma health_init_keys : List.map fst health_init = ALL_HEALTH_METRICS.
Proof. reflexivity. Qed.

Lemma health_init_get c : health_get c health_init = [].
Proof.
  unfold health_init. induction ALL_HEALTH_METRICS as [|m ms IH]; simpl; [reflexivity|].
  destruct (String.eqb c m); [reflexivity | exact IH].
Qed.

Section Finish.

Variable L : PyLib.

Hypothesis loads_size :
  forall t v, loads L t = Some v -> jsize v <= String.length t.

Abbreviation clean := (clean_garmin_data (loads L)).

(** When every entry is kept, the loop of the cleaner maps the values. *)
Lemma clean_loop_all_kept items :
  forall acc,
    List.NoDup (List.map fst (acc ++ items)) ->
    (forall k v, In (k, v) items -> kept clean (k, v)) ->
    fold_left (clean_item clean) items acc
    = acc ++ List.map (fun kv => (fst kv, clean (snd kv))) items.
Proof.
  induction items as [|[k0 v0] items IH]; simpl; intros acc Hnd Hall.
  - now rewrite app_nil_r.
  - rewrite clean_item_kept by (apply Hall; now left).
    assert (Hfresh : ~ In k0 (List.map fst acc)).
    { rewrite List.map_app in Hnd. simpl in Hnd.
      apply List.NoDup_remove_2 in Hnd. intros Hin. apply Hnd.
      apply in_or_app. now left. }
    rewrite dict_set_fresh by assumption.
    rewrite IH.
    + rewrite <- app_assoc. reflexivity.
    + rewrite !List.map_app in *. simpl in *. rewrite <- app_assoc. exact Hnd.
    + intros; apply Hall; now right.
Qed.

Lemma find_map_health (g : list json -> json) c (hd : health) :
  Py.dict_find c (List.map (fun ml => (fst ml, g (snd ml))) hd)
  = if in_dec string_dec c (List.map fst hd) then Some (g (health_get c hd)) else None.
Proof.
  destruct (in_dec string_dec c (List.map fst hd)) as [Hin | Hout].
  - induction hd as [|[m l] hd IH]; simpl in *; [tauto|].
    destruct (String.eqb c m) eqn:E; [reflexivity|].
    apply String.eqb_neq in E. apply IH. destruct Hin; congruence.
  - apply dict_find_none_keys. now rewrite List.map_map.
Qed.

Lemma find_filter_truthy c (items : pydict) :
  List.NoDup (List.map fst items) ->
  Py.dict_find c (List.filter (fun kv => Py.truthy (snd kv)) items)
  = match Py.dict_find c items with
    | Some v => if Py.truthy v then Some v else None
    | None => None
    end.
Proof.
  induction items as [|[k v] items IH]; simpl; intros Hnd; [reflexivity|].
  inversion Hnd as [|? ? Hk Hnd']; subst.
  destruct (String.eqb c k) eqn:E.
  - apply String.eqb_eq in E. subst k.
    destruct (Py.truthy v) eqn:Ev; simpl.
    + now rewrite String.eqb_refl.
    + rewrite IH by assumption.
      apply dict_find_none_keys in Hk. now rewrite Hk.
  - destruct (Py.truthy v); simpl; [rewrite E|]; now apply IH.
Qed.

Lemma nodup_keys_filter (p : string * json -> bool) (items : pydict) :
  List.NoDup (List.map fst items) -> List.NoDup (List.map fst (List.filter p items)).
Proof.
  induction items as [|[k v] items IH]; simpl; intros Hnd; [constructor|].
  inversion Hnd as [|? ? Hk Hnd']; subst.
  destruct (p (k, v)); simpl; [|now apply IH].
  constructor; [|now apply IH].
  intros Hin. apply Hk. apply in_map_iff in Hin. destruct Hin as ([k' v'] & <- & Hin).
  apply filter_In in Hin. destruct Hin as [Hin _].
  change (fst (k', v')) with (fst (k', v')). now apply in_map.
Qed.

(** The cleaner raises, or the response is made of its value. *)
Lemma finish_unfold hd :
  finish L hd
  = if clean_garmin_data_raises (loads L) (loads_raises L) (health_json hd)
    then None
    else final_health_data (clean (health_json hd)).
Proof.
  unfold finish, cleaned.
  destruct (clean_garmin_data_raises _ _ _); reflexivity.
Qed.

(** The response holds, for every known category, its cleaned series
    unless that is empty. *)
Lemma finish_value hd :
  List.map fst hd = ALL_HEALTH_METRICS ->
  exists final,
    final_health_data (clean (health_json hd)) = Some final
    /\ nonempty_series final
    /\ forall c, Py.dict_find c final
                 = if in_dec string_dec c ALL_HEALTH_METRICS
                   then published L (health_get c hd) else None.
Proof.
  intros Hkeys. unfold health_json.
  set (items := List.map (fun ml => (fst ml, JList (snd ml))) hd).
  assert (Hik : List.map fst items = ALL_HEALTH_METRICS).
  { unfold items. rewrite List.map_map. simpl. exact Hkeys. }
  assert (Hloop : fold_left (clean_item clean) items []
                  = List.map (fun ml => (fst ml, clean (JList (snd ml)))) hd).
  { rewrite clean_loop_all_kept.
    - unfold items. simpl. now rewrite List.map_map.
    - simpl. rewrite Hik. apply all_metrics_nodup.
    - intros k v Hin. unfold kept. simpl.
      assert (Hk : In k ALL_HEALTH_METRICS).
      { rewrite <- Hik. change k with (fst (k, v)). now apply in_map. }
      split; [now apply all_metrics_kept|].
      unfold items in Hin. apply in_map_iff in Hin.
      destruct Hin as ([m l] & [= <- <-] & _). simpl.
      split; [discriminate|]. rewrite clean_list by assumption. discriminate. }
  rewrite clean_dict by assumption. cbv zeta. rewrite Hloop.
  destruct hd as [|ml hd']; [discriminate|]. simpl List.map at 1.
  cbv iota. unfold final_health_data.
  set (cleaned := (fst ml, clean (JList (snd ml)))
                  :: List.map (fun ml0 => (fst ml0, clean (JList (snd ml0)))) hd').
  assert (Hck : List.map fst cleaned = ALL_HEALTH_METRICS).
  { unfold cleaned. rewrite <- Hkeys. simpl. f_equal. now rewrite List.map_map. }
  assert (Hnd : List.NoDup (List.map fst cleaned)).
  { rewrite Hck. apply all_metrics_nodup. }
  eexists. split; [reflexivity|]. split; [split|].
  - now apply nodup_keys_filter.
  - intros k v Hin. apply filter_In in Hin. destruct Hin as [Hin Ht].
    cbn [snd] in Ht. split.
    + rewrite <- Hck. change k with (fst (k, v)). now apply in_map.
    + change cleaned
        with (List.map (fun ml0 => (fst ml0, clean (JList (snd ml0)))) (ml :: hd')) in Hin.
      apply in_map_iff in Hin. destruct Hin as ([m l] & [= <- <-] & _).
      cbn [snd] in Ht |- *. rewrite clean_list in Ht |- * by assumption.
      destruct (List.filter _ _) as [|e es]; [discriminate|]. eauto.
  - intros c. rewrite find_filter_truthy by exact Hnd.
    change cleaned
      with (List.map (fun ml0 => (fst ml0, clean (JList (snd ml0)))) (ml :: hd')).
    rewrite (find_map_health (fun l => clean (JList l))). rewrite Hkeys.
    destruct (in_dec string_dec c ALL_HEALTH_METRICS); reflexivity.
Qed.

(** The request is refused when the cleaner raises on the collected data,
    and answered with the cleaned series when it does not. *)
Lemma finish_spec hd :
  List.map fst hd = ALL_HEALTH_METRICS ->
  (clean_garmin_data_raises (loads L) (loads_raises L) (health_json hd) = true
   /\ finish L hd = None)
  \/ (clean_garmin_data_raises (loads L) (loads_raises L) (health_json hd) = false
      /\ exists final,
          finish L hd = Some final
          /\ nonempty_series final
          /\ forall c, Py.dict_find c final
                       = if in_dec string_dec c ALL_HEALTH_METRICS
                         then published L (health_get c hd) else None).
Proof.
  intros Hkeys. rewrite finish_unfold.
  destruct (clean_garmin_data_raises _ _ _); [left; split; reflexivity|].
  right. split; [reflexivity|]. now apply finish_value.
Qed.

(** The data of an answer. *)
Lemma finish_some hd final :
  List.map fst hd = ALL_HEALTH_METRICS ->
  finish L hd = Some final ->
  clean_garmin_data_raises (loads L) (loads_raises L) (health_json hd) = false
  /\ nonempty_series final
  /\ forall c, Py.dict_find c final
               = if in_dec string_dec c ALL_HEALTH_METRICS
                 then published L (health_get c hd) else None.
Proof.
  intros Hkeys Hfinal.
  destruct (finish_spec hd Hkeys) as [[_ Hnone] | (Hno & final' & Hsome & Hshape & Hfind)].
  - rewrite Hnone in Hfinal. discriminate.
  - rewrite Hsome in Hfinal. injection Hfinal as <-. auto.
Qed.

End Finish.

(* ================================================================== *)
(** * The aggregation never aborts, and the shape of its result *)
(* ================================================================== *)

Lemma commit_nil hd : commit [] hd = hd.
Proof. reflexivity. Qed.

Lemma entries_for_bind_tail {A B} c (m : W A) (f : A -> W B) :
  (forall a, entries_sat (fun k _ => k <> c) (f a)) ->
  entries_for c (appended (m ≫= f)) = entries_for c (appended m).
Proof.
  intros H. rewrite appended_bind, entries_for_app.
  destruct (outcome m) as [a|]; [|now rewrite app_nil_r].
  rewrite (entries_for_none c (appended (f a))); [now rewrite app_nil_r|].
  intros e He. now apply (H a) in He.
Qed.

Section Shape.

Variable L : PyLib.
Variable garmin : GarminClient.
Variable mt : list string.

(** The daily summary appends at most one [steps] entry. *)
Lemma summary_steps_once d :
  List.length (entries_for "steps" (appended (fetch_daily_summary garmin mt d))) <= 1.
Proof.
  unfold fetch_daily_summary.
  rewrite appended_bind. cbn [appended outcome lift app].
  destruct (get_user_summary garmin d) as [summary_data|]; [|simpl; lia].
  rewrite appended_bind. cbn [appended outcome lift app].
  destruct (if Py.truthy summary_data then Py.keys summary_data else Some []);
    [|simpl; lia].
  destruct summary_data as [| | | | |[|kv summary]]; try (simpl; lia).
  rewrite entries_for_bind_tail.
  - destruct (want mt "steps"); simpl; lia.
  - intros _. unfold dated_value. sat_blocks; apply sat_emit; discriminate.
Qed.

Lemma bind_some {A B} (x : A) (f : A -> option B) : Some x ≫= f = f x.
Proof. reflexivity. Qed.

Lemma try_block_eq guard w hd : try_block guard w hd = Some (block guard w hd).
Proof. reflexivity. Qed.

Lemma not_steps_after_summary ks :
  In ks (List.tl date_step_keys) -> ~ In "steps" ks.
Proof.
  simpl. intros H.
  repeat (destruct H as [<- | H]; [simpl; intuition discriminate|]).
  destruct H.
Qed.

Lemma fetch_date_sat d hd :
  bb_dicts hd ->
  exists entries,
    fetch_date L garmin mt d hd = Some (commit entries hd)
    /\ (forall k e, In (k, e) entries ->
                    exists ks, In ks date_step_keys /\ day_entry mt ks d k e)
    /\ List.length (entries_for "steps" entries) <= 1.
Proof.
  intros Hhd. unfold fetch_date.
  pose proof (date_steps_sat L garmin mt d) as Hall.
  unfold date_steps in *.
  change date_step_keys with (summary_metrics :: List.tl date_step_keys) in *.
  apply List.Forall2_cons_iff in Hall. destruct Hall as [[Hsat Htot] Hrest].
  rewrite run_steps_cons, try_block_eq, bind_some.
  set (guard := existsb (want mt) summary_metrics) in *.
  set (hd1 := block guard (fetch_daily_summary garmin mt d) hd).
  assert (H1 : exists es1,
             hd1 = commit es1 hd
             /\ (forall k e, In (k, e) es1 -> day_entry mt summary_metrics d k e)
             /\ List.length (entries_for "steps" es1) <= 1).
  { unfold hd1, block. destruct guard.
    - exists (try_ (fetch_daily_summary garmin mt d)). split; [reflexivity|]. split.
      + apply fetch_daily_summary_sat.
      + apply summary_steps_once.
    - exists []. split; [reflexivity|]. split; [intros k e [] | simpl; lia]. }
  destruct H1 as (es1 & Hes1 & Hsat1 & Hn1).
  destruct (run_steps_sat mt d _ _ Hrest hd1) as (es2 & H2 & Hes2).
  { rewrite Hes1. eapply bb_dicts_commit; eauto. }
  exists (es1 ++ es2). rewrite commit_app, <- Hes1. split; [exact H2|]. split.
  - intros k e Hin. apply in_app_or in Hin. destruct Hin as [Hin | Hin].
    + exists summary_metrics. split; [now left | now apply Hsat1].
    + destruct (Hes2 k e Hin) as (ks' & Hks' & Hd). exists ks'. split; [now right | exact Hd].
  - rewrite entries_for_app, length_app.
    rewrite (entries_for_none "steps" es2); [simpl; lia|].
    intros e He. destruct (Hes2 _ _ He) as (ks' & Hks' & _ & Hin & _).
    now apply not_steps_after_summary in Hks'.
Qed.

Lemma fetch_once_sat start_date hd :
  bb_dicts hd ->
  exists entries,
    fetch_once garmin mt start_date hd = Some (commit entries hd)
    /\ forall k e, In (k, e) entries ->
                   want mt k = true /\ In k (concat once_step_keys).
Proof.
  intros Hhd. unfold fetch_once.
  destruct (run_steps_sat mt start_date _ _
                          (once_steps_sat garmin mt start_date start_date) hd Hhd)
    as (es & H & Hes).
  exists es. split; [exact H|]. intros k e Hin.
  destruct (Hes k e Hin) as (ks & Hks & Hw & Hk & _). split; [exact Hw|].
  apply in_concat. eauto.
Qed.

(** The loop over the dates does not raise; every entry it appends belongs
    to a requested metric, and each date adds at most one [steps] entry. *)
Lemma fetch_dates_sat dates :
  forall hd,
    bb_dicts hd ->
    exists entries,
      fetch_dates L garmin mt dates hd = Some (commit entries hd)
      /\ (forall k e, In (k, e) entries -> want mt k = true)
      /\ List.length (entries_for "steps" entries) <= List.length dates.
Proof.
  induction dates as [|d dates IH]; intros hd Hhd; simpl.
  - exists []. split; [reflexivity|]. split; [intros k e [] | simpl; lia].
  - destruct (fetch_date_sat d hd Hhd) as (es1 & -> & Hes1 & Hn1). simpl.
    destruct (IH (commit es1 hd)) as (es2 & -> & Hes2 & Hn2).
    { apply forall_commit; [exact Hhd|]. intros e He.
      destruct (Hes1 _ _ He) as (ks & _ & _ & _ & _ & Hbb).
      eapply dated_is_dict. now apply Hbb. }
    exists (es1 ++ es2). rewrite commit_app. split; [reflexivity|]. split.
    + intros k e Hin. apply in_app_or in Hin. destruct Hin as [Hin | Hin].
      * destruct (Hes1 _ _ Hin) as (ks & _ & Hw & _). exact Hw.
      * now apply (Hes2 k e).
    + rewrite entries_for_app, length_app. lia.
Qed.

Lemma bb_dicts_init : bb_dicts health_init.
Proof. unfold bb_dicts. rewrite health_init_get. constructor. Qed.

End Shape.

Lemma ordinals_length lo hi :
  (lo <= hi)%Z -> List.length (ordinals lo hi) = Z.to_nat (hi - lo + 1).
Proof. intros _. unfold ordinals. now rewrite length_map, length_seq. Qed.

Lemma filter_length_le {A} (p : A -> bool) l :
  List.length (List.filter p l) <= List.length l.
Proof.
  induction l as [|x l IH]; simpl; [lia|]. destruct (p x); simpl; lia.
Qed.

Lemma want_only_steps k : want ["steps"] k = true -> k = "steps".
Proof.
  unfold want, Py.str_in. simpl. rewrite orb_false_r. apply String.eqb_eq.
Qed.

Section ShapeTheorem.

Variable L : PyLib.

Hypothesis loads_size :
  forall t v, loads L t = Some v -> jsize v <= String.length t.

(** The aggregation hands to the cleaner what the blocks appended. *)
Lemma aggregate_spec garmin mt start_date dates :
  exists entries0 entries,
    aggregate L garmin mt start_date dates
    = finish L (commit entries (commit entries0 health_init))
    /\ (forall k e, In (k, e) entries0 ->
                    want mt k = true /\ In k (concat once_step_keys))
    /\ (forall k e, In (k, e) entries -> want mt k = true)
    /\ List.length (entries_for "steps" entries) <= List.length dates
    /\ forall c, In c ALL_HEALTH_METRICS ->
                 health_get c (commit entries (commit entries0 health_init))
                 = entries_for c entries0 ++ entries_for c entries.
Proof.
  unfold aggregate.
  destruct (fetch_once_sat garmin mt start_date health_init bb_dicts_init)
    as (es0 & H0 & Hes0).
  rewrite H0. simpl.
  destruct (fetch_dates_sat L garmin mt dates (commit es0 health_init))
    as (es & H1 & Hes & Hn).
  { apply forall_commit; [apply bb_dicts_init|].
    intros e He. apply Hes0 in He. destruct He as [_ He]. simpl in He.
    intuition discriminate. }
  rewrite H1. simpl.
  exists es0, es.
  split; [reflexivity|]. split; [exact Hes0|].
  split; [exact Hes|]. split; [exact Hn|].
  intros c Hc.
  rewrite !commit_get by (rewrite ?commit_keys; exact Hc).
  now rewrite health_init_get.
Qed.

(** What the aggregation returns, when it returns, in terms of
    [health_data] at the end of the loop. *)
Lemma aggregate_some garmin mt start_date dates final :
  aggregate L garmin mt start_date dates = Some final ->
  exists entries0 entries,
    nonempty_series final
    /\ (forall k e, In (k, e) entries0 ->
                    want mt k = true /\ In k (concat once_step_keys))
    /\ (forall k e, In (k, e) entries -> want mt k = true)
    /\ List.length (entries_for "steps" entries) <= List.length dates
    /\ forall c, In c ALL_HEALTH_METRICS ->
                 Py.dict_find c final
                 = published L (entries_for c entries0 ++ entries_for c entries).
Proof.
  intros Hagg.
  destruct (aggregate_spec garmin mt start_date dates)
    as (es0 & es & Hfin & Hes0 & Hes & Hn & Hget).
  rewrite Hfin in Hagg.
  destruct (finish_some L loads_size (commit es (commit es0 health_init)) final)
    as (_ & Hshape & Hfind);
    [now rewrite !commit_keys | exact Hagg |].
  exists es0, es.
  split; [exact Hshape|]. split; [exact Hes0|].
  split; [exact Hes|]. split; [exact Hn|].
  intros c Hc. rewrite Hfind.
  destruct (in_dec string_dec c ALL_HEALTH_METRICS) as [_ | Hn']; [|now elim Hn'].
  now rewrite Hget.
Qed.

Lemma published_some entries v :
  published L entries = Some v ->
  exists l, v = JList l /\ l <> [] /\ List.length l <= List.length entries.
Proof.
  unfold published. rewrite clean_list by assumption.
  set (l := List.filter _ _). simpl.
  destruct l as [|e es] eqn:E; [discriminate|]. intros [= <-].
  exists (e :: es). split; [reflexivity|]. split; [discriminate|].
  rewrite <- E. unfold l. etransitivity; [apply filter_length_le|].
  now rewrite length_map.
Qed.

Lemma aggregate_steps_only garmin start_date dates final :
  aggregate L garmin ["steps"] start_date dates = Some final ->
  steps_only (List.length dates) final.
Proof.
  intros Hagg.
  destruct (aggregate_some garmin ["steps"] start_date dates final Hagg)
    as (es0 & es & [Hnd Hshape] & Hes0 & Hes & Hn & Hfind).
  assert (Hkey : forall k v, In (k, v) final ->
                             k = "steps"
                             /\ exists l, v = JList l
                                          /\ List.length l <= List.length dates).
  { intros k v Hin. destruct (Hshape k v Hin) as [Hk _].
    pose proof (dict_find_nodup k v final Hnd Hin) as Hf.
    rewrite Hfind in Hf by assumption.
    destruct (published_some _ _ Hf) as (l & -> & Hne & Hlen).
    assert (Hsome : exists e, In (k, e) es0 \/ In (k, e) es).
    { destruct (entries_for k es0 ++ entries_for k es) as [|e rest] eqn:E.
      - unfold published in Hf. rewrite clean_list in Hf by assumption.
        discriminate.
      - exists e. assert (He : In e (entries_for k es0 ++ entries_for k es))
          by (rewrite E; now left).
        apply in_app_or in He. rewrite !entries_for_in in He. exact He. }
    destruct Hsome as [e [He | He]].
    - apply Hes0 in He. destruct He as [Hw Hin0]. apply want_only_steps in Hw.
      subst k. simpl in Hin0. intuition discriminate.
    - apply Hes in He. apply want_only_steps in He. subst k.
      split; [reflexivity|]. exists l. split; [reflexivity|].
      rewrite (entries_for_none "steps" es0) in Hlen.
      + simpl in Hlen. lia.
      + intros e0 He0. apply Hes0 in He0. destruct He0 as [_ He0].
        simpl in He0. intuition discriminate. }
  destruct final as [|[k v] rest]; [now left|]. right.
  destruct (Hkey k v) as (-> & l & -> & Hlen); [now left|].
  destruct (Hshape "steps" (JList l)) as (_ & e & es' & Hl); [now left|].
  destruct rest as [|[k' v'] rest'].
  - injection Hl as ->. exists e, es'. split; [reflexivity | exact Hlen].
  - exfalso. destruct (Hkey k' v') as (-> & _); [right; now left|].
    simpl in Hnd. inversion Hnd as [|? ? Hnotin _]. apply Hnotin. now left.
Qed.

End ShapeTheorem.

(* ================================================================== *)
(** * A date adds the same entries whatever was collected before *)
(* ================================================================== *)

Lemma run_steps_sim (R : health -> health -> Prop) stepsA stepsB :
  Forall2 (step_sim R) stepsA stepsB ->
  forall hdA hdB, R hdA hdB ->
                  exists hdA' hdB',
                    run_steps stepsA hdA = Some hdA'
                    /\ run_steps stepsB hdB = Some hdB' /\ R hdA' hdB'.
Proof.
  induction 1 as [|sA sB stepsA stepsB Hs Hrest IH]; intros hdA hdB HR.
  - exists hdA, hdB. repeat split; assumption.
  - rewrite !run_steps_cons.
    destruct (Hs hdA hdB HR) as (hdA1 & hdB1 & -> & -> & HR1). simpl.
    now apply IH.
Qed.

Lemma W_bind_ext {A B} (m : W A) (f g : A -> W B) :
  (forall a, f a = g a) -> m ≫= f = m ≫= g.
Proof.
  intros H. unfold mbind, W_mbind, W_bind.
  destruct (outcome m); [now rewrite H | reflexivity].
Qed.

Lemma other_date_is_dict field d e : other_date field d e -> Py.is_dict e = true.
Proof. intros (f & d' & -> & _). reflexivity. Qed.

Section History.

Variable L : PyLib.
Variable garmin : GarminClient.
Variable mt : list string.
Variable d : string.

(** The fallback loop of SpO2 passes over the sleep entries of other
    dates. *)
Lemma spo2_of_sleep_past old new :
  Forall (other_date "entry_date" d) old ->
  spo2_of_sleep d (old ++ new) = spo2_of_sleep d new.
Proof.
  induction 1 as [|e old (f & d' & -> & Hf & Hne) _ IH]; simpl; [reflexivity|].
  rewrite Hf. simpl.
  replace (String.eqb d' d) with false by (symmetry; now apply String.eqb_neq).
  simpl. exact IH.
Qed.

Lemma fetch_spo2_past old new :
  Forall (other_date "entry_date" d) old ->
  fetch_spo2 garmin d (old ++ new) = fetch_spo2 garmin d new.
Proof.
  intros Hold. unfold fetch_spo2.
  apply W_bind_ext. intros spo2_data. apply W_bind_ext. intros avg0.
  f_equal. f_equal.
  destruct (negb (Py.truthy avg0)); simpl; [|reflexivity].
  rewrite spo2_of_sleep_past by assumption.
  destruct new as [|e new].
  - rewrite app_nil_r. destruct old; reflexivity.
  - destruct old; reflexivity.
Qed.

Lemma has_bb_for_date_past old new :
  Forall (other_date "date" d) old ->
  has_bb_for_date d (old ++ new) = has_bb_for_date d new.
Proof.
  induction 1 as [|e old (f & d' & -> & Hf & Hne) _ IH]; simpl; [reflexivity|].
  rewrite Hf. simpl.
  replace (String.eqb d' d) with false by (symmetry; now apply String.eqb_neq).
  exact IH.
Qed.

Variable old : health.
Hypothesis old_past : past_of d old.

Lemma extends_commit hdA hdB entries keys :
  extends old hdA hdB ->
  (forall k e, In (k, e) entries -> day_entry mt keys d k e) ->
  extends old (commit entries hdA) (commit entries hdB).
Proof.
  intros (HkA & HkB & HbB & Hget) Hes.
  split; [now rewrite commit_keys|]. split; [now rewrite commit_keys|].
  split; [eapply bb_dicts_commit; eauto|].
  intros k. destruct (in_dec string_dec k ALL_HEALTH_METRICS) as [Hin | Hout].
  - rewrite !commit_get by (rewrite ?HkA, ?HkB; exact Hin).
    now rewrite Hget, app_assoc.
  - pose proof (Hget k) as Hk.
    rewrite (health_get_missing k hdA), (health_get_missing k hdB) in Hk
      by (rewrite ?HkA, ?HkB; exact Hout).
    rewrite (health_get_missing k (commit entries hdA)),
      (health_get_missing k (commit entries hdB))
      by (rewrite commit_keys, ?HkA, ?HkB; exact Hout).
    exact Hk.
Qed.

Lemma try_block_hist keys guard w :
  (guard = true -> entries_sat (day_entry mt keys d) w) ->
  step_sim (extends old) (try_block guard w) (try_block guard w).
Proof.
  intros Hw hdA hdB HR. unfold try_block, block.
  eexists _, _. split; [reflexivity|]. split; [reflexivity|].
  destruct guard; [|exact HR].
  eapply extends_commit; eauto. now apply Hw.
Qed.

Lemma spo2_step_hist :
  step_sim (extends old) (spo2_step garmin mt d) (spo2_step garmin mt d).
Proof.
  intros hdA hdB HR. unfold spo2_step, block.
  eexists _, _. split; [reflexivity|]. split; [reflexivity|].
  destruct (want mt "spo2") eqn:Hw; [|exact HR].
  destruct HR as (HkA & HkB & HbB & Hget).
  rewrite (Hget "sleep"), fetch_spo2_past by apply old_past.
  eapply extends_commit.
  - repeat split; eauto.
  - now apply fetch_spo2_sat.
Qed.

Lemma body_battery_step_hist :
  step_sim (extends old)
           (body_battery_step L garmin mt d) (body_battery_step L garmin mt d).
Proof.
  intros hdA hdB HR. unfold body_battery_step.
  destruct (want mt "body_battery") eqn:Hw.
  - pose proof HR as (HkA & HkB & HbB & Hget).
    rewrite (Hget "body_battery"), has_bb_for_date_past by apply old_past.
    destruct (has_bb_for_date_total d _ HbB) as [seen ->]. simpl.
    eexists _, _. split; [reflexivity|]. split; [reflexivity|].
    unfold block. destruct (negb seen); [|exact HR].
    eapply extends_commit; eauto. now apply fetch_body_battery_sat.
  - eexists _, _. split; [reflexivity|]. split; [reflexivity|]. exact HR.
Qed.

Lemma date_steps_hist :
  Forall2 (step_sim (extends old))
          (date_steps L garmin mt d) (date_steps L garmin mt d).
Proof.
  unfold date_steps.
  repeat (constructor;
          [ first [ apply spo2_step_hist
                  | apply body_battery_step_hist
                  | eapply try_block_hist; intros Hw ]
          | ]);
    try solve [constructor].
  - apply fetch_daily_summary_sat.
  - now apply fetch_hydration_sat.
  - now apply fetch_floors_sat.
  - now apply fetch_fitness_age_sat.
  - now apply fetch_heart_rates_sat.
  - now apply fetch_sleep_sat.
  - now apply fetch_stress_sat.
  - now apply fetch_respiration_sat.
  - now apply fetch_intensity_minutes_sat.
  - now apply fetch_training_readiness_sat.
  - now apply fetch_training_status_sat.
  - now apply fetch_max_metrics_sat.
  - now apply fetch_hrv_sat.
  - now apply fetch_endurance_score_sat.
  - now apply fetch_hill_score_sat.
  - now apply fetch_blood_pressure_sat.
  - now apply fetch_menstrual_data_sat.
  - now apply fetch_menstrual_calendar_data_sat.
  - now apply fetch_body_composition_sat.
  - now apply fetch_recovery_time_sat.
  - apply fetch_training_load_sat.
Qed.

(** One date of the loop, started on [old], appends to every category
    what the date adds on its own. *)
Lemma fetch_date_decomposes :
  List.map fst old = ALL_HEALTH_METRICS ->
  exists hd',
    fetch_date L garmin mt d old = Some hd'
    /\ List.map fst hd' = ALL_HEALTH_METRICS
    /\ forall k, health_get k hd' = health_get k old ++ day_fetch L garmin mt d k.
Proof.
  intros Hkeys.
  assert (HR : extends old old health_init).
  { split; [exact Hkeys|]. split; [apply health_init_keys|].
    split; [apply bb_dicts_init|].
    intros k. now rewrite health_init_get, app_nil_r. }
  destruct (run_steps_sim _ _ _ date_steps_hist old health_init HR)
    as (hdA & hdB & HA & HB & (HkA & HkB & _ & Hget)).
  exists hdA. unfold day_fetch, fetch_date. rewrite HA, HB.
  split; [reflexivity|]. split; [exact HkA | exact Hget].
Qed.

End History.

(* ================================================================== *)
(** * A category's entries depend on its own calls only *)
(* ================================================================== *)

Lemma health_get_commit_eq k esA esB hdA hdB :
  List.map fst hdA = ALL_HEALTH_METRICS ->
  List.map fst hdB = ALL_HEALTH_METRICS ->
  health_get k hdA = health_get k hdB ->
  entries_for k esA = entries_for k esB ->
  health_get k (commit esA hdA) = health_get k (commit esB hdB).
Proof.
  intros HkA HkB Hget Hes.
  destruct (in_dec string_dec k ALL_HEALTH_METRICS) as [Hin | Hout].
  - rewrite !commit_get by (rewrite ?HkA, ?HkB; exact Hin). now rewrite Hget, Hes.
  - rewrite !health_get_missing by (rewrite commit_keys, ?HkA, ?HkB; exact Hout).
    reflexivity.
Qed.

Section Locality.

Variable L : PyLib.
Variable gA gB : GarminClient.
Variable mt : list string.
Variable d : string.
Variable c : string.

Hypothesis same : same_fetches c d gA gB.

Lemma alike_commit hdA hdB esA esB keys :
  alike c hdA hdB ->
  (forall k e, In (k, e) esA -> day_entry mt keys d k e) ->
  (forall k e, In (k, e) esB -> day_entry mt keys d k e) ->
  (forall k, In k (watched c) -> entries_for k esA = entries_for k esB) ->
  alike c (commit esA hdA) (commit esB hdB).
Proof.
  intros (HkA & HkB & HbA & HbB & Hget) HA HB Hes.
  split; [now rewrite commit_keys|]. split; [now rewrite commit_keys|].
  split; [eapply bb_dicts_commit; eauto|].
  split; [eapply bb_dicts_commit; eauto|].
  intros k Hk. apply health_get_commit_eq; auto.
Qed.

(** A block whose calls feed [c] only when [c] is in [rel], and that then
    appends the same entries for both providers. *)
Lemma try_block_alike keys rel guard wA wB :
  (guard = true -> entries_sat (day_entry mt keys d) wA) ->
  (guard = true -> entries_sat (day_entry mt keys d) wB) ->
  (forall k, In k (watched c) -> In k keys -> In c rel) ->
  (In c rel ->
   forall k, In k (watched c) ->
             entries_for k (appended wA) = entries_for k (appended wB)) ->
  step_sim (alike c) (try_block guard wA) (try_block guard wB).
Proof.
  intros HA HB Hrel Hsame hdA hdB HR. unfold try_block, block.
  eexists _, _. split; [reflexivity|]. split; [reflexivity|].
  destruct guard; [|exact HR].
  apply alike_commit with (keys := keys);
    [exact HR | now apply HA | now apply HB |].
  intros k Hk.
  destruct (in_dec string_dec c rel) as [Hin | Hout]; [now apply Hsame|].
  rewrite !entries_for_none; [reflexivity | |].
  - intros e He. apply HB in He; [|reflexivity].
    destruct He as (_ & Hin & _). apply Hout. now apply (Hrel k).
  - intros e He. apply HA in He; [|reflexivity].
    destruct He as (_ & Hin & _). apply Hout. now apply (Hrel k).
Qed.

(** The usual case: the two blocks are the same computation. *)
Lemma try_block_alike_eq keys rel guard wA wB :
  (guard = true -> entries_sat (day_entry mt keys d) wA) ->
  (guard = true -> entries_sat (day_entry mt keys d) wB) ->
  (forall k, In k (watched c) -> In k keys -> In c rel) ->
  (In c rel -> wA = wB) ->
  step_sim (alike c) (try_block guard wA) (try_block guard wB).
Proof.
  intros HA HB Hrel Heq. apply try_block_alike with (keys := keys) (rel := rel); auto.
  intros Hc k _. now rewrite Heq.
Qed.

(** Finds the row of the table. *)
Ltac in_table := simpl; repeat first [left; reflexivity | right].

(** The agreement of the two providers on a call that feeds [c]. *)
Ltac agree f cats Hc :=
  let H := fresh "Hcall" in
  assert (H : f gA d = f gB d)
    by (apply (same f cats); [in_table | simpl in Hc |- *; intuition]);
  cbv beta in H.

(** A watched key of [c] that a block writes makes [c] relevant. *)
Ltac relevant :=
  intros k Hk Hin; unfold watched in Hk; simpl in Hin;
  destruct (String.eqb c "spo2") eqn:Espo2;
  [ apply String.eqb_eq in Espo2; subst c; simpl in Hk |- *;
    intuition (subst; try discriminate; auto)
  | simpl in Hk |- *; intuition (subst; auto) ].

Lemma summary_alike :
  step_sim (alike c)
           (try_block (existsb (want mt) summary_metrics) (fetch_daily_summary gA mt d))
           (try_block (existsb (want mt) summary_metrics) (fetch_daily_summary gB mt d)).
Proof.
  apply try_block_alike_eq with (keys := summary_metrics) (rel := summary_metrics).
  - intros _. apply fetch_daily_summary_sat.
  - intros _. apply fetch_daily_summary_sat.
  - relevant.
  - intros Hc. agree get_user_summary summary_metrics Hc.
    unfold fetch_daily_summary. now rewrite Hcall.
Qed.

Lemma hydration_alike :
  step_sim (alike c) (try_block (want mt "hydration") (fetch_hydration gA d))
           (try_block (want mt "hydration") (fetch_hydration gB d)).
Proof.
  apply try_block_alike_eq with (keys := ["hydration"]) (rel := ["hydration"]);
    try (intros Hw; now apply fetch_hydration_sat); [relevant|].
  intros Hc. agree get_hydration_data ["hydration"] Hc.
  unfold fetch_hydration. now rewrite Hcall.
Qed.

Lemma floors_alike :
  step_sim (alike c) (try_block (want mt "floors") (fetch_floors gA d))
           (try_block (want mt "floors") (fetch_floors gB d)).
Proof.
  apply try_block_alike_eq with (keys := ["floors"]) (rel := ["floors"]);
    try (intros Hw; now apply fetch_floors_sat); [relevant|].
  intros Hc. agree get_floors ["floors"] Hc.
  unfold fetch_floors. now rewrite Hcall.
Qed.

Lemma fitness_age_alike :
  step_sim (alike c) (try_block (want mt "fitness_age") (fetch_fitness_age gA d))
           (try_block (want mt "fitness_age") (fetch_fitness_age gB d)).
Proof.
  apply try_block_alike_eq with (keys := ["fitness_age"]) (rel := ["fitness_age"]);
    try (intros Hw; now apply fetch_fitness_age_sat); [relevant|].
  intros Hc. agree get_fitnessage_data ["fitness_age"] Hc.
  unfold fetch_fitness_age. now rewrite Hcall.
Qed.

Lemma heart_rates_alike :
  step_sim (alike c) (try_block (want mt "heart_rates") (fetch_heart_rates L gA d))
           (try_block (want mt "heart_rates") (fetch_heart_rates L gB d)).
Proof.
  apply try_block_alike_eq with (keys := ["heart_rates"]) (rel := ["heart_rates"]);
    try (intros Hw; now apply fetch_heart_rates_sat); [relevant|].
  intros Hc. agree get_heart_rates ["heart_rates"] Hc.
  unfold fetch_heart_rates. now rewrite Hcall.
Qed.

(** The sleep block is relevant to SpO2 as well. *)
Lemma sleep_alike :
  step_sim (alike c) (try_block (want mt "sleep") (fetch_sleep L gA d))
           (try_block (want mt "sleep") (fetch_sleep L gB d)).
Proof.
  apply try_block_alike_eq with (keys := ["sleep"]) (rel := ["sleep"; "spo2"]);
    try (intros Hw; now apply fetch_sleep_sat); [relevant|].
  intros Hc. agree get_sleep_data ["sleep"; "spo2"] Hc.
  unfold fetch_sleep. now rewrite Hcall.
Qed.

Lemma stress_alike :
  step_sim (alike c) (try_block (want mt "stress") (fetch_stress L gA d))
           (try_block (want mt "stress") (fetch_stress L gB d)).
Proof.
  apply try_block_alike_eq with (keys := ["stress"]) (rel := ["stress"]);
    try (intros Hw; now apply fetch_stress_sat); [relevant|].
  intros Hc. agree get_stress_data ["stress"] Hc.
  unfold fetch_stress. now rewrite Hcall.
Qed.

Lemma respiration_alike :
  step_sim (alike c) (try_block (want mt "respiration") (fetch_respiration gA d))
           (try_block (want mt "respiration") (fetch_respiration gB d)).
Proof.
  apply try_block_alike_eq with (keys := ["respiration"]) (rel := ["respiration"]);
    try (intros Hw; now apply fetch_respiration_sat); [relevant|].
  intros Hc. agree get_respiration_data ["respiration"] Hc.
  unfold fetch_respiration. now rewrite Hcall.
Qed.

Lemma intensity_minutes_alike :
  step_sim (alike c)
           (try_block (want mt "intensity_minutes") (fetch_intensity_minutes gA d))
           (try_block (want mt "intensity_minutes") (fetch_intensity_minutes gB d)).
Proof.
  apply try_block_alike_eq
    with (keys := ["intensity_minutes"]) (rel := ["intensity_minutes"]);
    try (intros Hw; now apply fetch_intensity_minutes_sat); [relevant|].
  intros Hc. agree get_intensity_minutes_data ["intensity_minutes"] Hc.
  unfold fetch_intensity_minutes. now rewrite Hcall.
Qed.

Lemma training_readiness_alike :
  step_sim (alike c)
           (try_block (want mt "training_readiness") (fetch_training_readiness gA d))
           (try_block (want mt "training_readiness") (fetch_training_readiness gB d)).
Proof.
  apply try_block_alike_eq
    with (keys := ["training_readiness"]) (rel := ["training_readiness"]);
    try (intros Hw; now apply fetch_training_readiness_sat); [relevant|].
  intros Hc.
  agree get_training_readiness ["training_readiness"; "recovery_time"; "acute_load"] Hc.
  unfold fetch_training_readiness. now rewrite Hcall.
Qed.

Lemma training_status_alike :
  step_sim (alike c)
           (try_block (want mt "training_status") (fetch_training_status gA d))
           (try_block (want mt "training_status") (fetch_training_status gB d)).
Proof.
  apply try_block_alike_eq
    with (keys := ["training_status"]) (rel := ["training_status"]);
    try (intros Hw; now apply fetch_training_status_sat); [relevant|].
  intros Hc.
  agree get_training_status ["training_status"; "training_load"; "acute_load"] Hc.
  unfold fetch_training_status. now rewrite Hcall.
Qed.

Lemma max_metrics_alike :
  step_sim (alike c) (try_block (want mt "max_metrics") (fetch_max_metrics gA d))
           (try_block (want mt "max_metrics") (fetch_max_metrics gB d)).
Proof.
  apply try_block_alike_eq with (keys := ["max_metrics"]) (rel := ["max_metrics"]);
    try (intros Hw; now apply fetch_max_metrics_sat); [relevant|].
  intros Hc. agree get_max_metrics ["max_metrics"] Hc.
  agree (fun (g : GarminClient) (d0 : string) =>
           query_garmin_graphql g (JDict [("query", JStr (vo2_graphql_query d0))]))
        ["max_metrics"] Hc.
  unfold fetch_max_metrics, vo2_of_graphql. now rewrite Hcall, Hcall0.
Qed.

Lemma hrv_alike :
  step_sim (alike c) (try_block (want mt "hrv") (fetch_hrv L gA d))
           (try_block (want mt "hrv") (fetch_hrv L gB d)).
Proof.
  apply try_block_alike_eq with (keys := ["hrv"]) (rel := ["hrv"]);
    try (intros Hw; now apply fetch_hrv_sat); [relevant|].
  intros Hc. agree get_hrv_data ["hrv"] Hc.
  unfold fetch_hrv. now rewrite Hcall.
Qed.

Lemma endurance_score_alike :
  step_sim (alike c)
           (try_block (want mt "endurance_score") (fetch_endurance_score gA d))
           (try_block (want mt "endurance_score") (fetch_endurance_score gB d)).
Proof.
  apply try_block_alike_eq
    with (keys := ["endurance_score"]) (rel := ["endurance_score"]);
    try (intros Hw; now apply fetch_endurance_score_sat); [relevant|].
  intros Hc.
  agree (fun (g : GarminClient) (d0 : string) => get_endurance_score g d0 d0)
        ["endurance_score"] Hc.
  unfold fetch_endurance_score. now rewrite Hcall.
Qed.

Lemma hill_score_alike :
  step_sim (alike c) (try_block (want mt "hill_score") (fetch_hill_score gA d))
           (try_block (want mt "hill_score") (fetch_hill_score gB d)).
Proof.
  apply try_block_alike_eq with (keys := ["hill_score"]) (rel := ["hill_score"]);
    try (intros Hw; now apply fetch_hill_score_sat); [relevant|].
  intros Hc.
  agree (fun (g : GarminClient) (d0 : string) => get_hill_score g d0 d0)
        ["hill_score"] Hc.
  unfold fetch_hill_score. now rewrite Hcall.
Qed.

Lemma blood_pressure_alike :
  step_sim (alike c)
           (try_block (want mt "blood_pressure") (fetch_blood_pressure L gA d))
           (try_block (want mt "blood_pressure") (fetch_blood_pressure L gB d)).
Proof.
  apply try_block_alike_eq
    with (keys := ["blood_pressure"]) (rel := ["blood_pressure"]);
    try (intros Hw; now apply fetch_blood_pressure_sat); [relevant|].
  intros Hc.
  agree (fun (g : GarminClient) (d0 : string) => get_blood_pressure g d0 d0)
        ["blood_pressure"] Hc.
  unfold fetch_blood_pressure. now rewrite Hcall.
Qed.

Lemma menstrual_data_alike :
  step_sim (alike c)
           (try_block (want mt "menstrual_data") (fetch_menstrual_data gA d))
           (try_block (want mt "menstrual_data") (fetch_menstrual_data gB d)).
Proof.
  apply try_block_alike_eq
    with (keys := ["menstrual_data"]) (rel := ["menstrual_data"]);
    try (intros Hw; now apply fetch_menstrual_data_sat); [relevant|].
  intros Hc. agree get_menstrual_data_for_date ["menstrual_data"] Hc.
  unfold fetch_menstrual_data. now rewrite Hcall.
Qed.

Lemma menstrual_calendar_data_alike :
  step_sim (alike c)
           (try_block (want mt "menstrual_calendar_data")
                      (fetch_menstrual_calendar_data gA d))
           (try_block (want mt "menstrual_calendar_data")
                      (fetch_menstrual_calendar_data gB d)).
Proof.
  apply try_block_alike_eq
    with (keys := ["menstrual_calendar_data"]) (rel := ["menstrual_calendar_data"]);
    try (intros Hw; now apply fetch_menstrual_calendar_data_sat); [relevant|].
  intros Hc.
  agree (fun (g : GarminClient) (d0 : string) => get_menstrual_calendar_data g d0 d0)
        ["menstrual_calendar_data"] Hc.
  unfold fetch_menstrual_calendar_data. now rewrite Hcall.
Qed.

Lemma body_composition_alike :
  step_sim (alike c)
           (try_block (want mt "body_composition") (fetch_body_composition gA d))
           (try_block (want mt "body_composition") (fetch_body_composition gB d)).
Proof.
  apply try_block_alike_eq
    with (keys := ["body_composition"]) (rel := ["body_composition"]);
    try (intros Hw; now apply fetch_body_composition_sat); [relevant|].
  intros Hc.
  agree (fun (g : GarminClient) (d0 : string) => get_body_composition g d0 d0)
        ["body_composition"] Hc.
  unfold fetch_body_composition. now rewrite Hcall.
Qed.

Lemma recovery_time_alike :
  step_sim (alike c)
           (try_block (want mt "recovery_time") (fetch_recovery_time gA d))
           (try_block (want mt "recovery_time") (fetch_recovery_time gB d)).
Proof.
  apply try_block_alike_eq
    with (keys := ["recovery_time"]) (rel := ["recovery_time"]);
    try (intros Hw; now apply fetch_recovery_time_sat); [relevant|].
  intros Hc.
  agree get_training_readiness ["training_readiness"; "recovery_time"; "acute_load"] Hc.
  unfold fetch_recovery_time. now rewrite Hcall.
Qed.

Lemma entries_for_bind_ext {A B} k (m : W A) (f g : A -> W B) :
  (forall a, entries_for k (appended (f a)) = entries_for k (appended (g a))) ->
  entries_for k (appended (m ≫= f)) = entries_for k (appended (m ≫= g)).
Proof.
  intros H. rewrite !appended_bind, !entries_for_app.
  destruct (outcome m); [now rewrite H | reflexivity].
Qed.

(** The training-load entries of the last block depend on the status call
    alone; its acute-load entries need the readiness call too. *)
Lemma training_load_alike :
  step_sim (alike c)
           (try_block (want mt "training_load" || want mt "acute_load")
                      (fetch_training_load gA mt d))
           (try_block (want mt "training_load" || want mt "acute_load")
                      (fetch_training_load gB mt d)).
Proof.
  apply try_block_alike
    with (keys := ["training_load"; "acute_load"])
         (rel := ["training_load"; "acute_load"]);
    try (intros _; apply fetch_training_load_sat); [relevant|].
  intros Hc k Hk.
  agree get_training_status ["training_status"; "training_load"; "acute_load"] Hc.
  simpl in Hc. destruct Hc as [<- | [<- | []]]; simpl in Hk;
    destruct Hk as [<- | []].
  - (* training load *)
    unfold fetch_training_load. rewrite Hcall.
    apply entries_for_bind_ext. intros status.
    apply entries_for_bind_ext. intros ts_dict.
    destruct (Py.truthy ts_dict); [|reflexivity]. simpl when.
    rewrite !entries_for_bind_tail; [reflexivity | |];
      intros _; unfold dated_value; sat_blocks; apply sat_emit; discriminate.
  - (* acute load *)
    assert (Hready : get_training_readiness gA d = get_training_readiness gB d).
    { apply (same get_training_readiness
                  ["training_readiness"; "recovery_time"; "acute_load"]);
        [in_table | simpl; tauto]. }
    unfold fetch_training_load. now rewrite Hcall, Hready.
Qed.

Lemma spo2_alike :
  step_sim (alike c) (spo2_step gA mt d) (spo2_step gB mt d).
Proof.
  intros hdA hdB HR. unfold spo2_step, block.
  eexists _, _. split; [reflexivity|]. split; [reflexivity|].
  destruct (want mt "spo2") eqn:Hw; [|exact HR].
  apply alike_commit with (keys := ["spo2"]);
    [exact HR | now apply fetch_spo2_sat | now apply fetch_spo2_sat |].
  intros k Hk. unfold watched in Hk.
  destruct (String.eqb c "spo2") eqn:E.
  - apply String.eqb_eq in E.
    assert (Hcall : get_spo2_data gA d = get_spo2_data gB d).
    { apply (same get_spo2_data ["spo2"]); [in_table | left; now symmetry]. }
    destruct HR as (_ & _ & _ & _ & Hget).
    assert (Hsleep : health_get "sleep" hdA = health_get "sleep" hdB).
    { apply Hget. unfold watched. rewrite E. simpl. subst c. simpl. tauto. }
    rewrite Hsleep. unfold fetch_spo2, try_. now rewrite Hcall.
  - destruct Hk as [<- | []]. apply String.eqb_neq in E.
    rewrite !entries_for_none; [reflexivity | |];
      intros e He; apply (fetch_spo2_sat _ mt d _ Hw) in He;
      destruct He as (_ & [Hk | []] & _); congruence.
Qed.

Lemma body_battery_alike :
  step_sim (alike c) (body_battery_step L gA mt d) (body_battery_step L gB mt d).
Proof.
  intros hdA hdB HR. unfold body_battery_step.
  destruct (want mt "body_battery") eqn:Hw;
    [|eexists _, _; split; [reflexivity|]; split; [reflexivity | exact HR]].
  pose proof HR as (HkA & HkB & HbA & HbB & Hget).
  destruct (has_bb_for_date_total d _ HbA) as [seenA HA].
  destruct (has_bb_for_date_total d _ HbB) as [seenB HB].
  rewrite HA, HB. simpl.
  eexists _, _. split; [reflexivity|]. split; [reflexivity|].
  destruct (String.eqb c "body_battery") eqn:E.
  - apply String.eqb_eq in E.
    assert (Hlist : health_get "body_battery" hdA = health_get "body_battery" hdB).
    { apply Hget. unfold watched. subst c. simpl. tauto. }
    rewrite Hlist, HB in HA. injection HA as ->.
    assert (Hcall : get_body_battery gA d d = get_body_battery gB d d).
    { apply (same (fun (g : GarminClient) (d0 : string) => get_body_battery g d0 d0)
                  ["body_battery"]); [in_table | left; now symmetry]. }
    unfold block. destruct (negb seenA); [|exact HR].
    unfold fetch_body_battery. rewrite Hcall.
    apply alike_commit with (keys := ["body_battery"]); auto.
    + unfold try_. fold (fetch_body_battery L gB d). now apply fetch_body_battery_sat.
    + unfold try_. fold (fetch_body_battery L gB d). now apply fetch_body_battery_sat.
  - apply String.eqb_neq in E.
    assert (Hother : forall g seen,
               forall k, In k (watched c) ->
                         entries_for k (if negb seen then try_ (fetch_body_battery L g d)
                                        else []) = []).
    { intros g seen k Hk. apply entries_for_none. intros e He.
      destruct (negb seen); [|destruct He].
      apply (fetch_body_battery_sat L g mt d Hw) in He.
      destruct He as (_ & [Hk' | []] & _). subst k.
      unfold watched in Hk. destruct (String.eqb c "spo2") eqn:E2.
      - simpl in Hk. intuition discriminate.
      - simpl in Hk. intuition congruence. }
    unfold block.
    replace (if negb seenA then commit (try_ (fetch_body_battery L gA d)) hdA else hdA)
      with (commit (if negb seenA then try_ (fetch_body_battery L gA d) else []) hdA)
      by (destruct (negb seenA); reflexivity).
    replace (if negb seenB then commit (try_ (fetch_body_battery L gB d)) hdB else hdB)
      with (commit (if negb seenB then try_ (fetch_body_battery L gB d) else []) hdB)
      by (destruct (negb seenB); reflexivity).
    apply alike_commit with (keys := ["body_battery"]); auto.
    + intros k e He. destruct (negb seenA); [|destruct He].
      now apply (fetch_body_battery_sat L gA mt d Hw).
    + intros k e He. destruct (negb seenB); [|destruct He].
      now apply (fetch_body_battery_sat L gB mt d Hw).
    + intros k Hk. now rewrite !Hother.
Qed.

(** Statement by statement, the loop body keeps the lists of [c] equal
    for two providers that agree on the calls that feed [c]. *)
Lemma date_steps_alike :
  Forall2 (step_sim (alike c)) (date_steps L gA mt d) (date_steps L gB mt d).
Proof.
  unfold date_steps.
  repeat (constructor;
          [ first [ apply summary_alike | apply hydration_alike | apply floors_alike
                  | apply fitness_age_alike | apply heart_rates_alike
                  | apply sleep_alike | apply stress_alike | apply respiration_alike
                  | apply spo2_alike | apply intensity_minutes_alike
                  | apply training_readiness_alike | apply training_status_alike
                  | apply max_metrics_alike | apply hrv_alike
                  | apply endurance_score_alike | apply hill_score_alike
                  | apply blood_pressure_alike | apply body_battery_alike
                  | apply menstrual_data_alike | apply menstrual_calendar_data_alike
                  | apply body_composition_alike | apply recovery_time_alike
                  | apply training_load_alike ]
          | ]).
  constructor.
Qed.

Lemma alike_init : alike c health_init health_init.
Proof.
  repeat split; try apply health_init_keys; try apply bb_dicts_init.
Qed.

Lemma day_fetch_local : day_fetch L gA mt d c = day_fetch L gB mt d c.
Proof.
  destruct (run_steps_sim _ _ _ date_steps_alike health_init health_init alike_init)
    as (hdA & hdB & HA & HB & (_ & _ & _ & _ & Hget)).
  unfold day_fetch, fetch_date. rewrite HA, HB. apply Hget.
  unfold watched. destruct (String.eqb c "spo2") eqn:E; [|now left].
  apply String.eqb_eq in E. left. now symmetry.
Qed.

End Locality.

(* ================================================================== *)
(** * A fetch that raises adds nothing for its category *)
(* ================================================================== *)

Lemma failing_block P guard w :
  appended w = [] -> step_sat P (try_block guard w).
Proof.
  intros Hw hd hd' [= <-]. exists []. split; [|intros k e []].
  unfold block, try_. rewrite Hw. now destruct guard.
Qed.

Section Exclusion.

Variable L : PyLib.
Variable garmin : GarminClient.
Variable mt : list string.
Variable d : string.
Variable c : string.

(** Entries of the metrics in [ks], none of them of category [c]. *)
Abbreviation elsewhere ks := (fun k e => day_entry mt ks d k e /\ k <> c).

Lemma run_steps_elsewhere keys steps :
  Forall2 (fun ks s => step_sat (elsewhere ks) s /\ step_total s) keys steps ->
  forall hd, bb_dicts hd ->
             exists entries,
               run_steps steps hd = Some (commit entries hd)
               /\ forall k e, In (k, e) entries -> k <> c.
Proof.
  induction 1 as [|ks s keys steps [Hsat Htot] Hrest IH]; intros hd Hhd.
  - exists []. split; [reflexivity|]. intros k e [].
  - rewrite run_steps_cons.
    destruct (Htot hd Hhd) as [hd1 H1]. rewrite H1. simpl.
    destruct (Hsat hd hd1 H1) as (es1 & -> & Hes1).
    destruct (IH (commit es1 hd)) as (es2 & H2 & Hes2).
    { eapply bb_dicts_commit; [exact Hhd|]. intros k e He. now apply Hes1. }
    exists (es1 ++ es2). rewrite commit_app. split; [exact H2|].
    intros k e Hin. apply in_app_or in Hin. destruct Hin as [Hin | Hin].
    + now apply Hes1 in Hin.
    + now apply (Hes2 k e).
Qed.

(** It is enough to look at the statements that write [c]. *)
Lemma exclusion_core keys steps :
  Forall2 (fun ks s => step_sat (day_entry mt ks d) s /\ step_total s) keys steps ->
  (forall ks s, In (ks, s) (combine keys steps) -> In c ks ->
                step_sat (elsewhere ks) s) ->
  Forall2 (fun ks s => step_sat (elsewhere ks) s /\ step_total s) keys steps.
Proof.
  induction 1 as [|ks s keys steps [Hsat Htot] Hrest IH]; intros Hc; constructor.
  - split; [|exact Htot].
    destruct (in_dec string_dec c ks) as [Hin | Hout].
    + apply Hc; [now left | exact Hin].
    + eapply step_sat_weaken; [|exact Hsat].
      intros k e Hd. split; [exact Hd|]. intros ->. now destruct Hd as (_ & Hk & _).
  - apply IH. intros ks' s' Hin. apply Hc. now right.
Qed.

Lemma day_fetch_nothing :
  (forall ks s, In (ks, s) (combine date_step_keys (date_steps L garmin mt d)) ->
                In c ks -> step_sat (elsewhere ks) s) ->
  day_fetch L garmin mt d c = [].
Proof.
  intros Hc.
  pose proof (exclusion_core _ _ (date_steps_sat L garmin mt d) Hc) as Hall.
  destruct (run_steps_elsewhere _ _ Hall health_init bb_dicts_init)
    as (es & Hrun & Hes).
  unfold day_fetch, fetch_date. rewrite Hrun.
  destruct (in_dec string_dec c ALL_HEALTH_METRICS) as [Hin | Hout].
  - rewrite commit_get by (rewrite health_init_keys; exact Hin).
    rewrite health_init_get. apply entries_for_none.
    intros e He. now apply Hes in He.
  - apply health_get_missing. now rewrite commit_keys, health_init_keys.
Qed.

Lemma failing_spo2 P :
  get_spo2_data garmin d = None -> step_sat P (spo2_step garmin mt d).
Proof.
  intros Hf hd hd' [= <-]. exists []. split; [|intros k e []].
  unfold block, try_, fetch_spo2. rewrite Hf. now destruct (want mt "spo2").
Qed.

Lemma failing_body_battery P :
  get_body_battery garmin d d = None -> step_sat P (body_battery_step L garmin mt d).
Proof.
  intros Hf hd hd'. unfold body_battery_step.
  destruct (want mt "body_battery").
  - destruct (has_bb_for_date d _) as [seen|]; simpl; [|discriminate].
    intros [= <-]. exists []. split; [|intros k e []].
    unfold block, try_, fetch_body_battery. rewrite Hf. now destruct (negb seen).
  - intros [= <-]. exists []. split; [reflexivity | intros k e []].
Qed.

(** With the readiness call raising, the last block may still append a
    training-load entry, never an acute-load one. *)
Lemma training_load_without_readiness :
  get_training_readiness garmin d = None ->
  entries_sat (fun k e => day_entry mt ["training_load"; "acute_load"] d k e
                          /\ k <> "acute_load")
              (fetch_training_load garmin mt d).
Proof.
  intros Hf. unfold fetch_training_load, dated_value. rewrite Hf.
  sat_blocks;
    try match goal with H : outcome (lift None) = Some _ |- _ => discriminate H end.
  apply sat_emit. split; [|discriminate].
  split; [assumption|]. split; [simpl; tauto|]. split; discriminate.
Qed.

End Exclusion.

(** Looks at the statements of the loop body one by one: either the
    statement does not write the category, or its first call raises. *)
Ltac only_own_step Hin Hc :=
  cbn [combine date_step_keys date_steps In] in Hin;
  repeat (destruct Hin as [Hin | Hin];
          [ injection Hin as <- <-; simpl in Hc;
            first [ solve [exfalso; intuition discriminate]
                  | apply failing_block;
                    unfold fetch_daily_summary, fetch_hydration, fetch_floors,
                      fetch_fitness_age, fetch_heart_rates, fetch_sleep, fetch_stress,
                      fetch_respiration, fetch_intensity_minutes,
                      fetch_training_readiness, fetch_training_status,
                      fetch_max_metrics, fetch_hrv, fetch_endurance_score,
                      fetch_hill_score, fetch_blood_pressure, fetch_menstrual_data,
                      fetch_menstrual_calendar_data, fetch_body_composition, fetch_recovery_time, fetch_training_load;
                    match goal with H : _ = None |- _ => rewrite H end; reflexivity
                  | apply failing_spo2; assumption
                  | apply failing_body_battery; assumption ]
          | ]);
  try destruct Hin.

Lemma day_fetch_excluded L garmin mt d c :
  fetch_raises garmin c d -> day_fetch L garmin mt d c = [].
Proof.
  unfold fetch_raises.
  destruct (String.eqb c "body_battery") eqn:E1.
  { apply String.eqb_eq in E1. subst c. intros [Hsum Hbb].
    apply day_fetch_nothing. intros ks s Hin Hc.
    cbn [combine date_step_keys date_steps In] in Hin.
    repeat (destruct Hin as [Hin | Hin];
            [ injection Hin as <- <-; simpl in Hc;
              first [ solve [exfalso; intuition discriminate]
                    | apply failing_block; unfold fetch_daily_summary;
                      rewrite Hsum; reflexivity
                    | apply failing_body_battery; assumption ]
            | ]).
    destruct Hin. }
  destruct (String.eqb c "acute_load") eqn:E2.
  { apply String.eqb_eq in E2. subst c. intros Hfail.
    apply day_fetch_nothing. intros ks s Hin Hc.
    cbn [combine date_step_keys date_steps In] in Hin.
    repeat (destruct Hin as [Hin | Hin];
            [ injection Hin as <- <-; simpl in Hc;
              first [ solve [exfalso; intuition discriminate] | idtac ]
            | ]);
      try destruct Hin.
    destruct Hfail as [Hstatus | Hready].
    - apply failing_block. unfold fetch_training_load. rewrite Hstatus. reflexivity.
    - apply try_block_sat. intros _. now apply training_load_without_readiness. }
  intros (f & Hin & Hfail). simpl in Hin.
  repeat (destruct Hin as [Hin | Hin];
          [ injection Hin as <- <-; cbv beta in Hfail;
            apply day_fetch_nothing; intros ks s Hstep Hc;
            only_own_step Hstep Hc
          | ]).
  destruct Hin.
Qed.

(* ================================================================== *)
(** * The series of a category, date by date *)
(* ================================================================== *)

Section Isolation.

Variable L : PyLib.
Variable garmin : GarminClient.
Variable mt : list string.

(** The sleep and body-battery entries a date adds carry that date. *)
Lemma day_fetch_dated d :
  Forall (dated "entry_date" d) (day_fetch L garmin mt d "sleep")
  /\ Forall (dated "date" d) (day_fetch L garmin mt d "body_battery").
Proof.
  destruct (fetch_date_sat L garmin mt d health_init bb_dicts_init)
    as (es & Hrun & Hes & _).
  unfold day_fetch. rewrite Hrun. split.
  - apply forall_commit; [rewrite health_init_get; constructor|].
    intros e He. destruct (Hes _ _ He) as (ks & _ & _ & _ & Hs & _). now apply Hs.
  - apply forall_commit; [rewrite health_init_get; constructor|].
    intros e He. destruct (Hes _ _ He) as (ks & _ & _ & _ & _ & Hb). now apply Hb.
Qed.

Lemma dated_other field d d' e : dated field d' e -> d' <> d -> other_date field d e.
Proof. intros (f & -> & Hf) Hne. exists f, d'. auto. Qed.

(** The loop over distinct dates appends, category by category, what each
    date adds on its own. *)
Lemma fetch_dates_decomposes dates :
  List.NoDup dates ->
  forall hd,
    List.map fst hd = ALL_HEALTH_METRICS ->
    (forall d, In d dates -> past_of d hd) ->
    exists hd',
      fetch_dates L garmin mt dates hd = Some hd'
      /\ List.map fst hd' = ALL_HEALTH_METRICS
      /\ forall k, health_get k hd'
                   = health_get k hd
                     ++ concat (List.map (fun d => day_fetch L garmin mt d k) dates).
Proof.
  induction 1 as [|d dates Hnotin Hnd IH]; intros hd Hkeys Hpast; simpl.
  - exists hd. split; [reflexivity|]. split; [exact Hkeys|].
    intros k. now rewrite app_nil_r.
  - destruct (fetch_date_decomposes L garmin mt d hd (Hpast d (or_introl eq_refl)) Hkeys)
      as (hd1 & -> & Hk1 & Hget1).
    simpl.
    destruct (IH hd1 Hk1) as (hd2 & -> & Hk2 & Hget2).
    { intros d' Hd'.
      assert (Hne : d <> d') by (intros ->; contradiction).
      destruct (Hpast d' (or_intror Hd')) as [Hs Hb].
      destruct (day_fetch_dated d) as [Hs1 Hb1].
      unfold past_of. rewrite !Hget1. split; apply List.Forall_app; split; auto.
      - eapply List.Forall_impl; [|exact Hs1]. intros e He. now apply dated_other with d.
      - eapply List.Forall_impl; [|exact Hb1]. intros e He. now apply dated_other with d. }
    exists hd2. split; [reflexivity|]. split; [exact Hk2|].
    intros k. now rewrite Hget2, Hget1, app_assoc.
Qed.

Lemma fetch_once_decomposes start_date :
  exists hd0,
    fetch_once garmin mt start_date health_init = Some hd0
    /\ List.map fst hd0 = ALL_HEALTH_METRICS
    /\ (forall k, health_get k hd0 = once_fetch garmin mt start_date k)
    /\ forall d, past_of d hd0.
Proof.
  destruct (fetch_once_sat garmin mt start_date health_init bb_dicts_init)
    as (es0 & H0 & Hes0).
  exists (commit es0 health_init). split; [exact H0|].
  split; [now rewrite commit_keys|]. split.
  - intros k. unfold once_fetch. now rewrite H0.
  - intros d. split.
    + rewrite commit_get, health_init_get by (rewrite health_init_keys; simpl; tauto).
      rewrite entries_for_none; [constructor|].
      intros e He. apply Hes0 in He. destruct He as [_ He]. simpl in He.
      intuition discriminate.
    + rewrite commit_get, health_init_get by (rewrite health_init_keys; simpl; tauto).
      rewrite entries_for_none; [constructor|].
      intros e He. apply Hes0 in He. destruct He as [_ He]. simpl in He.
      intuition discriminate.
Qed.

Hypothesis loads_size :
  forall t v, loads L t = Some v -> jsize v <= String.length t.

(** [health_data] is determined by its keys and its lists. *)
Lemma health_by_keys (hd : health) :
  List.NoDup (List.map fst hd) ->
  hd = List.map (fun c => (c, health_get c hd)) (List.map fst hd).
Proof.
  induction hd as [|[m l] hd IH]; intros Hnd; [reflexivity|].
  inversion Hnd as [|? ? Hm Hnd']; subst.
  cbn [List.map fst health_get]. rewrite String.eqb_refl. f_equal.
  rewrite (IH Hnd') at 1. apply map_ext_in. intros c Hc.
  destruct (String.eqb_spec c m) as [-> | _]; [contradiction | reflexivity].
Qed.

(** The data handed to the cleaner are what the dates added one by one. *)
Lemma aggregate_decomposes start_date dates :
  List.NoDup dates ->
  exists hd,
    aggregate L garmin mt start_date dates = finish L hd
    /\ List.map fst hd = ALL_HEALTH_METRICS
    /\ health_json hd = collected_data L garmin mt start_date dates
    /\ forall c, In c ALL_HEALTH_METRICS ->
                 health_get c hd = collected L garmin mt start_date dates c.
Proof.
  intros Hnd. unfold aggregate.
  destruct (fetch_once_decomposes start_date) as (hd0 & -> & Hk0 & Hget0 & Hpast0).
  simpl.
  destruct (fetch_dates_decomposes dates Hnd hd0 Hk0) as (hd & -> & Hk & Hget).
  { intros d _. apply Hpast0. }
  simpl. exists hd. split; [reflexivity|]. split; [exact Hk|].
  assert (Hcoll : forall c, In c ALL_HEALTH_METRICS ->
                            health_get c hd = collected L garmin mt start_date dates c).
  { intros c Hc. unfold collected. now rewrite Hget, Hget0. }
  split; [|exact Hcoll].
  unfold health_json, collected_data. f_equal.
  rewrite (health_by_keys hd) at 1 by (rewrite Hk; apply all_metrics_nodup).
  rewrite List.map_map, Hk. apply map_ext_in. intros c Hc. cbn [fst snd].
  now rewrite Hcoll.
Qed.

(** The request is refused when the cleaner raises on the collected data;
    otherwise the response holds, for each category, the cleaned series of
    what the dates added one by one. *)
Lemma aggregate_answer start_date dates :
  List.NoDup dates ->
  (clean_garmin_data_raises (loads L) (loads_raises L)
                            (collected_data L garmin mt start_date dates) = true
   /\ aggregate L garmin mt start_date dates = None)
  \/ (clean_garmin_data_raises (loads L) (loads_raises L)
                               (collected_data L garmin mt start_date dates) = false
      /\ exists final,
          aggregate L garmin mt start_date dates = Some final
          /\ nonempty_series final
          /\ forall c, In c ALL_HEALTH_METRICS ->
                       Py.dict_find c final
                       = published L (collected L garmin mt start_date dates c)).
Proof.
  intros Hnd.
  destruct (aggregate_decomposes start_date dates Hnd)
    as (hd & -> & Hk & Hjson & Hcoll).
  rewrite <- Hjson.
  destruct (finish_spec L loads_size hd Hk)
    as [[Hraises Hnone] | (Hraises & final & Hsome & Hshape & Hfind)].
  - left. split; assumption.
  - right. split; [exact Hraises|]. exists final.
    split; [exact Hsome|]. split; [exact Hshape|].
    intros c Hc. rewrite Hfind.
    destruct (in_dec string_dec c ALL_HEALTH_METRICS) as [_ | Hout]; [|now elim Hout].
    now rewrite Hcoll.
Qed.

End Isolation.

(* ================================================================== *)
(** * The enrichment of activities *)
(* ================================================================== *)

Section ActivityFacts.

Variable L : PyLib.
Variable garmin : GarminClient.





End ActivityFacts.




(* ================================================================== *)
(** * The reconciliation of the sleep stages *)
(* ================================================================== *)

(** The table of the stages: level [3] alone is awake, every other number
    above [2] is unknown. *)
Lemma stage_type_of_number (q : Q) :
  stage_type_of (JNum q)
  = Some (if Qeq_bool q 0 then "deep"
          else if Qeq_bool q 1 then "light"
               else if Qeq_bool q 2 then "rem"
                    else if Qeq_bool q 3 then "awake" else "unknown").
Proof.
  unfold stage_type_of, stage_type_map. simpl.
  destruct (Qeq_bool q 0); [reflexivity|].
  destruct (Qeq_bool q 1); [reflexivity|].
  destruct (Qeq_bool q 2); [reflexivity|].
  destruct (Qeq_bool q 3); reflexivity.
Qed.

(** C5: the seconds awake are not recomputed but added to, and level 3
    alone is awake.  For the night of the example (summary stages all [0];
    events of 1800 s deep, 3600 s light, 900 s REM, 300 s awake and 120 s
    at level 4) and a summary that already reports [q] seconds awake, the
    record reports [q + 300] seconds awake: the summary's figure and the
    events' are both counted.  The three other stages are the sums of the
    events and the time asleep is 6300, as in the example; the event at
    level 4 is typed unknown, as is every number other than 0, 1, 2
    and 3. *)
Theorem sleep_awake_counted_twice :
  (forall level : Q,
      Qeq_bool level 0 = false -> Qeq_bool level 1 = false ->
      Qeq_bool level 2 = false -> Qeq_bool level 3 = false ->
      stage_type_of (JNum level) = Some "unknown")
  /\ (forall q : Q,
         Qeq_bool q 0 = false ->
         stage_fields (sleep_entry Ref.lib "2024-01-01" (sample_sleep q))
         = [JNum 1800; JNum 3600; JNum 900; JNum (q + 300); JNum 6300]
         /\ stage_types (sleep_entry Ref.lib "2024-01-01" (sample_sleep q))
            = [JStr "deep"; JStr "light"; JStr "rem"; JStr "awake"; JStr "unknown"])
  /\ stage_fields (sleep_entry Ref.lib "2024-01-01" (sample_sleep 0))
     = [JNum 1800; JNum 3600; JNum 900; JNum 300; JNum 6300].
Proof.
  split; [|split].
  - intros level H0 H1 H2 H3.
    now rewrite stage_type_of_number, H0, H1, H2, H3.
  - intros q Hq. destruct q as [[|n|n] d]; [discriminate Hq | |];
      split; vm_compute; reflexivity.
  - vm_compute; reflexivity.
Qed.

Lemma sleep_awake_counted_twice_witness :
  Qeq_bool 500 0 = false
  /\ stage_type_of (JNum 4) = Some "unknown"
  /\ stage_fields (sleep_entry Ref.lib "2024-01-01" (sample_sleep 500))
     = [JNum 1800; JNum 3600; JNum 900; JNum 800; JNum 6300].
Proof.
  split; [reflexivity|]. split.
  - exact (proj1 sleep_awake_counted_twice 4%Q eq_refl eq_refl eq_refl eq_refl).
  - exact (proj1 (proj1 (proj2 sleep_awake_counted_twice) 500%Q eq_refl)).
Defined.

(* ================================================================== *)
(** * The dates of a range *)
(* ================================================================== *)

Lemma ordinals_cons lo hi :
  (lo <= hi)%Z -> ordinals lo hi = lo :: ordinals (lo + 1) hi.
Proof.
  intros H. unfold ordinals.
  replace (Z.to_nat (hi - lo + 1)) with (S (Z.to_nat (hi - (lo + 1) + 1))) by lia.
  cbn [seq List.map]. f_equal; [lia|].
  rewrite <- seq_shift, List.map_map. apply List.map_ext. intros i. lia.
Qed.

Lemma ordinals_empty lo hi : (hi < lo)%Z -> ordinals lo hi = [].
Proof.
  intros H. unfold ordinals. now replace (Z.to_nat (hi - lo + 1)) with 0 by lia.
Qed.

Lemma ordinals_in lo hi n : In n (ordinals lo hi) <-> (lo <= n <= hi)%Z.
Proof.
  unfold ordinals. rewrite in_map_iff. split.
  - intros (i & <- & Hi). apply in_seq in Hi. lia.
  - intros H. exists (Z.to_nat (n - lo)). split; [lia|]. apply in_seq. lia.
Qed.

Lemma nth_map_within {A B} (f : A -> B) l n d d' :
  n < List.length l -> nth n (List.map f l) d' = f (nth n l d).
Proof.
  revert n. induction l as [|x l IH]; intros [|n] H; simpl in *; try lia; auto.
  apply IH. lia.
Qed.

Lemma ordinals_nth lo hi i :
  (0 <= i <= hi - lo)%Z -> nth (Z.to_nat i) (ordinals lo hi) 0%Z = (lo + i)%Z.
Proof.
  intros H. unfold ordinals.
  rewrite (nth_map_within _ _ _ 0) by (rewrite length_seq; lia).
  rewrite seq_nth by lia. lia.
Qed.

Lemma nodup_map_injective {A B} (f : A -> B) l :
  (forall x y, In x l -> In y l -> f x = f y -> x = y) ->
  List.NoDup l -> List.NoDup (List.map f l).
Proof.
  induction l as [|x l IH]; intros Hinj Hnd; [constructor|].
  inversion Hnd as [|? ? Hnotin Hnd']; subst. simpl. constructor.
  - intros Hin. apply in_map_iff in Hin. destruct Hin as (y & E & Hy).
    apply Hnotin. rewrite (Hinj x y); simpl; auto.
  - apply IH; [|exact Hnd']. intros; apply Hinj; simpl; auto.
Qed.

Lemma ordinals_nodup lo hi : List.NoDup (ordinals lo hi).
Proof.
  unfold ordinals. apply nodup_map_injective; [|apply seq_NoDup].
  intros i j _ _ H. lia.
Qed.

Section DatesFacts.

Variable date_fromisoformat : string -> option Z.
Variable date_isoformat : Z -> string.

(** The loop from [current_date], with [dates] collected so far. *)
Lemma dates_loop_spec end_date :
  (end_date <= DATE_MAX_ORDINAL)%Z ->
  forall fuel current_date dates,
    Z.to_nat (end_date - current_date + 1) < fuel ->
    dates_loop date_isoformat fuel current_date end_date dates
    = Some (if (end_date <? current_date)%Z then Some dates
            else if (end_date =? DATE_MAX_ORDINAL)%Z then None
                 else Some (dates ++ List.map date_isoformat
                                              (ordinals current_date end_date))).
Proof.
  intros Hmax. induction fuel as [|fuel IH]; intros current_date dates Hfuel; [lia|].
  simpl. destruct (Z.leb_spec current_date end_date) as [Hle | Hgt].
  - replace (end_date <? current_date)%Z with false by (symmetry; apply Z.ltb_ge; lia).
    destruct (Z.eqb_spec current_date DATE_MAX_ORDINAL) as [Heq | Hne].
    + replace (end_date =? DATE_MAX_ORDINAL)%Z with true
        by (symmetry; apply Z.eqb_eq; lia).
      reflexivity.
    + rewrite IH by lia.
      destruct (Z.eqb_spec end_date DATE_MAX_ORDINAL) as [Hend | Hend].
      * destruct (Z.ltb_spec end_date (current_date + 1)); [lia | reflexivity].
      * rewrite (ordinals_cons current_date end_date) by lia. simpl.
        destruct (Z.ltb_spec end_date (current_date + 1)) as [Hlast | Hmore].
        -- rewrite ordinals_empty by lia. reflexivity.
        -- now rewrite <- app_assoc.
  - replace (end_date <? current_date)%Z with true by (symmetry; apply Z.ltb_lt; lia).
    reflexivity.
Qed.

End DatesFacts.

(** X1.  The [while] loop of [get_dates_in_range] terminates, and what it
    leaves is what [get_dates_in_range] is taken to return: when the end
    date lies in the calendar, enough fuel makes the loop, run statement
    by statement, answer with the empty list for an end before the start,
    with the [OverflowError] when the end is [date.max] (the loop steps
    past the last date before it tests again), with the [ValueError] of a
    date that does not parse, and else with the dates from the start to
    the end. *)
Theorem dates_loop_returns_range
        (date_fromisoformat : string -> option Z) (date_isoformat : Z -> string)
        (start_date_str end_date_str : string) :
  (forall end_date, date_fromisoformat end_date_str = Some end_date ->
                    (end_date <= DATE_MAX_ORDINAL)%Z) ->
  exists enough,
    forall fuel,
      enough <= fuel ->
      get_dates_in_range_loop date_fromisoformat date_isoformat fuel
                              start_date_str end_date_str
      = Some (get_dates_in_range date_fromisoformat date_isoformat
                                 start_date_str end_date_str).
Proof.
  intros Hmax. unfold get_dates_in_range_loop, get_dates_in_range.
  destruct (date_fromisoformat start_date_str) as [start_date|];
    [|exists 0; reflexivity].
  destruct (date_fromisoformat end_date_str) as [end_date|];
    [|exists 0; reflexivity].
  exists (S (Z.to_nat (end_date - start_date + 1))). intros fuel Hfuel. simpl.
  rewrite dates_loop_spec by (auto; lia). reflexivity.
Qed.

Lemma dates_loop_returns_range_witness :
  (forall end_date, Ref.date_fromisoformat "2024-01-03" = Some end_date ->
                    (end_date <= DATE_MAX_ORDINAL)%Z)
  /\ exists enough,
      forall fuel,
        enough <= fuel ->
        get_dates_in_range_loop Ref.date_fromisoformat Ref.date_isoformat fuel
                                "2024-01-01" "2024-01-03"
        = Some (get_dates_in_range Ref.date_fromisoformat Ref.date_isoformat
                                   "2024-01-01" "2024-01-03").
Proof.
  assert (H : forall end_date,
             Ref.date_fromisoformat "2024-01-03" = Some end_date ->
             (end_date <= DATE_MAX_ORDINAL)%Z).
  { intros end_date E. vm_compute in E. injection E as <-. discriminate. }
  split; [exact H|].
  exact (dates_loop_returns_range Ref.date_fromisoformat Ref.date_isoformat
                                  "2024-01-01" "2024-01-03" H).
Defined.

(** X2.  The range is inclusive and ascending: for a start that is not
    after the end, and an end before [date.max], [get_dates_in_range]
    returns one date for each day from the start to the end, the [i]-th
    being the start plus [i] days; and when every day of the range prints
    to a text that parses back to it, the dates are pairwise distinct and
    each parses to a day of the range.  An end before the start gives the
    empty list, not an error. *)
Theorem dates_in_range_inclusive
        (date_fromisoformat : string -> option Z) (date_isoformat : Z -> string)
        (start_date_str end_date_str : string) (start_date end_date : Z) :
  date_fromisoformat start_date_str = Some start_date ->
  date_fromisoformat end_date_str = Some end_date ->
  (end_date < DATE_MAX_ORDINAL)%Z ->
  ((end_date < start_date)%Z ->
   get_dates_in_range date_fromisoformat date_isoformat start_date_str end_date_str
   = Some [])
  /\ ((start_date <= end_date)%Z ->
      exists dates,
        get_dates_in_range date_fromisoformat date_isoformat
                           start_date_str end_date_str = Some dates
        /\ List.length dates = Z.to_nat (end_date - start_date + 1)
        /\ (forall i, (0 <= i <= end_date - start_date)%Z ->
                      nth (Z.to_nat i) dates "" = date_isoformat (start_date + i)%Z)
        /\ ((forall n, (start_date <= n <= end_date)%Z ->
                       date_fromisoformat (date_isoformat n) = Some n) ->
            List.NoDup dates
            /\ forall d, In d dates ->
                         exists n, (start_date <= n <= end_date)%Z
                                   /\ date_fromisoformat d = Some n)).
Proof.
  intros Hs He Hmax. unfold get_dates_in_range. rewrite Hs, He. simpl. split.
  - intros Hlt. now replace (end_date <? start_date)%Z with true
      by (symmetry; apply Z.ltb_lt; lia).
  - intros Hle.
    replace (end_date <? start_date)%Z with false by (symmetry; apply Z.ltb_ge; lia).
    replace (end_date =? DATE_MAX_ORDINAL)%Z with false
      by (symmetry; apply Z.eqb_neq; lia).
    eexists. split; [reflexivity|]. split; [|split].
    + now rewrite length_map, ordinals_length.
    + intros i Hi.
      rewrite (nth_map_within _ _ _ 0%Z) by (rewrite ordinals_length by lia; lia).
      now rewrite ordinals_nth.
    + intros Hround. split.
      * (* distinct days print to distinct texts *)
        apply nodup_map_injective; [|apply ordinals_nodup].
        intros m n Hm Hn E. apply ordinals_in in Hm, Hn.
        apply Hround in Hm, Hn. rewrite E in Hm. congruence.
      * intros d Hd. apply in_map_iff in Hd. destruct Hd as (n & <- & Hn).
        apply ordinals_in in Hn. exists n. auto.
Qed.

Lemma dates_in_range_inclusive_witness :
  get_dates_in_range Ref.date_fromisoformat Ref.date_isoformat
                     "2024-02-28" "2024-03-01"
  = Some ["2024-02-28"; "2024-02-29"; "2024-03-01"]
  /\ List.NoDup ["2024-02-28"; "2024-02-29"; "2024-03-01"].
Proof.
  destruct (dates_in_range_inclusive
              Ref.date_fromisoformat Ref.date_isoformat
              "2024-02-28" "2024-03-01" 738944 738946 eq_refl eq_refl eq_refl)
    as [_ H].
  destruct (H ltac:(discriminate)) as (dates & Hdates & _ & _ & Hround).
  vm_compute in Hdates. injection Hdates as <-.
  split; [reflexivity|].
  apply Hround. intros n Hn.
  assert (Hcases : n = 738944%Z \/ n = 738945%Z \/ n = 738946%Z) by lia.
  destruct Hcases as [-> | [-> | ->]]; vm_compute; reflexivity.
Defined.

(* ================================================================== *)
(** * More on the MFA challenge cache *)
(* ================================================================== *)

Lemma mfa_expired_spec now item :
  mfa_expired now item = false <-> (now - mfa_ts item <= MFA_TTL_SECONDS)%Q.
Proof.
  unfold mfa_expired. rewrite negb_false_iff. apply Qle_bool_iff.
Qed.

Lemma mfa_expired_later now later item :
  (now <= later)%Q -> mfa_expired now item = true -> mfa_expired later item = true.
Proof.
  intros Hle H. apply not_false_iff_true. rewrite mfa_expired_spec.
  apply not_false_iff_true in H. rewrite mfa_expired_spec in H. lra.
Qed.

(** X3.  The sweep keeps an entry exactly when its age is at most the five
    minutes (an entry of exactly that age stays); it never adds or changes
    an entry; sweeping twice at one time is sweeping once; and a sweep
    followed by a later sweep leaves what the later sweep alone leaves. *)
Theorem cleanup_keeps_fresh_entries (now : Q) (store : gmap string mfa_item) :
  (forall token item,
      _cleanup_mfa_cache now store !! token = Some item
      <-> store !! token = Some item /\ (now - mfa_ts item <= 300)%Q)
  /\ _cleanup_mfa_cache now store ⊆ store
  /\ _cleanup_mfa_cache now (_cleanup_mfa_cache now store) = _cleanup_mfa_cache now store
  /\ (forall later,
         (now <= later)%Q ->
         _cleanup_mfa_cache later (_cleanup_mfa_cache now store)
         = _cleanup_mfa_cache later store).
Proof.
  assert (Httl : (MFA_TTL_SECONDS == 300)%Q) by reflexivity.
  split; [|split; [|split]].
  - intros token item. rewrite cleanup_lookup.
    destruct (store !! token) as [item'|]; [|split; [discriminate | tauto]].
    destruct (mfa_expired now item') eqn:E.
    + split; [discriminate|]. intros [[= ->] Hage].
      apply not_false_iff_true in E. rewrite mfa_expired_spec in E. lra.
    + apply mfa_expired_spec in E. split.
      * intros [= ->]. split; [reflexivity | lra].
      * intros [[= ->] _]. reflexivity.
  - unfold _cleanup_mfa_cache. apply map_filter_subseteq.
  - apply map_eq. intros token. rewrite !cleanup_lookup.
    destruct (store !! token) as [item|]; [|reflexivity].
    destruct (mfa_expired now item) eqn:E; [reflexivity | now rewrite E].
  - intros later Hle. apply map_eq. intros token. rewrite !cleanup_lookup.
    destruct (store !! token) as [item|]; [|reflexivity].
    destruct (mfa_expired now item) eqn:E; [|reflexivity].
    now rewrite (mfa_expired_later now later item Hle E).
Qed.

Lemma cleanup_keeps_fresh_entries_witness :
  (0 <= 400)%Q
  /\ _cleanup_mfa_cache 300 (<["h1" := MfaItem JNull 0]> ∅) !! "h1"
     = Some (MfaItem JNull 0)
  /\ _cleanup_mfa_cache 400 (_cleanup_mfa_cache 0 (<["h1" := MfaItem JNull 0]> ∅))
     = _cleanup_mfa_cache 400 (<["h1" := MfaItem JNull 0]> ∅).
Proof.
  assert (Hle : (0 <= 400)%Q) by (unfold Qle; simpl; lia).
  split; [exact Hle|]. split.
  - apply (proj1 (cleanup_keeps_fresh_entries 300 (<["h1" := MfaItem JNull 0]> ∅))).
    split; [apply lookup_insert_eq | unfold Qle; simpl; lia].
  - exact (proj2 (proj2 (proj2 (cleanup_keeps_fresh_entries
                                  0 (<["h1" := MfaItem JNull 0]> ∅))))
                 400%Q Hle).
Defined.

Section AuthFacts.

Variable resume_login : json -> json -> resume_outcome.

(** What is left of the handle [h] after a request. *)
Lemma pending_le_one h (store : gmap string mfa_item) : pending h store <= 1.
Proof. unfold pending. destruct (store !! h); lia. Qed.

Lemma pending_cleanup h now (store : gmap string mfa_item) :
  pending h (_cleanup_mfa_cache now store) <= pending h store.
Proof.
  unfold pending. rewrite cleanup_lookup.
  destruct (store !! h) as [item|]; [|lia]. destruct (mfa_expired now item); lia.
Qed.

Lemma eq_str_true x s : Py.eq_str x s = true <-> x = JStr s.
Proof.
  destruct x; simpl; try (split; [discriminate | congruence]).
  rewrite String.eqb_eq. split; congruence.
Qed.

(** One request: what it redeems is paid for by what was pending or by
    what it issues. *)
Lemma serve_accounts h (store : gmap string mfa_item) r :
  (if names_handle h r && is_success (fst (serve resume_login store r)) then 1 else 0)
  + pending h (snd (serve resume_login store r))
  <= (if issues_handle h r then 1 else 0) + pending h store.
Proof.
  destruct r as [outcome mfa_id stored_at swept_at | t data]; simpl.
  - destruct outcome as [e | state | tokens]; simpl; try lia.
    eapply Nat.le_trans; [apply pending_cleanup|].
    unfold pending. destruct (String.eqb_spec mfa_id h) as [-> | Hne].
    + rewrite lookup_insert_eq. destruct (store !! h); lia.
    + rewrite lookup_insert_ne by assumption. lia.
  - unfold garmin_resume_login.
    destruct (negb (Py.truthy (Py.dict_get "client_state" data))
              || negb (Py.truthy (Py.dict_get "mfa_code" data))
              || negb (Py.truthy (Py.dict_get "user_id" data))).
    { simpl. rewrite andb_false_r. lia. }
    destruct (Py.eq_str (Py.dict_get "client_state" data) h) eqn:E.
    + apply eq_str_true in E. rewrite E. simpl.
      unfold pending at 2. destruct (store !! h) as [item|] eqn:Es.
      * assert (Hgone : pending h (delete h store) = 0).
        { unfold pending. now rewrite lookup_delete_eq. }
        destruct (resume_login (mfa_state item) (Py.dict_get "mfa_code" data))
          as [[| |]|]; simpl; rewrite Hgone; lia.
      * simpl. unfold pending. rewrite lookup_delete_eq. lia.
    + simpl.
      assert (Hsame : forall token, JStr token = Py.dict_get "client_state" data ->
                                    pending h (delete token store) = pending h store).
      { intros token Ht. unfold pending. rewrite lookup_delete_ne; [reflexivity|].
        intros ->. apply not_true_iff_false in E. apply E. apply eq_str_true.
        now symmetry. }
      destruct (Py.dict_get "client_state" data) as [| | |token| |] eqn:Ec;
        simpl; try lia.
      destruct (store !! token) as [item|].
      * destruct (resume_login (mfa_state item) (Py.dict_get "mfa_code" data))
          as [[| |]|]; simpl; rewrite Hsame by reflexivity; lia.
      * simpl. rewrite Hsame by reflexivity. lia.
Qed.

Lemma serve_all_accounts h rs :
  forall store : gmap string mfa_item,
    redeemed h rs (fst (serve_all resume_login store rs)) + pending h (snd (serve_all resume_login store rs))
    <= issued h rs + pending h store.
Proof.
  induction rs as [|r rs IH]; intros store; simpl; [lia|].
  pose proof (serve_accounts h store r) as Hone.
  destruct (serve resume_login store r) as [a store1] eqn:E1. simpl in Hone.
  specialize (IH store1).
  destruct (serve_all resume_login store1 rs) as [answers store2] eqn:E2.
  simpl in IH |- *. unfold issued in *. simpl.
  destruct (issues_handle h r); simpl; lia.
Qed.

End AuthFacts.

(** X4.  A handle is redeemed at most once for each time it was issued:
    over any sequence of login and resume requests, whatever the provider
    answers and whenever the requests arrive, the resumes naming a handle
    that are answered with tokens are no more than the logins that stored
    a challenge under it, plus one if the cache held it at the start. *)
Theorem handle_redeemed_once_per_issue
        (resume_login : json -> json -> resume_outcome)
        (store : gmap string mfa_item) (h : string) (rs : list auth_request) :
  redeemed h rs (fst (serve_all resume_login store rs))
  <= issued h rs + pending h store.
Proof.
  pose proof (serve_all_accounts resume_login h rs store). lia.
Qed.

(** X5.  A failed attempt uses the handle up: the entry is popped before
    the provider sees the code, so when the provider rejects the code the
    answer is a 500 carrying the provider's message, the handle is gone,
    and a second attempt, even with the right code, is answered as an
    invalid or expired handle. *)
Theorem failed_resume_consumes_handle
        (resume_login : json -> json -> resume_outcome)
        (store : gmap string mfa_item) (h : string) (item : mfa_item)
        (code user_id : json) (e : exn) (t : Q) :
  h <> "" -> Py.truthy code = true -> Py.truthy user_id = true ->
  store !! h = Some item ->
  resume_login (mfa_state item) code = ResumeRaises e ->
  let failed := serve resume_login store (ResumeRequest t (resume_body h code user_id)) in
  fst failed = handle "Garmin MFA error: " "Failed to complete Garmin MFA: " e
  /\ status_of (fst failed) = 500%Z
  /\ snd failed = delete h store
  /\ forall code' t',
      Py.truthy code' = true ->
      serve resume_login (snd failed) (ResumeRequest t' (resume_body h code' user_id))
      = (invalid_or_expired, snd failed).
Proof.
  intros Hh Hc Hu Hs Hr failed.
  assert (Hfailed : failed
                    = (handle "Garmin MFA error: " "Failed to complete Garmin MFA: " e,
                       delete h store)).
  { unfold failed. simpl. unfold garmin_resume_login.
    change (Py.dict_get "client_state" (resume_body h code user_id)) with (JStr h).
    change (Py.dict_get "mfa_code" (resume_body h code user_id)) with code.
    change (Py.dict_get "user_id" (resume_body h code user_id)) with user_id.
    rewrite truthy_handle, Hc, Hu by assumption. simpl. now rewrite Hs, Hr. }
  rewrite Hfailed. cbn [fst snd]. split; [reflexivity|]. split; [now destruct e|].
  split; [reflexivity|].
  intros code' t' Hc'. apply resume_absent_fails; auto. apply lookup_delete_eq.
Qed.

Lemma failed_resume_consumes_handle_witness :
  let store : gmap string mfa_item := <["h1" := MfaItem (JStr "ch") 0]> ∅ in
  let failed := serve sample_resume_login store
                      (ResumeRequest 10 (resume_body "h1" (JStr "000000") (JStr "u"))) in
  fst failed = AuthError 500 "Failed to complete Garmin MFA: bad code"
  /\ serve sample_resume_login (snd failed)
           (ResumeRequest 20 (resume_body "h1" (JStr "123456") (JStr "u")))
     = (invalid_or_expired, snd failed).
Proof.
  intros store failed.
  destruct (failed_resume_consumes_handle
              sample_resume_login store "h1" (MfaItem (JStr "ch") 0)
              (JStr "000000") (JStr "u") (GarthException "bad code") 10)
    as (H1 & _ & _ & H4);
    try reflexivity; try discriminate.
  split; [exact H1|]. apply H4. reflexivity.
Defined.

(** X6.  A resume touches no other handle and never adds one: after any
    resume request the cache holds, under every handle but the one the
    request names, what it held before, and it is contained in what it
    was; a request with an empty or missing field changes nothing at all
    and is answered with a 500 that wraps the 400; and whatever the
    request and the provider, a failure is answered with status 500,
    never another one. *)
Theorem resume_leaves_other_handles
        (resume_login : json -> json -> resume_outcome)
        (data : pydict) (store : gmap string mfa_item) :
  (forall h, Py.dict_get "client_state" data <> JStr h ->
             snd (garmin_resume_login resume_login data store) !! h = store !! h)
  /\ snd (garmin_resume_login resume_login data store) ⊆ store
  /\ (Py.truthy (Py.dict_get "client_state" data) = false
      \/ Py.truthy (Py.dict_get "mfa_code" data) = false
      \/ Py.truthy (Py.dict_get "user_id" data) = false ->
      garmin_resume_login resume_login data store
      = (AuthError 500 ("An unexpected error occurred: 400: "
                        +:+ "Missing client_state, mfa_code, or user_id."),
         store))
  /\ (is_success (fst (garmin_resume_login resume_login data store)) = false ->
      status_of (fst (garmin_resume_login resume_login data store)) = 500%Z).
Proof.
  unfold garmin_resume_login.
  set (cs := Py.dict_get "client_state" data).
  set (code := Py.dict_get "mfa_code" data).
  set (uid := Py.dict_get "user_id" data).
  destruct (negb (Py.truthy cs) || negb (Py.truthy code) || negb (Py.truthy uid))
    eqn:Emiss.
  { simpl. repeat split; auto. }
  assert (Hall : Py.truthy cs = true /\ Py.truthy code = true /\ Py.truthy uid = true).
  { apply orb_false_iff in Emiss. destruct Emiss as [Emiss E3].
    apply orb_false_iff in Emiss. destruct Emiss as [E1 E2].
    apply negb_false_iff in E1, E2, E3. auto. }
  assert (Hsub : forall token, delete token store ⊆ store)
    by (intros; apply delete_subseteq).
  split; [|split; [|split]].
  - intros h Hh. destruct cs as [| | |token| |]; simpl; try reflexivity.
    assert (Hne : token <> h) by congruence.
    destruct (store !! token) as [item|]; simpl.
    + destruct (resume_login (mfa_state item) code); simpl;
        now rewrite lookup_delete_ne.
    + now rewrite lookup_delete_ne.
  - destruct cs as [| | |token| |]; simpl; try reflexivity.
    destruct (store !! token) as [item|]; simpl; [|apply Hsub].
    destruct (resume_login (mfa_state item) code); simpl; apply Hsub.
  - intros [H | [H | H]]; destruct Hall as (H1 & H2 & H3); congruence.
  - destruct cs as [| | |token| |]; simpl; try reflexivity.
    destruct (store !! token) as [item|]; simpl; [|reflexivity].
    destruct (resume_login (mfa_state item) code) as [e|tokens]; simpl;
      [now destruct e | discriminate].
Qed.

Lemma resume_leaves_other_handles_witness :
  let store : gmap string mfa_item :=
    <["h2" := MfaItem (JStr "other") 0]> (<["h1" := MfaItem (JStr "ch") 0]> ∅) in
  JStr "h1" <> JStr "h2"
  /\ snd (garmin_resume_login sample_resume_login
                              (resume_body "h1" (JStr "123456") (JStr "u")) store)
       !! "h2"
     = Some (MfaItem (JStr "other") 0)
  /\ garmin_resume_login sample_resume_login
                         (resume_body "h1" (JStr "") (JStr "u")) store
     = (AuthError 500 ("An unexpected error occurred: 400: "
                       +:+ "Missing client_state, mfa_code, or user_id."),
        store).
Proof.
  intros store.
  assert (Hne : JStr "h1" <> JStr "h2") by discriminate.
  split; [exact Hne|]. split.
  - rewrite (proj1 (resume_leaves_other_handles
                      sample_resume_login
                      (resume_body "h1" (JStr "123456") (JStr "u")) store) "h2" Hne).
    apply lookup_insert_eq.
  - apply (proj1 (proj2 (proj2 (resume_leaves_other_handles
                                  sample_resume_login
                                  (resume_body "h1" (JStr "") (JStr "u")) store)))).
    right. left. reflexivity.
Defined.

(* ================================================================== *)
(** * The shape of cleaned payloads *)
(* ================================================================== *)

Section CleanFormFacts.

Variable json_loads : string -> option json.

Hypothesis loads_size :
  forall t v, json_loads t = Some v -> jsize v <= String.length t.

Abbreviation clean := (clean_garmin_data json_loads).
Abbreviation form := (clean_form json_loads).

Lemma clean_form_list l : form (JList l) <-> forall y, In y l -> form y.
Proof.
  simpl. induction l as [|x l IH]; simpl.
  - split; [intros _ y [] | auto].
  - rewrite IH. split.
    + intros [Hx Hl] y [<- | Hy]; auto.
    + intros H. split; auto.
Qed.

Lemma clean_form_dict d :
  form (JDict d)
  <-> d <> [] /\ List.NoDup (List.map fst d)
      /\ forall k v, In (k, v) d -> excluded_key k = false /\ form v.
Proof.
  simpl.
  assert (H : fold_right (fun kv rest =>
                            (excluded_key (fst kv) = false /\ form (snd kv)) /\ rest)
                         True d
              <-> forall k v, In (k, v) d -> excluded_key k = false /\ form v).
  { induction d as [|[k0 v0] d IH]; simpl.
    - split; [intros _ k v [] | auto].
    - rewrite IH. split.
      + intros [H0 Hd] k v [[= <- <-] | Hin]; auto.
      + intros H. split; auto. }
  rewrite H. tauto.
Qed.

Lemma clean_form_not_null y : form y -> y <> JNull.
Proof. intros H ->. exact H. Qed.

(** What the cleaner returns is [None] or has the shape. *)
Lemma clean_gives_form n : forall x, jsize x < n -> clean x = JNull \/ form (clean x).
Proof.
  induction n as [|n IH]; intros x Hx; [lia|].
  destruct x as [|b|q|s|l|d].
  - left. now apply clean_scalar.
  - right. rewrite clean_scalar; simpl; auto.
  - right. rewrite clean_scalar; simpl; auto.
  - rewrite clean_str by assumption.
    destruct (json_loads (undouble s)) as [p|] eqn:E.
    + apply IH. assert (Hp : child_of json_loads p (JStr s)) by exact E.
      apply child_size in Hp; [lia | assumption].
    + right. exact E.
  - right. rewrite clean_list by assumption. apply clean_form_list.
    intros y Hy. apply filter_In in Hy. destruct Hy as [Hy Hnn].
    apply in_map_iff in Hy. destruct Hy as (x & <- & Hx0).
    apply negb_true_iff, is_none_false in Hnn.
    destruct (IH x) as [Hnull | Hform]; [|contradiction | exact Hform].
    apply (list_sum_in jsize) in Hx0. simpl in Hx. lia.
  - rewrite clean_dict by assumption. cbv zeta.
    destruct (fold_left (clean_item clean) d []) as [|e es] eqn:E; [now left|].
    right. apply clean_form_dict. split; [discriminate|]. split.
    + rewrite <- E. apply clean_loop_nodup. constructor.
    + intros k v Hin. rewrite <- E in Hin. apply clean_loop_entries in Hin.
      destruct Hin as [[] | (v0 & Hv0 & (Hk & _ & Hnn) & ->)]. simpl in Hk, Hnn.
      split; [exact Hk|].
      destruct (IH v0) as [Hnull | Hform]; [|contradiction | exact Hform].
      apply (list_sum_in (fun kv => jsize (snd kv))) in Hv0. simpl in *. lia.
Qed.

(** A payload that has the shape is left as it is. *)
Lemma form_is_fixed n : forall y, jsize y < n -> form y -> clean y = y.
Proof.
  induction n as [|n IH]; intros y Hy Hform; [lia|].
  destruct y as [|b|q|s|l|d].
  - destruct Hform.
  - now apply clean_scalar.
  - now apply clean_scalar.
  - rewrite clean_str by assumption. simpl in Hform. now rewrite Hform.
  - rewrite clean_list by assumption. f_equal.
    rewrite clean_form_list in Hform.
    assert (Hmap : List.map clean l = l).
    { rewrite <- (map_id l) at 2. apply map_ext_in. intros x Hx.
      apply IH; [|now apply Hform].
      apply (list_sum_in jsize) in Hx. simpl in Hy. lia. }
    rewrite Hmap. clear Hmap Hy.
    induction l as [|x l IHl]; simpl; [reflexivity|].
    assert (Hx : Py.is_none x = false).
    { apply is_none_false, clean_form_not_null. apply Hform. now left. }
    rewrite Hx. simpl. f_equal. apply IHl. intros; apply Hform; now right.
  - rewrite clean_dict by assumption. cbv zeta.
    apply clean_form_dict in Hform. destruct Hform as (Hne & Hnd & Hall).
    rewrite (clean_loop_rebuild clean d []).
    + simpl. destruct d; [now elim Hne | reflexivity].
    + exact Hnd.
    + intros k v Hin. destruct (Hall k v Hin) as [Hk Hv].
      assert (Hfix : clean v = v).
      { apply IH; [|exact Hv].
        apply (list_sum_in (fun kv => jsize (snd kv))) in Hin. simpl in *. lia. }
      split; [|exact Hfix]. unfold kept. simpl. rewrite Hfix.
      repeat split; auto using clean_form_not_null.
Qed.

(** The loop over a dictionary none of whose entries is kept. *)
Lemma clean_loop_nothing f items :
  (forall k v, In (k, v) items -> ~ kept f (k, v)) ->
  forall acc, fold_left (clean_item f) items acc = acc.
Proof.
  induction items as [|[k v] items IH]; intros Hnone acc; simpl; [reflexivity|].
  destruct (clean_item_cases f acc k v) as [[Hk _] | [_ E]].
  - elim (Hnone k v); [now left | exact Hk].
  - rewrite E. apply IH. intros; apply Hnone; now right.
Qed.

Lemma clean_list_app l1 l2 :
  exists c1 c2,
    clean (JList l1) = JList c1 /\ clean (JList l2) = JList c2
    /\ clean (JList (l1 ++ l2)) = JList (c1 ++ c2).
Proof.
  rewrite !clean_list by assumption. eexists _, _.
  split; [reflexivity|]. split; [reflexivity|].
  now rewrite List.map_app, List.filter_app.
Qed.

End CleanFormFacts.

(** X7.  What the cleaner returns has nothing left to clean: it is [None],
    or a payload with no [None] anywhere inside it, no excluded key, no
    empty dictionary, no repeated key and no string that still decodes as
    JSON; and every payload of that shape is returned as it is, so these
    are exactly the values the cleaner leaves unchanged. *)
Theorem cleaned_payload_form (json_loads : string -> option json) :
  (forall t v, json_loads t = Some v -> jsize v <= String.length t) ->
  (forall x,
      clean_garmin_data json_loads x = JNull
      \/ clean_form json_loads (clean_garmin_data json_loads x))
  /\ (forall y,
         clean_garmin_data json_loads y = y
         <-> y = JNull \/ clean_form json_loads y).
Proof.
  intros Hsize.
  assert (Hform : forall x, clean_garmin_data json_loads x = JNull
                            \/ clean_form json_loads (clean_garmin_data json_loads x)).
  { intros x. apply (clean_gives_form json_loads Hsize (S (jsize x))). lia. }
  split; [exact Hform|].
  intros y. split.
  - intros Hfix. rewrite <- Hfix. apply Hform.
  - intros [-> | Hy].
    + now apply clean_scalar.
    + apply (form_is_fixed json_loads Hsize (S (jsize y))); [lia | exact Hy].
Qed.

Lemma cleaned_payload_form_witness :
  (forall t v, Ref.loads t = Some v -> jsize v <= String.length t)
  /\ clean_form Ref.loads (clean_garmin_data Ref.loads sample_payload)
  /\ clean_garmin_data Ref.loads (clean_garmin_data Ref.loads sample_payload)
     = clean_garmin_data Ref.loads sample_payload.
Proof.
  split; [exact ref_loads_size|].
  destruct (cleaned_payload_form Ref.loads ref_loads_size) as [Hform Hfix].
  assert (H : clean_form Ref.loads (clean_garmin_data Ref.loads sample_payload)).
  { destruct (Hform sample_payload) as [Hnull | H]; [discriminate Hnull | exact H]. }
  split; [exact H|]. apply Hfix. right. exact H.
Defined.

(** X8.  Lists are never dropped and are cleaned element by element: the
    cleaned list is a list with no more elements than the given one, an
    empty list stays an empty list, and cleaning a concatenation gives the
    concatenation of the cleaned parts.  A dictionary is dropped exactly
    when none of its entries is kept, so the empty dictionary is dropped,
    while a dictionary that holds an empty list under a key that is not
    excluded is kept with it. *)
Theorem cleaner_on_containers (json_loads : string -> option json) :
  (forall t v, json_loads t = Some v -> jsize v <= String.length t) ->
  (forall l, exists c, clean_garmin_data json_loads (JList l) = JList c
                       /\ List.length c <= List.length l)
  /\ clean_garmin_data json_loads (JList []) = JList []
  /\ (forall l1 l2,
         exists c1 c2,
           clean_garmin_data json_loads (JList l1) = JList c1
           /\ clean_garmin_data json_loads (JList l2) = JList c2
           /\ clean_garmin_data json_loads (JList (l1 ++ l2)) = JList (c1 ++ c2))
  /\ (forall d,
         List.NoDup (List.map fst d) ->
         (clean_garmin_data json_loads (JDict d) = JNull
          <-> forall k v, In (k, v) d ->
                          excluded_key k = true \/ v = JNull
                          \/ clean_garmin_data json_loads v = JNull))
  /\ (forall k, excluded_key k = false ->
                clean_garmin_data json_loads (JDict [(k, JList [])])
                = JDict [(k, JList [])]).
Proof.
  intros Hsize. split; [|split; [|split; [|split]]].
  - intros l. rewrite clean_list by assumption. eexists. split; [reflexivity|].
    eapply Nat.le_trans; [apply filter_length_le|]. now rewrite length_map.
  - now rewrite clean_list.
  - intros l1 l2. now apply clean_list_app.
  - intros d Hnd. rewrite clean_dict by assumption. cbv zeta. split.
    + intros Hnull k v Hin.
      destruct (excluded_key k) eqn:Ek; [now left|]. right.
      destruct (Py.is_none v) eqn:Ev; [left; now destruct v|]. right.
      destruct (Py.is_none (clean_garmin_data json_loads v)) eqn:Ec;
        [now destruct (clean_garmin_data json_loads v)|].
      exfalso. apply is_none_false in Ev, Ec.
      assert (Hk : kept (clean_garmin_data json_loads) (k, v))
        by (repeat split; assumption).
      pose proof (clean_loop_find _ k v d Hnd Hin Hk []) as Hfind.
      destruct (fold_left (clean_item (clean_garmin_data json_loads)) d []);
        [discriminate Hfind | discriminate Hnull].
    + intros Hall. rewrite clean_loop_nothing; [reflexivity|].
      intros k v Hin (Hk & Hv & Hc). simpl in Hk, Hv, Hc.
      destruct (Hall k v Hin) as [H | [H | H]]; congruence.
  - intros k Hk. rewrite clean_dict by assumption. cbv zeta. simpl.
    unfold clean_item. simpl. rewrite Hk. simpl.
    rewrite clean_list by assumption. simpl. reflexivity.
Qed.

Lemma cleaner_on_containers_witness :
  (forall t v, Ref.loads t = Some v -> jsize v <= String.length t)
  /\ List.NoDup (List.map fst [("ownerId", JNum 7); ("note", JNull)])
  /\ clean_garmin_data Ref.loads (JDict [("ownerId", JNum 7); ("note", JNull)]) = JNull
  /\ clean_garmin_data Ref.loads (JDict [("HeartRate", JList [])])
     = JDict [("HeartRate", JList [])].
Proof.
  assert (Hnd : List.NoDup (List.map fst [("ownerId", JNum 7); ("note", JNull)])).
  { repeat constructor; simpl; intuition discriminate. }
  split; [exact ref_loads_size|]. split; [exact Hnd|].
  destruct (cleaner_on_containers Ref.loads ref_loads_size)
    as (_ & _ & _ & Hdict & Hlist).
  split.
  - apply (Hdict _ Hnd). intros k v [[= <- <-] | [[= <- <-] | []]].
    + left. reflexivity.
    + right. left. reflexivity.
  - apply Hlist. reflexivity.
Defined.

(* ================================================================== *)
(** * More on the conversions and the mood table *)
(* ================================================================== *)

Lemma safe_convert_text v divisor :
  ~ convertible v -> safe_convert v (fun x => truediv x divisor) = None.
Proof.
  intros H. unfold safe_convert, truediv.
  destruct v as [|b|q| | |]; simpl; try reflexivity.
  - elim H. now left.
  - elim H. right. exists (if b then 1%Q else 0%Q). split; [reflexivity|].
    destruct b; reflexivity.
  - destruct (Py.overflows q) eqn:E; [reflexivity|].
    elim H. right. exists q. split; [reflexivity | exact E].
Qed.

Lemma convertible_dec v : convertible v \/ ~ convertible v.
Proof.
  unfold convertible.
  destruct v as [|b|q| | |]; simpl; eauto.
  - left. right. exists (if b then 1%Q else 0%Q). split; [reflexivity|].
    destruct b; reflexivity.
  - destruct (Py.overflows q) eqn:E.
    + right. intros [H | (r & [= <-] & H)]; congruence.
    + left. right. exists q. split; [reflexivity | exact E].
  - right. intros [H | (r & H & _)]; discriminate.
  - right. intros [H | (r & H & _)]; discriminate.
  - right. intros [H | (r & H & _)]; discriminate.
Qed.

Lemma convert_activity_units_convertible d a' :
  convert_activity_units (JDict d) = Some a' ->
  forall k, In k (List.map fst activity_unit_fields) -> convertible (Py.dict_get k d).
Proof.
  unfold convert_activity_units, meters_to_km, seconds_to_minutes.
  destruct (safe_convert (Py.dict_get "distance" d) _) as [v1|] eqn:E1;
    simpl; [|discriminate].
  destruct (safe_convert (Py.dict_get "duration" _) _) as [v2|] eqn:E2;
    simpl; [|discriminate].
  destruct (safe_convert (Py.dict_get "elapsedDuration" _) _) as [v3|] eqn:E3;
    simpl; [|discriminate].
  destruct (safe_convert (Py.dict_get "movingDuration" _) _) as [v4|] eqn:E4;
    simpl; [|discriminate].
  intros _.
  rewrite !dict_get_set_other in E2 by discriminate.
  rewrite !dict_get_set_other in E3 by discriminate.
  rewrite !dict_get_set_other in E4 by discriminate.
  intros k Hk. simpl in Hk.
  destruct (convertible_dec (Py.dict_get k d)) as [Hc | Hc]; [exact Hc|].
  exfalso.
  destruct Hk as [<- | [<- | [<- | [<- | []]]]].
  - rewrite (safe_convert_text _ 1000 Hc) in E1. discriminate.
  - rewrite (safe_convert_text _ 60 Hc) in E2. discriminate.
  - rewrite (safe_convert_text _ 60 Hc) in E3. discriminate.
  - rewrite (safe_convert_text _ 60 Hc) in E4. discriminate.
Qed.

Lemma convert_activity_units_some a :
  (exists a', convert_activity_units a = Some a') <-> convertible_activity a.
Proof.
  split.
  - intros [a' H]. destruct a as [| | | | |d]; try discriminate H.
    exists d. split; [reflexivity|].
    now apply convert_activity_units_convertible with a'.
  - intros (d & -> & H). now apply convert_activity_units_total.
Qed.

Lemma convert_activities_units_some activities :
  (exists r, convert_activities_units activities = Some r)
  <-> Forall convertible_activity activities.
Proof.
  induction activities as [|a rest IH]; simpl.
  - split; [constructor | eauto].
  - split.
    + intros [r H].
      destruct (convert_activity_units a) as [a'|] eqn:Ea; simpl in H; [|discriminate].
      destruct (convert_activities_units rest) as [rest'|]; simpl in H; [|discriminate].
      constructor.
      * apply convert_activity_units_some. eauto.
      * apply IH. eauto.
    + intros H. inversion H as [|? ? Ha Hrest]; subst.
      apply convert_activity_units_some in Ha. destruct Ha as [a' ->].
      apply IH in Hrest. destruct Hrest as [rest' ->]. simpl. eauto.
Qed.

Lemma dict_has_set_same k v d : Py.dict_has k (Py.dict_set k v d) = true.
Proof. unfold Py.dict_has. now rewrite dict_find_set_same. Qed.

Lemma dict_has_set_other k k' v d :
  Py.dict_has k d = true -> Py.dict_has k (Py.dict_set k' v d) = true.
Proof.
  unfold Py.dict_has. destruct (String.eqb_spec k k') as [-> | Hne].
  - now rewrite dict_find_set_same.
  - now rewrite dict_find_set_other.
Qed.

Lemma convert_activity_units_keys a a' :
  convert_activity_units a = Some a' ->
  exists d', a' = JDict d'
             /\ forall k, In k (List.map fst activity_unit_fields) ->
                          Py.dict_has k d' = true.
Proof.
  unfold convert_activity_units. destruct a as [| | | | |d]; try discriminate.
  intros H. opt_inv H. injection H as <-.
  eexists. split; [reflexivity|]. intros k Hk. simpl in Hk.
  destruct Hk as [<- | [<- | [<- | [<- | []]]]];
    repeat first [ apply dict_has_set_same | apply dict_has_set_other ].
Qed.

(** The name backfill writes to [activityName] only. *)
Lemma backfill_name_fields L a a' :
  backfill_name L a = Some a' ->
  exists d d', a = JDict d /\ a' = JDict d'
               /\ forall k, k <> "activityName" ->
                            Py.dict_get k d' = Py.dict_get k d.
Proof.
  unfold backfill_name. destruct a as [| | | | |d]; try discriminate.
  intros H. opt_inv H.
  all: injection H as <-; eexists _, _;
    (split; [reflexivity|]); (split; [reflexivity|]);
    intros k Hk; try reflexivity; now apply dict_get_set_other.
Qed.

Lemma mapM_in {A B} (f : A -> option B) l r x :
  mapM f l = Some r -> In x l -> exists y, f x = Some y /\ In y r.
Proof.
  revert r. induction l as [|x0 l IH]; intros r H Hin; [destruct Hin|].
  cbn [mapM] in H.
  destruct (f x0) as [y0|] eqn:E0; simpl in H; [|discriminate].
  destruct (mapM f l) as [r'|] eqn:Er; simpl in H; [|discriminate].
  injection H as <-. destruct Hin as [<- | Hin].
  - exists y0. simpl. auto.
  - destruct (IH r' eq_refl Hin) as (y & Hy & Hr). exists y. simpl. auto.
Qed.

(** X9.  [convert_activities_units] returns exactly when every activity is
    a dictionary whose four named fields are each missing, [None] or a
    number that converts to a [float] (an [int] of [2**1024 - 2**970] or
    more in magnitude raises [OverflowError] in the division); each
    converted activity then has the four keys, also those it lacked
    before; and since the conversion stands outside the per-activity
    [try], one listed activity with, say, a textual distance makes the
    whole activities request fail with a 500. *)
Theorem conversion_accepts_numbers_only :
  (forall activities,
      (exists r, convert_activities_units activities = Some r)
      <-> Forall convertible_activity activities)
  /\ (forall activities r a',
         convert_activities_units activities = Some r -> In a' r ->
         exists d', a' = JDict d'
                    /\ forall k, In k (List.map fst activity_unit_fields) ->
                                 Py.dict_has k d' = true)
  /\ (forall L login request garmin activities a,
         login (aw_tokens request) = Some garmin ->
         get_activities_by_date garmin (aw_start_date request) (aw_end_date request)
                                (aw_activity_type request) = Some activities ->
         In a activities -> ~ convertible_activity a ->
         get_activities_and_workouts L login request = HttpError 500).
Proof.
  split; [|split].
  - apply convert_activities_units_some.
  - intros activities. induction activities as [|a rest IH]; simpl; intros r a' H Hin.
    + injection H as <-. destruct Hin.
    + destruct (convert_activity_units a) as [a1|] eqn:Ea; simpl in H; [|discriminate].
      destruct (convert_activities_units rest) as [rest'|] eqn:Er; simpl in H;
        [|discriminate].
      injection H as <-. destruct Hin as [<- | Hin].
      * now apply convert_activity_units_keys with a.
      * now apply IH with rest'.
  - intros L login request garmin activities a Hlogin Hlist Hin Hbad.
    unfold get_activities_and_workouts.
    destruct (String.eqb (aw_user_id request) "" || String.eqb (aw_tokens request) ""
              || String.eqb (aw_start_date request) ""
              || String.eqb (aw_end_date request) ""); [reflexivity|].
    rewrite Hlogin. simpl. rewrite Hlist. simpl.
    assert (Hnone : detail_activities L garmin activities = None).
    { unfold detail_activities.
      destruct (mapM (backfill_name L) activities) as [named|] eqn:En;
        simpl; [|reflexivity].
      destruct (convert_activities_units named) as [converted|] eqn:Ec;
        simpl; [|reflexivity].
      exfalso. apply Hbad.
      destruct (mapM_in _ _ _ a En Hin) as (a1 & Ha1 & Hnamed).
      apply backfill_name_fields in Ha1. destruct Ha1 as (d & d1 & -> & -> & Hsame).
      assert (Hall : Forall convertible_activity named)
        by (apply convert_activities_units_some; eauto).
      rewrite List.Forall_forall in Hall. destruct (Hall _ Hnamed) as (d' & [= <-] & Hd').
      exists d. split; [reflexivity|]. intros k Hk.
      rewrite <- Hsame; [now apply Hd'|].
      simpl in Hk. intros ->. intuition discriminate. }
    now rewrite Hnone.
Qed.

Lemma conversion_accepts_numbers_only_witness :
  ~ convertible_activity (JDict [("activityId", JNum 42); ("distance", JStr "5 km")])
  /\ convert_activities_units
       [JDict [("activityId", JNum 42); ("distance", JStr "5 km")]] = None
  /\ get_activities_and_workouts
       Ref.lib
       (fun _ => Some (client_of (fun name _ =>
                                    if String.eqb name "get_activities_by_date"
                                    then Some (JList [JDict [("activityId", JNum 42);
                                                             ("distance", JStr "5 km")]])
                                    else Some (JList []))))
       activities_request
     = HttpError 500.
Proof.
  assert (Hbad : ~ convertible_activity
                   (JDict [("activityId", JNum 42); ("distance", JStr "5 km")])).
  { intros (d & [= <-] & H). destruct (H "distance") as [H0 | (q & H0 & _)];
      [simpl; tauto | discriminate H0 | discriminate H0]. }
  split; [exact Hbad|]. split; [reflexivity|].
  eapply (proj2 (proj2 conversion_accepts_numbers_only));
    [reflexivity | reflexivity | left; reflexivity | exact Hbad].
Defined.

(* ------------------------------------------------------------------ *)

Lemma whole_stress_band z :
  (0 <= z <= 100)%Z ->
  mood_of_stress (inject_Z z)
  = (JNum (fst (whole_stress_mood z)), JStr (snd (whole_stress_mood z))).
Proof.
  intros Hz. unfold whole_stress_mood.
  assert (Hb : forall lo hi score label,
             In (inject_Z lo, inject_Z hi, score, label) mood_bands ->
             (lo <= z <= hi)%Z ->
             mood_of_stress (inject_Z z) = (JNum score, JStr label)).
  { intros lo hi score label Hin [Hlo Hhi].
    apply mood_in_band with (lo := inject_Z lo) (hi := inject_Z hi); auto;
      now rewrite <- Zle_Qle. }
  repeat match goal with
         | |- context [(z <=? ?b)%Z] => destruct (Z.leb_spec z b)
         end; simpl.
  - apply (Hb 0 10)%Z; [simpl; tauto | lia].
  - apply (Hb 11 25)%Z; [simpl; tauto | lia].
  - apply (Hb 26 35)%Z; [simpl; tauto | lia].
  - apply (Hb 36 50)%Z; [simpl; tauto | lia].
  - apply (Hb 51 60)%Z; [simpl; tauto | lia].
  - apply (Hb 61 75)%Z; [simpl; tauto | lia].
  - apply (Hb 76 85)%Z; [simpl; tauto | lia].
  - apply (Hb 86 95)%Z; [simpl; tauto | lia].
  - apply (Hb 96 100)%Z; [simpl; tauto | lia].
Qed.

(** X10.  On whole-number stress levels the table has no gap and never
    rises: every whole number from [0] to [100] falls in one of the nine
    bands, so it never gets the default; its score lies between [15] and
    [95]; and of two such levels the higher one never gets the higher
    score. *)
Theorem whole_stress_mood_never_rises (a b : Z) :
  (0 <= a)%Z -> (a <= b)%Z -> (b <= 100)%Z ->
  map_garmin_stress_to_mood (JNum (inject_Z a))
  = Some (JNum (fst (whole_stress_mood a)), JStr (snd (whole_stress_mood a)))
  /\ map_garmin_stress_to_mood (JNum (inject_Z b))
     = Some (JNum (fst (whole_stress_mood b)), JStr (snd (whole_stress_mood b)))
  /\ (fst (whole_stress_mood b) <= fst (whole_stress_mood a))%Q
  /\ (15 <= fst (whole_stress_mood b))%Q
  /\ (fst (whole_stress_mood a) <= 95)%Q
  /\ In (snd (whole_stress_mood a))
        (List.map (fun band => snd band) mood_bands).
Proof.
  intros H0 Hab H100.
  unfold map_garmin_stress_to_mood. simpl.
  rewrite !whole_stress_band by lia.
  split; [reflexivity|]. split; [reflexivity|].
  unfold whole_stress_mood.
  repeat match goal with
         | |- context [(a <=? ?n)%Z] => destruct (Z.leb_spec a n)
         end;
    repeat match goal with
           | |- context [(b <=? ?n)%Z] => destruct (Z.leb_spec b n)
           end;
    try lia; simpl;
    (split; [unfold Qle; simpl; lia|]);
    (split; [unfold Qle; simpl; lia|]);
    (split; [unfold Qle; simpl; lia|]); tauto.
Qed.

Lemma whole_stress_mood_never_rises_witness :
  (0 <= 10)%Z /\ (10 <= 11)%Z /\ (11 <= 100)%Z
  /\ map_garmin_stress_to_mood (JNum 10) = Some (JNum 95, JStr "Excited")
  /\ map_garmin_stress_to_mood (JNum 11) = Some (JNum 85, JStr "Happy").
Proof.
  assert (H0 : (0 <= 10)%Z) by lia.
  assert (H1 : (10 <= 11)%Z) by lia.
  assert (H2 : (11 <= 100)%Z) by lia.
  destruct (whole_stress_mood_never_rises 10 11 H0 H1 H2) as (Ha & Hb & _).
  split; [exact H0|]. split; [exact H1|]. split; [exact H2|].
  split; [exact Ha | exact Hb].
Defined.

(* ================================================================== *)
(** * The health-and-wellness endpoint as a whole *)
(* ================================================================== *)

Lemma want_in mt c : want mt c = true <-> In c mt.
Proof.
  unfold want, Py.str_in. rewrite existsb_exists. split.
  - intros (x & Hx & E). apply String.eqb_eq in E. now subst.
  - intros H. exists c. split; [exact H | apply String.eqb_refl].
Qed.

Lemma entries_for_nonempty c entries :
  entries_for c entries <> [] -> exists e, In (c, e) entries.
Proof.
  unfold entries_for. induction entries as [|[k e] entries IH]; simpl; [tauto|].
  destruct (String.eqb_spec c k) as [-> | Hne]; simpl.
  - intros _. exists e. now left.
  - intros H. destruct (IH H) as [e' He']. exists e'. now right.
Qed.

Section EndpointFacts.

Variable L : PyLib.

Hypothesis loads_size :
  forall t v, loads L t = Some v -> jsize v <= String.length t.

Lemma published_nil : published L [] = None.
Proof. unfold published. now rewrite clean_list. Qed.

(** The categories of the data of an aggregation. *)
Lemma aggregate_categories garmin mt start_date dates final c v :
  aggregate L garmin mt start_date dates = Some final ->
  Py.dict_find c final = Some v ->
  In c ALL_HEALTH_METRICS /\ In c mt /\ exists e es, v = JList (e :: es).
Proof.
  intros Hagg Hfind.
  destruct (aggregate_some L loads_size garmin mt start_date dates final Hagg)
    as (es0 & es & (Hnd & Hshape) & Hes0 & Hes & _ & Hpub).
  destruct (Hshape c v (dict_find_in _ _ _ Hfind)) as [Hall Hlist].
  split; [exact Hall|]. split; [|exact Hlist].
  rewrite (Hpub c Hall) in Hfind.
  destruct (entries_for c es0 ++ entries_for c es) as [|e0 rest] eqn:E.
  { rewrite published_nil in Hfind. discriminate. }
  apply want_in.
  destruct (entries_for c es0) as [|e1 r1] eqn:E0.
  - destruct (entries_for_nonempty c es) as [e He]; [simpl in E; now rewrite E|].
    now apply Hes in He.
  - destruct (entries_for_nonempty c es0) as [e He]; [now rewrite E0|].
    now apply Hes0 in He.
Qed.

(** The loop never raises, whatever the provider does. *)
Lemma gathered_total garmin mt start_date dates :
  exists hd,
    gathered L garmin mt start_date dates = Some hd
    /\ List.map fst hd = ALL_HEALTH_METRICS
    /\ aggregate L garmin mt start_date dates = finish L hd.
Proof.
  unfold gathered, aggregate.
  destruct (fetch_once_sat garmin mt start_date health_init bb_dicts_init)
    as (es0 & H0 & Hes0).
  rewrite H0. simpl.
  destruct (fetch_dates_sat L garmin mt dates (commit es0 health_init))
    as (es & H1 & Hes & Hn).
  { apply forall_commit; [apply bb_dicts_init|].
    intros e He. apply Hes0 in He. destruct He as [_ He]. simpl in He.
    intuition discriminate. }
  rewrite H1. simpl. eexists. split; [reflexivity|].
  split; [|reflexivity]. now rewrite !commit_keys.
Qed.

(** With no date to fetch only the metrics fetched once are left. *)
Lemma aggregate_no_dates garmin mt start_date final c :
  aggregate L garmin mt start_date [] = Some final ->
  Py.dict_find c final <> None ->
  c = "lactate_threshold" \/ c = "race_predictions".
Proof.
  intros Hagg Hfind.
  destruct (Py.dict_find c final) as [v|] eqn:E; [clear Hfind | now elim Hfind].
  destruct (aggregate_categories _ _ _ _ _ _ _ Hagg E) as (Hall & _ & _).
  destruct (aggregate_answer L garmin mt loads_size start_date [])
    as [[_ Hnone] | (_ & final' & Hagg' & _ & Hpub)]; [constructor | congruence |].
  rewrite Hagg in Hagg'. injection Hagg' as <-.
  rewrite (Hpub c Hall) in E. unfold collected in E. simpl in E.
  rewrite app_nil_r in E.
  destruct (fetch_once_sat garmin mt start_date health_init bb_dicts_init)
    as (es0 & H0 & Hes0).
  unfold once_fetch in E. rewrite H0 in E.
  rewrite commit_get, health_init_get in E by (now rewrite health_init_keys).
  simpl in E.
  destruct (entries_for c es0) as [|e0 r] eqn:E0.
  { rewrite published_nil in E. discriminate. }
  destruct (entries_for_nonempty c es0) as [e He]; [now rewrite E0|].
  apply Hes0 in He. destruct He as [_ Hk]. simpl in Hk.
  destruct Hk as [<- | [<- | [<- | []]]]; auto.
  (* [pregnancy_summary] is no key of [health_data] *)
  exfalso. simpl in Hall. intuition discriminate.
Qed.

End EndpointFacts.

(** X11.  The data of a response holds requested categories only: every
    key of it is one of [ALL_HEALTH_METRICS], was asked for (or nothing in
    particular was asked for), and comes with a non-empty list.  Since
    [pregnancy_summary] and [menstrual_calendar_data] are no keys of
    [health_data], the two blocks that fetch them never add to a
    response, whatever the provider answers. *)
Theorem response_categories_are_requested (L : PyLib) :
  (forall t v, loads L t = Some v -> jsize v <= String.length t) ->
  forall login request body,
    get_health_and_wellness L login request = Ok body ->
    exists final,
      body = [("user_id", JStr (hw_user_id request));
              ("start_date", JStr (hw_start_date request));
              ("end_date", JStr (hw_end_date request));
              ("data", JDict final)]
      /\ (forall c v,
             Py.dict_find c final = Some v ->
             In c ALL_HEALTH_METRICS
             /\ (hw_metric_types request = [] \/ In c (hw_metric_types request))
             /\ exists e es, v = JList (e :: es))
      /\ Py.dict_find "pregnancy_summary" final = None
      /\ Py.dict_find "menstrual_calendar_data" final = None.
Proof.
  intros Hsize login request body. unfold get_health_and_wellness.
  destruct (String.eqb (hw_user_id request) "" || String.eqb (hw_tokens request) ""
            || String.eqb (hw_start_date request) ""
            || String.eqb (hw_end_date request) ""); [discriminate|].
  destruct (login (hw_tokens request)) as [garmin|]; [|discriminate].
  destruct (get_dates_in_range _ _ _ _) as [dates|]; [|discriminate].
  destruct (aggregate L garmin _ (hw_start_date request) dates) as [final|] eqn:Hagg;
    [|discriminate].
  intros [= <-]. exists final. split; [reflexivity|].
  assert (Hcat : forall c v,
             Py.dict_find c final = Some v ->
             In c ALL_HEALTH_METRICS
             /\ (hw_metric_types request = [] \/ In c (hw_metric_types request))
             /\ exists e es, v = JList (e :: es)).
  { intros c v Hfind.
    destruct (aggregate_categories L Hsize _ _ _ _ _ _ _ Hagg Hfind)
      as (Hall & Hin & Hlist).
    split; [exact Hall|]. split; [|exact Hlist].
    destruct (hw_metric_types request); [now left | now right]. }
  split; [exact Hcat|].
  split.
  - destruct (Py.dict_find "pregnancy_summary" final) as [v|] eqn:E; [|reflexivity].
    destruct (Hcat _ _ E) as (Hall & _). simpl in Hall. intuition discriminate.
  - destruct (Py.dict_find "menstrual_calendar_data" final) as [v|] eqn:E;
      [|reflexivity].
    destruct (Hcat _ _ E) as (Hall & _). simpl in Hall. intuition discriminate.
Qed.

Lemma response_categories_are_requested_witness :
  (forall t v, loads Ref.lib t = Some v -> jsize v <= String.length t)
  /\ exists final,
      get_health_and_wellness Ref.lib (fun _ => Some two_days_of_steps) steps_request
      = Ok [("user_id", JStr "u"); ("start_date", JStr "2024-01-01");
            ("end_date", JStr "2024-01-03"); ("data", JDict final)]
      /\ Py.dict_find "pregnancy_summary" final = None.
Proof.
  split; [exact ref_loads_size|].
  destruct (get_health_and_wellness Ref.lib (fun _ => Some two_days_of_steps)
                                    steps_request) as [body|status] eqn:E;
    [|vm_compute in E; discriminate E].
  destruct (response_categories_are_requested
              Ref.lib ref_loads_size (fun _ => Some two_days_of_steps)
              steps_request body E) as (final & -> & _ & Hp & _).
  exists final. split; [reflexivity | exact Hp].
Defined.

(** X12.  An end date before the start date is no error: no per-day
    fetch is made, and the request is answered unless the final cleaning
    raises on what the metrics fetched once have given; the data of the
    answer can only hold the two categories that are fetched once for
    the request, [lactate_threshold] and [race_predictions]. *)
Theorem reversed_range_fetches_no_day (L : PyLib) :
  (forall t v, loads L t = Some v -> jsize v <= String.length t) ->
  forall login request garmin first_day last_day,
    hw_user_id request <> "" -> hw_tokens request <> "" ->
    hw_start_date request <> "" -> hw_end_date request <> "" ->
    login (hw_tokens request) = Some garmin ->
    date_fromisoformat L (hw_start_date request) = Some first_day ->
    date_fromisoformat L (hw_end_date request) = Some last_day ->
    (last_day < first_day)%Z ->
    let requested := match hw_metric_types request with
                     | [] => ALL_HEALTH_METRICS
                     | metric_types => metric_types
                     end in
    let raises :=
      clean_garmin_data_raises
        (loads L) (loads_raises L)
        (collected_data L garmin requested (hw_start_date request) []) in
    get_dates_in_range (date_fromisoformat L) (date_isoformat L)
                       (hw_start_date request) (hw_end_date request) = Some []
    /\ (raises = true -> get_health_and_wellness L login request = HttpError 500)
    /\ (raises = false ->
        exists final,
          get_health_and_wellness L login request
          = Ok [("user_id", JStr (hw_user_id request));
                ("start_date", JStr (hw_start_date request));
                ("end_date", JStr (hw_end_date request));
                ("data", JDict final)]
          /\ forall c, Py.dict_find c final <> None ->
                       c = "lactate_threshold" \/ c = "race_predictions").
Proof.
  intros Hsize login request garmin first_day last_day Hu Ht Hs He Hlogin Hfrom Hto Hlt
         requested raises.
  assert (Hdates : get_dates_in_range (date_fromisoformat L) (date_isoformat L)
                                      (hw_start_date request) (hw_end_date request)
                   = Some []).
  { unfold get_dates_in_range. rewrite Hfrom, Hto. simpl.
    now replace (last_day <? first_day)%Z with true by (symmetry; apply Z.ltb_lt; lia). }
  split; [exact Hdates|].
  unfold get_health_and_wellness. fold requested.
  apply String.eqb_neq in Hu, Ht, Hs, He. rewrite Hu, Ht, Hs, He, Hlogin, Hdates.
  cbn [orb].
  destruct (aggregate_answer L garmin requested Hsize (hw_start_date request) [])
    as [[Hr Hnone] | (Hr & final & Hagg & _ & _)]; [constructor | |].
  - split; [intros _; now rewrite Hnone|].
    intros Hno. unfold raises in Hno. congruence.
  - split; [intros Hyes; unfold raises in Hyes; congruence|].
    intros _. rewrite Hagg. exists final. split; [reflexivity|].
    intros c. apply (aggregate_no_dates L Hsize garmin requested _ final c Hagg).
Qed.

Lemma reversed_range_fetches_no_day_witness :
  (forall t v, loads Ref.lib t = Some v -> jsize v <= String.length t)
  /\ exists final,
      get_health_and_wellness
        Ref.lib (fun _ => Some two_days_of_steps)
        {| hw_user_id := "u"; hw_tokens := "t";
           hw_start_date := "2024-01-02"; hw_end_date := "2024-01-01";
           hw_metric_types := ["steps"] |}
      = Ok [("user_id", JStr "u"); ("start_date", JStr "2024-01-02");
            ("end_date", JStr "2024-01-01"); ("data", JDict final)]
      /\ forall c, Py.dict_find c final <> None ->
                   c = "lactate_threshold" \/ c = "race_predictions".
Proof.
  split; [exact ref_loads_size|].
  apply (reversed_range_fetches_no_day
           Ref.lib ref_loads_size (fun _ => Some two_days_of_steps)
           {| hw_user_id := "u"; hw_tokens := "t";
              hw_start_date := "2024-01-02"; hw_end_date := "2024-01-01";
              hw_metric_types := ["steps"] |}
           two_days_of_steps 738887 738886);
    try discriminate; reflexivity.
Defined.

(** X13.  What makes the health request fail.  The loop over the dates
    never raises, whatever the provider's data calls answer or raise: it
    always ends with [health_data] holding its keys.  The request is
    answered with data exactly when the four fields are filled in, the
    login with the tokens succeeds, the two dates give a range and the
    final cleaning does not raise on the data the loop has gathered.
    Every failure is a 500, also the missing field for which the code
    raises a 400, since that is raised inside the [try]. *)
Theorem health_request_answered_exactly_when (L : PyLib) :
  (forall t v, loads L t = Some v -> jsize v <= String.length t) ->
  (forall garmin metric_types start_date dates,
      exists hd,
        gathered L garmin metric_types start_date dates = Some hd
        /\ List.map fst hd = ALL_HEALTH_METRICS)
  /\ forall login request,
      let requested := match hw_metric_types request with
                       | [] => ALL_HEALTH_METRICS
                       | metric_types => metric_types
                       end in
      ((exists body, get_health_and_wellness L login request = Ok body)
       <-> (hw_user_id request <> "" /\ hw_tokens request <> ""
            /\ hw_start_date request <> "" /\ hw_end_date request <> ""
            /\ exists garmin dates hd,
                login (hw_tokens request) = Some garmin
                /\ get_dates_in_range (date_fromisoformat L) (date_isoformat L)
                                      (hw_start_date request) (hw_end_date request)
                   = Some dates
                /\ gathered L garmin requested (hw_start_date request) dates = Some hd
                /\ clean_garmin_data_raises (loads L) (loads_raises L) (health_json hd)
                   = false))
      /\ forall status_code,
          get_health_and_wellness L login request = HttpError status_code ->
          status_code = 500%Z.
Proof.
  intros Hsize. split.
  { intros garmin mt start_date dates.
    destruct (gathered_total L garmin mt start_date dates) as (hd & Hg & Hk & _).
    eauto. }
  intros login request requested. unfold get_health_and_wellness. fold requested.
  destruct (String.eqb_spec (hw_user_id request) "") as [Eu | Eu]; simpl.
  { split; [|now intros ? [= <-]]. split; [intros [? H]; discriminate | tauto]. }
  destruct (String.eqb_spec (hw_tokens request) "") as [Et | Et]; simpl.
  { split; [|now intros ? [= <-]]. split; [intros [? H]; discriminate | tauto]. }
  destruct (String.eqb_spec (hw_start_date request) "") as [Es | Es]; simpl.
  { split; [|now intros ? [= <-]]. split; [intros [? H]; discriminate | tauto]. }
  destruct (String.eqb_spec (hw_end_date request) "") as [Ee | Ee]; simpl.
  { split; [|now intros ? [= <-]]. split; [intros [? H]; discriminate | tauto]. }
  destruct (login (hw_tokens request)) as [garmin|].
  2: { split; [|now intros ? [= <-]].
       split; [intros [? H]; discriminate|].
       intros (_ & _ & _ & _ & g & ds & hd & H & _). discriminate H. }
  destruct (get_dates_in_range _ _ _ _) as [dates|].
  2: { split; [|now intros ? [= <-]].
       split; [intros [? H]; discriminate|].
       intros (_ & _ & _ & _ & g & ds & hd & _ & H & _). discriminate H. }
  destruct (gathered_total L garmin requested (hw_start_date request) dates)
    as (hd & Hg & Hk & Hagg).
  rewrite Hagg.
  destruct (finish_spec L Hsize hd Hk)
    as [[Hr Hnone] | (Hr & final & Hsome & _)].
  - rewrite Hnone. split; [|now intros ? [= <-]].
    split; [intros [? H]; discriminate|].
    intros (_ & _ & _ & _ & g & ds & hd' & [= <-] & [= <-] & Hg' & Hr').
    rewrite Hg in Hg'. injection Hg' as <-. congruence.
  - rewrite Hsome. split; [|intros ? H; discriminate H].
    split; [|eauto]. intros _. repeat split; auto.
    exists garmin, dates, hd. auto.
Qed.

Lemma health_request_answered_exactly_when_witness :
  (forall t v, loads Ref.lib t = Some v -> jsize v <= String.length t)
  /\ get_health_and_wellness
       Ref.lib (fun _ => Some offline)
       {| hw_user_id := "u"; hw_tokens := "t";
          hw_start_date := "2024-01-01"; hw_end_date := "9999-12-31";
          hw_metric_types := [] |}
     = HttpError 500.
Proof.
  split; [exact ref_loads_size|].
  destruct (get_health_and_wellness
              Ref.lib (fun _ => Some offline)
              {| hw_user_id := "u"; hw_tokens := "t";
                 hw_start_date := "2024-01-01"; hw_end_date := "9999-12-31";
                 hw_metric_types := [] |}) as [body|status] eqn:E.
  - vm_compute in E. discriminate E.
  - f_equal.
    exact (proj2 (proj2 (health_request_answered_exactly_when Ref.lib ref_loads_size)
                        (fun _ => Some offline)
                        {| hw_user_id := "u"; hw_tokens := "t";
                           hw_start_date := "2024-01-01"; hw_end_date := "9999-12-31";
                           hw_metric_types := [] |}) status E).
Defined.

(* ================================================================== *)
(** * What one block adds to one date *)
(* ================================================================== *)

Section OneBlock.

Variable mt : list string.
Variable d : string.
Variable c : string.

Abbreviation sound keys steps :=
  (Forall2 (fun ks s => step_sat (day_entry mt ks d) s /\ step_total s) keys steps).

(** Statements none of which writes to [c] leave its list as it is. *)
Lemma steps_keep keys steps :
  sound keys steps ->
  (forall ks, In ks keys -> ~ In c ks) ->
  forall hd, bb_dicts hd ->
             exists hd', run_steps steps hd = Some hd'
                         /\ bb_dicts hd'
                         /\ List.map fst hd' = List.map fst hd
                         /\ health_get c hd' = health_get c hd.
Proof.
  intros Hsound Hout hd Hbb.
  destruct (run_steps_sat mt d keys steps Hsound hd Hbb) as (es & Hrun & Hes).
  exists (commit es hd). split; [exact Hrun|]. split; [|split].
  - apply bb_dicts_commit with mt (concat keys) d; [exact Hbb|].
    intros k e Hin. destruct (Hes k e Hin) as (ks & Hks & Hw & Hk & Hs & Hb).
    repeat split; auto. apply in_concat. eauto.
  - apply commit_keys.
  - destruct (in_dec string_dec c (List.map fst hd)) as [Hin | Hno].
    + rewrite commit_get by assumption.
      rewrite entries_for_none; [apply app_nil_r|].
      intros e He. destruct (Hes c e He) as (ks & Hks & _ & Hk & _).
      now apply (Hout ks).
    + rewrite !health_get_missing; auto. now rewrite commit_keys.
Qed.

(** The one block that writes to [c], at position [i]. *)
Lemma run_steps_single keys steps :
  sound keys steps ->
  forall i guard w,
    nth_error steps i = Some (try_block guard w) ->
    (forall j ks, nth_error keys j = Some ks -> In c ks -> j = i) ->
    forall hd,
      bb_dicts hd -> In c (List.map fst hd) ->
      exists hd',
        run_steps steps hd = Some hd'
        /\ bb_dicts hd'
        /\ List.map fst hd' = List.map fst hd
        /\ health_get c hd'
           = health_get c hd ++ (if guard then entries_for c (appended w) else []).
Proof.
  induction 1 as [|ks s keys steps [Hsat Htot] Hrest IH];
    intros i guard w Hnth Honly hd Hbb Hc.
  - destruct i; discriminate Hnth.
  - rewrite run_steps_cons.
    destruct (Htot hd Hbb) as [hd1 H1].
    destruct (Hsat hd hd1 H1) as (es1 & Hes1 & Hday).
    assert (Hbb1 : bb_dicts hd1).
    { rewrite Hes1. now apply bb_dicts_commit with mt ks d. }
    assert (Hk1 : List.map fst hd1 = List.map fst hd).
    { rewrite Hes1. apply commit_keys. }
    rewrite H1. simpl.
    destruct i as [|i].
    + (* this is the block *)
      simpl in Hnth. injection Hnth as ->.
      destruct (steps_keep keys steps Hrest) with (hd := hd1)
        as (hd' & Hrun & Hbb' & Hk' & Hget); [|exact Hbb1|].
      { intros ks' Hin Hcin. apply In_nth_error in Hin. destruct Hin as [j Hj].
        specialize (Honly (S j) ks' Hj Hcin). discriminate. }
      exists hd'. split; [exact Hrun|]. split; [exact Hbb'|].
      split; [congruence|]. rewrite Hget.
      unfold try_block in H1. injection H1 as <-. unfold block, try_.
      destruct guard; [|now rewrite app_nil_r].
      now apply commit_get.
    + (* the block comes later *)
      assert (Hout : ~ In c ks).
      { intros Hin. specialize (Honly 0 ks eq_refl Hin). discriminate. }
      destruct (IH i guard w Hnth) with (hd := hd1)
        as (hd' & Hrun & Hbb' & Hk' & Hget); [|exact Hbb1|congruence|].
      { intros j ks' Hj Hin. specialize (Honly (S j) ks' Hj Hin). congruence. }
      exists hd'. split; [exact Hrun|]. split; [exact Hbb'|].
      split; [congruence|]. rewrite Hget. f_equal.
      rewrite Hes1, commit_get by assumption.
      rewrite entries_for_none; [apply app_nil_r|].
      intros e He. destruct (Hday c e He) as (_ & Hk & _). contradiction.
Qed.

End OneBlock.

(** What a date adds to a category that one block alone writes. *)
Lemma day_fetch_of_block L garmin mt d c i guard w :
  nth_error (date_steps L garmin mt d) i = Some (try_block guard w) ->
  (forall j ks, nth_error date_step_keys j = Some ks -> In c ks -> j = i) ->
  In c ALL_HEALTH_METRICS ->
  day_fetch L garmin mt d c = if guard then entries_for c (appended w) else [].
Proof.
  intros Hnth Honly Hc. unfold day_fetch, fetch_date.
  destruct (run_steps_single mt d c _ _ (date_steps_sat L garmin mt d)
                             i guard w Hnth Honly health_init bb_dicts_init)
    as (hd' & Hrun & _ & _ & Hget).
  { now rewrite health_init_keys. }
  rewrite Hrun, Hget, health_init_get. reflexivity.
Qed.

(** Tells which statement of the loop body writes to a category. *)
Ltac only_writer :=
  let j := fresh "j" in
  let ks := fresh "ks" in
  let Hj := fresh "Hj" in
  let Hin := fresh "Hin" in
  intros j ks Hj Hin;
  do 23 (destruct j as [|j];
         [ injection Hj as <-; simpl in Hin;
           first [ reflexivity | exfalso; intuition discriminate ] | ]);
  destruct j; discriminate Hj.

(* ================================================================== *)
(** * Heart rates, hydration and stress *)
(* ================================================================== *)

Section Readings.

Variable L : PyLib.

Lemma heart_rate_samples_rows (readings : list (Q * json)) :
  (forall r, In r readings -> Py.truthy (snd r) = true ->
             fromtimestamp L (fst r / 1000) <> None) ->
  heart_rate_samples L (List.map reading_row readings)
  = Some (List.map (heart_rate_sample L)
                   (List.filter (fun r => Py.truthy (snd r)) readings)).
Proof.
  induction readings as [|[t v] readings IH]; intros Hts; [reflexivity|].
  cbn [List.map heart_rate_samples reading_row fst snd Py.index nth_error].
  simpl mbind. cbn [List.filter snd].
  destruct (Py.truthy v) eqn:Ev.
  - unfold utc_of_millis. simpl.
    destruct (fromtimestamp L (t / 1000)) as [z|] eqn:Ez.
    + simpl. rewrite IH by (intros; apply Hts; simpl; auto). simpl.
      unfold heart_rate_sample at 2, reading_time, iso. simpl. now rewrite Ez.
    + elim (Hts (t, v)); simpl; auto.
  - apply IH. intros; apply Hts; simpl; auto.
Qed.

End Readings.

(** X14.  A zero is a reading for hydration and none for the heart rate.
    The heart-rate block keeps, in order, exactly the rows whose value is
    truthy, so a reading of [0] is dropped like a missing one, and it
    adds its entry for the date even when no row is left; the hydration
    block tests the value against [None] only, so an intake of [0] is
    reported. *)
Theorem zero_kept_for_hydration_only
        (L : PyLib) (garmin : GarminClient) (mt : list string) (d : string) :
  (forall response readings,
      In "heart_rates" mt ->
      get_heart_rates garmin d = Some (JDict response) ->
      Py.dict_get "heartRateValues" response = JList (List.map reading_row readings) ->
      (forall r, In r readings -> Py.truthy (snd r) = true ->
                 fromtimestamp L (fst r / 1000) <> None) ->
      day_fetch L garmin mt d "heart_rates"
      = [JDict [("date", JStr d);
                ("HeartRate",
                 JList (List.map (heart_rate_sample L)
                                 (List.filter (fun r => Py.truthy (snd r)) readings)))]])
  /\ (forall response v,
         In "hydration" mt ->
         get_hydration_data garmin d = Some (JDict response) ->
         Py.dict_find "valueInML" response = Some v -> v <> JNull ->
         day_fetch L garmin mt d "hydration"
         = [JDict [("date", JStr d); ("hydration", v)]]).
Proof.
  split.
  - intros response readings Hwant Hcall Hvalues Hts.
    rewrite (day_fetch_of_block L garmin mt d "heart_rates" 4
                                (want mt "heart_rates") (fetch_heart_rates L garmin d));
      [|reflexivity|only_writer|simpl; tauto].
    apply want_in in Hwant. rewrite Hwant.
    unfold fetch_heart_rates. rewrite Hcall. simpl. rewrite Hvalues.
    assert (Hor : Py.or_ (JList (List.map reading_row readings)) (JList [])
                  = JList (List.map reading_row readings) \/ readings = []).
    { destruct readings; [now right | now left]. }
    destruct Hor as [Hor | ->].
    + rewrite Hor. simpl. rewrite heart_rate_samples_rows by assumption. reflexivity.
    + reflexivity.
  - intros response v Hwant Hcall Hfind Hv.
    rewrite (day_fetch_of_block L garmin mt d "hydration" 1
                                (want mt "hydration") (fetch_hydration garmin d));
      [|reflexivity|only_writer|simpl; tauto].
    apply want_in in Hwant. rewrite Hwant.
    unfold fetch_hydration. rewrite Hcall.
    assert (Ht : Py.truthy (JDict response) = true).
    { destruct response; [discriminate Hfind | reflexivity]. }
    assert (Hget : Py.dict_get "valueInML" response = v)
      by (unfold Py.dict_get; now rewrite Hfind).
    apply is_none_false in Hv.
    cbn [W_bind mbind W_mbind lift outcome appended].
    unfold and_then, Py.get, Py.item. rewrite Ht. simpl. rewrite Hget, Hv, Hfind.
    reflexivity.
Qed.

Lemma zero_kept_for_hydration_only_witness :
  let garmin :=
    client_of (fun name _ =>
                 if String.eqb name "get_heart_rates"
                 then Some (JDict [("heartRateValues",
                                    JList [reading_row (1704146400000%Q, JNum 60);
                                           reading_row (1704146460000%Q, JNum 0)])])
                 else if String.eqb name "get_hydration_data"
                      then Some (JDict [("valueInML", JNum 0)])
                      else None) in
  day_fetch Ref.lib garmin ["heart_rates"; "hydration"] "2024-01-01" "heart_rates"
  = [JDict [("date", JStr "2024-01-01");
            ("HeartRate",
             JList [JDict [("time", JStr "2024-01-01T22:00:00+00:00");
                           ("data", JNum 60)]])]]
  /\ day_fetch Ref.lib garmin ["heart_rates"; "hydration"] "2024-01-01" "hydration"
     = [JDict [("date", JStr "2024-01-01"); ("hydration", JNum 0)]].
Proof.
  intros garmin.
  destruct (zero_kept_for_hydration_only
              Ref.lib garmin ["heart_rates"; "hydration"] "2024-01-01") as [Hhr Hhy].
  split.
  - rewrite (Hhr [("heartRateValues",
                   JList [reading_row (1704146400000%Q, JNum 60);
                          reading_row (1704146460000%Q, JNum 0)])]
                 [(1704146400000%Q, JNum 60); (1704146460000%Q, JNum 0)]);
      [reflexivity | simpl; tauto | reflexivity | reflexivity |].
    intros r [<- | [<- | []]] _; discriminate.
  - apply (Hhy [("valueInML", JNum 0)] (JNum 0));
      [simpl; tauto | reflexivity | reflexivity | discriminate].
Defined.

(* ================================================================== *)
(** * The stress entry of a date *)
(* ================================================================== *)

Lemma mood_of_stress_range x :
  (0 <= x)%Q ->
  exists m label, mood_of_stress x = (JNum m, JStr label) /\ (15 <= m)%Q /\ (m <= 95)%Q.
Proof.
  intros Hx. unfold mood_of_stress.
  rewrite negative_false by assumption.
  repeat match goal with
         | |- context [if between ?lo ?hi x then _ else _] =>
             destruct (between lo hi x)
         end;
    eexists _, _; (split; [reflexivity|]); split; unfold Qle; simpl; lia.
Qed.

Lemma valid_stress_add a v :
  valid_stress a -> valid_stress v ->
  exists s, Py.add a v = Some s /\ valid_stress s.
Proof.
  intros (qa & Ha & Hqa) (qv & Hv & Hqv). unfold Py.add.
  destruct a; try discriminate Ha; destruct v; try discriminate Hv;
    simpl in *; injection Ha as <-; injection Hv as <-;
    (eexists; split; [reflexivity|]); eexists; (split; [reflexivity|]); lra.
Qed.

Lemma sum_of_valid vals :
  Forall valid_stress vals ->
  forall acc, valid_stress acc ->
              exists s,
                fold_left (fun acc x => match acc with
                                        | Some a => Py.add a x
                                        | None => None
                                        end) vals (Some acc) = Some s
                /\ valid_stress s.
Proof.
  induction 1 as [|v vals Hv Hvals IH]; intros acc Hacc; simpl; [eauto|].
  destruct (valid_stress_add acc v Hacc Hv) as (s & -> & Hs). now apply IH.
Qed.

Lemma mean_of_valid vals :
  Forall valid_stress vals -> vals <> [] ->
  exists q, mean vals = Some (JNum q) /\ (0 <= q)%Q.
Proof.
  intros Hvals Hne. unfold mean, Py.sum.
  destruct (sum_of_valid vals Hvals (JNum 0)) as (s & -> & (q & Hq & Hq0)).
  { exists 0%Q. split; [reflexivity | lra]. }
  simpl. destruct vals as [|v vals]; [now elim Hne|]. simpl List.length.
  cbn [Nat.eqb]. unfold truediv. rewrite Hq. simpl. eexists. split; [reflexivity|].
  apply Qle_shift_div_l.
  - unfold Qlt, inject_Z. simpl. lia.
  - lra.
Qed.

Section StressFacts.

Variable L : PyLib.

Lemma stress_samples_valid i rows :
  forall out vals,
    stress_samples L i rows = Some (out, vals) ->
    Forall valid_stress vals
    /\ Forall2 (fun o v => exists t, o = JDict [("time", JStr t); ("stress_level", v)])
               out vals.
Proof.
  induction rows as [|row rows IH]; intros out vals H.
  - injection H as <- <-. split; constructor.
  - cbn [stress_samples] in H.
    destruct (Py.index row i) as [v|]; simpl in H; [|discriminate].
    destruct (and_then (negb (Py.is_none v)) (ge_zero v)) as [[|]|] eqn:Eok;
      simpl in H; [| now apply IH | discriminate].
    destruct (Py.index row 0) as [t0|]; simpl in H; [|discriminate].
    destruct (utc_of_millis L t0) as [t|]; simpl in H; [|discriminate].
    destruct (stress_samples L i rows) as [[out' vals']|]; simpl in H; [|discriminate].
    injection H as <- <-. destruct (IH out' vals' eq_refl) as [Hv Hf].
    assert (Hvalid : valid_stress v).
    { unfold and_then in Eok. destruct (negb (Py.is_none v)); [|discriminate].
      unfold ge_zero in Eok. destruct (Py.as_num v) as [q|] eqn:Eq; simpl in Eok;
        [|discriminate].
      injection Eok as Eok. exists q. split; [exact Eq|]. now apply Qle_bool_iff. }
    split; constructor; auto. unfold iso. eauto.
Qed.

End StressFacts.

(** X15.  A stress entry is made of valid samples only.  Whatever the
    provider answers, a date gets at most one stress entry, and an entry
    that is there has at least one stress sample, every sample with a
    stress level that is a number not below [0] (the provider's [-1] and
    [-2] for no data are left out, also of the average), the same samples
    again as the raw data, and a derived mood between [15] and [95]; a
    day for which only body-battery levels came gets no entry. *)
Theorem stress_entry_has_valid_samples
        (L : PyLib) (garmin : GarminClient) (mt : list string) (d : string) :
  List.length (day_fetch L garmin mt d "stress") <= 1
  /\ forall e,
      In e (day_fetch L garmin mt d "stress") ->
      exists levels body_battery mood notes,
        e = JDict [("date", JStr d);
                   ("stressLevel", JList levels);
                   ("BodyBatteryLevel", JList body_battery);
                   ("raw_stress_data", JList levels);
                   ("derived_mood_value", JNum mood);
                   ("derived_mood_notes", JStr notes)]
        /\ levels <> []
        /\ Forall (fun s => exists t v,
                       s = JDict [("time", JStr t); ("stress_level", v)]
                       /\ valid_stress v) levels
        /\ (15 <= mood)%Q /\ (mood <= 95)%Q.
Proof.
  rewrite (day_fetch_of_block L garmin mt d "stress" 6
                              (want mt "stress") (fetch_stress L garmin d));
    [|reflexivity|only_writer|simpl; tauto].
  destruct (want mt "stress"); [|split; [simpl; lia | intros e []]].
  unfold fetch_stress.
  destruct (get_stress_data garmin d ≫= stress_entry L d) as [[e0|]|] eqn:E;
    [|split; [simpl; lia | intros e []] ..].
  cbn [W_bind mbind W_mbind lift outcome appended].
  unfold emit. simpl. split; [lia|]. intros e [<- | []].
  destruct (get_stress_data garmin d) as [response|]; simpl in E; [|discriminate].
  unfold stress_entry in E.
  destruct (Py.get response "stressValuesArray") as [sva|]; simpl in E; [|discriminate].
  destruct (Py.get response "bodyBatteryValuesArray") as [bba|]; simpl in E;
    [|discriminate].
  destruct (Py.iter (Py.or_ sva (JList []))) as [stress_list|]; simpl in E;
    [|discriminate].
  destruct (Py.iter (Py.or_ bba (JList []))) as [bb_list|]; simpl in E; [|discriminate].
  destruct (stress_samples L 1 stress_list) as [[levels vals]|] eqn:Es; simpl in E;
    [|discriminate].
  destruct (stress_samples L 2 bb_list) as [[bb bbvals]|] eqn:Eb; simpl in E;
    [|discriminate].
  destruct (stress_samples_valid L 1 stress_list levels vals Es) as [Hvals Hlevels].
  destruct vals as [|v vals].
  { (* no valid sample: nothing is emitted *)
    inversion Hlevels; subst. simpl in E. discriminate E. }
  destruct (mean_of_valid (v :: vals) Hvals) as (avg & Hmean & Havg); [discriminate|].
  rewrite Hmean in E. simpl in E. unfold map_garmin_stress_to_mood in E. simpl in E.
  destruct (mood_of_stress_range avg Havg) as (m & label & Hmood & Hlo & Hhi).
  rewrite Hmood in E. simpl in E.
  assert (Hne : levels <> []) by (inversion Hlevels; discriminate).
  destruct levels as [|l0 levels]; [now elim Hne|]. simpl in E.
  injection E as <-.
  eexists _, _, _, _. split; [reflexivity|]. split; [discriminate|].
  split; [|split; assumption].
  clear - Hvals Hlevels.
  remember (l0 :: levels) as out. remember (v :: vals) as values.
  clear Heqout Heqvalues.
  induction Hlevels as [|o x out values [t ->] Hrest IH]; [constructor|].
  inversion Hvals; subst. constructor; eauto.
Qed.

Lemma stress_entry_has_valid_samples_witness :
  let garmin := client_of (fun name _ =>
                             if String.eqb name "get_stress_data"
                             then Some two_stress_samples else None) in
  exists e levels body_battery mood notes,
    day_fetch Ref.lib garmin ["stress"] "2024-01-01" "stress" = [e]
    /\ e = JDict [("date", JStr "2024-01-01");
                  ("stressLevel", JList levels);
                  ("BodyBatteryLevel", JList body_battery);
                  ("raw_stress_data", JList levels);
                  ("derived_mood_value", JNum mood);
                  ("derived_mood_notes", JStr notes)]
    /\ levels <> []
    /\ (15 <= mood)%Q /\ (mood <= 95)%Q.
Proof.
  intros garmin.
  destruct (stress_entry_has_valid_samples Ref.lib garmin ["stress"] "2024-01-01")
    as [_ Hshape].
  destruct (day_fetch Ref.lib garmin ["stress"] "2024-01-01" "stress")
    as [|e rest] eqn:E; [vm_compute in E; discriminate E|].
  destruct rest; [|vm_compute in E; discriminate E].
  destruct (Hshape e (or_introl eq_refl))
    as (levels & bb & mood & notes & He & Hne & _ & Hlo & Hhi).
  exists e, levels, bb, mood, notes. auto.
Defined.

(* ================================================================== *)
(** * The sleep entry of a date *)
(* ================================================================== *)

Lemma stage_type_of_named level ty :
  stage_type_of level = Some ty -> In ty stage_type_names.
Proof.
  unfold stage_type_of, stage_type_names, stage_type_map.
  destruct level as [|b|q|s|l|f]; cbn [Py.as_num List.find fst snd];
    try discriminate.
  - intros [= <-]. simpl. tauto.
  - repeat match goal with
           | |- context [if Qeq_bool ?x ?n then _ else _] => destruct (Qeq_bool x n)
           end; intros [= <-]; simpl; tauto.
  - repeat match goal with
           | |- context [if Qeq_bool ?x ?n then _ else _] => destruct (Qeq_bool x n)
           end; intros [= <-]; simpl; tauto.
  - intros [= <-]. simpl. tauto.
Qed.

Section SleepFacts.

Variable L : PyLib.

Lemma add_stage_events needs_stage_sum acc entry acc' :
  add_stage L needs_stage_sum acc entry = Some acc' ->
  Forall typed_event (stage_events acc) ->
  Forall typed_event (stage_events acc').
Proof.
  unfold add_stage. intros H Hacc.
  destruct (Py.get entry "activityLevel") as [level|]; simpl in H; [|discriminate].
  destruct (Py.is_none level); [now injection H as <-|].
  destruct (Py.item entry "startGMT") as [s|]; simpl in H; [|discriminate].
  destruct (utc_of_gmt L s) as [ts|]; simpl in H; [|discriminate].
  destruct (Py.item entry "endGMT") as [e|]; simpl in H; [|discriminate].
  destruct (utc_of_gmt L e) as [te|]; simpl in H; [|discriminate].
  destruct (stage_type_of level) as [ty|] eqn:Ety; simpl in H; [|discriminate].
  apply stage_type_of_named in Ety.
  assert (Hnew : Forall typed_event
                        (stage_events acc
                         ++ [JDict [("stage_type", JStr ty);
                                    ("start_time", iso L ts);
                                    ("end_time", iso L te);
                                    ("duration_in_seconds",
                                     whole_seconds (te - ts))]])).
  { apply List.Forall_app. split; [exact Hacc|]. constructor; [|constructor].
    exists ty. split; [reflexivity | exact Ety]. }
  destruct needs_stage_sum; [|now injection H as <-].
  repeat match type of H with
         | (if ?b then _ else _) = Some _ => destruct b
         end;
    try match type of H with
        | mbind _ ?m = Some _ => destruct m; simpl in H; [|discriminate H]
        end;
    now injection H as <-.
Qed.

Lemma add_stages_events needs_stage_sum entries :
  forall acc acc',
    add_stages L needs_stage_sum acc entries = Some acc' ->
    Forall typed_event (stage_events acc) ->
    Forall typed_event (stage_events acc').
Proof.
  induction entries as [|entry entries IH]; intros acc acc' H Hacc.
  - now injection H as <-.
  - cbn [add_stages] in H.
    destruct (add_stage L needs_stage_sum acc entry) as [acc1|] eqn:E1; simpl in H;
      [|discriminate].
    apply (IH acc1 acc' H). now apply add_stage_events in E1.
Qed.

Lemma gt_zero_true x : gt_zero x = Some true -> exists q, Py.as_num x = Some q /\ (0 < q)%Q.
Proof.
  unfold gt_zero. destruct (Py.as_num x) as [q|]; simpl; [|discriminate].
  intros [= H]. exists q. split; [reflexivity|].
  apply negb_true_iff in H. apply not_true_iff_false in H.
  rewrite Qle_bool_iff in H. lra.
Qed.

(** The record of a night, when there is one. *)
Lemma sleep_entry_consistent d raw e :
  sleep_entry L d raw = Some (Some e) ->
  field_of e "entry_date" = JStr d
  /\ field_of e "source" = JStr "garmin"
  /\ (exists q, Py.as_num (field_of e "duration_in_seconds") = Some q /\ (0 < q)%Q)
  /\ (exists dl,
         Py.add (field_of e "deep_sleep_seconds") (field_of e "light_sleep_seconds")
         = Some dl
         /\ Py.add dl (field_of e "rem_sleep_seconds")
            = Some (field_of e "time_asleep_in_seconds"))
  /\ exists events,
      field_of e "stage_events" = JList events /\ Forall typed_event events.
Proof.
  unfold sleep_entry. intros H. opt_inv H.
  all: injection H as H;
    match type of H with (if ?b then _ else _) = _ => destruct b eqn:Evalid; [|discriminate H] end;
    injection H as <-; cbn [field_of Py.dict_get Py.dict_find String.eqb Ascii.eqb Bool.eqb];
    (split; [reflexivity|]); (split; [reflexivity|]).
  all: split;
    [ match goal with
      | Hv : and_then _ (gt_zero ?x) = Some true |- _ =>
          unfold and_then in Hv;
          match type of Hv with
          | (if ?c then _ else _) = _ => destruct c; [|discriminate Hv]
          end;
          exact (gt_zero_true _ Hv)
      end |].
  all: split;
    [ match goal with
      | H1 : Py.add ?a ?b = Some ?dl, H2 : Py.add ?dl ?c = Some ?t |- _ =>
          exists dl; split; [exact H1 | exact H2]
      end |].
  all: eexists; split; [reflexivity|].
  all: match goal with
       | Hs : (if ?t then _ else _) = Some ?s |- Forall _ (stage_events ?s) =>
           destruct t; [|injection Hs as <-; constructor];
           match type of Hs with
           | mbind _ ?m = Some _ => destruct m; simpl in Hs; [|discriminate Hs]
           end;
           apply add_stages_events in Hs; [exact Hs | constructor]
       end.
Qed.

End SleepFacts.

(** X16.  A sleep entry is consistent with itself.  A date gets at most
    one sleep entry, and an entry that is there carries the requested
    date, the source [garmin], a duration that is a number above [0] (a
    night without one is skipped), a time asleep that is the sum of its
    own deep, light and REM seconds, and stage events each typed as one
    of deep, light, rem, awake and unknown. *)
Theorem sleep_entry_is_consistent
        (L : PyLib) (garmin : GarminClient) (mt : list string) (d : string) :
  List.length (day_fetch L garmin mt d "sleep") <= 1
  /\ forall e,
      In e (day_fetch L garmin mt d "sleep") ->
      field_of e "entry_date" = JStr d
      /\ field_of e "source" = JStr "garmin"
      /\ (exists q, Py.as_num (field_of e "duration_in_seconds") = Some q /\ (0 < q)%Q)
      /\ (exists dl,
             Py.add (field_of e "deep_sleep_seconds") (field_of e "light_sleep_seconds")
             = Some dl
             /\ Py.add dl (field_of e "rem_sleep_seconds")
                = Some (field_of e "time_asleep_in_seconds"))
      /\ exists events,
          field_of e "stage_events" = JList events /\ Forall typed_event events.
Proof.
  rewrite (day_fetch_of_block L garmin mt d "sleep" 5
                              (want mt "sleep") (fetch_sleep L garmin d));
    [|reflexivity|only_writer|simpl; tauto].
  destruct (want mt "sleep"); [|split; [simpl; lia | intros e []]].
  unfold fetch_sleep.
  destruct (get_sleep_data garmin d ≫= sleep_entry L d) as [[e0|]|] eqn:E;
    [|split; [simpl; lia | intros e []] ..].
  cbn [W_bind mbind W_mbind lift outcome appended].
  unfold emit. simpl. split; [lia|]. intros e [<- | []].
  destruct (get_sleep_data garmin d) as [raw|]; simpl in E; [|discriminate].
  now apply (sleep_entry_consistent L d raw).
Qed.

Lemma sleep_entry_is_consistent_witness :
  let garmin := client_of (fun name _ =>
                             if String.eqb name "get_sleep_data"
                             then Some (sample_sleep 0) else None) in
  exists e,
    day_fetch Ref.lib garmin ["sleep"] "2024-01-01" "sleep" = [e]
    /\ field_of e "entry_date" = JStr "2024-01-01"
    /\ field_of e "time_asleep_in_seconds" = JNum 6300
    /\ exists events,
        field_of e "stage_events" = JList events /\ Forall typed_event events.
Proof.
  intros garmin.
  destruct (sleep_entry_is_consistent Ref.lib garmin ["sleep"] "2024-01-01")
    as [_ Hshape].
  destruct (day_fetch Ref.lib garmin ["sleep"] "2024-01-01" "sleep")
    as [|e rest] eqn:E; [vm_compute in E; discriminate E|].
  destruct rest; [|vm_compute in E; discriminate E].
  destruct (Hshape e (or_introl eq_refl)) as (Hd & _ & _ & _ & Hev).
  exists e. split; [reflexivity|]. split; [exact Hd|]. split; [|exact Hev].
  vm_compute in E. injection E as <-. reflexivity.
Defined.

(* ================================================================== *)
(** * Body battery: the summary first, its own endpoint else *)
(* ================================================================== *)

Lemma run_steps_app steps1 steps2 hd :
  run_steps (steps1 ++ steps2) hd = run_steps steps1 hd ≫= run_steps steps2.
Proof.
  revert hd. induction steps1 as [|s steps1 IH]; intros hd; [reflexivity|].
  rewrite <- app_comm_cons, !run_steps_cons.
  destruct (s hd) as [hd1|]; simpl; [apply IH | reflexivity].
Qed.

Lemma Forall2_firstn {A B} (R : A -> B -> Prop) n :
  forall l l', Forall2 R l l' -> Forall2 R (firstn n l) (firstn n l').
Proof.
  induction n as [|n IH]; intros l l' H; simpl; [constructor|].
  destruct H; constructor; auto.
Qed.

Lemma Forall2_skipn {A B} (R : A -> B -> Prop) n :
  forall l l', Forall2 R l l' -> Forall2 R (skipn n l) (skipn n l').
Proof.
  induction n as [|n IH]; intros l l' H; simpl; [exact H|].
  destruct H; [constructor | apply IH; assumption].
Qed.

(** Tells which statement of a part of the loop body writes to a
    category. *)
Ltac only_writer_of_part :=
  let j := fresh "j" in
  let ks := fresh "ks" in
  let Hj := fresh "Hj" in
  let Hin := fresh "Hin" in
  intros j ks Hj Hin; cbn [firstn skipn date_step_keys] in Hj;
  repeat (destruct j as [|j];
          [ injection Hj as <-; simpl in Hin;
            first [ reflexivity | exfalso; intuition discriminate ]
          | cbn [nth_error] in Hj ]);
  destruct j; discriminate Hj.

Lemma bind_other {A B} c (m : W A) (f : A -> W B) b :
  entries_sat (fun k _ => k <> c) m ->
  outcome (m ≫= f) = Some b ->
  exists a, outcome m = Some a /\ outcome (f a) = Some b
            /\ entries_for c (appended (m ≫= f)) = entries_for c (appended (f a)).
Proof.
  intros Hm Hb. rewrite appended_bind, entries_for_app.
  rewrite (entries_for_none c (appended m)) by (intros e He; now apply Hm in He).
  unfold mbind, W_mbind, W_bind in Hb.
  destruct (outcome m) as [a|]; [|discriminate Hb].
  exists a. repeat split. exact Hb.
Qed.

(** Closes the side condition of a statement that writes to another
    category. *)
Ltac writes_elsewhere :=
  repeat first
    [ apply sat_lift
    | apply sat_ret
    | apply sat_when; intros _
    | apply sat_bind; [|intros ? _]
    | apply sat_emit; discriminate ].

Section BodyBattery.

Variable L : PyLib.
Variable garmin : GarminClient.
Variable mt : list string.
Variable d : string.

(** What the daily summary gives for body battery. *)
Abbreviation from_summary :=
  (entries_for "body_battery" (appended (fetch_daily_summary garmin mt d))).

Abbreviation from_endpoint :=
  (entries_for "body_battery" (appended (fetch_body_battery L garmin d))).

Lemma from_summary_dated : Forall (dated "date" d) from_summary.
Proof.
  apply List.Forall_forall. intros e He. apply entries_for_in in He.
  destruct (fetch_daily_summary_sat garmin mt d _ _ He) as (_ & _ & _ & Hb).
  now apply Hb.
Qed.

Lemma has_bb_for_date_seen e rest :
  dated "date" d e -> has_bb_for_date d (e :: rest) = Some true.
Proof.
  intros (f & -> & Hf). simpl. rewrite Hf. simpl. now rewrite String.eqb_refl.
Qed.

Lemma from_summary_value summary :
  want mt "body_battery" = true ->
  get_user_summary garmin d = Some (JDict summary) ->
  outcome (fetch_daily_summary garmin mt d) = Some tt ->
  let field k := Py.dict_get k summary in
  from_summary
  = if existsb Py.truthy [field "bodyBatteryHighestValue"; field "bodyBatteryLowestValue";
                          field "bodyBatteryAtWakeTime"; field "bodyBatteryChargedValue";
                          field "bodyBatteryDrainedValue"]
    then [JDict [("date", JStr d);
                 ("body_battery_highest", field "bodyBatteryHighestValue");
                 ("body_battery_lowest", field "bodyBatteryLowestValue");
                 ("body_battery_at_wake", field "bodyBatteryAtWakeTime");
                 ("body_battery_charged", field "bodyBatteryChargedValue");
                 ("body_battery_drained", field "bodyBatteryDrainedValue");
                 ("body_battery_current", field "bodyBatteryMostRecentValue")]]
    else [].
Proof.
  intros Hwant Hsum Hout field. unfold fetch_daily_summary in *. rewrite Hsum in *.
  apply (bind_other "body_battery") in Hout; [|writes_elsewhere].
  destruct Hout as (a & Ha & Hout & ->). injection Ha as <-.
  apply (bind_other "body_battery") in Hout; [|writes_elsewhere].
  destruct Hout as (ks & _ & Hout & ->).
  destruct summary as [|p summary']; [reflexivity|].
  set (summary := p :: summary') in *.
  do 5 (apply (bind_other "body_battery") in Hout; [|writes_elsewhere];
        destruct Hout as (? & _ & Hout & ->)).
  rewrite Hwant. cbn [when].
  fold field.
  destruct (existsb Py.truthy _); reflexivity.
Qed.

Lemma day_fetch_body_battery :
  In "body_battery" mt ->
  day_fetch L garmin mt d "body_battery"
  = match from_summary with
    | [] => from_endpoint
    | _ => from_summary
    end.
Proof.
  intros Hwant. apply want_in in Hwant.
  unfold day_fetch, fetch_date.
  change (date_steps L garmin mt d)
    with (firstn 17 (date_steps L garmin mt d)
          ++ [body_battery_step L garmin mt d]
          ++ skipn 18 (date_steps L garmin mt d)).
  rewrite run_steps_app.
  pose proof (date_steps_sat L garmin mt d) as Hsound.
  (* the statements before the fallback: the summary alone writes *)
  destruct (run_steps_single
              mt d "body_battery" _ _
              (Forall2_firstn _ 17 _ _ Hsound)
              0 (existsb (want mt) summary_metrics) (fetch_daily_summary garmin mt d))
    with (hd := health_init)
    as (hd17 & Hrun17 & Hbb17 & Hk17 & Hget17);
    [reflexivity | only_writer_of_part | apply bb_dicts_init
     | rewrite health_init_keys; simpl; tauto |].
  rewrite Hrun17. cbn [mbind option_bind]. rewrite run_steps_app.
  assert (Hguard : existsb (want mt) summary_metrics = true).
  { apply existsb_exists. exists "body_battery". split; [simpl; tauto | exact Hwant]. }
  rewrite Hguard, health_init_get in Hget17. simpl in Hget17.
  (* the fallback *)
  assert (Hstep : exists hd18,
             run_steps [body_battery_step L garmin mt d] hd17 = Some hd18
             /\ bb_dicts hd18
             /\ health_get "body_battery" hd18
                = match from_summary with
                  | [] => from_endpoint
                  | _ => from_summary
                  end).
  { unfold run_steps. simpl. unfold body_battery_step. rewrite Hwant, Hget17.
    pose proof from_summary_dated as Hdated.
    destruct from_summary as [|e rest] eqn:Es.
    - simpl. exists (block true (fetch_body_battery L garmin d) hd17).
      split; [reflexivity|]. unfold block, try_. split.
      + apply bb_dicts_commit with mt ["body_battery"] d; [exact Hbb17|].
        intros k e He. now apply (fetch_body_battery_sat L garmin mt d Hwant).
      + rewrite commit_get, Hget17; [reflexivity|].
        rewrite Hk17, health_init_keys. simpl. tauto.
    - inversion Hdated as [|? ? He _]; subst.
      rewrite (has_bb_for_date_seen e rest He). simpl.
      exists hd17. split; [reflexivity|]. split; [exact Hbb17 | exact Hget17]. }
  destruct Hstep as (hd18 & Hrun18 & Hbb18 & Hget18).
  rewrite Hrun18. cbn [mbind option_bind].
  (* the statements after it write elsewhere *)
  destruct (steps_keep mt d "body_battery" _ _ (Forall2_skipn _ 18 _ _ Hsound))
    with (hd := hd18) as (hd' & Hrun & _ & _ & Hget); [|exact Hbb18|].
  { intros ks Hin. cbn [skipn date_step_keys] in Hin.
    repeat (destruct Hin as [<- | Hin]; [simpl; intuition discriminate|]).
    destruct Hin. }
  rewrite Hrun, Hget. exact Hget18.
Qed.

Lemma body_battery_of_at_wake bb_entry e :
  body_battery_of L d bb_entry = Some e ->
  exists f, e = JDict f /\ Py.dict_get "date" f = JStr d
            /\ Py.dict_get "body_battery_at_wake" f = JNull.
Proof.
  unfold body_battery_of. intros H. opt_inv H.
  injection H as <-. eexists. repeat split; reflexivity.
Qed.

Lemma from_endpoint_at_wake e :
  In e from_endpoint ->
  exists f, e = JDict f /\ Py.dict_get "date" f = JStr d
            /\ Py.dict_get "body_battery_at_wake" f = JNull.
Proof.
  intros He. apply entries_for_in in He. revert He.
  generalize "body_battery" at 1. intros k He.
  assert (Hsat : entries_sat
                   (fun _ e => exists f, e = JDict f /\ Py.dict_get "date" f = JStr d
                                         /\ Py.dict_get "body_battery_at_wake" f = JNull)
                   (fetch_body_battery L garmin d)).
  { unfold fetch_body_battery. sat_blocks.
    all: apply sat_emit.
    all: match goal with H : outcome (lift _) = Some _ |- _ => simpl in H end.
    all: eapply body_battery_of_at_wake; eassumption. }
  exact (Hsat k e He).
Qed.

Lemma from_endpoint_raises :
  get_body_battery garmin d d = None -> from_endpoint = [].
Proof. intros H. unfold fetch_body_battery. now rewrite H. Qed.

Lemma from_summary_raises :
  get_user_summary garmin d = None -> from_summary = [].
Proof. intros H. unfold fetch_daily_summary. now rewrite H. Qed.

End BodyBattery.

(** X17. Body battery of a date comes from the daily summary when the
    summary has it, and from the body-battery endpoint otherwise.  With
    body battery requested: when the summary call answers a dictionary and
    the summary block does not raise, the date gets exactly one entry built
    from the summary if one of its highest, lowest, at-wake, charged and
    drained values is truthy (the most recent value alone does not count),
    and the entries of the endpoint if none is; when the summary call
    raises, the date gets the entries of the endpoint.  An entry of the
    endpoint carries the date and no at-wake value, and an endpoint that
    raises gives no entry. *)
Theorem body_battery_summary_before_endpoint L garmin mt d :
  In "body_battery" mt ->
  let from_endpoint :=
    entries_for "body_battery" (appended (fetch_body_battery L garmin d)) in
  (forall summary,
      get_user_summary garmin d = Some (JDict summary) ->
      outcome (fetch_daily_summary garmin mt d) = Some tt ->
      let field k := Py.dict_get k summary in
      day_fetch L garmin mt d "body_battery"
      = if existsb Py.truthy
             [field "bodyBatteryHighestValue"; field "bodyBatteryLowestValue";
              field "bodyBatteryAtWakeTime"; field "bodyBatteryChargedValue";
              field "bodyBatteryDrainedValue"]
        then [JDict [("date", JStr d);
                     ("body_battery_highest", field "bodyBatteryHighestValue");
                     ("body_battery_lowest", field "bodyBatteryLowestValue");
                     ("body_battery_at_wake", field "bodyBatteryAtWakeTime");
                     ("body_battery_charged", field "bodyBatteryChargedValue");
                     ("body_battery_drained", field "bodyBatteryDrainedValue");
                     ("body_battery_current", field "bodyBatteryMostRecentValue")]]
        else from_endpoint)
  /\ (get_user_summary garmin d = None ->
      day_fetch L garmin mt d "body_battery" = from_endpoint)
  /\ (forall e, In e from_endpoint ->
                exists f, e = JDict f /\ Py.dict_get "date" f = JStr d
                          /\ Py.dict_get "body_battery_at_wake" f = JNull)
  /\ (get_body_battery garmin d d = None -> from_endpoint = []).
Proof.
  intros Hwant from_endpoint.
  pose proof (day_fetch_body_battery L garmin mt d Hwant) as Hday.
  repeat split.
  - intros summary Hsum Hout field. rewrite Hday.
    rewrite (from_summary_value garmin mt d summary
               (proj2 (want_in mt "body_battery") Hwant) Hsum Hout).
    fold field. destruct (existsb Py.truthy _); reflexivity.
  - intros Hsum. rewrite Hday, (from_summary_raises garmin mt d Hsum). reflexivity.
  - apply from_endpoint_at_wake.
  - apply from_endpoint_raises.
Qed.

Lemma body_battery_summary_before_endpoint_witness :
  let garmin := client_of (fun name _ =>
                             if String.eqb name "get_user_summary"
                             then Some (JDict [("totalSteps", JNum 4000);
                                               ("bodyBatteryChargedValue", JNum 55);
                                               ("bodyBatteryMostRecentValue", JNum 40)])
                             else None) in
  day_fetch Ref.lib garmin ["steps"; "body_battery"] "2024-01-01" "body_battery"
  = [JDict [("date", JStr "2024-01-01");
            ("body_battery_highest", JNull);
            ("body_battery_lowest", JNull);
            ("body_battery_at_wake", JNull);
            ("body_battery_charged", JNum 55);
            ("body_battery_drained", JNull);
            ("body_battery_current", JNum 40)]].
Proof.
  intros garmin.
  destruct (body_battery_summary_before_endpoint
              Ref.lib garmin ["steps"; "body_battery"] "2024-01-01")
    as (Hsummary & _); [simpl; tauto|].
  exact (Hsummary _ eq_refl eq_refl).
Defined.

(* ================================================================== *)
(** * VO2 max: the REST answer first, the GraphQL query else *)
(* ================================================================== *)

(** X18.  VO2 max of a date is taken from the REST answer when that has a
    value, and from the GraphQL query only when it has none.  With max
    metrics requested a date gets at most one entry, and an entry that is
    there carries the date and a truthy value.  When the REST answer holds
    a truthy value the entry carries it, whatever the GraphQL endpoint
    would answer; when the REST answer holds none and the GraphQL query
    raises, the inner [try] swallows the failure and the date gets no
    entry; when the REST call itself raises the query is not tried and the
    date gets no entry. *)
Theorem vo2_max_rest_before_graphql
        (L : PyLib) (garmin : GarminClient) (mt : list string) (d : string) :
  In "max_metrics" mt ->
  (List.length (day_fetch L garmin mt d "max_metrics") <= 1
   /\ forall e, In e (day_fetch L garmin mt d "max_metrics") ->
                exists v, e = JDict [("date", JStr d); ("vo2_max", v)]
                          /\ Py.truthy v = true)
  /\ (forall answer v,
         get_max_metrics garmin d = Some answer ->
         vo2_of_rest answer = Some v ->
         Py.truthy v = true ->
         day_fetch L garmin mt d "max_metrics"
         = [JDict [("date", JStr d); ("vo2_max", v)]])
  /\ (forall answer v,
         get_max_metrics garmin d = Some answer ->
         vo2_of_rest answer = Some v ->
         Py.truthy v = false ->
         query_garmin_graphql garmin (JDict [("query", JStr (vo2_graphql_query d))])
         = None ->
         day_fetch L garmin mt d "max_metrics" = [])
  /\ (get_max_metrics garmin d = None ->
      day_fetch L garmin mt d "max_metrics" = []).
Proof.
  intros Hwant. apply want_in in Hwant.
  rewrite (day_fetch_of_block L garmin mt d "max_metrics" 12
                              (want mt "max_metrics") (fetch_max_metrics garmin d));
    [|reflexivity|only_writer|simpl; tauto].
  rewrite Hwant. unfold fetch_max_metrics.
  split; [|split; [|split]].
  - destruct (get_max_metrics garmin d) as [answer|];
      cbn [W_bind mbind W_mbind lift outcome appended];
      [|split; [simpl; lia | intros e []]].
    destruct (vo2_of_rest answer) as [v|];
      cbn [W_bind mbind W_mbind lift outcome appended];
      [|split; [simpl; lia | intros e []]].
    match goal with
    | |- context [when (Py.truthy ?x) _] => destruct (Py.truthy x) eqn:Ex
    end; [|split; [simpl; lia | intros e []]].
    unfold emit. simpl. split; [lia|]. intros e [<- | []].
    eexists. split; [reflexivity | exact Ex].
  - intros answer v Hcall Hrest Hv. rewrite Hcall.
    cbn [W_bind mbind W_mbind lift outcome appended]. rewrite Hrest.
    cbn [W_bind mbind W_mbind lift outcome appended]. rewrite Hv.
    cbn [negb]. rewrite Hv. reflexivity.
  - intros answer v Hcall Hrest Hv Hquery. rewrite Hcall.
    cbn [W_bind mbind W_mbind lift outcome appended]. rewrite Hrest.
    cbn [W_bind mbind W_mbind lift outcome appended]. rewrite Hv.
    unfold vo2_of_graphql. rewrite Hquery. cbn [negb mbind option_bind].
    rewrite Hv. reflexivity.
  - intros Hcall. rewrite Hcall. reflexivity.
Qed.

Lemma vo2_max_rest_before_graphql_witness :
  let garmin := client_of (fun name _ =>
                             if String.eqb name "get_max_metrics"
                             then Some (JList [JDict [("vo2MaxValue", JNum 48)]])
                             else if String.eqb name "query_garmin_graphql"
                             then Some (JDict [("data",
                                                JDict [("vo2MaxScalar",
                                                        JList [JDict [("vo2Max", JNum 51)]])])])
                             else None) in
  day_fetch Ref.lib garmin ["max_metrics"] "2024-01-01" "max_metrics"
  = [JDict [("date", JStr "2024-01-01"); ("vo2_max", JNum 48)]].
Proof.
  intros garmin.
  destruct (vo2_max_rest_before_graphql Ref.lib garmin ["max_metrics"] "2024-01-01")
    as (_ & Hrest & _); [simpl; tauto|].
  exact (Hrest _ _ eq_refl eq_refl eq_refl).
Defined.

(* ================================================================== *)
(** * Activities: active calories, cadence and power, workouts *)
(* ================================================================== *)

Lemma last_cons_default {A} (l : list A) x d : List.last (x :: l) d = List.last l x.
Proof.
  revert x d. induction l as [|y l IH]; intros x d; [reflexivity|].
  change (List.last (x :: y :: l) d) with (List.last (y :: l) d).
  now rewrite !IH.
Qed.

Lemma scan_metrics_last (metrics : list pydict) cadence power :
  scan_metrics (List.map JDict metrics) cadence power
  = Some (List.last (metric_values "cadence" metrics) cadence,
          List.last (metric_values "power" metrics) power).
Proof.
  revert cadence power. induction metrics as [|m metrics IH]; intros cadence power;
    [reflexivity|].
  cbn [List.map scan_metrics Py.get mbind option_bind]. rewrite IH.
  unfold metric_values. cbn [List.filter].
  destruct (Py.eq_str (Py.dict_get "metricName" m) "cadence") eqn:Ec;
    destruct (Py.eq_str (Py.dict_get "metricName" m) "power") eqn:Ep;
    cbn [List.map]; rewrite ?last_cons_default; reflexivity.
Qed.

Lemma mapM_detailed_workout garmin workouts :
  Forall (fun workout => Py.item workout "workoutId" <> None) workouts ->
  exists records,
    mapM (detailed_workout garmin) workouts = Some records
    /\ Forall2 (workout_record garmin) workouts records.
Proof.
  induction 1 as [|w workouts Hw _ (records & Hr & Hall)].
  - exists []. split; [reflexivity | constructor].
  - destruct (Py.item w "workoutId") as [workout_id|] eqn:Eid; [|now elim Hw].
    eexists (_ :: records). split.
    + cbn [mapM]. rewrite Hr. unfold detailed_workout. rewrite Eid. reflexivity.
    + constructor; [|exact Hall]. exists workout_id. split; [exact Eid | reflexivity].
Qed.

Lemma mapM_raises {A B} (f : A -> option B) l x :
  In x l -> f x = None -> mapM f l = None.
Proof.
  intros Hin Hx. destruct (mapM f l) as [r|] eqn:E; [|reflexivity].
  destruct (mapM_in f l r x E Hin) as (y & Hy & _). congruence.
Qed.

Lemma detailed_activity_without_calories L garmin a :
  active_calories_of (JDict a) = None -> detailed_activity L garmin (JDict a) = None.
Proof.
  intros H. unfold detailed_activity. rewrite H.
  destruct (Py.item (JDict a) "activityId"); reflexivity.
Qed.

(** X19.  Active calories are never negative.  For an activity that is a
    dictionary, a value that is computed is a number that is not
    negative: [0] when the BMR calories reach the calories, their
    difference otherwise, a falsy calories or BMR calories (missing,
    [None], [0]) counting as the float [0.0].  The value is computed
    whenever both are numbers that convert to a [float].  It is not
    computed, and as the computation stands before the [try] of the
    enrichment the activity then gives no record at all, when one of them
    is truthy and no number ([TypeError]), and when one of them is falsy
    and the other an [int] too large for a [float] ([OverflowError]
    against the float [0.0]). *)
Theorem active_calories_never_negative (a : pydict) :
  let calories := Py.dict_get "calories" a in
  let bmr_calories := Py.dict_get "bmrCalories" a in
  let cal := Py.or_ calories (JNum 0) in
  let bmr := Py.or_ bmr_calories (JNum 0) in
  (forall v, active_calories_of (JDict a) = Some v ->
             exists c b q,
               Py.as_num cal = Some c /\ Py.as_num bmr = Some b /\ v = JNum q
               /\ (0 <= q)%Q
               /\ ((c <= b)%Q -> (q == 0)%Q)
               /\ ((b < c)%Q -> (q == c - b)%Q))
  /\ (forall c b,
         Py.as_num cal = Some c -> Py.as_num bmr = Some b ->
         Py.overflows c = false -> Py.overflows b = false ->
         active_calories_of (JDict a) <> None)
  /\ (Py.as_num cal = None \/ Py.as_num bmr = None ->
      active_calories_of (JDict a) = None
      /\ forall L garmin, detailed_activity L garmin (JDict a) = None)
  /\ (forall q,
         Py.truthy calories = false \/ Py.truthy bmr_calories = false ->
         Py.as_num cal = Some q \/ Py.as_num bmr = Some q ->
         Py.overflows q = true ->
         active_calories_of (JDict a) = None
         /\ forall L garmin, detailed_activity L garmin (JDict a) = None).
Proof.
  intros calories bmr_calories cal bmr.
  assert (Hcalc : active_calories_of (JDict a)
                  = match (if Py.truthy calories && Py.truthy bmr_calories
                           then Py.sub cal bmr else Py.sub_float cal bmr) with
                    | Some d =>
                        match Py.as_num d with
                        | Some q => Some (if Qle_bool q 0 then JNum 0 else d)
                        | None => None
                        end
                    | None => None
                    end).
  { unfold active_calories_of. cbn [Py.get mbind option_bind].
    fold calories bmr_calories. fold cal bmr.
    destruct (if Py.truthy calories && Py.truthy bmr_calories
              then Py.sub cal bmr else Py.sub_float cal bmr) as [d|];
      [|reflexivity].
    cbn [mbind option_bind]. destruct (Py.as_num d); reflexivity. }
  assert (Hdiff : forall d,
             (if Py.truthy calories && Py.truthy bmr_calories
              then Py.sub cal bmr else Py.sub_float cal bmr) = Some d ->
             exists c b, Py.as_num cal = Some c /\ Py.as_num bmr = Some b
                         /\ d = JNum (c - b)).
  { intros d. unfold Py.sub, Py.sub_float.
    destruct (Py.as_num cal) as [c|], (Py.as_num bmr) as [b|];
      destruct (Py.truthy calories && Py.truthy bmr_calories);
      try discriminate;
      match goal with
      | |- (if ?t then _ else _) = _ -> _ => destruct t; [discriminate|]
      end; intros [= <-]; eauto. }
  assert (Hnone : active_calories_of (JDict a) = None ->
                  active_calories_of (JDict a) = None
                  /\ forall L garmin, detailed_activity L garmin (JDict a) = None).
  { intros H. split; [exact H|].
    intros L garmin. now apply detailed_activity_without_calories. }
  split; [|split; [|split]].
  - intros v Hv. rewrite Hcalc in Hv.
    destruct (if Py.truthy calories && Py.truthy bmr_calories
              then Py.sub cal bmr else Py.sub_float cal bmr) as [d|] eqn:Ed;
      [|discriminate Hv].
    destruct (Hdiff d eq_refl) as (c & b & Hc & Hb & ->).
    cbn [Py.as_num] in Hv.
    exists c, b. destruct (Qle_bool (c - b) 0) eqn:E; injection Hv as <-.
    + apply Qle_bool_iff in E. exists 0%Q. repeat split; try reflexivity;
        try assumption; [lra | intros; lra].
    + assert (~ (c - b <= 0)%Q) by (rewrite <- Qle_bool_iff; congruence).
      exists (c - b)%Q. repeat split; try reflexivity; try assumption;
        [lra | intros; lra].
  - intros c b Hc Hb Hoc Hob. rewrite Hcalc. unfold Py.sub, Py.sub_float.
    rewrite Hc, Hb, Hoc, Hob. cbn [andb orb].
    destruct (Py.truthy calories && Py.truthy bmr_calories); discriminate.
  - intros Hbad. apply Hnone. rewrite Hcalc. unfold Py.sub, Py.sub_float.
    destruct Hbad as [-> | ->].
    + destruct (Py.truthy calories && Py.truthy bmr_calories); reflexivity.
    + destruct (Py.as_num cal);
        destruct (Py.truthy calories && Py.truthy bmr_calories); reflexivity.
  - intros q Hfalsy Hq Hover. apply Hnone. rewrite Hcalc.
    assert (Hboth : Py.truthy calories && Py.truthy bmr_calories = false).
    { destruct Hfalsy as [-> | ->]; [reflexivity | apply andb_false_r]. }
    rewrite Hboth. unfold Py.sub_float.
    destruct Hq as [Hq | Hq]; rewrite Hq.
    + destruct (Py.as_num bmr); [|reflexivity]. now rewrite Hover.
    + destruct (Py.as_num cal); [|reflexivity]. rewrite Hover.
      now rewrite orb_true_r.
Qed.

Lemma active_calories_never_negative_witness :
  active_calories_of (JDict [("activityId", JNum 7); ("calories", JNum 300);
                             ("bmrCalories", JNum 420)])
  = Some (JNum 0)
  /\ detailed_activity Ref.lib (client_of (fun _ _ => Some JNull))
                       (JDict [("activityId", JNum 7); ("calories", JStr "300 kcal")])
     = None
  /\ detailed_activity Ref.lib (client_of (fun _ _ => Some JNull))
                       (JDict [("activityId", JNum 7);
                               ("calories", JNum (inject_Z (10 ^ 400)))])
     = None.
Proof.
  split; [reflexivity|]. split.
  - apply (proj1 (proj2 (proj2 (active_calories_never_negative
                                  [("activityId", JNum 7);
                                   ("calories", JStr "300 kcal")])))).
    left. reflexivity.
  - apply (proj2 (proj2 (proj2 (active_calories_never_negative
                                  [("activityId", JNum 7);
                                   ("calories", JNum (inject_Z (10 ^ 400)))])))
                 (inject_Z (10 ^ 400))).
    + right. reflexivity.
    + left. reflexivity.
    + vm_compute. reflexivity.
Defined.

(** X20.  Cadence and power of an activity whose details are a
    dictionary: of the metrics of the details the last one named
    [cadence] (or [power]) counts, and when there is none, or its value is
    falsy, the average of the details is taken, [avgCadence] before
    [averageCadence] ([avgPower] before [averagePower]).  Details without
    metrics (a missing, [None] or empty [metrics]) are details with no
    metric. *)
Theorem cadence_and_power_priority (details : pydict) (metrics : list pydict) :
  Py.or_ (Py.dict_get "metrics" details) (JList []) = JList (List.map JDict metrics) ->
  let field k := Py.dict_get k details in
  cadence_and_power (JDict details)
  = Some (Py.or_ (List.last (metric_values "cadence" metrics) JNull)
                 (Py.or_ (field "avgCadence") (field "averageCadence")),
          Py.or_ (List.last (metric_values "power" metrics) JNull)
                 (Py.or_ (field "avgPower") (field "averagePower"))).
Proof.
  intros Hmetrics field. unfold cadence_and_power.
  destruct details as [|p details'].
  { destruct metrics; [reflexivity | discriminate Hmetrics]. }
  set (details := p :: details') in *.
  cbn [Py.truthy Py.is_dict andb details]. fold details.
  cbn [Py.get mbind option_bind]. unfold Py.or_ in Hmetrics at 1.
  destruct (Py.truthy (Py.dict_get "metrics" details)) eqn:Et.
  - assert (Hitem : Py.item (JDict details) "metrics"
                    = Some (JList (List.map JDict metrics))).
    { unfold Py.item. unfold Py.dict_get in Hmetrics, Et.
      destruct (Py.dict_find "metrics" details) as [v|]; [now subst | discriminate]. }
    rewrite Hitem. cbn [mbind option_bind Py.iter].
    rewrite scan_metrics_last. reflexivity.
  - destruct metrics; [reflexivity | discriminate Hmetrics].
Qed.

Lemma cadence_and_power_priority_witness :
  cadence_and_power
    (JDict [("metrics", JList [JDict [("metricName", JStr "cadence"); ("value", JNum 80)];
                               JDict [("metricName", JStr "power"); ("value", JNum 0)];
                               JDict [("metricName", JStr "cadence"); ("value", JNum 84)]]);
            ("avgCadence", JNum 82); ("averagePower", JNum 190)])
  = Some (JNum 84, JNum 190).
Proof.
  exact (cadence_and_power_priority
           [("metrics", JList [JDict [("metricName", JStr "cadence"); ("value", JNum 80)];
                               JDict [("metricName", JStr "power"); ("value", JNum 0)];
                               JDict [("metricName", JStr "cadence"); ("value", JNum 84)]]);
            ("avgCadence", JNum 82); ("averagePower", JNum 190)]
           [[("metricName", JStr "cadence"); ("value", JNum 80)];
            [("metricName", JStr "power"); ("value", JNum 0)];
            [("metricName", JStr "cadence"); ("value", JNum 84)]]
           eq_refl).
Defined.

(** X21.  Workouts: each listed workout gives one record, in order, the
    details of the workout when the call for them answers and the listed
    workout itself when it raises.  The identifier is read before the
    [try]: one listed workout without a [workoutId] makes the whole
    request fail with a 500, whatever else the provider answers. *)
Theorem workout_details_fall_back (L : PyLib) (garmin : GarminClient) :
  (forall workouts,
      Forall (fun workout => Py.item workout "workoutId" <> None) workouts ->
      exists records,
        mapM (detailed_workout garmin) workouts = Some records
        /\ Forall2 (workout_record garmin) workouts records)
  /\ (forall login request_data workouts workout,
         login (aw_tokens request_data) = Some garmin ->
         get_workouts garmin = Some workouts ->
         In workout workouts ->
         Py.item workout "workoutId" = None ->
         get_activities_and_workouts L login request_data = HttpError 500).
Proof.
  split; [apply mapM_detailed_workout|].
  intros login request_data workouts workout Hlogin Hlist Hin Hid.
  unfold get_activities_and_workouts.
  destruct (_ || _); [reflexivity|].
  rewrite Hlogin. cbn [mbind option_bind].
  destruct (get_activities_by_date garmin _ _ _) as [activities|]; [|reflexivity].
  cbn [mbind option_bind].
  destruct (detail_activities L garmin activities) as [detailed|]; [|reflexivity].
  cbn [mbind option_bind]. rewrite Hlist. cbn [mbind option_bind].
  rewrite (mapM_raises (detailed_workout garmin) workouts workout Hin);
    [reflexivity|].
  unfold detailed_workout. now rewrite Hid.
Qed.

Lemma workout_details_fall_back_witness :
  let garmin := client_of (fun name _ =>
                             if String.eqb name "get_workouts"
                             then Some (JList [JDict [("workoutName", JStr "Intervals")]])
                             else Some (JList [])) in
  get_activities_and_workouts Ref.lib (fun _ => Some garmin) activities_request
  = HttpError 500.
Proof.
  intros garmin.
  apply (proj2 (workout_details_fall_back Ref.lib garmin))
    with (workouts := [JDict [("workoutName", JStr "Intervals")]])
         (workout := JDict [("workoutName", JStr "Intervals")]);
    [reflexivity | reflexivity | left; reflexivity | reflexivity].
Defined.

(* ================================================================== *)
(** * SpO2: the answer of its endpoint first, the night's value else *)
(* ================================================================== *)

Section Spo2.

Variable L : PyLib.
Variable garmin : GarminClient.
Variable mt : list string.
Variable d : string.

(** The SpO2 block of a date reads the sleep entries of that date. *)
Lemma day_fetch_spo2 :
  In "spo2" mt ->
  day_fetch L garmin mt d "spo2"
  = entries_for "spo2"
                (appended (fetch_spo2 garmin d (day_fetch L garmin mt d "sleep"))).
Proof.
  intros Hwant. apply want_in in Hwant.
  rewrite (day_fetch_of_block L garmin mt d "sleep" 5
                              (want mt "sleep") (fetch_sleep L garmin d));
    [|reflexivity|only_writer|simpl; tauto].
  unfold day_fetch, fetch_date.
  change (date_steps L garmin mt d)
    with (firstn 8 (date_steps L garmin mt d)
          ++ [spo2_step garmin mt d]
          ++ skipn 9 (date_steps L garmin mt d)).
  rewrite run_steps_app.
  pose proof (date_steps_sat L garmin mt d) as Hsound.
  destruct (run_steps_single
              mt d "sleep" _ _
              (Forall2_firstn _ 8 _ _ Hsound)
              5 (want mt "sleep") (fetch_sleep L garmin d))
    with (hd := health_init)
    as (hd8 & Hrun8 & Hbb8 & Hk8 & Hsleep8);
    [reflexivity | only_writer_of_part | apply bb_dicts_init
     | rewrite health_init_keys; simpl; tauto |].
  destruct (steps_keep mt d "spo2" _ _ (Forall2_firstn _ 8 _ _ Hsound))
    with (hd := health_init) as (hd8' & Hrun8' & _ & _ & Hspo8);
    [|apply bb_dicts_init|].
  { intros ks Hin. cbn [firstn date_step_keys] in Hin.
    repeat (destruct Hin as [<- | Hin]; [simpl; intuition discriminate|]).
    destruct Hin. }
  rewrite Hrun8 in Hrun8'. injection Hrun8' as <-.
  rewrite health_init_get in Hsleep8, Hspo8. simpl in Hsleep8.
  rewrite Hrun8. cbn [mbind option_bind]. rewrite run_steps_app.
  change (run_steps [spo2_step garmin mt d] hd8)
    with (Some (block (want mt "spo2")
                      (fetch_spo2 garmin d (health_get "sleep" hd8)) hd8)).
  cbn [mbind option_bind]. rewrite Hwant, Hsleep8.
  set (hd9 := block true _ hd8).
  assert (Hspo9 : health_get "spo2" hd9
                  = entries_for "spo2"
                      (appended (fetch_spo2 garmin d
                                   (if want mt "sleep"
                                    then entries_for "sleep"
                                           (appended (fetch_sleep L garmin d))
                                    else [])))).
  { unfold hd9, block, try_. rewrite commit_get, Hspo8; [reflexivity|].
    rewrite Hk8, health_init_keys. simpl. tauto. }
  assert (Hbb9 : bb_dicts hd9).
  { unfold hd9, block, try_.
    apply bb_dicts_commit with mt ["spo2"] d; [exact Hbb8|].
    intros k e He. now apply (fetch_spo2_sat garmin mt d _ Hwant) in He. }
  destruct (steps_keep mt d "spo2" _ _ (Forall2_skipn _ 9 _ _ Hsound))
    with (hd := hd9) as (hd' & Hrun & _ & _ & Hget); [|exact Hbb9|].
  { intros ks Hin. cbn [skipn date_step_keys] in Hin.
    repeat (destruct Hin as [<- | Hin]; [simpl; intuition discriminate|]).
    destruct Hin. }
  rewrite Hrun, Hget. exact Hspo9.
Qed.

End Spo2.

(** X22.  SpO2 of a date comes from its endpoint, and from the sleep entry
    of the date when the endpoint has no value.  With SpO2 requested a
    date gets at most one entry, always with the date and a truthy
    average.  A truthy value of the endpoint is reported whatever the
    night holds.  When the endpoint answers without a value, the value of
    the date's sleep entry is reported if that entry has a truthy one; as
    the sleep entries are those of this request, there is no such
    fallback when sleep is not requested.  When the call of the endpoint
    raises, the fallback is not reached and the date gets no entry. *)
Theorem spo2_falls_back_on_sleep
        (L : PyLib) (garmin : GarminClient) (mt : list string) (d : string) :
  In "spo2" mt ->
  (List.length (day_fetch L garmin mt d "spo2") <= 1
   /\ forall e, In e (day_fetch L garmin mt d "spo2") ->
                exists v, e = JDict [("date", JStr d); ("average_spo2", v)]
                          /\ Py.truthy v = true)
  /\ (forall answer v,
         get_spo2_data garmin d = Some answer ->
         spo2_of_response answer = Some v ->
         Py.truthy v = true ->
         day_fetch L garmin mt d "spo2"
         = [JDict [("date", JStr d); ("average_spo2", v)]])
  /\ (forall answer v0 night,
         get_spo2_data garmin d = Some answer ->
         spo2_of_response answer = Some v0 ->
         Py.truthy v0 = false ->
         day_fetch L garmin mt d "sleep" = [night] ->
         Py.truthy (field_of night "average_spo2_value") = true ->
         day_fetch L garmin mt d "spo2"
         = [JDict [("date", JStr d);
                   ("average_spo2", field_of night "average_spo2_value")]])
  /\ (forall answer v0,
         get_spo2_data garmin d = Some answer ->
         spo2_of_response answer = Some v0 ->
         Py.truthy v0 = false ->
         ~ In "sleep" mt ->
         day_fetch L garmin mt d "spo2" = [])
  /\ (get_spo2_data garmin d = None -> day_fetch L garmin mt d "spo2" = []).
Proof.
  intros Hwant. rewrite (day_fetch_spo2 L garmin mt d Hwant).
  unfold fetch_spo2.
  split; [|split; [|split; [|split]]].
  - destruct (get_spo2_data garmin d) as [answer|];
      cbn [W_bind mbind W_mbind lift outcome appended];
      [|split; [simpl; lia | intros e []]].
    destruct (spo2_of_response answer) as [v0|];
      cbn [W_bind mbind W_mbind lift outcome appended];
      [|split; [simpl; lia | intros e []]].
    match goal with
    | |- context [appended (match ?o with Some _ => _ | None => _ end)] =>
        destruct o as [v|]
    end; cbn [W_bind mbind W_mbind lift outcome appended];
      [|split; [simpl; lia | intros e []]].
    destruct (Py.truthy v) eqn:Ev; [|split; [simpl; lia | intros e []]].
    unfold emit. simpl. split; [lia|]. intros e [<- | []].
    eexists. split; [reflexivity | exact Ev].
  - intros answer v Hcall Hresp Hv. rewrite Hcall.
    cbn [W_bind mbind W_mbind lift outcome appended]. rewrite Hresp.
    cbn [W_bind mbind W_mbind lift outcome appended]. rewrite Hv.
    cbn [negb andb W_bind mbind W_mbind lift outcome appended]. rewrite Hv.
    reflexivity.
  - intros answer v0 night Hcall Hresp Hv0 Hsleep Hv. rewrite Hcall.
    cbn [W_bind mbind W_mbind lift outcome appended]. rewrite Hresp.
    cbn [W_bind mbind W_mbind lift outcome appended]. rewrite Hv0, Hsleep.
    destruct (day_fetch_dated L garmin mt d) as [Hdated _].
    rewrite Hsleep in Hdated. inversion Hdated as [|? ? (f & -> & Hf) _]; subst.
    cbn [field_of] in Hv |- *.
    cbn [negb andb Py.truthy spo2_of_sleep Py.get mbind option_bind].
    rewrite Hf. cbn [Py.eq_str]. rewrite String.eqb_refl.
    cbn [and_then mbind option_bind]. rewrite Hv.
    cbn [W_bind mbind option_bind W_mbind lift outcome appended]. rewrite Hv.
    reflexivity.
  - intros answer v0 Hcall Hresp Hv0 Hno. rewrite Hcall.
    cbn [W_bind mbind W_mbind lift outcome appended]. rewrite Hresp.
    cbn [W_bind mbind W_mbind lift outcome appended]. rewrite Hv0.
    rewrite (day_fetch_of_block L garmin mt d "sleep" 5
                                (want mt "sleep") (fetch_sleep L garmin d));
      [|reflexivity|only_writer|simpl; tauto].
    destruct (want mt "sleep") eqn:Hw; [apply want_in in Hw; contradiction|].
    cbn [negb andb Py.truthy W_bind mbind W_mbind lift outcome appended].
    rewrite Hv0. reflexivity.
  - intros Hcall. rewrite Hcall. reflexivity.
Qed.

Lemma spo2_falls_back_on_sleep_witness :
  let garmin := client_of (fun name _ =>
                             if String.eqb name "get_spo2_data"
                             then Some (JDict [("avgSpO2", JNum 96)])
                             else None) in
  day_fetch Ref.lib garmin ["spo2"] "2024-01-01" "spo2"
  = [JDict [("date", JStr "2024-01-01"); ("average_spo2", JNum 96)]].
Proof.
  intros garmin.
  destruct (spo2_falls_back_on_sleep Ref.lib garmin ["spo2"] "2024-01-01")
    as (_ & Hvalue & _); [simpl; tauto|].
  exact (Hvalue _ _ eq_refl eq_refl eq_refl).
Defined.

(* ================================================================== *)
(** * Loops inside a [try]: what came before a failure is kept *)
(* ================================================================== *)

Lemma entries_for_own c es : entries_for c (List.map (pair c) es) = es.
Proof.
  unfold entries_for. induction es as [|e es IH]; [reflexivity|].
  cbn [List.map List.filter fst]. rewrite String.eqb_refl. cbn [List.map snd].
  now rewrite IH.
Qed.

Section LoopInTry.

Context {A : Type}.
Variable c : string.
Variable f : A -> option json.
Hypothesis known : Py.str_in c ALL_HEALTH_METRICS = true.

Abbreviation body := (fun x : A => e ← lift (f x); emit c e).

Lemma body_appends x e :
  f x = Some e -> appended (body x) = [(c, e)] /\ outcome (body x) = Some tt.
Proof.
  intros H. cbn [mbind W_mbind W_bind lift outcome appended]. rewrite H.
  unfold emit. rewrite known. split; reflexivity.
Qed.

Lemma body_raises x : f x = None -> appended (body x) = [] /\ outcome (body x) = None.
Proof.
  intros H. cbn [mbind W_mbind W_bind lift outcome appended]. rewrite H.
  split; reflexivity.
Qed.

(** The loop appends the entries of the elements before the first one
    that raises, and nothing of those after it. *)
Lemma for_until_failure good rest es :
  mapM f good = Some es ->
  rest = [] \/ (exists bad rest', rest = bad :: rest' /\ f bad = None) ->
  appended (for_ (good ++ rest) body) = List.map (pair c) es.
Proof.
  revert es. induction good as [|x good IH]; intros es Hes Hrest.
  - injection Hes as <-. destruct Hrest as [-> | (bad & rest' & -> & Hbad)];
      [reflexivity|].
    cbn [app for_]. rewrite appended_bind.
    destruct (body_raises bad Hbad) as [-> ->]. reflexivity.
  - cbn [mapM] in Hes.
    destruct (f x) as [e|] eqn:Ex; [|discriminate Hes].
    destruct (mapM f good) as [es'|] eqn:Egood; [|discriminate Hes].
    injection Hes as <-.
    cbn [app for_]. rewrite appended_bind.
    destruct (body_appends x e Ex) as [-> ->].
    now rewrite (IH es' eq_refl Hrest).
Qed.

End LoopInTry.

Lemma body_composition_of_accepts entry :
  body_composition_of entry <> None
  <-> exists f, entry = JDict f
                /\ convertible (Py.dict_get "weight" f)
                /\ convertible (Py.dict_get "boneMass" f)
                /\ convertible (Py.dict_get "muscleMass" f).
Proof.
  unfold body_composition_of. destruct entry as [| | | | |f];
    try (split; [intros H; now elim H | intros (f & [=] & _)]).
  cbn [Py.keys Py.get mbind option_bind].
  change grams_to_kg with (fun x : json => truediv x 1000).
  destruct (convertible_dec (Py.dict_get "weight" f)) as [Hw | Hw];
    [|rewrite (safe_convert_text _ 1000 Hw); split;
      [intros H; now elim H | intros (f' & [= <-] & ? & _); contradiction]].
  destruct (safe_convert_total _ 1000 Hw) as [w Ew]. rewrite Ew. cbn [mbind option_bind].
  destruct (convertible_dec (Py.dict_get "boneMass" f)) as [Hb | Hb];
    [|rewrite (safe_convert_text _ 1000 Hb); split;
      [intros H; now elim H | intros (f' & [= <-] & _ & ? & _); contradiction]].
  destruct (safe_convert_total _ 1000 Hb) as [b Eb]. rewrite Eb. cbn [mbind option_bind].
  destruct (convertible_dec (Py.dict_get "muscleMass" f)) as [Hm | Hm];
    [|rewrite (safe_convert_text _ 1000 Hm); split;
      [intros H; now elim H | intros (f' & [= <-] & _ & _ & ?); contradiction]].
  destruct (safe_convert_total _ 1000 Hm) as [m Em]. rewrite Em. cbn [mbind option_bind].
  split; [intros _; eauto | discriminate].
Qed.

Lemma body_composition_of_date entry e :
  body_composition_of entry = Some e ->
  field_of e "date" = field_of entry "date".
Proof.
  unfold body_composition_of. intros H. opt_inv H. injection H as <-.
  destruct entry; try discriminate.
  repeat match goal with
         | H : Py.get _ _ = Some _ |- _ => cbn [Py.get] in H; injection H as <-
         end.
  reflexivity.
Qed.

(** X23.  Body composition: the entries of a date are read in a loop
    inside one [try], so a raise on one entry keeps the entries made
    before it and loses that entry and all after it.  An entry is made
    exactly of a dictionary whose weight, bone mass and muscle mass are
    each missing, [None] or a number that converts to a float (an int of
    magnitude [2**1024 - 2**970] or more raises [OverflowError] when
    divided by [1000.0]), and it carries the date of the provider's entry,
    not the date asked for. *)
Theorem body_composition_stops_at_failure
        (L : PyLib) (garmin : GarminClient) (mt : list string) (d : string) :
  In "body_composition" mt ->
  (forall response good rest es,
      get_body_composition garmin d d = Some (JDict response) ->
      Py.dict_find "dateWeightList" response = Some (JList (good ++ rest)) ->
      mapM body_composition_of good = Some es ->
      rest = [] \/ (exists bad rest', rest = bad :: rest'
                                      /\ body_composition_of bad = None) ->
      day_fetch L garmin mt d "body_composition" = es)
  /\ (forall entry,
         body_composition_of entry <> None
         <-> exists f, entry = JDict f
                       /\ convertible (Py.dict_get "weight" f)
                       /\ convertible (Py.dict_get "boneMass" f)
                       /\ convertible (Py.dict_get "muscleMass" f))
  /\ (forall entry e,
         body_composition_of entry = Some e ->
         field_of e "date" = field_of entry "date").
Proof.
  intros Hwant. apply want_in in Hwant.
  split; [|split; [apply body_composition_of_accepts | apply body_composition_of_date]].
  intros response good rest es Hcall Hlist Hes Hrest.
  rewrite (day_fetch_of_block L garmin mt d "body_composition" 20
                              (want mt "body_composition")
                              (fetch_body_composition garmin d));
    [|reflexivity|only_writer|simpl; tauto].
  rewrite Hwant. unfold fetch_body_composition. rewrite Hcall.
  assert (Ht : Py.truthy (JDict response) = true).
  { destruct response; [discriminate Hlist | reflexivity]. }
  assert (Hget : Py.dict_get "dateWeightList" response = JList (good ++ rest))
    by (unfold Py.dict_get; now rewrite Hlist).
  cbn [W_bind mbind W_mbind lift outcome appended]. rewrite Ht.
  cbn [Py.keys Py.get Py.item mbind option_bind W_bind W_mbind lift outcome appended].
  rewrite Hget, Hlist.
  destruct (good ++ rest) as [|x l] eqn:El.
  - destruct good; [|discriminate El]. injection Hes as <-. reflexivity.
  - cbn [Py.truthy Py.iter mbind option_bind].
    change (entries_for "body_composition"
              (appended (for_ (x :: l)
                              (fun entry => e ← lift (body_composition_of entry);
                                            emit "body_composition" e)))
            = es).
    rewrite <- El.
    rewrite (for_until_failure "body_composition" body_composition_of eq_refl
                               good rest es Hes Hrest).
    apply entries_for_own.
Qed.

Lemma body_composition_stops_at_failure_witness :
  let garmin :=
    client_of (fun name _ =>
                 if String.eqb name "get_body_composition"
                 then Some (JDict [("dateWeightList",
                                    JList [JDict [("date", JStr "2024-01-01");
                                                  ("weight", JNum 72000)];
                                           JDict [("date", JStr "2024-01-01");
                                                  ("weight", JStr "72 kg")];
                                           JDict [("date", JStr "2024-01-01");
                                                  ("weight", JNum 71500)]])])
                 else None) in
  day_fetch Ref.lib garmin ["body_composition"] "2024-01-01" "body_composition"
  = [JDict [("date", JStr "2024-01-01");
            ("weight", JNum (72000 / 1000));
            ("body_fat_percentage", JNull);
            ("bmi", JNull);
            ("body_water_percentage", JNull);
            ("bone_mass", JNull);
            ("muscle_mass", JNull)]].
Proof.
  intros garmin.
  destruct (body_composition_stops_at_failure
              Ref.lib garmin ["body_composition"] "2024-01-01")
    as (Hloop & _); [simpl; tauto|].
  eapply (Hloop _ [JDict [("date", JStr "2024-01-01"); ("weight", JNum 72000)]]
                [JDict [("date", JStr "2024-01-01"); ("weight", JStr "72 kg")];
                 JDict [("date", JStr "2024-01-01"); ("weight", JNum 71500)]]);
    [reflexivity | reflexivity | reflexivity |].
  right. eexists _, _. split; reflexivity.
Defined.

(* ================================================================== *)
(** * HRV: an entry for every date *)
(* ================================================================== *)

Section HrvFacts.

Variable L : PyLib.
Variable d : string.

Lemma hrv_readings_aligned hrv_list r :
  hrv_readings L hrv_list = Some r -> List.length (fst r) = List.length (snd r).
Proof.
  revert r. induction hrv_list as [|entry rest IH]; intros r H.
  - injection H as <-. reflexivity.
  - cbn [hrv_readings] in H. opt_inv H.
    + injection H as <-. simpl. f_equal. now apply IH.
    + now apply IH.
Qed.

Lemma hrv_entry_shape response e :
  hrv_entry L d response = Some e ->
  exists f samples,
    e = JDict f
    /\ Py.dict_get "date" f = JStr d
    /\ Py.dict_get "hrvValue" f = JList samples
    /\ (samples = [] <-> Py.dict_find "average_overnight_hrv" f = None).
Proof.
  unfold hrv_entry. intros H.
  destruct (if Py.truthy (Py.or_ response (JDict []))
            then Py.keys (Py.or_ response (JDict [])) else Some []) as [ks|];
    [|discriminate H].
  cbn [mbind option_bind] in H.
  destruct (Py.get (Py.or_ response (JDict [])) "hrvReadings") as [readings|];
    [|discriminate H].
  cbn [mbind option_bind] in H.
  destruct (Py.iter (Py.or_ readings (JList []))) as [hrv_list|]; [|discriminate H].
  cbn [mbind option_bind] in H.
  destruct (hrv_readings L hrv_list) as [[samples values]|] eqn:Er; [|discriminate H].
  apply hrv_readings_aligned in Er. cbn [fst snd mbind option_bind] in H, Er.
  assert (Hdata1 : forall data1,
             match values with
             | [] => Some [("date", JStr d); ("hrvValue", JList samples)]
             | v :: vs =>
                 avg ← mean (v :: vs);
                 Some (Py.dict_set "average_overnight_hrv" avg
                                   [("date", JStr d); ("hrvValue", JList samples)])
             end = Some data1 ->
             Py.dict_get "date" data1 = JStr d
             /\ Py.dict_get "hrvValue" data1 = JList samples
             /\ (samples = [] <-> Py.dict_find "average_overnight_hrv" data1 = None)).
  { intros data1 H1. destruct values as [|v values].
    - injection H1 as <-. destruct samples; [|discriminate Er].
      repeat split; reflexivity.
    - destruct (mean (v :: values)) as [avg|]; [|discriminate H1].
      injection H1 as <-. destruct samples; [discriminate Er|].
      repeat split; try reflexivity; intros; discriminate. }
  match type of H with
  | mbind _ ?m = _ => destruct m as [data1|] eqn:E1; [|discriminate H]
  end.
  destruct (Hdata1 data1 eq_refl) as (Hdate & Hvalue & Havg). clear Hdata1 E1.
  opt_inv H; injection H as <-; eexists _, samples; (split; [reflexivity|]);
    unfold Py.dict_get in *;
    rewrite !dict_find_set_other by discriminate; auto.
Qed.

End HrvFacts.

(** X24.  HRV reports an entry for every date it is asked for.  With HRV
    requested a date gets at most one entry; an answer of the provider
    that is [None] or empty still gives the entry of the date, with no
    sample and no status; and an entry that is there carries the date and
    a list of samples, and has an overnight average exactly when the list
    is not empty. *)
Theorem hrv_entry_without_data
        (L : PyLib) (garmin : GarminClient) (mt : list string) (d : string) :
  In "hrv" mt ->
  List.length (day_fetch L garmin mt d "hrv") <= 1
  /\ (forall answer,
         get_hrv_data garmin d = Some answer ->
         Py.truthy answer = false ->
         day_fetch L garmin mt d "hrv"
         = [JDict [("date", JStr d); ("hrvValue", JList []);
                   ("hrv_status", JNull); ("weekly_avg", JNull);
                   ("baseline_low", JNull); ("baseline_high", JNull)]])
  /\ (forall e,
         In e (day_fetch L garmin mt d "hrv") ->
         exists f samples,
           e = JDict f
           /\ Py.dict_get "date" f = JStr d
           /\ Py.dict_get "hrvValue" f = JList samples
           /\ (samples = [] <-> Py.dict_find "average_overnight_hrv" f = None)).
Proof.
  intros Hwant. apply want_in in Hwant.
  rewrite (day_fetch_of_block L garmin mt d "hrv" 13
                              (want mt "hrv") (fetch_hrv L garmin d));
    [|reflexivity|only_writer|simpl; tauto].
  rewrite Hwant. unfold fetch_hrv.
  split; [|split].
  - destruct (get_hrv_data garmin d ≫= hrv_entry L d) as [data|];
      cbn [W_bind mbind W_mbind lift outcome appended]; simpl; lia.
  - intros answer Hcall Hfalsy. rewrite Hcall. cbn [mbind option_bind].
    unfold hrv_entry, Py.or_. rewrite Hfalsy. reflexivity.
  - intros e He.
    destruct (get_hrv_data garmin d ≫= hrv_entry L d) as [data|] eqn:E;
      cbn [W_bind mbind W_mbind lift outcome appended] in He;
      [|destruct He].
    unfold emit in He. simpl in He. destruct He as [<- | []].
    destruct (get_hrv_data garmin d) as [response|]; [|discriminate E].
    exact (hrv_entry_shape L d response data E).
Qed.

Lemma hrv_entry_without_data_witness :
  let garmin := client_of (fun name _ =>
                             if String.eqb name "get_hrv_data" then Some JNull else None) in
  day_fetch Ref.lib garmin ["hrv"] "2024-01-01" "hrv"
  = [JDict [("date", JStr "2024-01-01"); ("hrvValue", JList []);
            ("hrv_status", JNull); ("weekly_avg", JNull);
            ("baseline_low", JNull); ("baseline_high", JNull)]].
Proof.
  intros garmin.
  destruct (hrv_entry_without_data Ref.lib garmin ["hrv"] "2024-01-01")
    as (_ & Hempty & _); [simpl; tauto|].
  exact (Hempty JNull eq_refl eq_refl).
Defined.

(* ================================================================== *)
(** * The local copies *)
(* ================================================================== *)

Lemma load_after_save filename data fs :
  _load_from_local_file filename (_save_to_local_file filename data fs) = data.
Proof.
  unfold _load_from_local_file, _save_to_local_file. now rewrite lookup_insert_eq.
Qed.

Lemma health_body_truthy L login request_data body :
  get_health_and_wellness L login request_data = Ok body ->
  Py.truthy (JDict body) = true.
Proof.
  unfold get_health_and_wellness. intros H.
  repeat match type of H with
         | (if ?b then _ else _) = _ => destruct b; [discriminate H|]
         | match ?x with _ => _ end = _ => destruct x; [|discriminate H]
         end.
  injection H as <-. reflexivity.
Qed.

Lemma activities_body_truthy L login request_data body :
  get_activities_and_workouts L login request_data = Ok body ->
  Py.truthy (JDict body) = true.
Proof.
  unfold get_activities_and_workouts. intros H.
  destruct (_ || _); [discriminate H|].
  match type of H with
  | match ?x with _ => _ end = _ => destruct x as [b|] eqn:E; [|discriminate H]
  end.
  injection H as <-. opt_inv E. injection E as <-. reflexivity.
Qed.

Lemma local_copy_served source filename fetched body fs other :
  String.eqb source "local" = false ->
  fetched = Ok body ->
  Py.truthy (JDict body) = true ->
  let after := snd (with_local_copy source filename fetched fs) in
  fst (with_local_copy source filename fetched fs) = Served (JDict body)
  /\ with_local_copy "local" filename other after = (Served (JDict body), after).
Proof.
  intros Hsource -> Htruthy after. subst after. unfold with_local_copy.
  rewrite Hsource. cbn [fst snd String.eqb Ascii.eqb Bool.eqb].
  rewrite load_after_save, Htruthy. split; reflexivity.
Qed.

Lemma local_copy_kept source filename fetched status_code fs :
  String.eqb source "local" = false ->
  fetched = HttpError status_code ->
  with_local_copy source filename fetched fs = (Refused status_code, fs).
Proof. intros Hsource ->. unfold with_local_copy. now rewrite Hsource. Qed.

Lemma local_copy_missing filename fetched (fs : files) :
  fs !! local_path filename = None ->
  with_local_copy "local" filename fetched fs = (Refused 404, fs).
Proof.
  intros Hnone. unfold with_local_copy, _load_from_local_file. now rewrite Hnone.
Qed.

Lemma local_copy_other_file source filename fetched (fs : files) other :
  local_path filename <> local_path other ->
  snd (with_local_copy source filename fetched fs) !! local_path other
  = fs !! local_path other.
Proof.
  intros Hne. unfold with_local_copy.
  destruct (String.eqb source "local").
  - destruct (Py.truthy _); reflexivity.
  - destruct fetched; [|reflexivity]. cbn [snd]. unfold _save_to_local_file.
    now rewrite lookup_insert_ne.
Qed.

(** X25.  The local copy of the health route.  When the data source is
    not [local], an answered request is saved and a failed one leaves the
    files as they were, and the copy of the activities route is never
    touched.  In the [local] mode the route then serves the saved answer
    as it is to every request, whoever asks and for whichever dates,
    without a login and without the check of the fields; and when there
    is no copy it refuses with a 404, the one failure of the route that
    is not a 500. *)
Theorem health_local_copy_round_trip
        (L : PyLib) (source : string) (login : string -> option GarminClient)
        (request_data : HealthAndWellnessRequest) (fs : files) :
  String.eqb source "local" = false ->
  let answer := health_and_wellness_route source L login request_data fs in
  (forall body,
      get_health_and_wellness L login request_data = Ok body ->
      fst answer = Served (JDict body)
      /\ forall login' request_data',
          health_and_wellness_route "local" L login' request_data' (snd answer)
          = (Served (JDict body), snd answer))
  /\ (forall status_code,
         get_health_and_wellness L login request_data = HttpError status_code ->
         answer = (Refused status_code, fs))
  /\ snd answer !! local_path activities_filename
     = fs !! local_path activities_filename
  /\ (forall login' request_data',
         fs !! local_path health_filename = None ->
         health_and_wellness_route "local" L login' request_data' fs
         = (Refused 404, fs)).
Proof.
  intros Hsource answer. subst answer. unfold health_and_wellness_route.
  split; [|split; [|split]].
  - intros body Hbody.
    pose proof (health_body_truthy L login request_data body Hbody) as Htruthy.
    split.
    + apply (local_copy_served source health_filename _ body fs (HttpError 0)
                               Hsource Hbody Htruthy).
    + intros login' request_data'.
      apply (local_copy_served source health_filename _ body fs _
                               Hsource Hbody Htruthy).
  - intros status_code Hfail. now apply local_copy_kept.
  - apply local_copy_other_file. discriminate.
  - intros login' request_data' Hnone. now apply local_copy_missing.
Qed.

Lemma health_local_copy_round_trip_witness :
  let saved :=
    snd (health_and_wellness_route "garmin" Ref.lib (fun _ => Some two_days_of_steps)
                                   steps_request ∅) in
  exists body,
    get_health_and_wellness Ref.lib (fun _ => Some two_days_of_steps) steps_request
    = Ok body
    /\ health_and_wellness_route "local" Ref.lib (fun _ => None)
                                 {| hw_user_id := ""; hw_tokens := "";
                                    hw_start_date := ""; hw_end_date := "";
                                    hw_metric_types := [] |}
                                 saved
       = (Served (JDict body), saved).
Proof.
  intros saved.
  destruct (get_health_and_wellness Ref.lib (fun _ => Some two_days_of_steps)
                                    steps_request) as [body|status_code] eqn:Hbody;
    [|vm_compute in Hbody; discriminate Hbody].
  exists body. split; [reflexivity|].
  destruct (health_local_copy_round_trip
              Ref.lib "garmin" (fun _ => Some two_days_of_steps) steps_request ∅ eq_refl)
    as (Hsaved & _).
  apply (Hsaved body Hbody).
Defined.

(* ================================================================== *)
(** * Recovery time and acute load *)
(* ================================================================== *)

(** X26.  Acute load is read from the training readiness inside the block
    of the training load, after the training status: when the call of the
    training status raises, or its answer has no latest status, a date
    gets no acute load, whatever the training readiness holds.  An acute
    load that is reported is one entry with the date and a value that is
    not [None].  Recovery time is tested against [None] only, so a
    recovery time of [0] at the head of the readiness list is reported. *)
Theorem acute_load_needs_training_status
        (L : PyLib) (garmin : GarminClient) (mt : list string) (d : string) :
  (In "acute_load" mt ->
   (get_training_status garmin d = None ->
    day_fetch L garmin mt d "acute_load" = [])
   /\ (forall status latest,
          get_training_status garmin d = Some status ->
          latest_training_status status = Some latest ->
          Py.truthy latest = false ->
          day_fetch L garmin mt d "acute_load" = [])
   /\ List.length (day_fetch L garmin mt d "acute_load") <= 1
   /\ (forall e, In e (day_fetch L garmin mt d "acute_load") ->
                 exists v, e = JDict [("date", JStr d); ("value", v)] /\ v <> JNull))
  /\ (In "recovery_time" mt ->
      forall first rest v,
        get_training_readiness garmin d = Some (JList (JDict first :: rest)) ->
        Py.dict_get "recoveryTime" first = v ->
        v <> JNull ->
        day_fetch L garmin mt d "recovery_time"
        = [JDict [("date", JStr d); ("value", v)]]).
Proof.
  split.
  - intros Hwant. apply want_in in Hwant.
    rewrite (day_fetch_of_block L garmin mt d "acute_load" 22
                                (want mt "training_load" || want mt "acute_load")
                                (fetch_training_load garmin mt d));
      [|reflexivity|only_writer|simpl; tauto].
    rewrite Hwant, orb_true_r. unfold fetch_training_load.
    split; [|split].
    + intros Hcall. rewrite Hcall. reflexivity.
    + intros status latest Hcall Hlatest Hfalsy. rewrite Hcall.
      cbn [W_bind mbind W_mbind lift outcome appended]. rewrite Hlatest.
      cbn [W_bind mbind W_mbind lift outcome appended]. rewrite Hfalsy. reflexivity.
    + assert (Hshape :
                forall es,
                  es = entries_for "acute_load"
                         (appended (fetch_training_load garmin mt d)) ->
                  List.length es <= 1
                  /\ forall e, In e es ->
                               exists v, e = JDict [("date", JStr d); ("value", v)]
                                         /\ v <> JNull).
      { intros es ->. unfold fetch_training_load.
        rewrite appended_bind. cbn [lift appended outcome app].
        destruct (get_training_status garmin d) as [status|];
          [|split; [simpl; lia | intros e []]].
        rewrite appended_bind. cbn [lift appended outcome app].
        destruct (latest_training_status status) as [latest|];
          [|split; [simpl; lia | intros e []]].
        destruct (Py.truthy latest); [|split; [simpl; lia | intros e []]].
        cbn [when]. rewrite appended_bind, entries_for_app.
        rewrite entries_for_none.
        2:{ intros e He.
            assert (Hsat : entries_sat (fun k _ => k <> "acute_load")
                             (when (want mt "training_load")
                                (r ← lift (
                                   weekly_load ← Py.get latest "weeklyTrainingLoad";
                                   dto ← Py.get latest "acuteTrainingLoadDTO";
                                   daily_acute ← Py.get (Py.or_ dto (JDict []))
                                                        "dailyTrainingLoadAcute";
                                   daily_chronic ← Py.get (Py.or_ dto (JDict []))
                                                          "dailyTrainingLoadChronic";
                                   Some (weekly_load, daily_acute, daily_chronic));
                                 let '(weekly_load, daily_acute, daily_chronic) := r in
                                 when (negb (Py.is_none weekly_load)
                                       || negb (Py.is_none daily_acute)
                                       || negb (Py.is_none daily_chronic))
                                      (emit "training_load"
                                            (JDict [("date", JStr d);
                                                    ("weekly_training_load", weekly_load);
                                                    ("daily_acute_training_load", daily_acute);
                                                    ("daily_chronic_training_load",
                                                     daily_chronic)]))))).
            { apply sat_when. intros _. apply sat_bind; [apply sat_lift|].
              intros [[w a] c] _. apply sat_when. intros _. apply sat_emit. discriminate. }
            exact (Hsat _ _ He eq_refl). }
        cbn [app].
        match goal with
        | |- context [match outcome ?w with Some _ => _ | None => _ end] =>
            destruct (outcome w) as [[]|]
        end; [|split; [simpl; lia | intros e []]].
        rewrite Hwant. cbn [when].
        rewrite appended_bind. cbn [lift appended outcome app].
        destruct (get_training_readiness garmin d) as [readiness|];
          [|split; [simpl; lia | intros e []]].
        rewrite appended_bind. cbn [lift appended outcome app].
        destruct (first_item_field readiness "acuteLoad") as [v|];
          [|split; [simpl; lia | intros e []]].
        destruct (Py.is_none v) eqn:Ev; [split; [simpl; lia | intros e []]|].
        unfold emit, dated_value. simpl. split; [lia|]. intros e [<- | []].
        exists v. split; [reflexivity|]. now apply is_none_false. }
      exact (Hshape _ eq_refl).
  - intros Hwant first rest v Hcall Hv Hsome. apply want_in in Hwant.
    rewrite (day_fetch_of_block L garmin mt d "recovery_time" 21
                                (want mt "recovery_time")
                                (fetch_recovery_time garmin d));
      [|reflexivity|only_writer|simpl; tauto].
    rewrite Hwant. unfold fetch_recovery_time. rewrite Hcall.
    cbn [W_bind mbind W_mbind lift outcome appended].
    unfold first_item_field.
    cbn [Py.truthy and_then Py.len Py.index nth_error Py.get mbind option_bind
         List.length Nat.ltb Nat.leb].
    rewrite Hv. apply is_none_false in Hsome.
    cbn [W_bind mbind W_mbind lift outcome appended]. rewrite Hsome.
    reflexivity.
Qed.

Lemma acute_load_needs_training_status_witness :
  let garmin :=
    client_of (fun name _ =>
                 if String.eqb name "get_training_readiness"
                 then Some (JList [JDict [("recoveryTime", JNum 0);
                                          ("acuteLoad", JNum 310)]])
                 else None) in
  day_fetch Ref.lib garmin ["recovery_time"; "acute_load"] "2024-01-01" "acute_load" = []
  /\ day_fetch Ref.lib garmin ["recovery_time"; "acute_load"] "2024-01-01" "recovery_time"
     = [JDict [("date", JStr "2024-01-01"); ("value", JNum 0)]].
Proof.
  intros garmin.
  destruct (acute_load_needs_training_status
              Ref.lib garmin ["recovery_time"; "acute_load"] "2024-01-01")
    as (Hacute & Hrecovery).
  split.
  - apply Hacute; [simpl; tauto | reflexivity].
  - eapply Hrecovery; [simpl; tauto | reflexivity | reflexivity | discriminate].
Defined.

(* ================================================================== *)
(** * The aggregation endpoint: isolation of failures, shape of the answer *)
(* ================================================================== *)

Section StepsSeries.

Variable L : PyLib.
Hypothesis loads_size : forall t v, loads L t = Some v -> jsize v <= String.length t.
Variable garmin : GarminClient.

Abbreviation clean := (clean_garmin_data (loads L)).

(** With [steps] alone requested, a date adds to [steps] what its daily
    summary gives. *)
Lemma day_fetch_steps d :
  day_fetch L garmin ["steps"] d "steps" = steps_entry garmin d.
Proof.
  rewrite (day_fetch_of_block L garmin ["steps"] d "steps" 0
                              (existsb (want ["steps"]) summary_metrics)
                              (fetch_daily_summary garmin ["steps"] d));
    [|reflexivity|only_writer|simpl; tauto].
  unfold steps_entry, fetch_daily_summary.
  destruct (get_user_summary garmin d) as [summary_data|]; [|reflexivity].
  destruct summary_data as [| | | | |[|kv summary]]; try reflexivity;
    change (existsb (want ["steps"]) summary_metrics) with true; cbv iota;
    rewrite appended_bind; cbn [appended outcome lift app];
    rewrite appended_bind; cbn [appended outcome lift app];
    match goal with
    | |- context [if Py.truthy ?x then ?a else ?b] =>
        destruct (if Py.truthy x then a else b)
    end; reflexivity.
Qed.

Lemma once_fetch_steps start_date :
  once_fetch garmin ["steps"] start_date "steps" = [].
Proof. reflexivity. Qed.

Lemma collected_steps start_date dates :
  collected L garmin ["steps"] start_date dates "steps" = steps_entries garmin dates.
Proof.
  unfold collected, steps_entries. rewrite once_fetch_steps. simpl. f_equal.
  apply map_ext. intros d. apply day_fetch_steps.
Qed.

(** The cleaning keeps the date of a steps entry when the date is no JSON
    text. *)
Lemma clean_steps_entry d value :
  loads L (undouble d) = None ->
  clean (JDict [("date", JStr d); ("value", value)]) = cleaned_steps_entry L d value.
Proof.
  intros Hd. rewrite (clean_dict (loads L) loads_size).
  unfold cleaned_steps_entry. cbn [fold_left clean_item].
  assert (Hdate : clean (JStr d) = JStr d)
    by (rewrite (clean_str (loads L) loads_size); now rewrite Hd).
  assert (Hfirst : clean_item clean [] ("date", JStr d) = [("date", JStr d)])
    by (unfold clean_item; now rewrite Hdate).
  rewrite Hfirst. unfold clean_item.
  destruct (Py.is_none value) eqn:Hv.
  - destruct value; try discriminate Hv.
    rewrite (clean_scalar (loads L) loads_size JNull I). reflexivity.
  - change (negb false && negb (excluded_key "value")) with true. cbv iota.
    destruct (Py.is_none (clean value)); reflexivity.
Qed.

Lemma steps_entry_cases d :
  steps_entry garmin d = []
  \/ exists value, steps_entry garmin d = [JDict [("date", JStr d); ("value", value)]].
Proof.
  unfold steps_entry.
  destruct (get_user_summary garmin d) as [[| | | | |[|kv summary]]|]; eauto.
Qed.

Lemma steps_entries_length dates :
  List.length (steps_entries garmin dates) <= List.length dates.
Proof.
  unfold steps_entries. induction dates as [|d dates IH]; simpl; [lia|].
  rewrite length_app.
  destruct (steps_entry_cases d) as [-> | (value & ->)]; simpl; lia.
Qed.

Lemma steps_entries_cleaned dates :
  (forall d, In d dates -> loads L (undouble d) = None) ->
  Forall (fun e => Py.is_none (clean e) = false) (steps_entries garmin dates).
Proof.
  unfold steps_entries. induction dates as [|d dates IH]; intros Hd; simpl;
    [constructor|].
  apply Forall_app. split; [|apply IH; intros; apply Hd; now right].
  destruct (steps_entry_cases d) as [-> | (value & ->)]; [constructor|].
  constructor; [|constructor].
  rewrite clean_steps_entry by (apply Hd; now left). reflexivity.
Qed.

Lemma filter_all {A} (p : A -> bool) l :
  Forall (fun x => p x = true) l -> List.filter p l = l.
Proof.
  induction 1 as [|x l Hx _ IH]; simpl; [reflexivity|]. now rewrite Hx, IH.
Qed.

(** The cleaned steps series of the request. *)
Lemma published_steps dates :
  (forall d, In d dates -> loads L (undouble d) = None) ->
  published L (steps_entries garmin dates)
  = match List.map clean (steps_entries garmin dates) with
    | [] => None
    | series => Some (JList series)
    end.
Proof.
  intros Hd. unfold published. rewrite (clean_list (loads L) loads_size).
  rewrite filter_all.
  - destruct (List.map clean (steps_entries garmin dates)); reflexivity.
  - pose proof (steps_entries_cleaned dates Hd) as Hall.
    induction Hall as [|e es He _ IH]; simpl; constructor; [now rewrite He | exact IH].
Qed.

(** The answer to a request for [steps] alone. *)
Lemma aggregate_steps start_date dates final :
  List.NoDup dates ->
  (forall d, In d dates -> loads L (undouble d) = None) ->
  aggregate L garmin ["steps"] start_date dates = Some final ->
  final = match List.map clean (steps_entries garmin dates) with
          | [] => []
          | series => [("steps", JList series)]
          end.
Proof.
  intros Hnd Hd Hagg.
  pose proof (aggregate_steps_only L loads_size garmin start_date dates final Hagg)
    as Hshape.
  destruct (aggregate_answer L garmin ["steps"] loads_size start_date dates Hnd)
    as [[_ Hnone] | (_ & final' & Hsome & _ & Hpub)]; [congruence|].
  assert (final' = final) by congruence. subst final'.
  specialize (Hpub "steps"). rewrite collected_steps, published_steps in Hpub by exact Hd.
  assert (Hin : In "steps" ALL_HEALTH_METRICS) by (simpl; tauto).
  specialize (Hpub Hin).
  destruct Hshape as [-> | (e & es & -> & _)].
  - simpl in Hpub. destruct (List.map clean (steps_entries garmin dates));
      [reflexivity | discriminate].
  - simpl in Hpub. destruct (List.map clean (steps_entries garmin dates));
      [discriminate|]. congruence.
Qed.

End StepsSeries.

(** The loop over the dates runs to its end whatever the provider does,
    and leaves in [health_data] what the dates added one by one. *)
Lemma gathered_decomposes L garmin mt start_date dates :
  List.NoDup dates ->
  exists hd,
    gathered L garmin mt start_date dates = Some hd
    /\ aggregate L garmin mt start_date dates = finish L hd
    /\ List.map fst hd = ALL_HEALTH_METRICS
    /\ forall c, In c ALL_HEALTH_METRICS ->
                 health_get c hd = collected L garmin mt start_date dates c.
Proof.
  intros Hnd. unfold gathered, aggregate.
  destruct (fetch_once_decomposes garmin mt start_date) as (hd0 & -> & Hk0 & Hget0 & Hpast0).
  simpl.
  destruct (fetch_dates_decomposes L garmin mt dates Hnd hd0 Hk0) as (hd & -> & Hk & Hget).
  { intros d _. apply Hpast0. }
  simpl. exists hd. split; [reflexivity|]. split; [reflexivity|]. split; [exact Hk|].
  intros c Hc. unfold collected. now rewrite Hget, Hget0.
Qed.

(** C1, as the code has it.  For a validated request over distinct dates
    the loop over the dates runs to its end whatever fetch raises, and
    leaves for every category what each date adds on its own, in the order
    of the dates.  The request is then answered unless the final cleaning
    of these data raises (a collected text for which [json.loads] raises
    something else than [JSONDecodeError]), in which case it is refused
    with status 500; in the answer the series of every category is the
    cleaned sequence of what each date adds on its own.  A date whose fetch
    for a category raises adds nothing for that category; and what a date
    adds for a category depends only on the calls that feed that category
    on that date, so a failure elsewhere leaves it as it was.  The calls
    that feed a category are its own, except that the sleep call also
    feeds SpO2, the daily summary feeds body battery, and acute load needs
    both training calls. *)
Theorem fetch_failures_are_isolated (L : PyLib) :
  (forall t v, loads L t = Some v -> jsize v <= String.length t) ->
  (forall login request garmin dates,
      hw_user_id request <> "" -> hw_tokens request <> "" ->
      hw_start_date request <> "" -> hw_end_date request <> "" ->
      login (hw_tokens request) = Some garmin ->
      get_dates_in_range (date_fromisoformat L) (date_isoformat L)
                         (hw_start_date request) (hw_end_date request) = Some dates ->
      List.NoDup dates ->
      let requested := match hw_metric_types request with
                       | [] => ALL_HEALTH_METRICS
                       | metric_types => metric_types
                       end in
      let added := collected L garmin requested (hw_start_date request) dates in
      let raises := clean_garmin_data_raises
                      (loads L) (loads_raises L)
                      (collected_data L garmin requested (hw_start_date request) dates) in
      (exists hd,
          gathered L garmin requested (hw_start_date request) dates = Some hd
          /\ List.map fst hd = ALL_HEALTH_METRICS
          /\ forall c, In c ALL_HEALTH_METRICS -> health_get c hd = added c)
      /\ (raises = true -> get_health_and_wellness L login request = HttpError 500)
      /\ (raises = false ->
          exists final,
            get_health_and_wellness L login request
            = Ok [("user_id", JStr (hw_user_id request));
                  ("start_date", JStr (hw_start_date request));
                  ("end_date", JStr (hw_end_date request));
                  ("data", JDict final)]
            /\ forall c, In c ALL_HEALTH_METRICS ->
                         Py.dict_find c final = published L (added c)))
  /\ (forall garmin mt c d,
         fetch_raises garmin c d -> day_fetch L garmin mt d c = [])
  /\ (forall garmin garmin' mt c d,
         same_fetches c d garmin garmin' ->
         day_fetch L garmin mt d c = day_fetch L garmin' mt d c).
Proof.
  intros Hsize. split; [|split].
  - intros login request garmin dates Hu Ht Hs He Hlogin Hdates Hnd requested added raises.
    split; [|split].
    + destruct (gathered_decomposes L garmin requested (hw_start_date request) dates Hnd)
        as (hd & Hg & _ & Hk & Hget).
      exists hd. auto.
    + intros Hraises.
      unfold get_health_and_wellness. fold requested.
      apply String.eqb_neq in Hu, Ht, Hs, He. rewrite Hu, Ht, Hs, He, Hlogin, Hdates.
      simpl.
      destruct (aggregate_answer L garmin requested Hsize (hw_start_date request)
                                 dates Hnd)
        as [[_ ->] | (Hno & _)]; [reflexivity|].
      unfold raises in Hraises. congruence.
    + intros Hraises.
      unfold get_health_and_wellness. fold requested.
      apply String.eqb_neq in Hu, Ht, Hs, He. rewrite Hu, Ht, Hs, He, Hlogin, Hdates.
      simpl.
      destruct (aggregate_answer L garmin requested Hsize (hw_start_date request)
                                 dates Hnd)
        as [[Hyes _] | (_ & final & -> & _ & Hfinal)].
      * unfold raises in Hraises. congruence.
      * exists final. split; [reflexivity | exact Hfinal].
  - intros garmin mt c d. apply day_fetch_excluded.
  - intros garmin garmin' mt c d Hsame. now apply day_fetch_local.
Qed.

Lemma fetch_failures_are_isolated_witness :
  (forall t v, loads Ref.lib t = Some v -> jsize v <= String.length t)
  /\ List.NoDup ["2024-01-01"; "2024-01-02"; "2024-01-03"]
  /\ (exists final,
         get_health_and_wellness Ref.lib (fun _ => Some two_days_of_steps) steps_request
         = Ok [("user_id", JStr "u"); ("start_date", JStr "2024-01-01");
               ("end_date", JStr "2024-01-03"); ("data", JDict final)]
         /\ forall c, In c ALL_HEALTH_METRICS ->
                      Py.dict_find c final
                      = published Ref.lib
                                  (collected Ref.lib two_days_of_steps ["steps"]
                                             "2024-01-01"
                                             ["2024-01-01"; "2024-01-02"; "2024-01-03"]
                                             c))
  /\ get_health_and_wellness Ref.lib (fun _ => Some unreadable_steps) steps_request
     = HttpError 500.
Proof.
  assert (Hnd : List.NoDup ["2024-01-01"; "2024-01-02"; "2024-01-03"]).
  { repeat constructor; simpl; intuition discriminate. }
  split; [exact ref_loads_size|]. split; [exact Hnd|]. split.
  - apply (proj1 (fetch_failures_are_isolated Ref.lib ref_loads_size)
                 (fun _ => Some two_days_of_steps) steps_request two_days_of_steps
                 ["2024-01-01"; "2024-01-02"; "2024-01-03"]);
      try discriminate; try exact Hnd; vm_compute; reflexivity.
  - apply (proj1 (fetch_failures_are_isolated Ref.lib ref_loads_size)
                 (fun _ => Some unreadable_steps) steps_request unreadable_steps
                 ["2024-01-01"; "2024-01-02"; "2024-01-03"]);
      try discriminate; try exact Hnd; vm_compute; reflexivity.
Defined.

(** C1, as stated, fails: the SpO2 block falls back on the sleep entry the
    same date has just added, so when the sleep fetch of a date raises
    while the SpO2 fetch answers as before, the SpO2 series loses that
    date too. *)
Lemma sleep_failure_reaches_spo2 :
  get_spo2_data (spo2_in_sleep true) "2024-01-01"
  = get_spo2_data (spo2_in_sleep false) "2024-01-01"
  /\ get_sleep_data (spo2_in_sleep true) "2024-01-01" = Some night_with_spo2
  /\ get_sleep_data (spo2_in_sleep false) "2024-01-01" = None
  /\ (final ← aggregate Ref.lib (spo2_in_sleep true) ["sleep"; "spo2"]
                        "2024-01-01" ["2024-01-01"];
      Py.dict_find "spo2" final)
     = Some (JList [JDict [("date", JStr "2024-01-01"); ("average_spo2", JNum 95)]])
  /\ (final ← aggregate Ref.lib (spo2_in_sleep false) ["sleep"; "spo2"]
                        "2024-01-01" ["2024-01-01"];
      Py.dict_find "spo2" final)
     = None.
Proof. repeat split; vm_compute; reflexivity. Qed.

(** C4, as the code has it.  Every answer of the endpoint holds under
    [data] known categories only, each once and each with a non-empty
    list.  A request of three consecutive dates with [steps] alone
    requested is refused with status 500 when the final cleaning of the
    collected data raises, and is answered otherwise: with no key at all
    when no date has data, and otherwise with the single key [steps] and
    one entry for each date that has data, in the order of the dates, at
    most three.  A date has data when its daily summary is a non-empty
    dict; its entry holds the date, and [totalSteps] unless that is
    cleaned away. *)
Theorem response_shape (L : PyLib) :
  (forall t v, loads L t = Some v -> jsize v <= String.length t) ->
  (forall login request body,
      get_health_and_wellness L login request = Ok body ->
      exists final,
        body = [("user_id", JStr (hw_user_id request));
                ("start_date", JStr (hw_start_date request));
                ("end_date", JStr (hw_end_date request));
                ("data", JDict final)]
        /\ nonempty_series final)
  /\ (forall login request garmin first_day,
         hw_metric_types request = ["steps"] ->
         hw_user_id request <> "" -> hw_tokens request <> "" ->
         hw_start_date request <> "" -> hw_end_date request <> "" ->
         login (hw_tokens request) = Some garmin ->
         date_fromisoformat L (hw_start_date request) = Some first_day ->
         date_fromisoformat L (hw_end_date request) = Some (first_day + 2)%Z ->
         (first_day + 2)%Z <> DATE_MAX_ORDINAL ->
         let dates := List.map (date_isoformat L) (ordinals first_day (first_day + 2)) in
         List.NoDup dates ->
         (forall d, In d dates -> loads L (undouble d) = None) ->
         let series := List.map (clean_garmin_data (loads L))
                                (steps_entries garmin dates) in
         let raises := clean_garmin_data_raises
                         (loads L) (loads_raises L)
                         (collected_data L garmin ["steps"] (hw_start_date request)
                                         dates) in
         (raises = true -> get_health_and_wellness L login request = HttpError 500)
         /\ (raises = false ->
             get_health_and_wellness L login request
             = Ok [("user_id", JStr (hw_user_id request));
                   ("start_date", JStr (hw_start_date request));
                   ("end_date", JStr (hw_end_date request));
                   ("data", JDict match series with
                                  | [] => []
                                  | _ :: _ => [("steps", JList series)]
                                  end)])
         /\ List.length dates = 3
         /\ List.length series <= 3
         /\ forall d, In d dates ->
                      steps_entry garmin d = []
                      \/ exists value,
                          steps_entry garmin d
                          = [JDict [("date", JStr d); ("value", value)]]
                          /\ clean_garmin_data (loads L)
                                               (JDict [("date", JStr d); ("value", value)])
                             = cleaned_steps_entry L d value).
Proof.
  intros Hsize. split.
  - intros login request body. unfold get_health_and_wellness.
    destruct (String.eqb (hw_user_id request) "" || String.eqb (hw_tokens request) ""
              || String.eqb (hw_start_date request) ""
              || String.eqb (hw_end_date request) ""); [discriminate|].
    destruct (login (hw_tokens request)) as [garmin|]; [|discriminate].
    destruct (get_dates_in_range _ _ _ _) as [dates|]; [|discriminate].
    destruct (aggregate L garmin _ (hw_start_date request) dates) as [final|] eqn:Hagg;
      [|discriminate].
    intros [= <-]. exists final. split; [reflexivity|].
    destruct (aggregate_some L Hsize garmin _ _ _ final Hagg) as (es0 & es & Hshape & _).
    exact Hshape.
  - intros login request garmin first_day Hmt Hu Ht Hs He Hlogin Hfrom Hto Hmax
           dates Hnd Hd series raises.
    assert (Hlen : List.length dates = 3).
    { unfold dates. rewrite length_map, ordinals_length by lia.
      replace (first_day + 2 - first_day + 1)%Z with 3%Z by lia. reflexivity. }
    assert (Hrun : get_health_and_wellness L login request
                   = match aggregate L garmin ["steps"] (hw_start_date request) dates with
                     | None => HttpError 500
                     | Some final =>
                         Ok [("user_id", JStr (hw_user_id request));
                             ("start_date", JStr (hw_start_date request));
                             ("end_date", JStr (hw_end_date request));
                             ("data", JDict final)]
                     end).
    { unfold get_health_and_wellness. rewrite Hmt, Hlogin.
      apply String.eqb_neq in Hu, Ht, Hs, He. rewrite Hu, Ht, Hs, He. simpl.
      unfold get_dates_in_range. rewrite Hfrom, Hto. simpl.
      replace (first_day + 2 <? first_day)%Z with false
        by (symmetry; apply Z.ltb_ge; lia).
      apply Z.eqb_neq in Hmax. rewrite Hmax. reflexivity. }
    split; [|split; [|split; [exact Hlen|split]]].
    + intros Hraises. rewrite Hrun.
      destruct (aggregate_answer L garmin ["steps"] Hsize (hw_start_date request)
                                 dates Hnd)
        as [[_ ->] | (Hno & _)]; [reflexivity|].
      unfold raises in Hraises. congruence.
    + intros Hraises. rewrite Hrun.
      destruct (aggregate_answer L garmin ["steps"] Hsize (hw_start_date request)
                                 dates Hnd)
        as [[Hyes _] | (_ & final & Hagg & _)].
      * unfold raises in Hraises. congruence.
      * rewrite Hagg.
        rewrite (aggregate_steps L Hsize garmin (hw_start_date request) dates final
                                 Hnd Hd Hagg).
        fold series. destruct series; reflexivity.
    + unfold series. rewrite length_map, <- Hlen. apply steps_entries_length.
    + intros d Hin.
      destruct (steps_entry_cases garmin d) as [Hnone | (value & Hsome)];
        [now left | right].
      exists value. split; [exact Hsome|].
      apply clean_steps_entry; [exact Hsize | now apply Hd].
Qed.

Lemma response_shape_witness :
  (forall t v, loads Ref.lib t = Some v -> jsize v <= String.length t)
  /\ get_health_and_wellness Ref.lib (fun _ => Some two_days_of_steps) steps_request
     = Ok [("user_id", JStr "u"); ("start_date", JStr "2024-01-01");
           ("end_date", JStr "2024-01-03");
           ("data",
            JDict [("steps",
                    JList [JDict [("date", JStr "2024-01-01"); ("value", JNum 0)];
                           JDict [("date", JStr "2024-01-02");
                                  ("value", JNum 9000)]])])].
Proof.
  split; [exact ref_loads_size|].
  assert (Hnd : List.NoDup (List.map (date_isoformat Ref.lib)
                                     (ordinals 738886 (738886 + 2)))).
  { vm_compute. repeat constructor; simpl; intuition discriminate. }
  assert (Hd : forall d,
             In d (List.map (date_isoformat Ref.lib) (ordinals 738886 (738886 + 2))) ->
             loads Ref.lib (undouble d) = None).
  { intros d Hin. vm_compute in Hin.
    destruct Hin as [<- | [<- | [<- | []]]]; reflexivity. }
  pose proof (proj2 (response_shape Ref.lib ref_loads_size)
                    (fun _ => Some two_days_of_steps) steps_request two_days_of_steps
                    738886%Z eq_refl
                    ltac:(discriminate) ltac:(discriminate)
                    ltac:(discriminate) ltac:(discriminate)
                    eq_refl eq_refl eq_refl ltac:(vm_compute; discriminate) Hnd Hd)
    as (_ & Hanswer & _).
  rewrite Hanswer by (vm_compute; reflexivity). vm_compute. reflexivity.
Defined.

(** C4, as stated, fails: three consecutive dates, only [steps]
    requested, and a provider that has no data: the response has no
    category key at all, not exactly one. *)
Lemma no_data_no_category :
  get_health_and_wellness Ref.lib (fun _ => Some offline) steps_request
  = Ok [("user_id", JStr "u"); ("start_date", JStr "2024-01-01");
        ("end_date", JStr "2024-01-03"); ("data", JDict [])]
  /\ category_count
       (get_health_and_wellness Ref.lib (fun _ => Some offline) steps_request)
     = Some 0
  /\ 0 <> 1.
Proof. split; [vm_compute; reflexivity|]. split; [vm_compute; reflexivity | lia]. Qed.
